(** * Tensor dialect operations: verification, folding, canonicalization

    A shallow embedding of the parts of
    [mlir/lib/Dialect/Tensor/IR/TensorOps.cpp] that decide the shape
    arithmetic, the cast analysis, the folders and the rewrite patterns of
    the tensor dialect, followed by theorems about them.

    Conventions.  An [int64_t] extent, offset, size or stride is a [Z]; a
    shape is a [list Z]; the 32-bit [int] arithmetic of [ExtractOp::fold] is
    written with its wrap-around.  A null [Type], [Value], [Attribute] or
    [OpFoldResult] is [None].  The IR is a finite map from operation
    handles to operations; an in-place operand update overwrites the entry
    of the handle. *)

From Stdlib Require Import ZArith List Bool Lia String.
From stdpp Require Import base option list gmap.

Local Open Scope Z_scope.

(* ===================================================================== *)
(** ** Types *)
(* ===================================================================== *)

(** Modelled from the spec: [ShapedType::kDynamic] is declared outside this
    file; the spec calls it the sentinel marking an extent "unknown at
    compile time".  It is the least [int64_t], which no static extent
    (nonnegative) equals. *)
Definition kDynamic : Z := -9223372036854775808.

(** [ShapedType::isDynamic]. *)
Definition isDynamic (dim : Z) : bool := dim =? kDynamic.

(** Element types, and any other non-tensor type. *)
Inductive ElementType : Set :=
  | F32 | F64 | I1 | I32 | I64 | Index.

#[global] Instance ElementType_eq_dec : EqDecision ElementType.
Proof. solve_decision. Defined.

(** Attributes: the compile-time constants that occur in this file. *)
Inductive Attribute : Set :=
  | IntegerAttr (value : Z)
  | FloatAttr (bits : Z)
  | SplatElementsAttr (splatValue : Attribute)
  | DenseIntElementsAttr (shape : list Z) (values : list Z).

#[global] Instance Attribute_eq_dec : EqDecision Attribute.
Proof. solve_decision. Defined.

(** A tensor type: ranked (shape, element type, optional encoding) or
    unranked. *)
Inductive TensorType : Set :=
  | RankedTensorType (shape : list Z) (elementType : ElementType)
                     (encoding : option Z)
  | UnrankedTensorType (elementType : ElementType).

#[global] Instance TensorType_eq_dec : EqDecision TensorType.
Proof. solve_decision. Defined.

(** [mlir::Type], as far as this file tells types apart. *)
Inductive Type_ : Set :=
  | TensorTy (t : TensorType)
  | ScalarTy (e : ElementType).

#[global] Instance Type_eq_dec : EqDecision Type_.
Proof. solve_decision. Defined.

Definition getElementType (t : TensorType) : ElementType :=
  match t with
  | RankedTensorType _ e _ => e
  | UnrankedTensorType e => e
  end.

Definition hasRank (t : TensorType) : bool :=
  match t with
  | RankedTensorType _ _ _ => true
  | UnrankedTensorType _ => false
  end.

(** [getShape] of a ranked type (the empty shape stands in for the unranked
    case, which no caller below reaches). *)
Definition getShape (t : TensorType) : list Z :=
  match t with
  | RankedTensorType s _ _ => s
  | UnrankedTensorType _ => []
  end.

Definition getRank (t : TensorType) : Z := Z.of_nat (length (getShape t)).

(** [getDimSize(i)] for an index within the rank. *)
Definition getDimSize (shape : list Z) (i : nat) : Z := nth i shape 0.

Definition getNumDynamicDims (shape : list Z) : nat :=
  length (filter (fun d => isDynamic d = true) shape).

Definition hasStaticShape (t : TensorType) : bool :=
  hasRank t && forallb (fun d => negb (isDynamic d)) (getShape t).

(** [Type::dyn_cast<RankedTensorType>()]: shape, element type, encoding. *)
Definition dyn_cast_RankedTensorType (t : Type_)
  : option (list Z * ElementType * option Z) :=
  match t with
  | TensorTy (RankedTensorType s e enc) => Some (s, e, enc)
  | _ => None
  end.

Definition dyn_cast_TensorType (t : Type_) : option TensorType :=
  match t with
  | TensorTy tensorType => Some tensorType
  | ScalarTy _ => None
  end.

(* ===================================================================== *)
(** ** Values, operations and the IR *)
(* ===================================================================== *)

(** [LogicalResult]. *)
Inductive LogicalResult : Set := success | failure.

Definition succeeded (r : LogicalResult) : bool :=
  match r with success => true | failure => false end.

Definition failed (r : LogicalResult) : bool := negb (succeeded r).

(** What a [Value] points at: the result of the operation with handle
    [owner], or argument [argNumber] of the entry block of the region of
    the operation [owner]. *)
Inductive ValueImpl : Set :=
  | OpResultImpl (owner : nat)
  | BlockArgumentImpl (owner : nat) (argNumber : nat).

#[global] Instance ValueImpl_eq_dec : EqDecision ValueImpl.
Proof. solve_decision. Defined.

(** A [Value]: what it points at, and its type. *)
Record Value : Set := mkValue { getImpl : ValueImpl; getType : Type_ }.

#[global] Instance Value_eq_dec : EqDecision Value.
Proof. solve_decision. Defined.

(** [OpFoldResult]: an attribute or a value. *)
Inductive OpFoldResult : Set :=
  | OfrAttribute (a : Attribute)
  | OfrValue (v : Value).

#[global] Instance OpFoldResult_eq_dec : EqDecision OpFoldResult.
Proof. solve_decision. Defined.

(** The entry block of a region: its argument types, the handles of the
    operations it holds, and the value its [tensor.yield] terminator yields
    ([None] when the terminator is not a yield). *)
Record Block : Set := mkBlock {
  getArgumentTypes : list Type_;
  getOperations : list nat;
  getYieldValue : option Value
}.

Module CastOp.
Record t : Set := mk { getSource : Value; getType : TensorType }.
End CastOp.

Module ConstantOp.
Record t : Set := mk { getValue : Attribute; getType : Type_ }.
End ConstantOp.

Module FromElementsOp.
Record t : Set := mk { getElements : list Value; getType : TensorType }.
End FromElementsOp.

Module ExtractOp.
Record t : Set := mk { getTensor : Value; getIndices : list Value;
                       getType : Type_ }.
End ExtractOp.

Module EmptyOp.
Record t : Set := mk { getDynamicSizes : list Value; getType : TensorType }.
End EmptyOp.

Module GenerateOp.
Record t : Set := mk { getOperands : list Value; getBody : Block;
                       getType : TensorType }.
End GenerateOp.

Module ExtractSliceOp.
Record t : Set := mk {
  getSource : Value;
  getOffsets : list Value;
  getSizes : list Value;
  getStrides : list Value;
  getStaticOffsets : list Z;
  getStaticSizes : list Z;
  getStaticStrides : list Z;
  getType : TensorType
}.
End ExtractSliceOp.

Module InsertSliceOp.
Record t : Set := mk {
  getSource : Value;
  getDest : Value;
  getOffsets : list Value;
  getSizes : list Value;
  getStrides : list Value;
  getStaticOffsets : list Z;
  getStaticSizes : list Z;
  getStaticStrides : list Z;
  getType : TensorType
}.

(** [getDestMutable().assign(v)]: the destination operand is replaced,
    every other operand, attribute and the result type is kept. *)
Definition assignDest (op : t) (v : Value) : t :=
  mk (getSource op) v (getOffsets op) (getSizes op) (getStrides op)
     (getStaticOffsets op) (getStaticSizes op) (getStaticStrides op)
     (getType op).
End InsertSliceOp.

Module PadOp.
Record t : Set := mk {
  getSource : Value;
  getLow : list Value;
  getHigh : list Value;
  getStaticLow : list Z;
  getStaticHigh : list Z;
  getNofold : bool;
  getRegion : Block;
  getType : TensorType
}.
End PadOp.

Module GatherOp.
Record t : Set := mk {
  getSourceType : TensorType;
  getIndicesType : TensorType;
  getGatherDims : list Z;
  getResultType : TensorType
}.
End GatherOp.

(** The operations of the IR. *)
Inductive Operation : Set :=
  | OpConstant (op : ConstantOp.t)
  | OpCast (op : CastOp.t)
  | OpFromElements (op : FromElementsOp.t)
  | OpExtract (op : ExtractOp.t)
  | OpEmpty (op : EmptyOp.t)
  | OpGenerate (op : GenerateOp.t)
  | OpExtractSlice (op : ExtractSliceOp.t)
  | OpInsertSlice (op : InsertSliceOp.t)
  | OpPad (op : PadOp.t)
  | OpGather (op : GatherOp.t)
  | OpOther (name : string) (operands : list Value) (type : Type_).

(** The IR: operations by handle. *)
Abbreviation IR := (gmap nat Operation).

(** [Value::getDefiningOp()]. *)
Definition getDefiningOp (ir : IR) (v : Value) : option Operation :=
  match getImpl v with
  | OpResultImpl owner => ir !! owner
  | BlockArgumentImpl _ _ => None
  end.

Definition getDefiningOp_CastOp (ir : IR) (v : Value) : option CastOp.t :=
  match getDefiningOp ir v with Some (OpCast op) => Some op | _ => None end.

Definition getDefiningOp_FromElementsOp (ir : IR) (v : Value)
  : option FromElementsOp.t :=
  match getDefiningOp ir v with
  | Some (OpFromElements op) => Some op
  | _ => None
  end.

Definition getDefiningOp_ExtractSliceOp (ir : IR) (v : Value)
  : option ExtractSliceOp.t :=
  match getDefiningOp ir v with
  | Some (OpExtractSlice op) => Some op
  | _ => None
  end.

Definition getDefiningOp_InsertSliceOp (ir : IR) (v : Value)
  : option InsertSliceOp.t :=
  match getDefiningOp ir v with
  | Some (OpInsertSlice op) => Some op
  | _ => None
  end.

(** The result of the operation with handle [this], of type [type]. *)
Definition getResult (this : nat) (type : Type_) : Value :=
  mkValue (OpResultImpl this) type.

(** [rewriter.replaceOpWithNewOp] / [create] followed by [replaceOp]: the
    new operation takes the handle of the one it replaces, so that every
    use of the old result reads the new one. *)
Definition replaceOpWithNewOp (ir : IR) (old : nat) (new : Operation) : IR :=
  <[old := new]> ir.

(** Modelled from the spec: [matchPattern(v, m_Constant(&attr))] is declared
    outside this file; a value is constant when a constant operation
    defines it, and the match binds that operation's attribute. *)
Definition m_Constant (ir : IR) (v : Value) : option Attribute :=
  match getDefiningOp ir v with
  | Some (OpConstant c) => Some (ConstantOp.getValue c)
  | _ => None
  end.

(** Modelled from the spec: [getConstantIntValue] is declared outside this
    file; an offset, size or stride is "either a compile-time integer or a
    runtime value reference", and a runtime value defined by an integer
    constant has that integer too.  [None] is the empty [Optional]. *)
Definition getConstantIntValue (ir : IR) (ofr : OpFoldResult) : option Z :=
  match ofr with
  | OfrAttribute (IntegerAttr i) => Some i
  | OfrAttribute _ => None
  | OfrValue v =>
      match m_Constant ir v with
      | Some (IntegerAttr i) => Some i
      | _ => None
      end
  end.

(** Modelled from the spec: [getMixedValues] is declared outside this file;
    the static array "uses a dynamic-sentinel placeholder where a runtime
    value is used", the runtime values being taken in order.  The data
    model's invariant gives as many runtime values as sentinels; the list
    stops where a malformed operation runs out of them. *)
Fixpoint getMixedValues (staticValues : list Z) (dynamicValues : list Value)
  : list OpFoldResult :=
  match staticValues with
  | [] => []
  | s :: rest =>
      if isDynamic s then
        match dynamicValues with
        | v :: vs => OfrValue v :: getMixedValues rest vs
        | [] => []
        end
      else OfrAttribute (IntegerAttr s) :: getMixedValues rest dynamicValues
  end.

(** Modelled from the spec: [dispatchIndexOpFoldResults] is declared outside
    this file; it splits a mixed list into the parallel pair (runtime
    values, static array with the sentinel), the converse of
    [getMixedValues]. *)
Fixpoint dispatchIndexOpFoldResults (ofrs : list OpFoldResult)
  : list Value * list Z :=
  match ofrs with
  | [] => ([], [])
  | ofr :: rest =>
      let '(dynamicVec, staticVec) := dispatchIndexOpFoldResults rest in
      match ofr with
      | OfrValue v => (v :: dynamicVec, kDynamic :: staticVec)
      | OfrAttribute (IntegerAttr i) => (dynamicVec, i :: staticVec)
      | OfrAttribute _ => (dynamicVec, staticVec)
      end
  end.

(** [OffsetSizeAndStrideOpInterface]: the operations that carry offsets,
    sizes and strides, each as a static array and a list of runtime
    values. *)
Class OffsetSizeAndStrideOpInterface (Op : Set) : Set := {
  getOffsets : Op -> list Value;
  getSizes : Op -> list Value;
  getStrides : Op -> list Value;
  getStaticOffsets : Op -> list Z;
  getStaticSizes : Op -> list Z;
  getStaticStrides : Op -> list Z
}.

#[global] Instance ExtractSliceOp_OffsetSizeAndStride
  : OffsetSizeAndStrideOpInterface ExtractSliceOp.t := {
  getOffsets := ExtractSliceOp.getOffsets;
  getSizes := ExtractSliceOp.getSizes;
  getStrides := ExtractSliceOp.getStrides;
  getStaticOffsets := ExtractSliceOp.getStaticOffsets;
  getStaticSizes := ExtractSliceOp.getStaticSizes;
  getStaticStrides := ExtractSliceOp.getStaticStrides
}.

#[global] Instance InsertSliceOp_OffsetSizeAndStride
  : OffsetSizeAndStrideOpInterface InsertSliceOp.t := {
  getOffsets := InsertSliceOp.getOffsets;
  getSizes := InsertSliceOp.getSizes;
  getStrides := InsertSliceOp.getStrides;
  getStaticOffsets := InsertSliceOp.getStaticOffsets;
  getStaticSizes := InsertSliceOp.getStaticSizes;
  getStaticStrides := InsertSliceOp.getStaticStrides
}.

Section OffsetSizeAndStride.
Context {Op : Set} `{OffsetSizeAndStrideOpInterface Op}.

Definition getMixedOffsets (op : Op) : list OpFoldResult :=
  getMixedValues (getStaticOffsets op) (getOffsets op).

Definition getMixedSizes (op : Op) : list OpFoldResult :=
  getMixedValues (getStaticSizes op) (getSizes op).

Definition getMixedStrides (op : Op) : list OpFoldResult :=
  getMixedValues (getStaticStrides op) (getStrides op).

(** Modelled from the spec: [hasUnitStride] is declared outside this file;
    a slice is "unit-stride" when every stride is the constant one. *)
Definition hasUnitStride (ir : IR) (op : Op) : bool :=
  forallb (fun ofr => bool_decide (getConstantIntValue ir ofr = Some 1))
          (getMixedStrides op).
End OffsetSizeAndStride.

(** Two mixed lists are identical under the comparison [cmp]. *)
Definition sameMixed (cmp : OpFoldResult -> OpFoldResult -> bool)
           (xs ys : list OpFoldResult) : bool :=
  (length xs =? length ys)%nat
  && forallb (fun '(x, y) => cmp x y) (combine xs ys).

(** Modelled from the spec: [isSameAs] is declared outside this file; two
    operations are at "the same slice coordinates" when they have
    "identical mixed offsets, sizes, and strides" under the comparison
    [cmp]. *)
Definition isSameAs {A B : Set} `{OffsetSizeAndStrideOpInterface A}
           `{OffsetSizeAndStrideOpInterface B}
           (a : A) (b : B) (cmp : OpFoldResult -> OpFoldResult -> bool) : bool :=
  sameMixed cmp (getMixedOffsets a) (getMixedOffsets b)
  && sameMixed cmp (getMixedSizes a) (getMixedSizes b)
  && sameMixed cmp (getMixedStrides a) (getMixedStrides b).

(* ===================================================================== *)
(** ** CastOp: static-information analysis and shape join *)
(* ===================================================================== *)

(** The loop of [preservesStaticInformation] over the zipped shapes: the
    first dimension that is static in the source and dynamic in the target
    returns false. *)
Fixpoint noStaticToDynamic (zipped : list (Z * Z)) : bool :=
  match zipped with
  | [] => true
  | (s, t) :: rest =>
      if negb (isDynamic s) && isDynamic t then false
      else noStaticToDynamic rest
  end.

(** [mlir::tensor::preservesStaticInformation]. *)
Definition preservesStaticInformation (source target : Type_) : bool :=
  match dyn_cast_RankedTensorType source,
        dyn_cast_RankedTensorType target with
  | Some (sourceShape, sourceElt, _), Some (targetShape, targetElt, _) =>
      if negb (bool_decide (sourceElt = targetElt)) then false
      else if negb (length sourceShape =? length targetShape)%nat then false
      else noStaticToDynamic (combine sourceShape targetShape)
  | _, _ => false
  end.

(** The loop of [joinShapes] over the dimensions of two shapes of one rank;
    [None] is the early [return {}]. *)
Fixpoint joinDims (one two : list Z) : option (list Z) :=
  match one, two with
  | a :: one', b :: two' =>
      if isDynamic a then cons b <$> joinDims one' two'
      else if isDynamic b then cons a <$> joinDims one' two'
      else if negb (a =? b) then None
      else cons a <$> joinDims one' two'
  | _, _ => Some []
  end.

(** [joinShapes]; the null [TensorType] is [None].  The element types are
    asserted equal by the source; the result takes the first one's. *)
Definition joinShapes (one two : TensorType) : option TensorType :=
  match one, two with
  | UnrankedTensorType _, _ => Some two
  | _, UnrankedTensorType _ => Some one
  | RankedTensorType s1 e1 _, RankedTensorType s2 _ _ =>
      if negb (length s1 =? length s2)%nat then None
      else match joinDims s1 s2 with
           | Some join => Some (RankedTensorType join e1 None)
           | None => None
           end
  end.

(** Modelled from the spec: [verifyCompatibleShape] is declared outside this
    file; "two tensor types are shape-compatible if ranks match and, per
    dimension, at least one side is dynamic or both static sizes agree",
    and an unranked type "is compatible with anything". *)
Definition verifyCompatibleShape (a b : TensorType) : LogicalResult :=
  match a, b with
  | RankedTensorType s1 _ _, RankedTensorType s2 _ _ =>
      if (length s1 =? length s2)%nat
         && forallb (fun '(x, y) => isDynamic x || isDynamic y || (x =? y))
                    (combine s1 s2)
      then success else failure
  | _, _ => success
  end.

(** [CastOp::areCastCompatible]. *)
Definition CastOp_areCastCompatible (inputs outputs : list Type_) : bool :=
  match inputs, outputs with
  | [a], [b] =>
      match dyn_cast_TensorType a, dyn_cast_TensorType b with
      | Some aT, Some bT =>
          if negb (bool_decide (getElementType aT = getElementType bT))
          then false
          else succeeded (verifyCompatibleShape aT bT)
      | _, _ => false
      end
  | _, _ => false
  end.

(** [ChainedTensorCast::matchAndRewrite] on the cast with handle
    [tensorCast].  The inner [joinShapes] is never null on a verified cast
    (see [areCastCompatible_joinShapes]); a null inner join is carried to
    the [!firstJoin] test. *)
Definition ChainedTensorCast_matchAndRewrite (ir : IR) (tensorCast : nat)
  : IR * LogicalResult :=
  match ir !! tensorCast with
  | Some (OpCast this) =>
      match getDefiningOp_CastOp ir (CastOp.getSource this) with
      | None => (ir, failure)
      | Some tensorCastOperand =>
          match dyn_cast_TensorType
                  (getType (CastOp.getSource tensorCastOperand)) with
          | None => (ir, failure)
          | Some sourceType =>
              let intermediateType := CastOp.getType tensorCastOperand in
              let resultType := CastOp.getType this in
              let firstJoin :=
                match joinShapes sourceType intermediateType with
                | Some j => joinShapes j resultType
                | None => None
                end in
              match firstJoin with
              | None => (ir, failure)
              | Some _ =>
                  let newJoin := joinShapes sourceType resultType in
                  if negb (bool_decide (firstJoin = newJoin))
                  then (ir, failure)
                  else
                    (replaceOpWithNewOp ir tensorCast
                       (OpCast (CastOp.mk
                                  (CastOp.getSource tensorCastOperand)
                                  resultType)),
                     success)
              end
          end
      end
  | _ => (ir, failure)
  end.

(* ===================================================================== *)
(** ** InsertSliceOp: folds *)
(* ===================================================================== *)

(** [hasStaticShape] of the type of a value. *)
Definition Type_hasStaticShape (t : Type_) : bool :=
  match t with
  | TensorTy tensorType => hasStaticShape tensorType
  | ScalarTy _ => false
  end.

(** [foldIdentityOffsetSizeAndStrideOpInterface]: zero offsets, sizes equal
    to the leading extents of [shape], unit strides. *)
Definition foldIdentityOffsetSizeAndStrideOpInterface
           {Op : Set} `{OffsetSizeAndStrideOpInterface Op}
           (ir : IR) (op : Op) (shape : list Z) : LogicalResult :=
  if negb (forallb (fun ofr =>
                      bool_decide (getConstantIntValue ir ofr = Some 0))
                   (getMixedOffsets op))
  then failure
  else if negb (forallb (fun '(size, dim) =>
                           bool_decide (getConstantIntValue ir size = Some dim))
                        (combine (getMixedSizes op) shape))
  then failure
  else if negb (forallb (fun ofr =>
                           bool_decide (getConstantIntValue ir ofr = Some 1))
                        (getMixedStrides op))
  then failure
  else success.

(** The comparison [isSame] of the insert-slice folds: [a == b]. *)
Definition isSame (a b : OpFoldResult) : bool := bool_decide (a = b).

(** [foldInsertAfterInsertSlice] on the insert-slice with handle [this]:
    on success the destination operand of [this] is re-pointed, in place. *)
Definition foldInsertAfterInsertSlice (ir : IR) (this : nat)
  : IR * LogicalResult :=
  match ir !! this with
  | Some (OpInsertSlice insertOp) =>
      match getDefiningOp_InsertSliceOp ir (InsertSliceOp.getDest insertOp) with
      | None => (ir, failure)
      | Some prevInsertOp =>
          if negb (bool_decide
                     (getType (InsertSliceOp.getSource prevInsertOp)
                      = getType (InsertSliceOp.getSource insertOp)))
             || negb (isSameAs prevInsertOp insertOp isSame)
          then (ir, failure)
          else
            (<[this := OpInsertSlice
                         (InsertSliceOp.assignDest
                            insertOp (InsertSliceOp.getDest prevInsertOp))]> ir,
             success)
      end
  | _ => (ir, failure)
  end.

(** [foldInsertAfterExtractSlice]; [None] is the null [Value]. *)
Definition foldInsertAfterExtractSlice (ir : IR) (this : nat) : option Value :=
  match ir !! this with
  | Some (OpInsertSlice insertOp) =>
      match getDefiningOp_ExtractSliceOp
              ir (InsertSliceOp.getSource insertOp) with
      | None => None
      | Some extractOp =>
          if negb (bool_decide (ExtractSliceOp.getSource extractOp
                                = InsertSliceOp.getDest insertOp))
             || negb (isSameAs extractOp insertOp isSame)
          then None
          else Some (ExtractSliceOp.getSource extractOp)
      end
  | _ => None
  end.

(** The first condition of [InsertSliceOp::fold]: static and equal source
    and result types, and identity offsets, sizes and strides. *)
Definition InsertSliceOp_isIdentity (ir : IR) (op : InsertSliceOp.t) : bool :=
  let sourceType := getType (InsertSliceOp.getSource op) in
  let type := InsertSliceOp.getType op in
  Type_hasStaticShape sourceType
  && hasStaticShape type
  && bool_decide (sourceType = TensorTy type)
  && succeeded (foldIdentityOffsetSizeAndStrideOpInterface
                  ir op (getShape type)).

(** [InsertSliceOp::fold] on the insert-slice with handle [this]: the IR
    after the call and the fold result ([None]: no fold). *)
Definition InsertSliceOp_fold (ir : IR) (this : nat)
  : IR * option OpFoldResult :=
  match ir !! this with
  | Some (OpInsertSlice op) =>
      if InsertSliceOp_isIdentity ir op
      then (ir, Some (OfrValue (InsertSliceOp.getSource op)))
      else
        match foldInsertAfterInsertSlice ir this with
        | (ir', success) =>
            (ir', Some (OfrValue
                          (getResult this
                             (TensorTy (InsertSliceOp.getType op)))))
        | (ir', failure) =>
            match foldInsertAfterExtractSlice ir' this with
            | Some result => (ir', Some (OfrValue result))
            | None => (ir', None)
            end
        end
  | _ => (ir, None)
  end.

(* ===================================================================== *)
(** ** GatherOp: result type inference and verifier *)
(* ===================================================================== *)

(** [std::lower_bound] on the range [first, first + len) of [l]: the usual
    halving search; [fuel] bounds the iterations ([len] halves each time). *)
Fixpoint lower_bound (fuel : nat) (l : list Z) (first len : nat) (value : Z)
  : nat :=
  match fuel with
  | O => first
  | S fuel' =>
      if (len =? 0)%nat then first
      else
        let half := (len / 2)%nat in
        let middle := (first + half)%nat in
        if nth middle l 0 <? value
        then lower_bound fuel' l (middle + 1)%nat (len - half - 1)%nat value
        else lower_bound fuel' l first half value
  end.

(** [std::binary_search(l.begin(), l.end(), value)]. *)
Definition binary_search (l : list Z) (value : Z) : bool :=
  let first := lower_bound (length l) l 0%nat (length l) value in
  (first <? length l)%nat && negb (value <? nth first l 0).

(** [ArrayRef::drop_back()]: all but the last element. *)
Definition drop_back (l : list Z) : list Z := removelast l.

(** The loop of [GatherOp::inferResultType] over the source dimensions,
    [idx] being the index of the head of [sourceShape]. *)
Fixpoint gatherSourceDims (gatherDims : list Z) (rankReduced : bool)
         (idx : Z) (sourceShape : list Z) : list Z :=
  match sourceShape with
  | [] => []
  | dimSize :: rest =>
      if binary_search gatherDims idx then
        if negb rankReduced
        then 1 :: gatherSourceDims gatherDims rankReduced (idx + 1) rest
        else gatherSourceDims gatherDims rankReduced (idx + 1) rest
      else dimSize :: gatherSourceDims gatherDims rankReduced (idx + 1) rest
  end.

Definition getEncoding (t : TensorType) : option Z :=
  match t with
  | RankedTensorType _ _ enc => enc
  | UnrankedTensorType _ => None
  end.

(** [RankedTensorType::Builder(t).setShape(shape)]: the element type and
    the encoding of [t] with another shape. *)
Definition setShape (t : TensorType) (shape : list Z) : TensorType :=
  RankedTensorType shape (getElementType t) (getEncoding t).

(** [GatherOp::inferResultType]. *)
Definition GatherOp_inferResultType (sourceType indicesType : TensorType)
           (gatherDims : list Z) (rankReduced : bool) : TensorType :=
  let resultShape :=
    drop_back (getShape indicesType)
    ++ gatherSourceDims gatherDims rankReduced 0 (getShape sourceType) in
  setShape sourceType resultShape.

(** The second loop of [verifyGatherOrScatterDims]: every value is within
    [0, rank). *)
Fixpoint gatherDimsInRange (dims : list Z) (rank : Z) : bool :=
  match dims with
  | [] => true
  | val :: rest =>
      if val <? 0 then false
      else if val >=? rank then false
      else gatherDimsInRange rest rank
  end.

(** The third loop: no [dims[i - 1] >= dims[i]]. *)
Fixpoint gatherDimsIncreasing (dims : list Z) : bool :=
  match dims with
  | prev :: ((next :: _) as rest) =>
      if prev >=? next then false else gatherDimsIncreasing rest
  | _ => true
  end.

(** [verifyGatherOrScatterDims]. *)
Definition verifyGatherOrScatterDims (dims : list Z) (rank : Z)
  : LogicalResult :=
  if bool_decide (dims = []) then failure
  else
    let numGatherDims := Z.of_nat (length dims) in
    if numGatherDims >? rank then failure
    else if negb (gatherDimsInRange dims rank) then failure
    else if negb (gatherDimsIncreasing dims) then failure
    else success.

(** [GatherOp::verify]. *)
Definition GatherOp_verify (op : GatherOp.t) : LogicalResult :=
  let sourceRank := getRank (GatherOp.getSourceType op) in
  let gatherDims := GatherOp.getGatherDims op in
  if failed (verifyGatherOrScatterDims gatherDims sourceRank) then failure
  else
    let expectedResultType :=
      GatherOp_inferResultType (GatherOp.getSourceType op)
                               (GatherOp.getIndicesType op) gatherDims false in
    let expectedRankReducedResultType :=
      GatherOp_inferResultType (GatherOp.getSourceType op)
                               (GatherOp.getIndicesType op) gatherDims true in
    if negb (bool_decide (GatherOp.getResultType op = expectedResultType))
       && negb (bool_decide (GatherOp.getResultType op
                             = expectedRankReducedResultType))
    then failure
    else success.

(** A gather-dims list is valid when it is non-empty, strictly increasing
    and within [0, rank). *)
Definition strictlyIncreasing (l : list Z) : Prop :=
  forall i j a b, (i < j)%nat -> l !! i = Some a -> l !! j = Some b -> a < b.

Definition validGatherDims (dims : list Z) (rank : Z) : Prop :=
  dims <> [] /\ strictlyIncreasing dims /\
  (forall d, d ∈ dims -> 0 <= d < rank).

(** The two accepted forms, in the words of the specification: the source
    dimensions with each gathered dimension replaced by size 1, and the
    source dimensions with the gathered dimensions dropped. *)
Definition gatheredToOne (gatherDims sourceShape : list Z) : list Z :=
  imap (fun i d => if bool_decide (Z.of_nat i ∈ gatherDims) then 1 else d)
       sourceShape.

Definition gatheredDropped (gatherDims sourceShape : list Z) : list Z :=
  concat (imap (fun i d =>
                  if bool_decide (Z.of_nat i ∈ gatherDims) then [] else [d])
               sourceShape).

(* ===================================================================== *)
(** ** ExtractSliceOp: result type inference *)
(* ===================================================================== *)

(** Conversion to the 32-bit [int]: the value modulo [2^32], read as
    signed. *)
Definition static_cast_int (z : Z) : Z :=
  (z + 2147483648) mod 4294967296 - 2147483648.

(** Conversion to [uint64_t]. *)
Definition static_cast_uint64 (z : Z) : Z := z mod 18446744073709551616.

(** Conversion to [int64_t]. *)
Definition static_cast_int64 (z : Z) : Z :=
  (z + 9223372036854775808) mod 18446744073709551616 - 9223372036854775808.

(** [ExtractSliceOp::inferResultType] on static arrays: the sizes with the
    source's element type (the sizes are asserted to be as many as the
    source rank). *)
Definition ExtractSliceOp_inferResultType (sourceShapedTensorType : TensorType)
           (staticOffsets staticSizes staticStrides : list Z) : TensorType :=
  RankedTensorType staticSizes (getElementType sourceShapedTensorType) None.

(** Modelled from the spec: [getPositionsOfShapeOne] is declared outside
    this file; it marks, among the positions of [shape], the unit-sized
    dimensions to drop, [rank] of them, "dropping the leading-most unit
    dimensions first".  The result has one bit per position. *)
Fixpoint getPositionsOfShapeOne (rank : nat) (shape : list Z) : list bool :=
  match shape with
  | [] => []
  | dimSize :: rest =>
      match rank with
      | O => false :: getPositionsOfShapeOne O rest
      | S rank' =>
          if dimSize =? 1 then true :: getPositionsOfShapeOne rank' rest
          else false :: getPositionsOfShapeOne rank rest
      end
  end.

(** [SmallBitVector::test]. *)
Definition test (bits : list bool) (pos : nat) : bool := nth pos bits false.

(** The projection loop of [inferCanonicalRankReducedResultType]: the
    extents at the positions from [pos] on that are not marked. *)
Fixpoint projectShape (dimsToProject : list bool) (pos : nat)
         (shape : list Z) : list Z :=
  match shape with
  | [] => []
  | dimSize :: rest =>
      if negb (test dimsToProject pos)
      then dimSize :: projectShape dimsToProject (S pos) rest
      else projectShape dimsToProject (S pos) rest
  end.

(** [ExtractSliceOp::inferCanonicalRankReducedResultType] on static arrays;
    [desiredResultRank] is an [unsigned], [rankDiff] an [int]. *)
Definition ExtractSliceOp_inferCanonicalRankReducedResultType
           (desiredResultRank : Z) (sourceRankedTensorType : TensorType)
           (offsets sizes strides : list Z) : TensorType :=
  let inferredType :=
    ExtractSliceOp_inferResultType sourceRankedTensorType
                                   offsets sizes strides in
  let rankDiff := static_cast_int (getRank inferredType - desiredResultRank) in
  if rankDiff >? 0 then
    let shape := getShape inferredType in
    let dimsToProject := getPositionsOfShapeOne (Z.to_nat rankDiff) shape in
    let projectedShape := projectShape dimsToProject 0 shape in
    RankedTensorType projectedShape (getElementType inferredType) None
  else inferredType.

(* ===================================================================== *)
(** ** ExtractOp: fold *)
(* ===================================================================== *)

(** The loop of [ExtractOp::fold] collecting the constant indices as
    [uint64_t]; [None] is the early [return {}] on an operand that is not
    an integer constant. *)
Fixpoint collectIndices (operands : list (option Attribute))
  : option (list Z) :=
  match operands with
  | [] => Some []
  | indice :: rest =>
      match indice with
      | Some (IntegerAttr i) =>
          cons (static_cast_uint64 i) <$> collectIndices rest
      | _ => None
      end
  end.

(** The flattening loop [for (int i = rank - 1; i >= 0; --i)] with [n = i + 1]
    iterations to go: [stride] and [flatIndex] are [int], the indices are
    [uint64_t], the extents [int64_t]. *)
Fixpoint flattenIndices (shape indices : list Z) (rank : Z) (n : nat)
         (flatIndex stride : Z) : Z :=
  match n with
  | O => flatIndex
  | S i =>
      let stride :=
        if Z.of_nat i <? rank - 1
        then static_cast_int (static_cast_int64 (stride * getDimSize shape i))
        else stride in
      let flatIndex :=
        static_cast_int
          (static_cast_uint64
             (static_cast_uint64 flatIndex
              + static_cast_uint64 (nth i indices 0
                                    * static_cast_uint64 stride))) in
      flattenIndices shape indices rank i flatIndex stride
  end.

Section ExtractOpFold.
(** The value of an [ElementsAttr] at an index, null when the attribute
    is not an [ElementsAttr] or the index is not valid
    ([isValidIndex], [getValues]): declared outside this file, taken as
    a parameter. *)
Variable getValueAt : Attribute -> list Z -> option Attribute.

(** [ExtractOp::fold]; [operands] are the constant operands, null where
    an operand is not constant: the tensor first, then the indices. *)
Definition ExtractOp_fold (ir : IR) (op : ExtractOp.t)
           (operands : list (option Attribute)) : option OpFoldResult :=
  match hd None operands with
  | Some (SplatElementsAttr splatValue) => Some (OfrAttribute splatValue)
  | front =>
      match collectIndices (tl operands) with
      | None => None
      | Some indices =>
          match getDefiningOp_FromElementsOp ir (ExtractOp.getTensor op) with
          | Some fromElementsOp =>
              let shape := getShape (FromElementsOp.getType fromElementsOp) in
              let rank := Z.of_nat (length shape) in
              let flatIndex :=
                flattenIndices shape indices rank (length shape) 0 1 in
              let elements := FromElementsOp.getElements fromElementsOp in
              if (static_cast_int (Z.of_nat (length elements)) <=? flatIndex)
                 || (flatIndex <? 0)
              then None
              else OfrValue <$> elements !! Z.to_nat flatIndex
          | None =>
              match front with
              | Some tensor => OfrAttribute <$> getValueAt tensor indices
              | None => None
              end
          end
      end
  end.
End ExtractOpFold.

(* ===================================================================== *)
(** ** EmptyOp and GenerateOp: shape reification *)
(* ===================================================================== *)

(** [builder.create]: the new operation gets a fresh handle. *)
Definition create (ir : IR) (op : Operation) : IR * nat :=
  let handle := fresh (dom ir) in (<[handle := op]> ir, handle).

(** [arith::ConstantIndexOp] with the given value. *)
Definition ConstantIndexOp (value : Z) : Operation :=
  OpConstant (ConstantOp.mk (IntegerAttr value) (ScalarTy Index)).

(** The loop of [EmptyOp::reifyResultShapes] from dimension [i] on, [shape]
    holding the extents of the dimensions still to visit.  An entry is
    null ([None]) where the operation has too few dynamic sizes. *)
Fixpoint EmptyOp_reifyDims (ir : IR) (op : EmptyOp.t) (i : nat)
         (shape : list Z) (ctr : nat) : IR * list (option Value) :=
  match shape with
  | [] => (ir, [])
  | dimSize :: rest =>
      if isDynamic dimSize then
        let value := EmptyOp.getDynamicSizes op !! ctr in
        let '(ir', values) := EmptyOp_reifyDims ir op (S i) rest (S ctr) in
        (ir', value :: values)
      else
        let '(ir1, handle) := create ir (ConstantIndexOp (Z.of_nat i)) in
        let '(ir', values) := EmptyOp_reifyDims ir1 op (S i) rest ctr in
        (ir', Some (getResult handle (ScalarTy Index)) :: values)
  end.

(** [EmptyOp::reifyResultShapes]. *)
Definition EmptyOp_reifyResultShapes (ir : IR) (op : EmptyOp.t)
  : IR * LogicalResult * list (list (option Value)) :=
  let '(ir', values) :=
    EmptyOp_reifyDims ir op 0 (getShape (EmptyOp.getType op)) 0 in
  (ir', success, [values]).

(** The loop of [GenerateOp::reifyResultShapes]. *)
Fixpoint GenerateOp_reifyDims (ir : IR) (op : GenerateOp.t) (dim : nat)
         (shape : list Z) (idx : nat) : IR * list (option Value) :=
  match shape with
  | [] => (ir, [])
  | dimSize :: rest =>
      if isDynamic dimSize then
        let value := GenerateOp.getOperands op !! idx in
        let '(ir', values) := GenerateOp_reifyDims ir op (S dim) rest (S idx) in
        (ir', value :: values)
      else
        let '(ir1, handle) := create ir (ConstantIndexOp dimSize) in
        let '(ir', values) := GenerateOp_reifyDims ir1 op (S dim) rest idx in
        (ir', Some (getResult handle (ScalarTy Index)) :: values)
  end.

(** [GenerateOp::reifyResultShapes]. *)
Definition GenerateOp_reifyResultShapes (ir : IR) (op : GenerateOp.t)
  : IR * LogicalResult * list (list (option Value)) :=
  let '(ir', values) :=
    GenerateOp_reifyDims ir op 0 (getShape (GenerateOp.getType op)) 0 in
  (ir', success, [values]).

(* ===================================================================== *)
(** ** PadOp: orthogonal padding fusion *)
(* ===================================================================== *)

(** [operator[]] on a mixed list; the index is within the list on a
    verified operation (one entry per dimension). *)
Definition mixedAt (l : list OpFoldResult) (index : nat) : OpFoldResult :=
  nth index l (OfrAttribute (IntegerAttr 0)).

(** The shape and the element type of the type of a value
    ([getType().cast<RankedTensorType>()]). *)
Definition Type_getShape (t : Type_) : list Z :=
  match t with
  | TensorTy tensorType => getShape tensorType
  | ScalarTy _ => []
  end.

Definition cast_TensorType (t : Type_) : TensorType :=
  match t with
  | TensorTy tensorType => tensorType
  | ScalarTy e => UnrankedTensorType e
  end.

Definition PadOp_getMixedLowPad (op : PadOp.t) : list OpFoldResult :=
  getMixedValues (PadOp.getStaticLow op) (PadOp.getLow op).

Definition PadOp_getMixedHighPad (op : PadOp.t) : list OpFoldResult :=
  getMixedValues (PadOp.getStaticHigh op) (PadOp.getHigh op).

(** Modelled from the spec: [hasZeroLowPad] is declared outside this file;
    a pad has "zero low-padding" when every low padding width is the
    constant zero. *)
Definition PadOp_hasZeroLowPad (ir : IR) (op : PadOp.t) : bool :=
  forallb (fun ofr => bool_decide (getConstantIntValue ir ofr = Some 0))
          (PadOp_getMixedLowPad op).

(** The lambda [extractPaddedDims] of [PadOp::getPaddedDims]: set the bit of
    every width, from position [index] on, that is not the constant
    zero. *)
Fixpoint extractPaddedDims (ir : IR) (paddingWidths : list OpFoldResult)
         (index : nat) (paddedDims : list bool) : list bool :=
  match paddingWidths with
  | [] => paddedDims
  | width :: rest =>
      let paddedDims :=
        if negb (bool_decide (getConstantIntValue ir width = Some 0))
        then <[index := true]> paddedDims
        else paddedDims in
      extractPaddedDims ir rest (S index) paddedDims
  end.

(** [PadOp::getPaddedDims]: one bit per source dimension. *)
Definition PadOp_getPaddedDims (ir : IR) (op : PadOp.t) : list bool :=
  let paddedDims :=
    replicate (length (Type_getShape (getType (PadOp.getSource op)))) false in
  let paddedDims :=
    extractPaddedDims ir (PadOp_getMixedLowPad op) 0 paddedDims in
  extractPaddedDims ir (PadOp_getMixedHighPad op) 0 paddedDims.

(** [SmallBitVector::anyCommon]. *)
Definition anyCommon (a b : list bool) : bool :=
  existsb (fun '(x, y) => x && y) (combine a b).

(** [Value::getParentBlock() == &getRegion().front()] for the region of the
    pad with handle [this]: the value is an argument of that block or the
    result of an operation in it. *)
Definition definedInBlock (this : nat) (block : Block) (v : Value) : bool :=
  match getImpl v with
  | BlockArgumentImpl owner _ => bool_decide (owner = this)
  | OpResultImpl owner => bool_decide (owner ∈ getOperations block)
  end.

(** [PadOp::getConstantPaddingValue] of the pad with handle [this]. *)
Definition PadOp_getConstantPaddingValue (ir : IR) (this : nat) (op : PadOp.t)
  : option Value :=
  match getYieldValue (PadOp.getRegion op) with
  | None => None
  | Some padValue =>
      if bool_decide (is_Some (m_Constant ir padValue)) then Some padValue
      else if definedInBlock this (PadOp.getRegion op) padValue then None
      else Some padValue
  end.

(** [ExtractSliceOp::build] with mixed entries and inferred result type. *)
Definition ExtractSliceOp_build (source : Value)
           (offsets sizes strides : list OpFoldResult) : ExtractSliceOp.t :=
  let '(dynamicOffsets, staticOffsets) := dispatchIndexOpFoldResults offsets in
  let '(dynamicSizes, staticSizes) := dispatchIndexOpFoldResults sizes in
  let '(dynamicStrides, staticStrides) := dispatchIndexOpFoldResults strides in
  let resultType :=
    ExtractSliceOp_inferResultType (cast_TensorType (getType source))
                                   staticOffsets staticSizes staticStrides in
  ExtractSliceOp.mk source dynamicOffsets dynamicSizes dynamicStrides
                    staticOffsets staticSizes staticStrides resultType.

(** [PadOp::build] with a given result type and mixed paddings; the region
    is the one moved in by [inlineRegionBefore]. *)
Definition PadOp_build (resultType : TensorType) (source : Value)
           (low high : list OpFoldResult) (nofold : bool) (region : Block)
  : PadOp.t :=
  let '(dynamicLow, staticLow) := dispatchIndexOpFoldResults low in
  let '(dynamicHigh, staticHigh) := dispatchIndexOpFoldResults high in
  PadOp.mk source dynamicLow dynamicHigh staticLow staticHigh nofold region
           resultType.

(** The defining pad of a value, with its handle. *)
Definition getDefiningOp_PadOp_handle (ir : IR) (v : Value)
  : option (nat * PadOp.t) :=
  match getImpl v with
  | OpResultImpl owner =>
      match ir !! owner with
      | Some (OpPad op) => Some (owner, op)
      | _ => None
      end
  | BlockArgumentImpl _ _ => None
  end.

(** Step 6 of [FoldOrthogonalPaddings] at one dimension: the offset of the
    other pair where one pair has zero offset and no padding; [None] is
    the match failure. *)
Definition combineOffset (ir : IR) (innerDims outerDims : list bool)
           (innerOffsets outerOffsets : list OpFoldResult) (index : nat)
  : option OpFoldResult :=
  let innerOffset := mixedAt innerOffsets index in
  let outerOffset := mixedAt outerOffsets index in
  if negb (test innerDims index)
     && bool_decide (getConstantIntValue ir innerOffset = Some 0)
  then Some outerOffset
  else if negb (test outerDims index)
          && bool_decide (getConstantIntValue ir outerOffset = Some 0)
  then Some innerOffset
  else None.

(** How a piece of code with an [assert] ends: it returns a value, or the
    asserted condition is false, on which the [assert] macro prints the
    message and aborts the program. *)
Inductive Asserted (A : Type) : Type :=
| Returned (a : A)
| AssertionFailed (message : string).
Arguments Returned {A} a.
Arguments AssertionFailed {A} message.

(** Step 7 at one dimension: the inner size, or the outer size where the
    outer pad pads and the inner size is the full extent of the padded
    source, which the code asserts to be static; [Returned None] is the
    match failure. *)
Definition combineSize (ir : IR) (outerDims : list bool)
           (innerSizes outerSizes : list OpFoldResult)
           (innerSourceShape : list Z) (index : nat)
  : Asserted (option OpFoldResult) :=
  if negb (test outerDims index) then Returned (Some (mixedAt innerSizes index))
  else
    let sliceSize := mixedAt innerSizes index in
    let sourceSize := getDimSize innerSourceShape index in
    if isDynamic sourceSize
    then AssertionFailed "expected padded dimension to have a static size"
    else
    if negb (bool_decide (getConstantIntValue ir sliceSize = Some sourceSize))
    then Returned None
    else Returned (Some (mixedAt outerSizes index)).

(** The loop of step 7 over the dimensions [indices], in order: it ends at
    the first dimension whose assertion fails or whose size does not
    match. *)
Fixpoint combineSizes (ir : IR) (outerDims : list bool)
         (innerSizes outerSizes : list OpFoldResult)
         (innerSourceShape : list Z) (indices : list nat)
  : Asserted (option (list OpFoldResult)) :=
  match indices with
  | [] => Returned (Some [])
  | index :: rest =>
      match combineSize ir outerDims innerSizes outerSizes innerSourceShape
                        index with
      | AssertionFailed message => AssertionFailed message
      | Returned None => Returned None
      | Returned (Some newSize) =>
          match combineSizes ir outerDims innerSizes outerSizes
                             innerSourceShape rest with
          | AssertionFailed message => AssertionFailed message
          | Returned None => Returned None
          | Returned (Some newSizes) => Returned (Some (newSize :: newSizes))
          end
      end
  end.

(** The combined high padding at one dimension. *)
Definition combineHighPad (innerDims outerDims : list bool)
           (innerHighPad outerHighPad : list OpFoldResult) (index : nat)
  : OpFoldResult :=
  let newHighPad := OfrAttribute (IntegerAttr 0) in
  let newHighPad :=
    if test innerDims index then mixedAt innerHighPad index else newHighPad in
  if test outerDims index then mixedAt outerHighPad index else newHighPad.

(** [FoldOrthogonalPaddings::matchAndRewrite] on the pad with handle
    [this]: the IR it leaves and its result, or the failed assertion of
    step 7. *)
Definition FoldOrthogonalPaddings_matchAndRewrite (ir : IR) (this : nat)
  : Asserted (IR * LogicalResult) :=
  match ir !! this with
  | Some (OpPad padOp) =>
  match getDefiningOp_ExtractSliceOp ir (PadOp.getSource padOp) with
  | None => Returned (ir, failure)
  | Some innerSliceOp =>
  match getDefiningOp_PadOp_handle
          ir (ExtractSliceOp.getSource innerSliceOp) with
  | None => Returned (ir, failure)
  | Some (outerPad, outerPadOp) =>
  if PadOp.getNofold outerPadOp then Returned (ir, failure) else
  match getDefiningOp_ExtractSliceOp ir (PadOp.getSource outerPadOp) with
  | None => Returned (ir, failure)
  | Some outerSliceOp =>
  (* 1) Fail if the chain is rank-reducing. *)
  let rank := length (Type_getShape (getType (PadOp.getSource padOp))) in
  if negb (length (Type_getShape
                     (getType (ExtractSliceOp.getSource outerSliceOp)))
           =? rank)%nat
  then Returned (ir, failure) else
  (* 2) Fail if the slices have non-unit strides. *)
  if negb (hasUnitStride ir innerSliceOp)
     || negb (hasUnitStride ir outerSliceOp)
  then Returned (ir, failure) else
  (* 3) Fail if the pads have non-zero low padding. *)
  if negb (PadOp_hasZeroLowPad ir padOp)
     || negb (PadOp_hasZeroLowPad ir outerPadOp)
  then Returned (ir, failure) else
  (* 4) Fail if the padding values do not match. *)
  match PadOp_getConstantPaddingValue ir this padOp,
        PadOp_getConstantPaddingValue ir outerPad outerPadOp with
  | Some innerValue, Some outerValue =>
  match m_Constant ir innerValue, m_Constant ir outerValue with
  | Some innerAttr, Some outerAttr =>
  if negb (bool_decide (innerAttr = outerAttr)) then Returned (ir, failure) else
  (* 5) Fail if a dimension is padded by both pads. *)
  let innerDims := PadOp_getPaddedDims ir padOp in
  let outerDims := PadOp_getPaddedDims ir outerPadOp in
  if anyCommon innerDims outerDims then Returned (ir, failure) else
  (* 6) Combine the offsets of the two slices. *)
  match mapM (combineOffset ir innerDims outerDims
                            (getMixedOffsets innerSliceOp)
                            (getMixedOffsets outerSliceOp))
             (seq 0 rank) with
  | None => Returned (ir, failure)
  | Some newOffsets =>
  (* 7) Combine the sizes of the two slices. *)
  match combineSizes ir outerDims
                      (getMixedSizes innerSliceOp)
                      (getMixedSizes outerSliceOp)
                      (Type_getShape
                         (getType (ExtractSliceOp.getSource innerSliceOp)))
                      (seq 0 (length (getMixedSizes innerSliceOp))) with
  | AssertionFailed message => AssertionFailed message
  | Returned None => Returned (ir, failure)
  | Returned (Some newSizes) =>
  (* Combine the high paddings of the two pads. *)
  let newHighPad :=
    map (combineHighPad innerDims outerDims
                        (PadOp_getMixedHighPad padOp)
                        (PadOp_getMixedHighPad outerPadOp))
        (seq 0 rank) in
  (* Create the slice and the pad that perform the two paddings at once. *)
  let '(ir1, newSlice) :=
    create ir (OpExtractSlice
                 (ExtractSliceOp_build
                    (ExtractSliceOp.getSource outerSliceOp)
                    newOffsets newSizes (getMixedStrides innerSliceOp))) in
  let newPadOp :=
    PadOp_build (PadOp.getType padOp)
                (getResult newSlice
                   (TensorTy (ExtractSliceOp.getType
                                (ExtractSliceOp_build
                                   (ExtractSliceOp.getSource outerSliceOp)
                                   newOffsets newSizes
                                   (getMixedStrides innerSliceOp)))))
                (PadOp_getMixedLowPad padOp) newHighPad
                (PadOp.getNofold padOp) (PadOp.getRegion padOp) in
  Returned (replaceOpWithNewOp ir1 this (OpPad newPadOp), success)
  end end
  | _, _ => Returned (ir, failure)
  end
  | _, _ => Returned (ir, failure)
  end end end end
  | _ => Returned (ir, failure)
  end.

(** The rank reduction in the words of the specification: drop unit-sized
    dimensions, the leading-most first, [n] of them or as many as there
    are. *)
Fixpoint dropLeadingOnes (n : nat) (shape : list Z) : list Z :=
  match n, shape with
  | O, _ => shape
  | S _, [] => []
  | S n', dimSize :: rest =>
      if dimSize =? 1 then dropLeadingOnes n' rest
      else dimSize :: dropLeadingOnes n rest
  end.

(** The number of unit-sized dimensions of a shape. *)
Definition countOnes (shape : list Z) : nat := count_occ Z.eq_dec shape 1.

(* ===================================================================== *)
(** ** Sample IR *)
(* ===================================================================== *)

Definition tensorOf (shape : list Z) : TensorType :=
  RankedTensorType shape F32 None.

(** [%0 = producer : tensor<?x?xf32>],
    [%1 = tensor.cast %0 : tensor<?x?xf32> to middle],
    [%2 = tensor.cast %1 : middle to result]. *)
Definition chainedCasts (middle result : list Z) : IR :=
  <[2%nat := OpCast (CastOp.mk (getResult 1 (TensorTy (tensorOf middle)))
                               (tensorOf result))]>
  (<[1%nat := OpCast (CastOp.mk
                        (getResult 0 (TensorTy (tensorOf [kDynamic; kDynamic])))
                        (tensorOf middle))]>
  (<[0%nat := OpOther "producer" []
                      (TensorTy (tensorOf [kDynamic; kDynamic]))]> ∅)).

(** A slice operation with static offsets, sizes and strides only. *)
Definition extractSliceOf (source : Value) (offsets sizes strides : list Z)
  : Operation :=
  OpExtractSlice (ExtractSliceOp.mk source [] [] [] offsets sizes strides
                                    (tensorOf sizes)).

Definition insertSliceOf (source dest : Value)
           (offsets sizes strides : list Z) (type : list Z) : Operation :=
  OpInsertSlice (InsertSliceOp.mk source dest [] [] [] offsets sizes strides
                                  (tensorOf type)).

Definition valueOf (owner : nat) (shape : list Z) : Value :=
  getResult owner (TensorTy (tensorOf shape)).

(** [%0 = X : tensor<8x8xf32>],
    [%1 = tensor.extract_slice %0 offsets sizes [1, 1]],
    [%2 = tensor.insert_slice %1 into %0 offsets sizes [1, 1]]. *)
Definition roundTrip (offsets sizes : list Z) : IR :=
  <[2%nat := insertSliceOf (valueOf 1 sizes) (valueOf 0 [8; 8])
                           offsets sizes [1; 1] [8; 8]]>
  (<[1%nat := extractSliceOf (valueOf 0 [8; 8]) offsets sizes [1; 1]]>
  (<[0%nat := OpOther "X" [] (TensorTy (tensorOf [8; 8]))]> ∅)).

(** [%0 = input : tensor<8x8xf32>], [%1 = a : tensor<4x4xf32>],
    [%2 = b : tensor<4x4xf32>],
    [%3 = tensor.insert_slice %1 into %0 [0, 0] [4, 4] [1, 1]],
    [%4 = tensor.insert_slice %2 into %3 [0, 0] [4, 4] [1, 1]]. *)
Definition insertAfterInsert : IR :=
  <[4%nat := insertSliceOf (valueOf 2 [4; 4]) (valueOf 3 [8; 8])
                           [0; 0] [4; 4] [1; 1] [8; 8]]>
  (<[3%nat := insertSliceOf (valueOf 1 [4; 4]) (valueOf 0 [8; 8])
                            [0; 0] [4; 4] [1; 1] [8; 8]]>
  (<[2%nat := OpOther "b" [] (TensorTy (tensorOf [4; 4]))]>
  (<[1%nat := OpOther "a" [] (TensorTy (tensorOf [4; 4]))]>
  (<[0%nat := OpOther "input" [] (TensorTy (tensorOf [8; 8]))]> ∅)))).

(** [%0 = input : tensor<8x8xf32>], [%1 = a : tensor<4x4xf32>],
    [%2 = tensor.insert_slice %1 into %0 [0, 0] [4, 4] [1, 1]]  (the tensor X),
    [%3 = tensor.extract_slice %2 [0, 0] [4, 4] [1, 1]],
    [%4 = tensor.insert_slice %3 into %2 [0, 0] [4, 4] [1, 1]]. *)
Definition roundTripOfInsert : IR :=
  <[4%nat := insertSliceOf (valueOf 3 [4; 4]) (valueOf 2 [8; 8])
                           [0; 0] [4; 4] [1; 1] [8; 8]]>
  (<[3%nat := extractSliceOf (valueOf 2 [8; 8]) [0; 0] [4; 4] [1; 1]]>
  (<[2%nat := insertSliceOf (valueOf 1 [4; 4]) (valueOf 0 [8; 8])
                            [0; 0] [4; 4] [1; 1] [8; 8]]>
  (<[1%nat := OpOther "a" [] (TensorTy (tensorOf [4; 4]))]>
  (<[0%nat := OpOther "input" [] (TensorTy (tensorOf [8; 8]))]> ∅)))).

(** The scalar value defined by the operation with handle [owner]. *)
Definition scalarOf (owner : nat) : Value := getResult owner (ScalarTy Index).

(** [%0 .. %5 = a .. f : index],
    [%6 = tensor.from_elements %0, %1, %2, %3, %4, %5 : tensor<2x3xindex>],
    [%7 = arith.constant 1 : index], [%8 = arith.constant 2 : index],
    [%9 = tensor.extract %6[%7, %8]]. *)
Definition extractFromElements_op : ExtractOp.t :=
  ExtractOp.mk (getResult 6 (TensorTy (RankedTensorType [2; 3] Index None)))
               [scalarOf 7; scalarOf 8] (ScalarTy Index).

Definition extractFromElements : IR :=
  <[9%nat := OpExtract extractFromElements_op]>
  (<[8%nat := ConstantIndexOp 2]>
  (<[7%nat := ConstantIndexOp 1]>
  (<[6%nat := OpFromElements
                (FromElementsOp.mk
                   [scalarOf 0; scalarOf 1; scalarOf 2;
                    scalarOf 3; scalarOf 4; scalarOf 5]
                   (RankedTensorType [2; 3] Index None))]>
  (<[5%nat := OpOther "f" [] (ScalarTy Index)]>
  (<[4%nat := OpOther "e" [] (ScalarTy Index)]>
  (<[3%nat := OpOther "d" [] (ScalarTy Index)]>
  (<[2%nat := OpOther "c" [] (ScalarTy Index)]>
  (<[1%nat := OpOther "b" [] (ScalarTy Index)]>
  (<[0%nat := OpOther "a" [] (ScalarTy Index)]> ∅))))))))).

(** [%0 = producer : tensor<4xf32>],
    [%1 = tensor.cast %0 : tensor<4xf32> to tensor<*xf32>],
    [%2 = tensor.cast %1 : tensor<*xf32> to tensor<4xf32>]. *)
Definition castThroughUnranked : IR :=
  <[2%nat := OpCast (CastOp.mk (getResult 1 (TensorTy (UnrankedTensorType F32)))
                               (tensorOf [4]))]>
  (<[1%nat := OpCast (CastOp.mk (valueOf 0 [4]) (UnrankedTensorType F32))]>
  (<[0%nat := OpOther "producer" [] (TensorTy (tensorOf [4]))]> ∅)).

(** The chain of the source's example, with the result type of the outer
    pad ([tensor<8x64xf32>] there) and the inner pair as parameters:
    [%0 = input : tensor<64x64xf32>], [%1 = sz0], [%2 = pw0], [%3 = sz1],
    [%4 = pw1 : index], [%5 = arith.constant 0.0 : f32],
    [%6 = tensor.extract_slice %0[16, 0] [%1, 64] [1, 1]],
    [%7 = tensor.pad %6 low[0, 0] high[%2, 0] : to outerResult],
    [%8 = tensor.extract_slice %7 innerOffsets innerSizes(%3) [1, 1]],
    [%9 = tensor.pad %8 nofold low[0, 0] innerHigh(%4) : to tensor<8x4xf32>];
    both pads yield [%5]. *)
Definition padRegion : Block :=
  mkBlock [ScalarTy Index; ScalarTy Index] []
          (Some (getResult 5 (ScalarTy F32))).

Definition paddingChainTo (outerResult innerOffsets innerSizes innerHigh
                           : list Z) : IR :=
  <[9%nat := OpPad (PadOp.mk (valueOf 8 innerSizes) [] [scalarOf 4]
                             [0; 0] innerHigh true padRegion
                             (tensorOf [8; 4]))]>
  (<[8%nat := OpExtractSlice
                (ExtractSliceOp.mk (valueOf 7 outerResult) [] [scalarOf 3] []
                                   innerOffsets innerSizes [1; 1]
                                   (tensorOf innerSizes))]>
  (<[7%nat := OpPad (PadOp.mk (valueOf 6 [kDynamic; 64]) [] [scalarOf 2]
                              [0; 0] [kDynamic; 0] false padRegion
                              (tensorOf outerResult))]>
  (<[6%nat := OpExtractSlice
                (ExtractSliceOp.mk (valueOf 0 [64; 64]) [] [scalarOf 1] []
                                   [16; 0] [kDynamic; 64] [1; 1]
                                   (tensorOf [kDynamic; 64]))]>
  (<[5%nat := OpConstant (ConstantOp.mk (FloatAttr 0) (ScalarTy F32))]>
  (<[4%nat := OpOther "pw1" [] (ScalarTy Index)]>
  (<[3%nat := OpOther "sz1" [] (ScalarTy Index)]>
  (<[2%nat := OpOther "pw0" [] (ScalarTy Index)]>
  (<[1%nat := OpOther "sz0" [] (ScalarTy Index)]>
  (<[0%nat := OpOther "input" [] (TensorTy (tensorOf [64; 64]))]> ∅))))))))).

Definition paddingChain (innerOffsets innerSizes innerHigh : list Z) : IR :=
  paddingChainTo [8; 64] innerOffsets innerSizes innerHigh.

(* ===================================================================== *)
(** ** Further operations of the file *)
(* ===================================================================== *)

(** The join of one dimension in the loop of [joinShapes]: the static
    extent where one side is dynamic, the common extent of two equal
    static ones, nothing for two different static extents. *)
Definition joinDim (a b : Z) : option Z :=
  if isDynamic a then Some b
  else if isDynamic b then Some a
  else if negb (a =? b) then None
  else Some a.

(** [mlir::tensor::canFoldIntoConsumerOp]; [None] is the null [CastOp]. *)
Definition canFoldIntoConsumerOp (castOp : option CastOp.t) : bool :=
  match castOp with
  | None => false
  | Some castOp =>
      preservesStaticInformation (TensorTy (CastOp.getType castOp))
                                 (getType (CastOp.getSource castOp))
  end.

(** [mlir::tensor::canFoldIntoProducerOp]. *)
Definition canFoldIntoProducerOp (castOp : option CastOp.t) : bool :=
  match castOp with
  | None => false
  | Some castOp =>
      preservesStaticInformation (getType (CastOp.getSource castOp))
                                 (TensorTy (CastOp.getType castOp))
  end.

(** [mlir::tensor::foldTensorCast] on the operand list of an operation: the
    operands after the call and whether one was folded. *)
Fixpoint foldTensorCast (ir : IR) (operands : list Value)
  : list Value * LogicalResult :=
  match operands with
  | [] => ([], failure)
  | operand :: rest =>
      let '(rest', folded) := foldTensorCast ir rest in
      let castOp := getDefiningOp_CastOp ir operand in
      match castOp with
      | Some cast =>
          if canFoldIntoConsumerOp castOp
          then (CastOp.getSource cast :: rest', success)
          else (operand :: rest', folded)
      | None => (operand :: rest', folded)
      end
  end.

(** [%0 = V : tensor<16x16xf32>], [%1 = W : tensor<?x?xf32>],
    [%2 = tensor.cast %0 : tensor<16x16xf32> to tensor<?x?xf32>]  (erases
    static information: foldable into a consumer),
    [%3 = tensor.cast %1 : tensor<?x?xf32> to tensor<4x4xf32>]  (adds static
    information: not foldable into a consumer). *)
Definition castsOfBothKinds : IR :=
  <[3%nat := OpCast (CastOp.mk (valueOf 1 [kDynamic; kDynamic])
                               (tensorOf [4; 4]))]>
  (<[2%nat := OpCast (CastOp.mk (valueOf 0 [16; 16])
                                (tensorOf [kDynamic; kDynamic]))]>
  (<[1%nat := OpOther "W" [] (TensorTy (tensorOf [kDynamic; kDynamic]))]>
  (<[0%nat := OpOther "V" [] (TensorTy (tensorOf [16; 16]))]> ∅))).

Module ScatterOp.
Record t : Set := mk {
  getSourceType : TensorType;
  getDestType : TensorType;
  getIndicesType : TensorType;
  getScatterDims : list Z;
  getUnique : bool
}.
End ScatterOp.

(** [ScatterOp::verify]. *)
Definition ScatterOp_verify (op : ScatterOp.t) : LogicalResult :=
  let destRank := getRank (ScatterOp.getDestType op) in
  let scatterDims := ScatterOp.getScatterDims op in
  if failed (verifyGatherOrScatterDims scatterDims destRank) then failure
  else if negb (ScatterOp.getUnique op) then failure
  else
    let expectedSourceType :=
      GatherOp_inferResultType (ScatterOp.getDestType op)
                               (ScatterOp.getIndicesType op)
                               scatterDims false in
    let expectedRankReducedSourceType :=
      GatherOp_inferResultType (ScatterOp.getDestType op)
                               (ScatterOp.getIndicesType op)
                               scatterDims true in
    if negb (bool_decide (ScatterOp.getSourceType op = expectedSourceType))
       && negb (bool_decide (ScatterOp.getSourceType op
                             = expectedRankReducedSourceType))
    then failure
    else success.

(** [%0 = tensor.from_elements %7, %8, %9 : tensor<3xindex>] and the
    operation [tensor.extract %0[%1]]. *)
Definition fromElements1D_op : FromElementsOp.t :=
  FromElementsOp.mk [scalarOf 7; scalarOf 8; scalarOf 9]
                    (RankedTensorType [3] Index None).

Definition fromElements1D : IR := <[0%nat := OpFromElements fromElements1D_op]> ∅.

Definition extract1D_op : ExtractOp.t :=
  ExtractOp.mk (getResult 0%nat (TensorTy (RankedTensorType [3] Index None)))
               [scalarOf 1] (ScalarTy Index).

(** [EmptyOp::verify]; a list of operands has fewer than [2^63] entries,
    where the conversion of its size to [int64_t] changes nothing. *)
Definition EmptyOp_verify (op : EmptyOp.t) : LogicalResult :=
  if negb (getNumDynamicDims (getShape (EmptyOp.getType op))
           =? length (EmptyOp.getDynamicSizes op))%nat
  then failure
  else success.

(** The counting loop of [EmptyOp::getDynamicSize]: the dynamic dimensions
    among the first [idx] ones. *)
Fixpoint countDynamicDims (shape : list Z) (idx : nat) (ctr : nat) : nat :=
  match idx, shape with
  | S idx', dimSize :: rest =>
      countDynamicDims rest idx' (if isDynamic dimSize then S ctr else ctr)
  | _, _ => ctr
  end.

(** [EmptyOp::getDynamicSize]; null ([None]) where the operation has too
    few dynamic sizes. *)
Definition EmptyOp_getDynamicSize (op : EmptyOp.t) (idx : nat) : option Value :=
  EmptyOp.getDynamicSizes op
    !! countDynamicDims (getShape (EmptyOp.getType op)) idx 0.

(** The loop of [EmptyOp::getMixedSizes], [shape] holding the extents of
    the dimensions still to visit. *)
Fixpoint EmptyOp_mixedSizesFrom (op : EmptyOp.t) (shape : list Z) (ctr : nat)
  : list (option OpFoldResult) :=
  match shape with
  | [] => []
  | dimSize :: rest =>
      if isDynamic dimSize
      then (OfrValue <$> EmptyOp.getDynamicSizes op !! ctr)
             :: EmptyOp_mixedSizesFrom op rest (S ctr)
      else Some (OfrAttribute (IntegerAttr dimSize))
             :: EmptyOp_mixedSizesFrom op rest ctr
  end.

(** [EmptyOp::getMixedSizes]. *)
Definition EmptyOp_getMixedSizes (op : EmptyOp.t) : list (option OpFoldResult) :=
  EmptyOp_mixedSizesFrom op (getShape (EmptyOp.getType op)) 0.

(** [GenerateOp::verify]. *)
Definition GenerateOp_verify (op : GenerateOp.t) : LogicalResult :=
  if negb (length (GenerateOp.getOperands op)
           =? getNumDynamicDims (getShape (GenerateOp.getType op)))%nat
  then failure
  else success.

(** [%0 = tensor.empty(%10, %11) : tensor<?x4x?xf32>]. *)
Definition emptyMixed_op : EmptyOp.t :=
  EmptyOp.mk [scalarOf 10; scalarOf 11] (tensorOf [kDynamic; 4; kDynamic]).

(** [%0 = tensor.generate %10, %11 { ... } : tensor<?x4x?xf32>]. *)
Definition generateMixed_op : GenerateOp.t :=
  GenerateOp.mk [scalarOf 10; scalarOf 11]
                (mkBlock [ScalarTy Index; ScalarTy Index; ScalarTy Index] [] None)
                (tensorOf [kDynamic; 4; kDynamic]).

(** The loop of [ReplaceEmptyTensorStaticShapeDims::matchAndRewrite] from
    dimension [i] on, [shape] holding the extents of the dimensions still
    to visit: the new static shape, the dynamic sizes that are kept, and
    [changedType].  A verified operation has one dynamic size per dynamic
    dimension; where a malformed one runs out of them the dimension is
    left as it is. *)
Fixpoint promoteConstantSizes (ir : IR) (op : EmptyOp.t) (shape : list Z)
         (ctr : nat) : list Z * list Value * bool :=
  match shape with
  | [] => ([], [], false)
  | dimSize :: rest =>
      if isDynamic dimSize then
        let '(staticShape, dynamicSizes, changedType) :=
          promoteConstantSizes ir op rest (S ctr) in
        match EmptyOp.getDynamicSizes op !! ctr with
        | Some dynamicSize =>
            match getConstantIntValue ir (OfrValue dynamicSize) with
            | Some cst => (cst :: staticShape, dynamicSizes, true)
            | None => (dimSize :: staticShape, dynamicSize :: dynamicSizes,
                       changedType)
            end
        | None => (dimSize :: staticShape, dynamicSizes, changedType)
        end
      else
        let '(staticShape, dynamicSizes, changedType) :=
          promoteConstantSizes ir op rest ctr in
        (dimSize :: staticShape, dynamicSizes, changedType)
  end.

(** [ReplaceEmptyTensorStaticShapeDims::matchAndRewrite] on the
    [tensor.empty] with handle [this]. *)
Definition ReplaceEmptyTensorStaticShapeDims_matchAndRewrite
           (ir : IR) (this : nat) (op : EmptyOp.t) : IR * LogicalResult :=
  let '(staticShape, dynamicSizes, changedType) :=
    promoteConstantSizes ir op (getShape (EmptyOp.getType op)) 0 in
  if negb changedType then (ir, failure)
  else
    let tensorType :=
      RankedTensorType staticShape (getElementType (EmptyOp.getType op))
                       (getEncoding (EmptyOp.getType op)) in
    let '(ir1, newOp) := create ir (OpEmpty (EmptyOp.mk dynamicSizes tensorType)) in
    (replaceOpWithNewOp ir1 this
       (OpCast (CastOp.mk (getResult newOp (TensorTy tensorType))
                          (EmptyOp.getType op))),
     success).

(** [%0 = arith.constant 5 : index],
    [%1 = tensor.empty(%arg0, %0) : tensor<?x?xf32>], [%arg0] being a block
    argument. *)
Definition emptyWithConstantSize_op : EmptyOp.t :=
  EmptyOp.mk [mkValue (BlockArgumentImpl 9 0) (ScalarTy Index); scalarOf 0]
             (tensorOf [kDynamic; kDynamic]).

Definition emptyWithConstantSize : IR :=
  <[1%nat := OpEmpty emptyWithConstantSize_op]>
    (<[0%nat := ConstantIndexOp 5]> ∅).

Module DimOp.
Record t : Set := mk { getSource : Value; getIndex : Value }.
End DimOp.

(** [DimOp::getConstantIndex]; the [cast<IntegerAttr>] holds on every
    constant of index type, and another attribute is taken as no index. *)
Definition DimOp_getConstantIndex (ir : IR) (op : DimOp.t) : option Z :=
  match getDefiningOp ir (DimOp.getIndex op) with
  | Some (OpConstant constantOp) =>
      match ConstantOp.getValue constantOp with
      | IntegerAttr index => Some index
      | _ => None
      end
  | _ => None
  end.

(** [DimOp::verify]; a source that is not a tensor is unreachable. *)
Definition DimOp_verify (ir : IR) (op : DimOp.t) : LogicalResult :=
  match DimOp_getConstantIndex ir op with
  | None => success
  | Some index =>
      match getType (DimOp.getSource op) with
      | TensorTy (RankedTensorType shape _ _) =>
          if index >=? Z.of_nat (length shape) then failure else success
      | _ => success
      end
  end.

(** Conversion to [unsigned]. *)
Definition static_cast_unsigned (z : Z) : Z := z mod 4294967296.

Section DimOpFold.
(** [isDynamicSize] and [getDynamicSize] of the [tensor.extract_slice]
    interface are declared outside this file and taken as parameters. *)
Variable isDynamicSize : ExtractSliceOp.t -> Z -> bool.
Variable getDynamicSize : ExtractSliceOp.t -> Z -> Value.

(** [DimOp::fold] on the [tensor.dim] with handle [this]; [operands] are
    the constant operands, null where an operand is not constant.  The
    result is the operation after the in-place fold of a cast and the fold
    result.  The index is within the rank on a verified operation with a
    non-negative index. *)
Definition DimOp_fold (ir : IR) (this : nat) (op : DimOp.t)
           (operands : list (option Attribute))
  : DimOp.t * option OpFoldResult :=
  match nth 1 operands None with
  | Some (IntegerAttr index) =>
      match dyn_cast_RankedTensorType (getType (DimOp.getSource op)) with
      | None => (op, None)
      | Some (shape, _, _) =>
          if negb (isDynamic (getDimSize shape (Z.to_nat index)))
          then (op, Some (OfrAttribute
                            (IntegerAttr (getDimSize shape (Z.to_nat index)))))
          else
            let definingOp := getDefiningOp ir (DimOp.getSource op) in
            match definingOp with
            | Some (OpGenerate fromElements) =>
                let resultType := GenerateOp.getType fromElements in
                let dynExtents :=
                  countDynamicDims (getShape resultType) (Z.to_nat index) 0 in
                (op, OfrValue <$> GenerateOp.getOperands fromElements !! dynExtents)
            | _ =>
                let unsignedIndex := static_cast_unsigned index in
                let fromSlice :=
                  match definingOp with
                  | Some (OpExtractSlice sliceOp) =>
                      if (getRank (ExtractSliceOp.getType sliceOp)
                          =? Z.of_nat (length (Type_getShape
                                 (getType (ExtractSliceOp.getSource sliceOp)))))
                         && isDynamicSize sliceOp unsignedIndex
                      then Some (getDynamicSize sliceOp unsignedIndex)
                      else None
                  | _ => None
                  end in
                match fromSlice with
                | Some size => (op, Some (OfrValue size))
                | None =>
                    let '(operands', folded) :=
                      foldTensorCast ir [DimOp.getSource op; DimOp.getIndex op] in
                    if succeeded folded
                    then (DimOp.mk (nth 0 operands' (DimOp.getSource op))
                                   (nth 1 operands' (DimOp.getIndex op)),
                          Some (OfrValue (getResult this (ScalarTy Index))))
                    else (op, None)
                end
            end
      end
  | _ => (op, None)
  end.
End DimOpFold.

(** [%0 = tensor.generate %10, %11 { ... } : tensor<?x4x?xf32>] and the
    operation [tensor.dim %0, %c2]. *)
Definition generateMixed : IR := <[0%nat := OpGenerate generateMixed_op]> ∅.

Definition dimOfGenerate_op : DimOp.t :=
  DimOp.mk (getResult 0%nat (TensorTy (tensorOf [kDynamic; 4; kDynamic])))
           (scalarOf 5).

(** [getNumElements]: the product of the extents, in [int64_t]. *)
Definition getNumElements (shape : list Z) : Z :=
  fold_left (fun numElements dim => static_cast_int64 (numElements * dim))
            shape 1.

(** The loop of [computeTensorReshapeCollapsedType] from [currentDim] on;
    a reassociation map is given by its number of results. *)
Fixpoint collapsedShape (shape : list Z) (reassociation : list nat)
         (currentDim : nat) : list Z :=
  match reassociation with
  | [] => []
  | dim :: rest =>
      let band := take dim (drop currentDim shape) in
      let size :=
        if bool_decide (kDynamic ∈ band) then kDynamic
        else fold_left
               (fun size d =>
                  static_cast_int64 (size * nth (currentDim + d) shape 0))
               (seq 0 dim) 1 in
      size :: collapsedShape shape rest (currentDim + dim)
  end.

(** [computeTensorReshapeCollapsedType]. *)
Definition computeTensorReshapeCollapsedType (type : TensorType)
           (reassociation : list nat) : TensorType :=
  RankedTensorType (collapsedShape (getShape type) reassociation 0)
                   (getElementType type) None.

(** [isSameTypesWithoutEncoding]. *)
Definition isSameTypesWithoutEncoding (tp1 tp2 : Type_) : bool :=
  match dyn_cast_RankedTensorType tp1 with
  | Some (shape1, elementType1, _) =>
      match dyn_cast_RankedTensorType tp2 with
      | Some (shape2, elementType2, _) =>
          bool_decide (shape1 = shape2)
          && bool_decide (elementType1 = elementType2)
      | None => false
      end
  | None => bool_decide (tp1 = tp2)
  end.

(** [PadOp::inferResultType]: the loop body at dimension [i], then the
    type.  The sizes are asserted to be as many as the source rank, and
    [resultShape] to be empty or of that length. *)
Definition PadOp_inferredDim (sourceShape staticLow staticHigh resultShape : list Z)
           (i : nat) : Z :=
  if isDynamic (getDimSize sourceShape i)
     || (nth i staticLow 0 =? kDynamic)
     || (nth i staticHigh 0 =? kDynamic)
  then match resultShape with
       | [] => kDynamic
       | _ => nth i resultShape 0
       end
  else static_cast_int64
         (getDimSize sourceShape i + nth i staticLow 0 + nth i staticHigh 0).

Definition PadOp_inferResultType (sourceType : TensorType)
           (staticLow staticHigh resultShape : list Z) : TensorType :=
  let rank := length (getShape sourceType) in
  RankedTensorType
    (map (PadOp_inferredDim (getShape sourceType) staticLow staticHigh resultShape)
         (seq 0 rank))
    (getElementType sourceType) None.

(** [PadOp::verify]. *)
Definition PadOp_verify (op : PadOp.t) : LogicalResult :=
  let sourceType := cast_TensorType (getType (PadOp.getSource op)) in
  let resultType := PadOp.getType op in
  let expectedType :=
    PadOp_inferResultType sourceType (PadOp.getStaticLow op)
                          (PadOp.getStaticHigh op) [] in
  if forallb
       (fun i =>
          (getDimSize (getShape resultType) i
           =? getDimSize (getShape expectedType) i)
          || isDynamic (getDimSize (getShape expectedType) i))
       (seq 0 (length (getShape sourceType)))
  then success
  else failure.

(** [PadOp::fold]. *)
Definition PadOp_fold (op : PadOp.t) : option OpFoldResult :=
  if hasStaticShape (PadOp.getType op)
     && bool_decide (PadOp.getType op
                     = cast_TensorType (getType (PadOp.getSource op)))
     && negb (PadOp.getNofold op)
  then Some (OfrValue (PadOp.getSource op))
  else None.

(** [%1 = tensor.pad %0 low[l0, l1] high[h0, h1] { ... }
       : tensor<4x6xf32> to the given type], without [nofold]. *)
Definition staticPad_op (staticLow staticHigh : list Z) (resultShape : list Z)
  : PadOp.t :=
  PadOp.mk (valueOf 0 [4; 6]) [] [] staticLow staticHigh false padRegion
           (tensorOf resultShape).

(** [foldExtractAfterInsertSlice]; [None] is the null [Value]. *)
Definition foldExtractAfterInsertSlice (ir : IR) (extractOp : ExtractSliceOp.t)
  : option Value :=
  match getDefiningOp_InsertSliceOp ir (ExtractSliceOp.getSource extractOp) with
  | Some insertOp =>
      if bool_decide (getType (InsertSliceOp.getSource insertOp)
                      = TensorTy (ExtractSliceOp.getType extractOp))
         && isSameAs insertOp extractOp isSame
      then Some (InsertSliceOp.getSource insertOp)
      else None
  | None => None
  end.

(** [ExtractSliceOp::fold]; [operands] are the constant operands, null
    where an operand is not constant.  A splat attribute carries no type
    here, so [resizeSplat] returns the attribute itself. *)
Definition ExtractSliceOp_fold (ir : IR) (op : ExtractSliceOp.t)
           (operands : list (option Attribute)) : option OpFoldResult :=
  let splatFold :=
    match hd None operands with
    | Some (SplatElementsAttr splatValue) =>
        if hasStaticShape (ExtractSliceOp.getType op)
        then Some (OfrAttribute (SplatElementsAttr splatValue))
        else None
    | _ => None
    end in
  match splatFold with
  | Some result => Some result
  | None =>
      if bool_decide (getType (ExtractSliceOp.getSource op)
                      = TensorTy (ExtractSliceOp.getType op))
         && succeeded (foldIdentityOffsetSizeAndStrideOpInterface
                         ir op (getShape (ExtractSliceOp.getType op)))
      then Some (OfrValue (ExtractSliceOp.getSource op))
      else OfrValue <$> foldExtractAfterInsertSlice ir op
  end.

(** [%0 = X : tensor<8x8xf32>], [%1 = a : tensor<4x4xf32>],
    [%2 = tensor.insert_slice %1 into %0 [0, 2] [4, 4] [1, 1]], and the
    operation [tensor.extract_slice %2 [0, 2] [4, 4] [1, 1]]. *)
Definition insertThenExtract : IR :=
  <[2%nat := insertSliceOf (valueOf 1 [4; 4]) (valueOf 0 [8; 8])
                           [0; 2] [4; 4] [1; 1] [8; 8]]>
  (<[1%nat := OpOther "a" [] (TensorTy (tensorOf [4; 4]))]>
  (<[0%nat := OpOther "X" [] (TensorTy (tensorOf [8; 8]))]> ∅)).

Definition extractAfterInsert_op : ExtractSliceOp.t :=
  ExtractSliceOp.mk (valueOf 2 [8; 8]) [] [] [] [0; 2] [4; 4] [1; 1]
                    (tensorOf [4; 4]).

(** The loop of [ExtractSliceOp::getDroppedDims] over the mixed sizes still
    to visit: one bit per size, set where the dimension is dropped. *)
Fixpoint droppedDimsFrom (ir : IR) (resultShape : list Z)
         (mixedSizes : list OpFoldResult) (shapePos : nat) : list bool :=
  match mixedSizes with
  | [] => []
  | size :: rest =>
      let sizeVal := getConstantIntValue ir size in
      if negb (bool_decide (is_Some sizeVal))
         || negb (bool_decide (sizeVal = Some 1))
         || ((shapePos <? length resultShape)%nat
             && (nth shapePos resultShape 0 =? 1))
      then false :: droppedDimsFrom ir resultShape rest (S shapePos)
      else true :: droppedDimsFrom ir resultShape rest shapePos
  end.

(** [ExtractSliceOp::getDroppedDims]. *)
Definition ExtractSliceOp_getDroppedDims (ir : IR) (op : ExtractSliceOp.t)
  : list bool :=
  droppedDimsFrom ir (getShape (ExtractSliceOp.getType op)) (getMixedSizes op) 0.

(** The loop of [ExtractSliceOp::reifyResultShapes] from the size with
    index [index] on; a size attribute is an [IntegerAttr] (the [cast]
    asserts it), and another attribute is taken as zero. *)
Fixpoint ExtractSliceOp_reifyDims (ir : IR) (droppedDims : list bool)
         (mixedSizes : list OpFoldResult) (index : nat) : IR * list Value :=
  match mixedSizes with
  | [] => (ir, [])
  | size :: rest =>
      if test droppedDims index
      then ExtractSliceOp_reifyDims ir droppedDims rest (S index)
      else
        match size with
        | OfrAttribute attr =>
            let value := match attr with IntegerAttr i => i | _ => 0 end in
            let '(ir1, handle) := create ir (ConstantIndexOp value) in
            let '(ir', values) :=
              ExtractSliceOp_reifyDims ir1 droppedDims rest (S index) in
            (ir', getResult handle (ScalarTy Index) :: values)
        | OfrValue v =>
            let '(ir', values) :=
              ExtractSliceOp_reifyDims ir droppedDims rest (S index) in
            (ir', v :: values)
        end
  end.

(** [ExtractSliceOp::reifyResultShapes]. *)
Definition ExtractSliceOp_reifyResultShapes (ir : IR) (op : ExtractSliceOp.t)
  : IR * LogicalResult * list (list Value) :=
  let mixedSizes := getMixedSizes op in
  let droppedDims := ExtractSliceOp_getDroppedDims ir op in
  let '(ir', values) := ExtractSliceOp_reifyDims ir droppedDims mixedSizes 0 in
  (ir', success, [values]).

(** A result shape that arises from the mixed sizes of a slice by dropping
    sizes that are the constant one: a static size that is kept gives its
    extent, a runtime size that is kept gives a dynamic extent; and no
    runtime size that is kept is itself the constant one (the value of an
    [arith.constant 1]). *)
Inductive rankReducedFrom (ir : IR) : list OpFoldResult -> list Z -> Prop :=
  | rankReduced_nil : rankReducedFrom ir [] []
  | rankReduced_keep_static (c : Z) (sizes : list OpFoldResult) (shape : list Z) :
      isDynamic c = false ->
      rankReducedFrom ir sizes shape ->
      rankReducedFrom ir (OfrAttribute (IntegerAttr c) :: sizes) (c :: shape)
  | rankReduced_keep_dynamic (v : Value) (sizes : list OpFoldResult)
                             (shape : list Z) :
      getConstantIntValue ir (OfrValue v) <> Some 1 ->
      rankReducedFrom ir sizes shape ->
      rankReducedFrom ir (OfrValue v :: sizes) (kDynamic :: shape)
  | rankReduced_drop (size : OpFoldResult) (sizes : list OpFoldResult)
                     (shape : list Z) :
      getConstantIntValue ir size = Some 1 ->
      rankReducedFrom ir sizes shape ->
      rankReducedFrom ir (size :: sizes) shape.

(** [%1 = tensor.extract_slice %0 [0, 0, 0] [1, %10, 4] [1, 1, 1]
       : tensor<8x8x8xf32> to tensor<?x4xf32>]. *)
Definition rankReducingSlice_op : ExtractSliceOp.t :=
  ExtractSliceOp.mk (valueOf 0 [8; 8; 8]) [] [scalarOf 10] []
                    [0; 0; 0] [1; kDynamic; 4] [1; 1; 1]
                    (tensorOf [kDynamic; 4]).

(** [%10 = arith.constant 1 : index],
    [%1 = tensor.extract_slice %0 [0] [%10] [1]
       : tensor<8xf32> to tensor<?xf32>]. *)
Definition constantSizeSlice_op : ExtractSliceOp.t :=
  ExtractSliceOp.mk (valueOf 0 [8]) [] [scalarOf 10] []
                    [0] [kDynamic] [1] (tensorOf [kDynamic]).

Definition constantSizeSlice : IR :=
  <[10%nat := ConstantIndexOp 1]>
    (<[1%nat := OpExtractSlice constantSizeSlice_op]>
    (<[0%nat := OpOther "producer" [] (TensorTy (tensorOf [8]))]> ∅)).

(** [EmptyOp::build] from mixed sizes, without encoding. *)
Definition EmptyOp_build (sizes : list OpFoldResult) (elementType : ElementType)
  : EmptyOp.t :=
  let '(dynamicSizes, staticShape) := dispatchIndexOpFoldResults sizes in
  EmptyOp.mk dynamicSizes (RankedTensorType staticShape elementType None).

(** The loop of [FoldEmptyTensorWithCastOp::matchAndRewrite] over the
    zipped result shape and mixed sizes of the producer; [None] is the
    match failure.  A size attribute is an [IntegerAttr] (the [cast]
    asserts it). *)
Fixpoint foldCastSizes (resultShape : list Z) (currMixedSizes : list OpFoldResult)
  : option (list OpFoldResult) :=
  match resultShape, currMixedSizes with
  | newDim :: resultShape', currDim :: currMixedSizes' =>
      match currDim with
      | OfrAttribute attr =>
          if isDynamic newDim
             || negb (newDim =? match attr with IntegerAttr i => i | _ => 0 end)
          then None
          else cons (OfrAttribute attr) <$> foldCastSizes resultShape' currMixedSizes'
      | OfrValue _ =>
          if negb (isDynamic newDim)
          then cons (OfrAttribute (IntegerAttr newDim))
                 <$> foldCastSizes resultShape' currMixedSizes'
          else cons currDim <$> foldCastSizes resultShape' currMixedSizes'
      end
  | _, _ => Some []
  end.

(** [FoldEmptyTensorWithCastOp::matchAndRewrite] on the cast with handle
    [this].  The mixed sizes of a verified producer hold no null entry;
    a producer that has one is not rewritten. *)
Definition FoldEmptyTensorWithCastOp_matchAndRewrite
           (ir : IR) (this : nat) (castOp : CastOp.t) : IR * LogicalResult :=
  if negb (canFoldIntoProducerOp (Some castOp)) then (ir, failure)
  else
    match getDefiningOp ir (CastOp.getSource castOp) with
    | Some (OpEmpty producer) =>
        let resultType := CastOp.getType castOp in
        let resultShape := getShape resultType in
        match mapM id (EmptyOp_getMixedSizes producer) with
        | Some currMixedSizes =>
            match foldCastSizes resultShape currMixedSizes with
            | Some newMixedSizes =>
                (replaceOpWithNewOp
                   ir this
                   (OpEmpty (EmptyOp_build newMixedSizes
                                           (getElementType resultType))),
                 success)
            | None => (ir, failure)
            end
        | None => (ir, failure)
        end
    | _ => (ir, failure)
    end.

(** [%0 = tensor.empty(%10, %11) : tensor<?x?xf32>],
    [%1 = tensor.cast %0 : tensor<?x?xf32> to tensor<4x?xf32>]. *)
Definition castOfEmpty_op : CastOp.t :=
  CastOp.mk (valueOf 0 [kDynamic; kDynamic]) (tensorOf [4; kDynamic]).

Definition castOfEmpty : IR :=
  <[1%nat := OpCast castOfEmpty_op]>
    (<[0%nat := OpEmpty (EmptyOp.mk [scalarOf 10; scalarOf 11]
                                    (tensorOf [kDynamic; kDynamic]))]> ∅).

(** Reading the element iterator at a position: null outside the data. *)
Definition derefAt {A : Type} (elems : list A) (pos : Z) : option A :=
  if pos <? 0 then None else elems !! Z.to_nat pos.

(** [sliceElements]: the iterator [values] is a position in [elems], the
    pushed element is what the iterator points at there.  The arithmetic on
    positions cannot overflow on data that fits in memory and is that of
    the integers. *)
Fixpoint sliceElements {A : Type} (elems : list A) (values : Z)
         (counts offsets sizes strides : list Z) : list (option A) :=
  match offsets with
  | [] => []
  | offset :: offsets' =>
      let size := hd 0 sizes in
      let stride := hd 0 strides in
      match offsets' with
      | [] =>
          map (fun i => derefAt elems (values + (offset + Z.of_nat i * stride)))
              (seq 0 (Z.to_nat size))
      | _ :: _ =>
          flat_map
            (fun i =>
               sliceElements elems
                 (values + (offset + Z.of_nat i * stride) * hd 0 counts)
                 (tl counts) offsets' (tl sizes) (tl strides))
            (seq 0 (Z.to_nat size))
      end
  end.

(** The loop of [ConstantOpExtractSliceFolder] that computes [counts]:
    the number of elements to stride over in each dimension. *)
Fixpoint sliceCounts (count : Z) (shape : list Z) : list Z :=
  match shape with
  | [] => []
  | v :: rest =>
      let count := Z.quot count v in
      count :: sliceCounts count rest
  end.

(** One dimension of a slice of a constant: the extent of the source, the
    offset, size and stride of the slice, and the index of an element
    within the slice. *)
Module SliceDim.
Record t : Set := mk {
  extent : Z;
  offset : Z;
  size : Z;
  stride : Z;
  index : nat
}.
End SliceDim.

(** The number of elements of the source and of the slice. *)
Definition extentProduct (dims : list SliceDim.t) : Z :=
  fold_right (fun dim n => SliceDim.extent dim * n) 1 dims.

Definition outputCount (dims : list SliceDim.t) : nat :=
  fold_right (fun dim n => (Z.to_nat (SliceDim.size dim) * n)%nat) 1%nat dims.

(** Row-major position of the element within the slice. *)
Fixpoint outputIndex (dims : list SliceDim.t) : nat :=
  match dims with
  | [] => 0%nat
  | dim :: rest =>
      (SliceDim.index dim * outputCount rest + outputIndex rest)%nat
  end.

(** Row-major position, within the source, of the element the slice takes
    there. *)
Fixpoint sourceIndex (dims : list SliceDim.t) : Z :=
  match dims with
  | [] => 0
  | dim :: rest =>
      (SliceDim.offset dim + Z.of_nat (SliceDim.index dim) * SliceDim.stride dim)
      * extentProduct rest
      + sourceIndex rest
  end.

(** The slice [1, 0] [2, 2] [1, 2] of a [3x4] constant, at the element
    [1, 1] of the slice. *)
Definition sliceOf3x4 : list SliceDim.t :=
  [SliceDim.mk 3 1 2 1 1; SliceDim.mk 4 0 2 2 1].

(** [InsertSliceOp::build] with mixed offsets, sizes and strides: the
    result has the type of the destination. *)
Definition InsertSliceOp_build (source dest : Value)
           (offsets sizes strides : list OpFoldResult) : InsertSliceOp.t :=
  let '(dynamicOffsets, staticOffsets) := dispatchIndexOpFoldResults offsets in
  let '(dynamicSizes, staticSizes) := dispatchIndexOpFoldResults sizes in
  let '(dynamicStrides, staticStrides) := dispatchIndexOpFoldResults strides in
  InsertSliceOp.mk source dest dynamicOffsets dynamicSizes dynamicStrides
                   staticOffsets staticSizes staticStrides
                   (cast_TensorType (getType dest)).

(** The loop of [InsertSliceOpSourceCastInserter::matchAndRewrite]: the
    source shape with every constant size written in. *)
Definition newSourceShape (ir : IR) (insertSliceOp : InsertSliceOp.t)
           (srcShape : list Z) : list Z :=
  imap (fun i dimSize =>
          match getConstantIntValue ir (mixedAt (getMixedSizes insertSliceOp) i)
          with
          | Some constInt => constInt
          | None => dimSize
          end)
       srcShape.

(** [InsertSliceOpSourceCastInserter::matchAndRewrite] on the insert-slice
    with handle [this]. *)
Definition InsertSliceOpSourceCastInserter_matchAndRewrite
           (ir : IR) (this : nat) (insertSliceOp : InsertSliceOp.t)
  : IR * LogicalResult :=
  let srcType := cast_TensorType (getType (InsertSliceOp.getSource insertSliceOp)) in
  let destType := cast_TensorType (getType (InsertSliceOp.getDest insertSliceOp)) in
  if negb (getRank srcType =? getRank destType) then (ir, failure)
  else
    let newSrcShape := newSourceShape ir insertSliceOp (getShape srcType) in
    let newSrcType := RankedTensorType newSrcShape (getElementType srcType) None in
    if bool_decide (srcType = newSrcType)
       || negb (preservesStaticInformation (TensorTy srcType) (TensorTy newSrcType))
       || negb (CastOp_areCastCompatible [TensorTy srcType] [TensorTy newSrcType])
    then (ir, failure)
    else
      let '(ir1, cast) :=
        create ir (OpCast (CastOp.mk (InsertSliceOp.getSource insertSliceOp)
                                     newSrcType)) in
      (replaceOpWithNewOp
         ir1 this
         (OpInsertSlice
            (InsertSliceOp_build (getResult cast (TensorTy newSrcType))
                                 (InsertSliceOp.getDest insertSliceOp)
                                 (getMixedOffsets insertSliceOp)
                                 (getMixedSizes insertSliceOp)
                                 (getMixedStrides insertSliceOp))),
       success).

(** [%0 = a : tensor<?x?xf32>], [%1 = X : tensor<128x128xf32>],
    [%2 = tensor.insert_slice %0 into %1 [0, 0] [64, 64] [1, 1]]. *)
Definition insertOfDynamicSource_op : InsertSliceOp.t :=
  InsertSliceOp.mk (valueOf 0 [kDynamic; kDynamic]) (valueOf 1 [128; 128])
                   [] [] [] [0; 0] [64; 64] [1; 1] (tensorOf [128; 128]).

Definition insertOfDynamicSource : IR :=
  <[2%nat := OpInsertSlice insertOfDynamicSource_op]>
  (<[1%nat := OpOther "X" [] (TensorTy (tensorOf [128; 128]))]>
  (<[0%nat := OpOther "a" [] (TensorTy (tensorOf [kDynamic; kDynamic]))]> ∅)).

(** The product of a list of extents. *)
Definition extentsProduct (extents : list Z) : Z := fold_right Z.mul 1 extents.

(** The flat position of an index when the stride of a dimension is given
    by [stride] on the extents from that dimension on.  Row-major order
    takes the product of the extents that follow the dimension,
    [extentsProduct (tl suffix)]. *)
Fixpoint flatPosition (stride : list Z -> Z) (shape indices : list Z) : Z :=
  match shape, indices with
  | dimSize :: shape', i :: indices' =>
      i * stride (dimSize :: shape') + flatPosition stride shape' indices'
  | _, _ => 0
  end.

Definition rowMajorStride (suffix : list Z) : Z := extentsProduct (tl suffix).

(** The stride the loop of [ExtractOp::fold] arrives at: the product of the
    extents from the dimension on, the last one left out. *)
Definition foldStride (suffix : list Z) : Z := extentsProduct (removelast suffix).

(** [GenerateOp::verifyRegions]; the terminator of the body is a
    [tensor.yield] (the [cast] asserts it). *)
Definition GenerateOp_verifyRegions (op : GenerateOp.t) : LogicalResult :=
  let resultTy := GenerateOp.getType op in
  let body := GenerateOp.getBody op in
  if negb (forallb (fun ty => bool_decide (ty = ScalarTy Index))
                   (getArgumentTypes body))
  then failure
  else if negb (Z.of_nat (length (getArgumentTypes body)) =? getRank resultTy)
  then failure
  else
    match getYieldValue body with
    | Some value =>
        if negb (bool_decide (getType value
                              = ScalarTy (getElementType resultTy)))
        then failure
        else success
    | None => failure
    end.

Section StaticTensorGenerate.
(** [matchPattern(v, m_ConstantInt(&index))] is declared outside this
    file and taken as a parameter: the integer a value is the constant
    of, if any. *)
Variable m_ConstantInt : IR -> Value -> option Z.

(** The loop of [StaticTensorGenerate::matchAndRewrite]: the new shape and
    the remaining operands, [operandsIt] being the extents not yet
    consumed.  A verified operation has one extent per dynamic dimension;
    where a malformed one runs out of them the dimension stays dynamic. *)
Fixpoint staticGenerateDims (ir : IR) (shape : list Z) (operandsIt : list Value)
  : list Z * list Value :=
  match shape with
  | [] => ([], [])
  | dim :: rest =>
      if negb (isDynamic dim) then
        let '(newShape, newOperands) := staticGenerateDims ir rest operandsIt in
        (dim :: newShape, newOperands)
      else
        match operandsIt with
        | operand :: operandsIt' =>
            let '(newShape, newOperands) :=
              staticGenerateDims ir rest operandsIt' in
            match m_ConstantInt ir operand with
            | None => (kDynamic :: newShape, operand :: newOperands)
            | Some index => (index :: newShape, newOperands)
            end
        | [] =>
            let '(newShape, newOperands) := staticGenerateDims ir rest [] in
            (kDynamic :: newShape, newOperands)
        end
  end.

(** [StaticTensorGenerate::matchAndRewrite] on the [tensor.generate] with
    handle [this]; the body is moved to the new operation. *)
Definition StaticTensorGenerate_matchAndRewrite
           (ir : IR) (this : nat) (tensorFromElements : GenerateOp.t)
  : IR * LogicalResult :=
  let resultType := GenerateOp.getType tensorFromElements in
  if hasStaticShape resultType then (ir, failure)
  else
    let '(newShape, newOperands) :=
      staticGenerateDims ir (getShape resultType)
                         (GenerateOp.getOperands tensorFromElements) in
    if (length newOperands
        =? length (GenerateOp.getOperands tensorFromElements))%nat
    then (ir, failure)
    else
      let newType :=
        RankedTensorType newShape (getElementType resultType) None in
      let '(ir1, newOp) :=
        create ir (OpGenerate
                     (GenerateOp.mk newOperands
                                    (GenerateOp.getBody tensorFromElements)
                                    newType)) in
      (replaceOpWithNewOp
         ir1 this
         (OpCast (CastOp.mk (getResult newOp (TensorTy newType)) resultType)),
       success).
End StaticTensorGenerate.

(** [%0 = arith.constant 5 : index],
    [%1 = tensor.generate %arg0, %0 { ^bb0(%i, %j): ... yield %7 : f32 }
       : tensor<?x?xf32>]. *)
Definition generateWithConstantExtent_op : GenerateOp.t :=
  GenerateOp.mk [mkValue (BlockArgumentImpl 9 0) (ScalarTy Index); scalarOf 0]
                (mkBlock [ScalarTy Index; ScalarTy Index] []
                         (Some (getResult 7 (ScalarTy F32))))
                (tensorOf [kDynamic; kDynamic]).

Definition generateWithConstantExtent : IR :=
  <[1%nat := OpGenerate generateWithConstantExtent_op]>
    (<[0%nat := ConstantIndexOp 5]> ∅).

(** [SplatOp::fold]; [operands] holds the constant operand, null when it
    is not constant. *)
Definition SplatOp_fold (operands : list (option Attribute)) : option OpFoldResult :=
  match hd None operands with
  | Some (IntegerAttr i) =>
      Some (OfrAttribute (SplatElementsAttr (IntegerAttr i)))
  | Some (FloatAttr f) =>
      Some (OfrAttribute (SplatElementsAttr (FloatAttr f)))
  | _ => None
  end.

(** [InsertOp::fold]; [operands] are the constant operands: the scalar,
    the destination, then the indices. *)
Definition InsertOp_fold (operands : list (option Attribute)) : option OpFoldResult :=
  let scalar := nth 0 operands None in
  let dest := nth 1 operands None in
  match scalar, dest with
  | Some scalarAttr, Some destAttr =>
      match destAttr with
      | SplatElementsAttr splatValue =>
          if bool_decide (scalarAttr = splatValue)
          then Some (OfrAttribute destAttr)
          else None
      | _ => None
      end
  | _, _ => None
  end.

(** [ExtractOp::verify]. *)
Definition ExtractOp_verify (op : ExtractOp.t) : LogicalResult :=
  let tensorType := cast_TensorType (getType (ExtractOp.getTensor op)) in
  if negb (getRank tensorType =? Z.of_nat (length (ExtractOp.getIndices op)))
  then failure
  else success.

(** [ExtractFromTensorCast::matchAndRewrite] on the [tensor.extract] with
    handle [this]; the new operation yields an element of its tensor. *)
Definition ExtractFromTensorCast_matchAndRewrite
           (ir : IR) (this : nat) (extract : ExtractOp.t) : IR * LogicalResult :=
  match getDefiningOp_CastOp ir (ExtractOp.getTensor extract) with
  | None => (ir, failure)
  | Some tensorCast =>
      match dyn_cast_RankedTensorType (getType (CastOp.getSource tensorCast)) with
      | None => (ir, failure)
      | Some (_, elementType, _) =>
          (replaceOpWithNewOp
             ir this
             (OpExtract (ExtractOp.mk (CastOp.getSource tensorCast)
                                      (ExtractOp.getIndices extract)
                                      (ScalarTy elementType))),
           success)
      end
  end.

(** [%0 = V : tensor<?x4xf32>],
    [%1 = tensor.cast %0 : tensor<?x4xf32> to tensor<2x4xf32>],
    [%2 = tensor.extract %1[%8, %9]]. *)
Definition extractOfCast_op : ExtractOp.t :=
  ExtractOp.mk (valueOf 1 [2; 4]) [scalarOf 8; scalarOf 9] (ScalarTy F32).

Definition extractOfCast : IR :=
  <[2%nat := OpExtract extractOfCast_op]>
  (<[1%nat := OpCast (CastOp.mk (valueOf 0 [kDynamic; 4]) (tensorOf [2; 4]))]>
  (<[0%nat := OpOther "V" [] (TensorTy (tensorOf [kDynamic; 4]))]> ∅)).

(* ===================================================================== *)
(** ** Theorems *)
(* ===================================================================== *)

(** *** Helper facts on the sentinel *)

Lemma isDynamic_true (d : Z) : isDynamic d = true <-> d = kDynamic.
Proof. unfold isDynamic. apply Z.eqb_eq. Qed.

Lemma isDynamic_false (d : Z) : isDynamic d = false <-> d <> kDynamic.
Proof. unfold isDynamic. apply Z.eqb_neq. Qed.

Lemma isDynamic_kDynamic : isDynamic kDynamic = true.
Proof. reflexivity. Qed.

(** *** preservesStaticInformation *)

Lemma noStaticToDynamic_spec (s t : list Z) :
  noStaticToDynamic (combine s t) = true <->
  forall i a b, s !! i = Some a -> t !! i = Some b ->
                isDynamic a = false -> isDynamic b = false.
Proof.
  revert t. induction s as [|x s IH]; intros [|y t]; simpl.
  - split; [intros _ i a b Ha; destruct i; discriminate | reflexivity].
  - split; [intros _ i a b Ha; destruct i; discriminate | reflexivity].
  - split; [intros _ i a b _ Hb; destruct i; discriminate | reflexivity].
  - destruct (isDynamic x) eqn:Hx, (isDynamic y) eqn:Hy; simpl.
    + rewrite IH. split.
      * intros H [|i] a b Ha Hb; simpl in *; [congruence | eauto].
      * intros H i a b Ha Hb. apply (H (S i)); assumption.
    + rewrite IH. split.
      * intros H [|i] a b Ha Hb; simpl in *; [congruence | eauto].
      * intros H i a b Ha Hb. apply (H (S i)); assumption.
    + split; [discriminate |].
      intros H. specialize (H 0%nat x y eq_refl eq_refl Hx). congruence.
    + rewrite IH. split.
      * intros H [|i] a b Ha Hb; simpl in *; [congruence | eauto].
      * intros H i a b Ha Hb. apply (H (S i)); assumption.
Qed.

Lemma preservesStaticInformation_ranked
      (s t : list Z) (e : ElementType) (encS encT : option Z) :
  length s = length t ->
  preservesStaticInformation (TensorTy (RankedTensorType s e encS))
                             (TensorTy (RankedTensorType t e encT))
  = noStaticToDynamic (combine s t).
Proof.
  intros Hlen. unfold preservesStaticInformation. simpl.
  rewrite bool_decide_eq_true_2 by reflexivity. simpl.
  rewrite Hlen, Nat.eqb_refl. reflexivity.
Qed.

Lemma same_dynamic_dims_lookup (s t : list Z) :
  length s = length t ->
  (Forall2 (fun a b => isDynamic a = isDynamic b) s t <->
   forall i a b, s !! i = Some a -> t !! i = Some b ->
                 isDynamic a = isDynamic b).
Proof.
  intros Hlen. rewrite Forall2_lookup. split.
  - intros H i a b Ha Hb. specialize (H i). rewrite Ha, Hb in H.
    inversion H; assumption.
  - intros H i. destruct (s !! i) as [a|] eqn:Ha, (t !! i) as [b|] eqn:Hb.
    + constructor. eauto.
    + apply lookup_lt_Some in Ha. apply lookup_ge_None in Hb. lia.
    + apply lookup_lt_Some in Hb. apply lookup_ge_None in Ha. lia.
    + constructor.
Qed.

(** C3 (as amended).  For ranked tensor types [S] and [T] of one rank and
    one element type, [preservesStaticInformation S T] and
    [preservesStaticInformation T S] both hold exactly when [S] and [T] are
    dynamic in the same dimensions; identical shapes are one such case.
    When [T] is [S] with one static dimension made dynamic, only the
    direction from [T] to [S] holds. *)
Theorem preservesStaticInformation_both_directions
        (s t : list Z) (e : ElementType) (encS encT : option Z) :
  length s = length t ->
  let S := TensorTy (RankedTensorType s e encS) in
  let T := TensorTy (RankedTensorType t e encT) in
  ((preservesStaticInformation S T = true /\
    preservesStaticInformation T S = true)
   <-> Forall2 (fun a b => isDynamic a = isDynamic b) s t)
  /\ (s = t ->
      preservesStaticInformation S T = true /\
      preservesStaticInformation T S = true)
  /\ (forall i d, s !! i = Some d -> isDynamic d = false ->
        t = <[i := kDynamic]> s ->
        preservesStaticInformation T S = true /\
        preservesStaticInformation S T = false).
Proof.
  intros Hlen S T. subst S T.
  rewrite (preservesStaticInformation_ranked s t e encS encT Hlen).
  rewrite (preservesStaticInformation_ranked t s e encT encS (eq_sym Hlen)).
  assert (Hboth :
    noStaticToDynamic (combine s t) = true /\
    noStaticToDynamic (combine t s) = true
    <-> Forall2 (fun a b => isDynamic a = isDynamic b) s t).
  { rewrite (same_dynamic_dims_lookup s t Hlen).
    rewrite !noStaticToDynamic_spec. split.
    - intros [Hst Hts] i a b Ha Hb.
      destruct (isDynamic a) eqn:Da, (isDynamic b) eqn:Db; try reflexivity.
      + pose proof (Hts i b a Hb Ha Db). congruence.
      + pose proof (Hst i a b Ha Hb Da). congruence.
    - intros H. split; intros i a b Ha Hb Hs.
      + rewrite <- (H i a b Ha Hb). exact Hs.
      + rewrite (H i b a Hb Ha). exact Hs. }
  split; [exact Hboth |]. split.
  - intros ->. apply Hboth. apply Forall2_lookup. intros i.
    destruct (t !! i); constructor. reflexivity.
  - intros i d Hi Hd ->. split.
    + apply noStaticToDynamic_spec. intros j a b Ha Hb Hs.
      destruct (decide (i = j)) as [<- | Hne].
      * rewrite list_lookup_insert_eq in Ha by (eapply lookup_lt_Some; eauto).
        inversion Ha; subst a. discriminate Hs.
      * rewrite list_lookup_insert_ne in Ha by assumption. congruence.
    + destruct (noStaticToDynamic (combine s (<[i:=kDynamic]> s))) eqn:Hn;
        [| reflexivity].
      rewrite noStaticToDynamic_spec in Hn.
      specialize (Hn i d kDynamic Hi).
      rewrite list_lookup_insert_eq in Hn by (eapply lookup_lt_Some; eauto).
      specialize (Hn eq_refl Hd). discriminate Hn.
Qed.

(** Witness for C3: [8x16] against [8x?]. *)
Lemma preservesStaticInformation_both_directions_witness :
  preservesStaticInformation
    (TensorTy (RankedTensorType [8; kDynamic] F32 None))
    (TensorTy (RankedTensorType [8; 16] F32 None)) = true
  /\ preservesStaticInformation
       (TensorTy (RankedTensorType [8; 16] F32 None))
       (TensorTy (RankedTensorType [8; kDynamic] F32 None)) = false.
Proof.
  apply (proj2 (proj2 (preservesStaticInformation_both_directions
                         [8; 16] [8; kDynamic] F32 None None eq_refl))
           1%nat 16); reflexivity.
Defined.

(** Counterexample to C3 as stated: [8] and [16] preserve static
    information in both directions although the shapes differ; and with
    [S = 8] static and [T = ?] dynamic the direction from [S] to [T] is the
    one that fails. *)
Lemma preservesStaticInformation_not_identical_shapes :
  (preservesStaticInformation (TensorTy (RankedTensorType [8] F32 None))
                              (TensorTy (RankedTensorType [16] F32 None)) = true
   /\ preservesStaticInformation (TensorTy (RankedTensorType [16] F32 None))
                                 (TensorTy (RankedTensorType [8] F32 None)) = true
   /\ [8] <> [16])
  /\ (preservesStaticInformation
        (TensorTy (RankedTensorType [8] F32 None))
        (TensorTy (RankedTensorType [kDynamic] F32 None)) = false
      /\ preservesStaticInformation
           (TensorTy (RankedTensorType [kDynamic] F32 None))
           (TensorTy (RankedTensorType [8] F32 None)) = true).
Proof. repeat split; try reflexivity. discriminate. Qed.

(** [?x?] to [8x16] gains static information in every dimension. *)
Example preservesStaticInformation_dynamic_to_static :
  preservesStaticInformation
    (TensorTy (RankedTensorType [kDynamic; kDynamic] F32 None))
    (TensorTy (RankedTensorType [8; 16] F32 None)) = true.
Proof. reflexivity. Qed.

(** *** joinShapes *)

Lemma joinDims_comm (one two : list Z) : joinDims one two = joinDims two one.
Proof.
  revert two. induction one as [|a one IH]; intros [|b two]; simpl; try reflexivity.
  rewrite (IH two).
  destruct (isDynamic a) eqn:Da, (isDynamic b) eqn:Db; simpl; try reflexivity.
  - apply isDynamic_true in Da, Db. subst. reflexivity.
  - rewrite (Z.eqb_sym b a). destruct (a =? b) eqn:Hab; simpl; [| reflexivity].
    apply Z.eqb_eq in Hab. subst. reflexivity.
Qed.

Lemma joinDims_Some (one two join : list Z) :
  length one = length two ->
  joinDims one two = Some join ->
  length join = length one /\
  forall i a b, one !! i = Some a -> two !! i = Some b ->
    join !! i = Some (if isDynamic a then b else a) /\
    (isDynamic a = false -> isDynamic b = false -> a = b).
Proof.
  revert two join. induction one as [|a one IH]; intros [|b two] join Hlen H;
    simpl in *; try discriminate.
  - inversion H; subst. split; [reflexivity |]. intros i ? ? Hi. destruct i; discriminate.
  - assert (Hl : length one = length two) by lia.
    assert (Hcons : forall d, cons d <$> joinDims one two = Some join ->
              (isDynamic a = false -> isDynamic b = false -> a = b) ->
              d = (if isDynamic a then b else a) ->
              length join = S (length one) /\
              forall i a0 b0, (a :: one) !! i = Some a0 -> (b :: two) !! i = Some b0 ->
                join !! i = Some (if isDynamic a0 then b0 else a0) /\
                (isDynamic a0 = false -> isDynamic b0 = false -> a0 = b0)).
    { intros d Hd Hab ->. destruct (joinDims one two) as [j|] eqn:Hj; [| discriminate].
      simpl in Hd. inversion Hd; subst join. destruct (IH two j Hl Hj) as [IHl IHi].
      split; [simpl; lia |]. intros [|i] a0 b0 Ha0 Hb0; simpl in *.
      - inversion Ha0; inversion Hb0; subst. split; [reflexivity | exact Hab].
      - apply IHi; assumption. }
    destruct (isDynamic a) eqn:Da.
    + apply (Hcons b H); [discriminate | reflexivity].
    + destruct (isDynamic b) eqn:Db.
      * apply (Hcons a H); [discriminate | reflexivity].
      * destruct (a =? b) eqn:Hab; simpl in H; [| discriminate].
        apply Z.eqb_eq in Hab. apply (Hcons a H); [intros; exact Hab | reflexivity].
Qed.

Lemma joinDims_None (one two : list Z) :
  length one = length two ->
  (joinDims one two = None <->
   exists i a b, one !! i = Some a /\ two !! i = Some b /\
                 isDynamic a = false /\ isDynamic b = false /\ a <> b).
Proof.
  revert two. induction one as [|a one IH]; intros [|b two] Hlen; simpl in *;
    try discriminate.
  - split; [discriminate | intros (i & ? & ? & Hi & _); destruct i; discriminate].
  - assert (Hl : length one = length two) by lia. specialize (IH two Hl).
    assert (Htail : forall d, (isDynamic a = false -> isDynamic b = false -> a = b) ->
              (cons d <$> joinDims one two = None <->
               exists i a0 b0, (a :: one) !! i = Some a0 /\ (b :: two) !! i = Some b0 /\
                 isDynamic a0 = false /\ isDynamic b0 = false /\ a0 <> b0)).
    { intros d Hab. rewrite fmap_None, IH. split.
      - intros (i & a0 & b0 & H). exists (S i), a0, b0. exact H.
      - intros ([|i] & a0 & b0 & Ha0 & Hb0 & Da0 & Db0 & Hne); simpl in *.
        + inversion Ha0; inversion Hb0; subst. exfalso. apply Hne. auto.
        + exists i, a0, b0. auto. }
    destruct (isDynamic a) eqn:Da.
    + apply Htail. discriminate.
    + destruct (isDynamic b) eqn:Db.
      * apply Htail. discriminate.
      * destruct (a =? b) eqn:Hab; simpl.
        -- apply Z.eqb_eq in Hab. apply Htail. auto.
        -- apply Z.eqb_neq in Hab. split; [| reflexivity].
           intros _. exists 0%nat, a, b. auto.
Qed.

(** C5.  The join of two ranked tensor types of one element type is
    commutative; when it exists the ranks agree and each result dimension
    carries the static extent of whichever input is static there, being
    dynamic only where both inputs are; and it does not exist exactly when
    the ranks differ or some dimension has two different static extents. *)
Theorem joinShapes_commutative_most_static
        (s1 s2 : list Z) (e : ElementType) (enc1 enc2 : option Z) :
  let one := RankedTensorType s1 e enc1 in
  let two := RankedTensorType s2 e enc2 in
  joinShapes one two = joinShapes two one
  /\ (forall join, joinShapes one two = Some join ->
        length s1 = length s2 /\
        exists sj, join = RankedTensorType sj e None /\
          length sj = length s1 /\
          forall i a b, s1 !! i = Some a -> s2 !! i = Some b ->
            exists d, sj !! i = Some d
              /\ (isDynamic a = false -> d = a)
              /\ (isDynamic b = false -> d = b)
              /\ (isDynamic d = true <->
                  isDynamic a = true /\ isDynamic b = true))
  /\ (joinShapes one two = None <->
        length s1 <> length s2 \/
        exists i a b, s1 !! i = Some a /\ s2 !! i = Some b /\
          isDynamic a = false /\ isDynamic b = false /\ a <> b).
Proof.
  intros one two. subst one two. unfold joinShapes.
  rewrite (Nat.eqb_sym (length s2) (length s1)), (joinDims_comm s2 s1).
  split; [reflexivity |].
  destruct (Nat.eqb_spec (length s1) (length s2)) as [Hlen | Hlen]; simpl.
  - split.
    + intros join Hj. split; [exact Hlen |].
      destruct (joinDims s1 s2) as [sj|] eqn:Hd; [| discriminate].
      inversion Hj; subst join. exists sj. split; [reflexivity |].
      destruct (joinDims_Some s1 s2 sj Hlen Hd) as [Hl Hi].
      split; [exact Hl |]. intros i a b Ha Hb.
      destruct (Hi i a b Ha Hb) as [Hsj Hab].
      exists (if isDynamic a then b else a). split; [exact Hsj |].
      destruct (isDynamic a) eqn:Da, (isDynamic b) eqn:Db;
        repeat split; try congruence; try (intros [? ?]; congruence); auto.
    + destruct (joinDims s1 s2) as [sj|] eqn:Hd.
      * split; [discriminate |]. intros [Hne | Hex]; [contradiction |].
        apply (joinDims_None s1 s2 Hlen) in Hex. congruence.
      * split; [| reflexivity]. intros _. right.
        apply (joinDims_None s1 s2 Hlen). exact Hd.
  - split; [discriminate |]. split; [intros _; left; exact Hlen | reflexivity].
Qed.

(** *** Chained casts *)

(** A cast that verifies has a join: the inner [joinShapes] of
    [ChainedTensorCast] is never null on verified IR. *)
Lemma areCastCompatible_joinShapes (a b : TensorType) :
  CastOp_areCastCompatible [TensorTy a] [TensorTy b] = true ->
  is_Some (joinShapes a b).
Proof.
  unfold CastOp_areCastCompatible. simpl.
  destruct (bool_decide (getElementType a = getElementType b)); simpl;
    [| discriminate].
  destruct a as [s1 e1 enc1 | e1], b as [s2 e2 enc2 | e2]; simpl; eauto.
  destruct (Nat.eqb_spec (length s1) (length s2)) as [Hlen | Hlen]; simpl;
    [| discriminate].
  destruct (joinDims s1 s2) eqn:Hj; [eauto |].
  apply (joinDims_None s1 s2 Hlen) in Hj.
  destruct Hj as (i & x & y & Hx & Hy & Dx & Dy & Hne).
  intros Hall. exfalso.
  destruct (forallb (fun '(x, y) => isDynamic x || isDynamic y || (x =? y))
                    (combine s1 s2)) eqn:Hf; [| discriminate].
  rewrite forallb_forall in Hf.
  assert (Hin : In (x, y) (combine s1 s2)).
  { apply list_elem_of_In. apply list_elem_of_lookup. exists i.
    apply lookup_zip_with_Some. exists x, y. auto. }
  specialize (Hf _ Hin). simpl in Hf. rewrite Dx, Dy in Hf. simpl in Hf.
  apply Z.eqb_eq in Hf. contradiction.
Qed.

(** C4.  For a cast [this] whose operand is produced by a cast
    [tensorCastOperand] with a tensor-typed source, the pattern succeeds
    exactly when the three-way join of source, intermediate and result
    types exists and equals the two-way join of source and result; it then
    replaces [this] by one cast from the source to the result type, and
    otherwise reports failure and leaves the IR, and with it the
    intermediate cast, as it was. *)
Theorem ChainedTensorCast_collapses_iff_join_lossless
        (ir : IR) (tensorCast : nat) (this tensorCastOperand : CastOp.t)
        (sourceType : TensorType) :
  ir !! tensorCast = Some (OpCast this) ->
  getDefiningOp_CastOp ir (CastOp.getSource this) = Some tensorCastOperand ->
  getType (CastOp.getSource tensorCastOperand) = TensorTy sourceType ->
  let intermediateType := CastOp.getType tensorCastOperand in
  let resultType := CastOp.getType this in
  let threeWay :=
    joinShapes sourceType intermediateType
      ≫= (fun j => joinShapes j resultType) in
  let twoWay := joinShapes sourceType resultType in
  let out := ChainedTensorCast_matchAndRewrite ir tensorCast in
  (out.2 = success <-> is_Some threeWay /\ threeWay = twoWay)
  /\ (out.2 = success ->
      out.1 = <[tensorCast :=
                  OpCast (CastOp.mk (CastOp.getSource tensorCastOperand)
                                    resultType)]> ir)
  /\ (out.2 = failure <-> ~ (is_Some threeWay /\ threeWay = twoWay))
  /\ (out.2 = failure -> out.1 = ir).
Proof.
  intros Hthis Hdef Hty intermediateType resultType threeWay twoWay out.
  subst out. unfold ChainedTensorCast_matchAndRewrite.
  rewrite Hthis, Hdef, Hty. simpl.
  fold intermediateType resultType.
  change (match joinShapes sourceType intermediateType with
          | Some j => joinShapes j resultType
          | None => None
          end) with threeWay.
  fold twoWay.
  destruct threeWay as [j|] eqn:H3; simpl.
  - destruct (decide (Some j = twoWay)) as [Heq | Hne].
    + rewrite bool_decide_eq_true_2 by exact Heq. simpl. split_and!.
      * split; [intros _; split; [eauto | exact Heq] | reflexivity].
      * intros _. reflexivity.
      * split; [discriminate |].
        intros Hn. exfalso. apply Hn. split; [eauto | exact Heq].
      * discriminate.
    + rewrite bool_decide_eq_false_2 by exact Hne. simpl. split_and!.
      * split; [discriminate | intros [_ ?]; contradiction].
      * discriminate.
      * split; [intros _ [_ ?]; contradiction | reflexivity].
      * intros _. reflexivity.
  - split_and!.
    + split; [discriminate | intros [[? ?] _]; discriminate].
    + discriminate.
    + split; [intros _ [[? ?] _]; discriminate | reflexivity].
    + intros _. reflexivity.
Qed.

(** Witness for C4: [?x? -> 8x? -> 8x16] collapses. *)
Lemma ChainedTensorCast_collapses_witness :
  (ChainedTensorCast_matchAndRewrite
     (chainedCasts [8; kDynamic] [8; 16]) 2).2 = success
  /\ (ChainedTensorCast_matchAndRewrite
        (chainedCasts [8; kDynamic] [8; 16]) 2).1
     = <[2%nat := OpCast (CastOp.mk
                            (getResult 0
                               (TensorTy (tensorOf [kDynamic; kDynamic])))
                            (tensorOf [8; 16]))]>
         (chainedCasts [8; kDynamic] [8; 16]).
Proof.
  pose proof (ChainedTensorCast_collapses_iff_join_lossless
                (chainedCasts [8; kDynamic] [8; 16]) 2
                (CastOp.mk (getResult 1 (TensorTy (tensorOf [8; kDynamic])))
                           (tensorOf [8; 16]))
                (CastOp.mk (getResult 0
                              (TensorTy (tensorOf [kDynamic; kDynamic])))
                           (tensorOf [8; kDynamic]))
                (tensorOf [kDynamic; kDynamic])
                eq_refl eq_refl eq_refl) as (Hiff & Hout & _).
  assert (Hs : (ChainedTensorCast_matchAndRewrite
                  (chainedCasts [8; kDynamic] [8; 16]) 2).2 = success).
  { apply Hiff. split; [eexists |]; reflexivity. }
  split; [exact Hs | exact (Hout Hs)].
Defined.

(** [?x? -> 8x? -> ?x16]: the middle cast asserts the extent 8, which the
    end points do not give; the pattern declines. *)
Example ChainedTensorCast_keeps_runtime_check :
  ChainedTensorCast_matchAndRewrite (chainedCasts [8; kDynamic] [kDynamic; 16]) 2
  = (chainedCasts [8; kDynamic] [kDynamic; 16], failure).
Proof. reflexivity. Qed.

(** [?x? -> 8x? -> 16x?]: the three-way join does not exist. *)
Example ChainedTensorCast_no_join :
  ChainedTensorCast_matchAndRewrite (chainedCasts [8; kDynamic] [16; kDynamic]) 2
  = (chainedCasts [8; kDynamic] [16; kDynamic], failure).
Proof. reflexivity. Qed.

(** *** Insert-slice folds *)

Lemma sameMixed_isSame (xs ys : list OpFoldResult) :
  sameMixed isSame xs ys = true <-> xs = ys.
Proof.
  unfold sameMixed. revert ys.
  induction xs as [|x xs IH]; intros [|y ys]; simpl;
    try (split; [discriminate | congruence]); [tauto |].
  specialize (IH ys). unfold isSame at 1.
  destruct (decide (x = y)) as [-> | Hne].
  - rewrite bool_decide_eq_true_2 by reflexivity. simpl.
    rewrite IH. split; congruence.
  - rewrite bool_decide_eq_false_2 by exact Hne.
    rewrite andb_false_r. split; [discriminate | congruence].
Qed.

Lemma isSameAs_isSame {A B : Set} `{OffsetSizeAndStrideOpInterface A}
      `{OffsetSizeAndStrideOpInterface B} (a : A) (b : B) :
  isSameAs a b isSame = true <->
  getMixedOffsets a = getMixedOffsets b
  /\ getMixedSizes a = getMixedSizes b
  /\ getMixedStrides a = getMixedStrides b.
Proof.
  unfold isSameAs. rewrite !andb_true_iff, !sameMixed_isSame. tauto.
Qed.

(** A failed [foldInsertAfterInsertSlice] leaves the IR as it was. *)
Lemma foldInsertAfterInsertSlice_failure (ir : IR) (this : nat) :
  (foldInsertAfterInsertSlice ir this).2 = failure ->
  (foldInsertAfterInsertSlice ir this).1 = ir.
Proof.
  unfold foldInsertAfterInsertSlice.
  destruct (ir !! this) as [[| | | | | | |op| | |]|]; try reflexivity.
  destruct (getDefiningOp_InsertSliceOp ir (InsertSliceOp.getDest op));
    [| reflexivity].
  destruct (_ || _); [reflexivity | discriminate].
Qed.

(** C10.  When the destination of the insert-slice [this] is produced by an
    insert-slice with the same source type and identical mixed offsets,
    sizes and strides, [foldInsertAfterInsertSlice] succeeds and only
    re-points the destination operand of [this]; when the identity rule
    does not apply first, [InsertSliceOp::fold] does exactly that and
    returns the operation's own result.  The source operand, the static
    and dynamic offsets, sizes and strides and the result type of [this]
    are kept, and no other operation changes. *)
Theorem InsertSliceOp_fold_after_insert_frame
        (ir : IR) (this : nat) (insertOp prevInsertOp : InsertSliceOp.t) :
  ir !! this = Some (OpInsertSlice insertOp) ->
  getDefiningOp_InsertSliceOp ir (InsertSliceOp.getDest insertOp)
    = Some prevInsertOp ->
  getType (InsertSliceOp.getSource prevInsertOp)
    = getType (InsertSliceOp.getSource insertOp) ->
  getMixedOffsets prevInsertOp = getMixedOffsets insertOp ->
  getMixedSizes prevInsertOp = getMixedSizes insertOp ->
  getMixedStrides prevInsertOp = getMixedStrides insertOp ->
  exists insertOp',
    foldInsertAfterInsertSlice ir this
      = (<[this := OpInsertSlice insertOp']> ir, success)
    /\ (InsertSliceOp_isIdentity ir insertOp = false ->
        InsertSliceOp_fold ir this
        = (<[this := OpInsertSlice insertOp']> ir,
           Some (OfrValue
                   (getResult this
                      (TensorTy (InsertSliceOp.getType insertOp))))))
    /\ InsertSliceOp.getDest insertOp' = InsertSliceOp.getDest prevInsertOp
    /\ InsertSliceOp.getSource insertOp' = InsertSliceOp.getSource insertOp
    /\ InsertSliceOp.getOffsets insertOp' = InsertSliceOp.getOffsets insertOp
    /\ InsertSliceOp.getSizes insertOp' = InsertSliceOp.getSizes insertOp
    /\ InsertSliceOp.getStrides insertOp' = InsertSliceOp.getStrides insertOp
    /\ InsertSliceOp.getStaticOffsets insertOp'
       = InsertSliceOp.getStaticOffsets insertOp
    /\ InsertSliceOp.getStaticSizes insertOp'
       = InsertSliceOp.getStaticSizes insertOp
    /\ InsertSliceOp.getStaticStrides insertOp'
       = InsertSliceOp.getStaticStrides insertOp
    /\ InsertSliceOp.getType insertOp' = InsertSliceOp.getType insertOp
    /\ (forall other, other <> this ->
          (<[this := OpInsertSlice insertOp']> ir) !! other = ir !! other).
Proof.
  intros Hthis Hprev Hty Hoff Hsz Hstr.
  assert (Hsame : isSameAs prevInsertOp insertOp isSame = true)
    by (apply isSameAs_isSame; auto).
  assert (Hfold : foldInsertAfterInsertSlice ir this
            = (<[this := OpInsertSlice
                           (InsertSliceOp.assignDest
                              insertOp (InsertSliceOp.getDest prevInsertOp))]> ir,
               success)).
  { unfold foldInsertAfterInsertSlice. rewrite Hthis, Hprev, Hsame.
    rewrite bool_decide_eq_true_2 by exact Hty. reflexivity. }
  exists (InsertSliceOp.assignDest insertOp (InsertSliceOp.getDest prevInsertOp)).
  split; [exact Hfold |]. split.
  - intros Hid. unfold InsertSliceOp_fold. rewrite Hthis, Hid, Hfold.
    reflexivity.
  - repeat (split; [reflexivity |]).
    intros other Hne. apply lookup_insert_ne. congruence.
Qed.

(** C7 (as amended).  When the source of the insert-slice [this] is produced
    by an extract-slice whose source is the destination of [this], with
    identical mixed offsets, sizes and strides, [foldInsertAfterExtractSlice]
    returns that destination; and [InsertSliceOp::fold] folds to it, leaving
    the IR as it was, when neither of the two rules it tries first applies
    (the identity rule and the insert-after-insert rule). *)
Theorem InsertSliceOp_fold_after_extract
        (ir : IR) (this : nat) (insertOp : InsertSliceOp.t)
        (extractOp : ExtractSliceOp.t) :
  ir !! this = Some (OpInsertSlice insertOp) ->
  getDefiningOp_ExtractSliceOp ir (InsertSliceOp.getSource insertOp)
    = Some extractOp ->
  ExtractSliceOp.getSource extractOp = InsertSliceOp.getDest insertOp ->
  getMixedOffsets extractOp = getMixedOffsets insertOp ->
  getMixedSizes extractOp = getMixedSizes insertOp ->
  getMixedStrides extractOp = getMixedStrides insertOp ->
  foldInsertAfterExtractSlice ir this = Some (InsertSliceOp.getDest insertOp)
  /\ (InsertSliceOp_isIdentity ir insertOp = false ->
      (foldInsertAfterInsertSlice ir this).2 = failure ->
      InsertSliceOp_fold ir this
      = (ir, Some (OfrValue (InsertSliceOp.getDest insertOp)))).
Proof.
  intros Hthis Hext Hsrc Hoff Hsz Hstr.
  assert (Hsame : isSameAs extractOp insertOp isSame = true)
    by (apply isSameAs_isSame; auto).
  assert (Hfold : foldInsertAfterExtractSlice ir this
                  = Some (InsertSliceOp.getDest insertOp)).
  { unfold foldInsertAfterExtractSlice. rewrite Hthis, Hext, Hsame.
    rewrite bool_decide_eq_true_2 by exact Hsrc. simpl. congruence. }
  split; [exact Hfold |].
  intros Hid Hfail. unfold InsertSliceOp_fold. rewrite Hthis, Hid.
  pose proof (foldInsertAfterInsertSlice_failure ir this Hfail) as Hir.
  destruct (foldInsertAfterInsertSlice ir this) as [ir' r]. simpl in *.
  subst ir' r. rewrite Hfold. reflexivity.
Qed.

(** Witness for C10: the second of two insert-slices at [0, 0] [4, 4]
    [1, 1] is re-pointed from [%3] to [%0]. *)
Lemma InsertSliceOp_fold_after_insert_frame_witness :
  exists insertOp',
    InsertSliceOp_fold insertAfterInsert 4
    = (<[4%nat := OpInsertSlice insertOp']> insertAfterInsert,
       Some (OfrValue (valueOf 4 [8; 8])))
    /\ InsertSliceOp.getDest insertOp' = valueOf 0 [8; 8]
    /\ InsertSliceOp.getSource insertOp' = valueOf 2 [4; 4].
Proof.
  destruct (InsertSliceOp_fold_after_insert_frame
              insertAfterInsert 4
              (InsertSliceOp.mk (valueOf 2 [4; 4]) (valueOf 3 [8; 8]) [] [] []
                                [0; 0] [4; 4] [1; 1] (tensorOf [8; 8]))
              (InsertSliceOp.mk (valueOf 1 [4; 4]) (valueOf 0 [8; 8]) [] [] []
                                [0; 0] [4; 4] [1; 1] (tensorOf [8; 8]))
              eq_refl eq_refl eq_refl eq_refl eq_refl eq_refl)
    as (insertOp' & _ & Hfold & Hdest & Hsource & _).
  exists insertOp'. split; [apply Hfold; reflexivity |].
  split; [exact Hdest | exact Hsource].
Defined.

(** Witness for C7: extracting [2, 2] [4, 4] [1, 1] from [X] and inserting
    it back folds to [X]. *)
Lemma InsertSliceOp_fold_after_extract_witness :
  foldInsertAfterExtractSlice (roundTrip [2; 2] [4; 4]) 2
  = Some (valueOf 0 [8; 8])
  /\ InsertSliceOp_fold (roundTrip [2; 2] [4; 4]) 2
     = (roundTrip [2; 2] [4; 4], Some (OfrValue (valueOf 0 [8; 8]))).
Proof.
  destruct (InsertSliceOp_fold_after_extract
              (roundTrip [2; 2] [4; 4]) 2
              (InsertSliceOp.mk (valueOf 1 [4; 4]) (valueOf 0 [8; 8]) [] [] []
                                [2; 2] [4; 4] [1; 1] (tensorOf [8; 8]))
              (ExtractSliceOp.mk (valueOf 0 [8; 8]) [] [] []
                                 [2; 2] [4; 4] [1; 1] (tensorOf [4; 4]))
              eq_refl eq_refl eq_refl eq_refl eq_refl eq_refl)
    as [Hhelper Hfold].
  split; [exact Hhelper | apply Hfold; reflexivity].
Defined.

(** Counterexample to C7 as stated.  With [X : tensor<8x8xf32>], offsets
    [0, 0] and sizes [8, 8], the insert's source is the extract's result,
    the extract's source is the insert's destination and the slice
    coordinates are identical, yet [InsertSliceOp::fold] returns the
    extract-slice result [%1] (identity rule), not [X = %0].  And when [X]
    is itself produced by an insert-slice at the same coordinates, the fold
    re-points the destination and returns the operation's own result. *)
Lemma InsertSliceOp_fold_after_extract_not_X :
  (getDefiningOp_ExtractSliceOp (roundTrip [0; 0] [8; 8]) (valueOf 1 [8; 8])
   = Some (ExtractSliceOp.mk (valueOf 0 [8; 8]) [] [] []
                             [0; 0] [8; 8] [1; 1] (tensorOf [8; 8]))
   /\ roundTrip [0; 0] [8; 8] !! 2%nat
      = Some (insertSliceOf (valueOf 1 [8; 8]) (valueOf 0 [8; 8])
                            [0; 0] [8; 8] [1; 1] [8; 8])
   /\ InsertSliceOp_fold (roundTrip [0; 0] [8; 8]) 2
      = (roundTrip [0; 0] [8; 8], Some (OfrValue (valueOf 1 [8; 8])))
   /\ valueOf 1 [8; 8] <> valueOf 0 [8; 8])
  /\ (foldInsertAfterExtractSlice roundTripOfInsert 4
      = Some (valueOf 2 [8; 8])
      /\ InsertSliceOp_fold roundTripOfInsert 4
         = (<[4%nat := insertSliceOf (valueOf 3 [4; 4]) (valueOf 0 [8; 8])
                                     [0; 0] [4; 4] [1; 1] [8; 8]]>
              roundTripOfInsert,
            Some (OfrValue (valueOf 4 [8; 8])))
      /\ valueOf 4 [8; 8] <> valueOf 2 [8; 8]).
Proof.
  split; [split_and! | split_and!]; try reflexivity; discriminate.
Qed.

(** *** Gather *)

Lemma strictlyIncreasing_tail (a : Z) (l : list Z) :
  strictlyIncreasing (a :: l) -> strictlyIncreasing l.
Proof.
  intros H i j x y Hij Hx Hy. apply (H (S i) (S j) x y); [lia | exact Hx | exact Hy].
Qed.

Lemma gatherDimsIncreasing_spec (dims : list Z) :
  gatherDimsIncreasing dims = true <-> strictlyIncreasing dims.
Proof.
  induction dims as [|prev rest IH].
  - split; [| reflexivity]. intros _ i j a b _ Ha. destruct i; discriminate.
  - destruct rest as [|next rest'].
    + split; [| reflexivity]. intros _ i j a b Hij Ha Hb.
      destruct j; [lia | destruct j; discriminate].
    + change (gatherDimsIncreasing (prev :: next :: rest'))
        with (if prev >=? next then false
              else gatherDimsIncreasing (next :: rest')).
      destruct (Z.geb_spec prev next) as [Hge | Hlt].
      * split; [discriminate |]. intros H.
        specialize (H 0%nat 1%nat prev next). simpl in H.
        specialize (H ltac:(lia) eq_refl eq_refl). lia.
      * rewrite IH. split.
        -- intros Hinc i j a b Hij Ha Hb.
           destruct i as [|i], j as [|j]; try lia; simpl in *.
           ++ inversion Ha; subst a. destruct j as [|j]; simpl in *.
              ** inversion Hb; subst. lia.
              ** specialize (Hinc 0%nat (S j) next b). simpl in Hinc.
                 specialize (Hinc ltac:(lia) eq_refl Hb). lia.
           ++ apply (Hinc i j a b); [lia | exact Ha | exact Hb].
        -- apply strictlyIncreasing_tail.
Qed.

Lemma gatherDimsInRange_spec (dims : list Z) (rank : Z) :
  gatherDimsInRange dims rank = true <->
  forall d, d ∈ dims -> 0 <= d < rank.
Proof.
  induction dims as [|val rest IH]; simpl.
  - split; [| reflexivity]. intros _ d Hd. inversion Hd.
  - destruct (Z.ltb_spec val 0) as [Hneg | Hnn].
    + split; [discriminate |]. intros H.
      specialize (H val ltac:(left)). lia.
    + destruct (Z.geb_spec val rank) as [Hge | Hlt].
      * split; [discriminate |]. intros H.
        specialize (H val ltac:(left)). lia.
      * rewrite IH. split.
        -- intros H d Hd. apply elem_of_cons in Hd as [-> | Hd]; [lia | auto].
        -- intros H d Hd. apply H. right. exact Hd.
Qed.

(** A strictly increasing list of integers grows by at least one per
    position. *)
Lemma strictlyIncreasing_lower (l : list Z) (first : Z) :
  strictlyIncreasing l -> l !! 0%nat = Some first ->
  forall i a, l !! i = Some a -> first + Z.of_nat i <= a.
Proof.
  intros Hinc H0. induction i as [|i IH]; intros a Ha.
  - rewrite H0 in Ha. inversion Ha. lia.
  - destruct (l !! i) as [b|] eqn:Hb.
    + specialize (IH b eq_refl).
      pose proof (Hinc i (S i) b a ltac:(lia) Hb Ha). lia.
    + apply lookup_ge_None in Hb. apply lookup_lt_Some in Ha. lia.
Qed.

Lemma validGatherDims_length (dims : list Z) (rank : Z) :
  validGatherDims dims rank -> Z.of_nat (length dims) <= rank.
Proof.
  intros (Hne & Hinc & Hrange).
  destruct dims as [|first rest]; [contradiction |].
  destruct (lookup_lt_is_Some_2 (first :: rest) (length rest)) as [lastDim Hlast];
    [simpl; lia |].
  pose proof (strictlyIncreasing_lower (first :: rest) first Hinc eq_refl
                (length rest) lastDim Hlast) as Hlow.
  assert (Hf : 0 <= first < rank) by (apply Hrange; left).
  assert (Hl : 0 <= lastDim < rank).
  { apply Hrange. apply list_elem_of_lookup. eauto. }
  simpl. lia.
Qed.

Lemma verifyGatherOrScatterDims_spec (dims : list Z) (rank : Z) :
  verifyGatherOrScatterDims dims rank = success <-> validGatherDims dims rank.
Proof.
  unfold verifyGatherOrScatterDims. split.
  - destruct (decide (dims = [])) as [-> | Hne]; [discriminate |].
    rewrite bool_decide_eq_false_2 by exact Hne.
    destruct (Z.of_nat (length dims) >? rank); [discriminate |].
    destruct (gatherDimsInRange dims rank) eqn:Hr; [| discriminate].
    destruct (gatherDimsIncreasing dims) eqn:Hi; [| discriminate].
    intros _. split; [exact Hne |]. split.
    + apply gatherDimsIncreasing_spec. exact Hi.
    + apply gatherDimsInRange_spec. exact Hr.
  - intros Hvalid. pose proof (validGatherDims_length dims rank Hvalid) as Hlen.
    destruct Hvalid as (Hne & Hinc & Hrange).
    rewrite bool_decide_eq_false_2 by exact Hne.
    destruct (Z.gtb_spec (Z.of_nat (length dims)) rank) as [Hgt | _]; [lia |].
    apply gatherDimsInRange_spec in Hrange. rewrite Hrange.
    apply gatherDimsIncreasing_spec in Hinc. rewrite Hinc. reflexivity.
Qed.

(** [std::lower_bound] on a strictly increasing list returns the partition
    point of [< value]. *)
Lemma lower_bound_partition (l : list Z) (value : Z) :
  strictlyIncreasing l ->
  forall fuel first len,
    (len <= fuel)%nat -> (first + len <= length l)%nat ->
    (forall i a, (i < first)%nat -> l !! i = Some a -> a < value) ->
    (forall i a, (first + len <= i)%nat -> l !! i = Some a -> value <= a) ->
    let r := lower_bound fuel l first len value in
    (forall i a, (i < r)%nat -> l !! i = Some a -> a < value)
    /\ (forall i a, (r <= i)%nat -> l !! i = Some a -> value <= a).
Proof.
  intros Hinc. induction fuel as [|fuel IH]; intros first len Hfuel Hlen Hlo Hhi.
  - cbn [lower_bound]. assert (len = 0%nat) by lia. subst len.
    split; [exact Hlo |]. intros i a Hi. apply Hhi. lia.
  - cbn [lower_bound]. destruct (Nat.eqb_spec len 0) as [-> | Hpos].
    + split; [exact Hlo |]. intros i a Hi. apply Hhi. lia.
    + assert (Hhalf : (len / 2 < len)%nat) by (apply Nat.div_lt; lia).
      destruct (lookup_lt_is_Some_2 l (first + len / 2)) as [mid Hmid]; [lia |].
      rewrite (nth_lookup_Some _ _ _ _ Hmid).
      destruct (Z.ltb_spec mid value) as [Hlt | Hge].
      * apply IH; [lia | lia | | ].
        -- intros i a Hi Ha.
           destruct (decide (i = first + len / 2)%nat) as [-> | Hne].
           ++ rewrite Hmid in Ha. inversion Ha; subst. exact Hlt.
           ++ pose proof (Hinc i (first + len / 2)%nat a mid ltac:(lia) Ha Hmid).
              lia.
        -- intros i a Hi Ha. apply (Hhi i a); [lia | exact Ha].
      * apply IH; [lia | lia | exact Hlo |].
        intros i a Hi Ha.
        destruct (decide (i = first + len / 2)%nat) as [-> | Hne].
        -- rewrite Hmid in Ha. inversion Ha; subst. exact Hge.
        -- pose proof (Hinc (first + len / 2)%nat i mid a ltac:(lia) Hmid Ha).
           lia.
Qed.

(** On a strictly increasing list [std::binary_search] decides membership. *)
Lemma binary_search_elem_of (l : list Z) (value : Z) :
  strictlyIncreasing l -> (binary_search l value = true <-> value ∈ l).
Proof.
  intros Hinc. unfold binary_search.
  destruct (lower_bound_partition l value Hinc (length l) 0%nat (length l))
    as [Hlo Hhi]; [lia | lia | intros; lia | |].
  { intros i a Hi Ha. apply lookup_lt_Some in Ha. lia. }
  set (r := lower_bound (length l) l 0 (length l) value) in *.
  rewrite andb_true_iff, Nat.ltb_lt, negb_true_iff, Z.ltb_ge. split.
  - intros [Hr Hle].
    destruct (lookup_lt_is_Some_2 l r Hr) as [x Hx].
    rewrite (nth_lookup_Some _ _ _ _ Hx) in Hle.
    pose proof (Hhi r x ltac:(lia) Hx).
    assert (x = value) by lia. subst x.
    apply list_elem_of_lookup. eauto.
  - intros Hin. apply list_elem_of_lookup in Hin as [k Hk].
    assert (Hrk : (r <= k)%nat).
    { destruct (le_lt_dec r k) as [? | Hlt]; [assumption |].
      pose proof (Hlo k value Hlt Hk). lia. }
    pose proof (lookup_lt_Some _ _ _ Hk) as Hklen.
    split; [lia |].
    destruct (lookup_lt_is_Some_2 l r ltac:(lia)) as [x Hx].
    rewrite (nth_lookup_Some _ _ _ _ Hx).
    destruct (decide (r = k)) as [Heq | Hne].
    + rewrite Heq in Hx. assert (x = value) by congruence. lia.
    + pose proof (Hinc r k x value ltac:(lia) Hx Hk). lia.
Qed.

Lemma gatherSourceDims_spec (dims : list Z) (rankReduced : bool)
      (idx : Z) (sourceShape : list Z) :
  strictlyIncreasing dims ->
  gatherSourceDims dims rankReduced idx sourceShape
  = concat (imap (fun i d =>
                    if bool_decide (idx + Z.of_nat i ∈ dims)
                    then (if rankReduced then [] else [1])
                    else [d])
                 sourceShape).
Proof.
  intros Hinc. revert idx.
  induction sourceShape as [|d rest IH]; intros idx; [reflexivity |].
  cbn [gatherSourceDims]. rewrite imap_cons. cbn [concat].
  rewrite Z.add_0_r.
  assert (Htail : gatherSourceDims dims rankReduced (idx + 1) rest
                  = concat (imap ((fun i d0 =>
                              if bool_decide (idx + Z.of_nat i ∈ dims)
                              then (if rankReduced then [] else [1])
                              else [d0]) ∘ S) rest)).
  { rewrite IH. f_equal. apply imap_ext. intros i x _. simpl.
    replace (idx + 1 + Z.of_nat i) with (idx + Z.pos (Pos.of_succ_nat i)) by lia.
    reflexivity. }
  rewrite Htail.
  destruct (binary_search dims idx) eqn:Hb.
  - apply (binary_search_elem_of dims idx Hinc) in Hb.
    rewrite bool_decide_eq_true_2 by exact Hb.
    destruct rankReduced; reflexivity.
  - assert (Hn : ~ idx ∈ dims).
    { intros Hin. apply (binary_search_elem_of dims idx Hinc) in Hin. congruence. }
    rewrite bool_decide_eq_false_2 by exact Hn. reflexivity.
Qed.

Lemma concat_imap_singletons (c : nat -> bool) (k : Z) (l : list Z) :
  concat (imap (fun i d => if c i then [k] else [d]) l)
  = imap (fun i d => if c i then k else d) l.
Proof.
  revert c. induction l as [|d rest IH]; intros c; [reflexivity |].
  rewrite !imap_cons. cbn [concat].
  change ((fun (i : nat) (d0 : Z) => if c i then [k] else [d0]) ∘ S)
    with (fun (i : nat) (d0 : Z) => if (c ∘ S) i then [k] else [d0]).
  rewrite (IH (c ∘ S)). destruct (c 0%nat); reflexivity.
Qed.

Lemma gatherSourceDims_toOne (dims sourceShape : list Z) :
  strictlyIncreasing dims ->
  gatherSourceDims dims false 0 sourceShape = gatheredToOne dims sourceShape.
Proof.
  intros Hinc. rewrite (gatherSourceDims_spec dims false 0 sourceShape Hinc).
  unfold gatheredToOne. simpl.
  apply (concat_imap_singletons
           (fun i => bool_decide (Z.of_nat i ∈ dims)) 1 sourceShape).
Qed.

Lemma gatherSourceDims_dropped (dims sourceShape : list Z) :
  strictlyIncreasing dims ->
  gatherSourceDims dims true 0 sourceShape = gatheredDropped dims sourceShape.
Proof.
  intros Hinc. rewrite (gatherSourceDims_spec dims true 0 sourceShape Hinc).
  unfold gatheredDropped. f_equal.
Qed.

(** C9.  For a gather whose gather-dims list is valid for the source rank
    (and whose indices type has a last dimension to drop), the inferred
    full form is the leading indices dimensions followed by the source
    dimensions with each gathered one replaced by 1, the rank-reduced form
    drops the gathered dimensions instead, both with the source's element
    type; the verifier succeeds exactly when the declared result type is
    one of the two, and fails otherwise.  For source [d0 x d1 x d2],
    indices [N x 2] and gather-dims [0, 2] the forms are [N x 1 x d1 x 1]
    and [N x d1]. *)
Theorem GatherOp_verify_accepts_inferred_forms (op : GatherOp.t) :
  let sourceType := GatherOp.getSourceType op in
  let indicesShape := getShape (GatherOp.getIndicesType op) in
  let dims := GatherOp.getGatherDims op in
  validGatherDims dims (getRank sourceType) ->
  indicesShape <> [] ->
  let full :=
    setShape sourceType
             (drop_back indicesShape
              ++ gatheredToOne dims (getShape sourceType)) in
  let reduced :=
    setShape sourceType
             (drop_back indicesShape
              ++ gatheredDropped dims (getShape sourceType)) in
  GatherOp_inferResultType sourceType (GatherOp.getIndicesType op) dims false
  = full
  /\ GatherOp_inferResultType sourceType (GatherOp.getIndicesType op) dims true
     = reduced
  /\ (GatherOp_verify op = success <->
      GatherOp.getResultType op = full \/ GatherOp.getResultType op = reduced)
  /\ (GatherOp_verify op = failure <->
      GatherOp.getResultType op <> full /\
      GatherOp.getResultType op <> reduced)
  /\ (forall (N d0 d1 d2 : Z) (e idxElt : ElementType) (enc idxEnc : option Z),
        GatherOp_inferResultType (RankedTensorType [d0; d1; d2] e enc)
                                 (RankedTensorType [N; 2] idxElt idxEnc)
                                 [0; 2] false
        = RankedTensorType [N; 1; d1; 1] e enc
        /\ GatherOp_inferResultType (RankedTensorType [d0; d1; d2] e enc)
                                    (RankedTensorType [N; 2] idxElt idxEnc)
                                    [0; 2] true
           = RankedTensorType [N; d1] e enc).
Proof.
  intros sourceType indicesShape dims Hvalid Hidx full reduced.
  pose proof Hvalid as (Hne & Hinc & Hrange).
  assert (Hfull : GatherOp_inferResultType
                    sourceType (GatherOp.getIndicesType op) dims false = full).
  { unfold GatherOp_inferResultType, full.
    rewrite (gatherSourceDims_toOne dims _ Hinc). reflexivity. }
  assert (Hred : GatherOp_inferResultType
                   sourceType (GatherOp.getIndicesType op) dims true = reduced).
  { unfold GatherOp_inferResultType, reduced.
    rewrite (gatherSourceDims_dropped dims _ Hinc). reflexivity. }
  assert (Hverify : GatherOp_verify op
            = if negb (bool_decide (GatherOp.getResultType op = full))
                 && negb (bool_decide (GatherOp.getResultType op = reduced))
              then failure else success).
  { unfold GatherOp_verify. fold sourceType dims.
    apply verifyGatherOrScatterDims_spec in Hvalid. rewrite Hvalid. simpl.
    rewrite Hfull, Hred. reflexivity. }
  split; [exact Hfull |]. split; [exact Hred |]. rewrite Hverify.
  split; [| split].
  - destruct (decide (GatherOp.getResultType op = full)) as [Hf | Hf].
    + rewrite (bool_decide_eq_true_2 _ Hf). simpl. tauto.
    + rewrite (bool_decide_eq_false_2 _ Hf). simpl.
      destruct (decide (GatherOp.getResultType op = reduced)) as [Hr | Hr].
      * rewrite (bool_decide_eq_true_2 _ Hr). simpl. tauto.
      * rewrite (bool_decide_eq_false_2 _ Hr). simpl.
        split; [discriminate | tauto].
  - destruct (decide (GatherOp.getResultType op = full)) as [Hf | Hf].
    + rewrite (bool_decide_eq_true_2 _ Hf). simpl.
      split; [discriminate | tauto].
    + rewrite (bool_decide_eq_false_2 _ Hf). simpl.
      destruct (decide (GatherOp.getResultType op = reduced)) as [Hr | Hr].
      * rewrite (bool_decide_eq_true_2 _ Hr). simpl.
        split; [discriminate | tauto].
      * rewrite (bool_decide_eq_false_2 _ Hr). simpl. tauto.
  - intros. split; reflexivity.
Qed.

(** Witness for C9: source [10x20x30], indices [7x2], gather-dims [0, 2],
    declared result [7x20]. *)
Lemma GatherOp_verify_accepts_inferred_forms_witness :
  GatherOp_verify
    (GatherOp.mk (tensorOf [10; 20; 30]) (RankedTensorType [7; 2] Index None)
                 [0; 2] (tensorOf [7; 20])) = success.
Proof.
  refine (proj2 (proj1 (proj2 (proj2
            (GatherOp_verify_accepts_inferred_forms
               (GatherOp.mk (tensorOf [10; 20; 30])
                            (RankedTensorType [7; 2] Index None)
                            [0; 2] (tensorOf [7; 20])) _ _)))) _).
  - apply verifyGatherOrScatterDims_spec. reflexivity.
  - discriminate.
  - right. reflexivity.
Defined.

(** A declared result type that is neither form is rejected. *)
Example GatherOp_verify_rejects_third_shape :
  GatherOp_verify
    (GatherOp.mk (tensorOf [10; 20; 30]) (RankedTensorType [7; 2] Index None)
                 [0; 2] (tensorOf [7; 1; 20])) = failure.
Proof. reflexivity. Qed.

(** *** Rank-reduced extract-slice type *)

Lemma projectShape_drop (shape : list Z) :
  forall (bits : list bool) (pos : nat),
    projectShape bits pos shape = projectShape (drop pos bits) 0 shape.
Proof.
  induction shape as [|d rest IH]; intros bits pos; [reflexivity |].
  cbn [projectShape].
  rewrite (IH bits (S pos)), (IH (drop pos bits) 1%nat), drop_drop.
  replace (pos + 1)%nat with (S pos) by lia.
  assert (Htest : test bits pos = test (drop pos bits) 0).
  { unfold test. rewrite !nth_lookup, lookup_drop.
    replace (pos + 0)%nat with pos by lia. reflexivity. }
  rewrite Htest. reflexivity.
Qed.

Lemma projectShape_getPositionsOfShapeOne (shape : list Z) :
  forall n : nat,
    projectShape (getPositionsOfShapeOne n shape) 0 shape
    = dropLeadingOnes n shape.
Proof.
  induction shape as [|d rest IH]; intros n; [destruct n; reflexivity |].
  destruct n as [|n]; cbn [getPositionsOfShapeOne dropLeadingOnes].
  - cbn [projectShape test nth negb]. rewrite projectShape_drop.
    change (drop 1 (false :: getPositionsOfShapeOne 0 rest))
      with (getPositionsOfShapeOne 0 rest).
    rewrite (IH 0%nat). destruct rest; reflexivity.
  - destruct (d =? 1); cbn [projectShape test nth negb];
      rewrite projectShape_drop;
      [ change (drop 1 (true :: getPositionsOfShapeOne n rest))
          with (getPositionsOfShapeOne n rest)
      | change (drop 1 (false :: getPositionsOfShapeOne (S n) rest))
          with (getPositionsOfShapeOne (S n) rest) ];
      rewrite IH; reflexivity.
Qed.

Lemma dropLeadingOnes_length (shape : list Z) :
  forall n : nat,
    length (dropLeadingOnes n shape)
    = (length shape - Nat.min n (countOnes shape))%nat.
Proof.
  unfold countOnes.
  induction shape as [|d rest IH]; intros n; [destruct n; reflexivity |].
  destruct n as [|n]; [simpl; lia |].
  cbn [dropLeadingOnes count_occ].
  pose proof (count_occ_bound Z.eq_dec 1 rest) as Hbound.
  destruct (Z.eqb_spec d 1) as [-> | Hne].
  - destruct (Z.eq_dec 1 1) as [_ | ?]; [| contradiction].
    rewrite IH. simpl. lia.
  - destruct (Z.eq_dec d 1) as [? | _]; [contradiction |].
    cbn [length]. rewrite IH. lia.
Qed.

Lemma dropLeadingOnes_first_one (pre post : list Z) (n : nat) :
  Forall (fun d => d <> 1) pre ->
  dropLeadingOnes (S n) (pre ++ 1 :: post) = pre ++ dropLeadingOnes n post.
Proof.
  induction 1 as [|d pre Hd _ IH]; [reflexivity |].
  cbn [app dropLeadingOnes].
  destruct (Z.eqb_spec d 1); [contradiction |]. rewrite IH. reflexivity.
Qed.

(** C6 (as amended).  When the inferred rank exceeds the desired rank by
    [rankDiff], the canonical rank-reduced type drops the leading-most
    unit-sized dimensions, [rankDiff] of them or all there are when there
    are fewer; with at least [rankDiff] unit dimensions the result has the
    desired rank.  The first unit dimension is always among the dropped
    ones, and [1x6x1] reduced to rank 2 is [6x1]. *)
Theorem inferCanonicalRankReducedResultType_drops_leading_ones
        (desiredResultRank : nat) (sourceType : TensorType)
        (offsets sizes strides : list Z) :
  (desiredResultRank < length sizes)%nat ->
  Z.of_nat (length sizes) < 2147483648 ->
  let rankDiff := (length sizes - desiredResultRank)%nat in
  let result :=
    ExtractSliceOp_inferCanonicalRankReducedResultType
      (Z.of_nat desiredResultRank) sourceType offsets sizes strides in
  result = RankedTensorType (dropLeadingOnes rankDiff sizes)
                            (getElementType sourceType) None
  /\ length (getShape result)
     = (length sizes - Nat.min rankDiff (countOnes sizes))%nat
  /\ ((rankDiff <= countOnes sizes)%nat ->
      length (getShape result) = desiredResultRank)
  /\ (forall pre post, sizes = pre ++ 1 :: post ->
        Forall (fun d => d <> 1) pre ->
        getShape result = pre ++ dropLeadingOnes (rankDiff - 1) post)
  /\ ExtractSliceOp_inferCanonicalRankReducedResultType
       2 sourceType offsets [1; 6; 1] strides
     = RankedTensorType [6; 1] (getElementType sourceType) None.
Proof.
  intros Hlt Hsmall rankDiff result.
  assert (Hresult : result = RankedTensorType (dropLeadingOnes rankDiff sizes)
                                              (getElementType sourceType) None).
  { subst result.
    unfold ExtractSliceOp_inferCanonicalRankReducedResultType,
           ExtractSliceOp_inferResultType, getRank.
    cbn [getShape getElementType].
    assert (Hcast : static_cast_int
                      (Z.of_nat (length sizes) - Z.of_nat desiredResultRank)
                    = Z.of_nat rankDiff).
    { unfold static_cast_int. subst rankDiff.
      rewrite Z.mod_small by lia. lia. }
    rewrite Hcast.
    destruct (Z.gtb_spec (Z.of_nat rankDiff) 0) as [_ | Hle];
      [| subst rankDiff; lia].
    rewrite Nat2Z.id, projectShape_getPositionsOfShapeOne. reflexivity. }
  split; [exact Hresult |]. rewrite Hresult. cbn [getShape].
  rewrite dropLeadingOnes_length. split; [reflexivity |]. split.
  - intros Hones. subst rankDiff. lia.
  - split; [| reflexivity].
    intros pre post -> Hpre.
    replace rankDiff with (S (rankDiff - 1)) at 1 by (subst rankDiff; lia).
    apply dropLeadingOnes_first_one. exact Hpre.
Qed.

(** Witness for C6: [1x6x1] reduced to rank 2. *)
Lemma inferCanonicalRankReducedResultType_drops_leading_ones_witness :
  ExtractSliceOp_inferCanonicalRankReducedResultType
    2 (tensorOf [8; 8; 8]) [0; 0; 0] [1; 6; 1] [1; 1; 1]
  = RankedTensorType (dropLeadingOnes 1 [1; 6; 1]) F32 None.
Proof.
  apply (proj1 (inferCanonicalRankReducedResultType_drops_leading_ones
                  2 (tensorOf [8; 8; 8]) [0; 0; 0] [1; 6; 1] [1; 1; 1]
                  ltac:(simpl; lia) ltac:(simpl; lia))).
Defined.

(** Counterexample to C6 as stated: [2x3] has no unit dimension, so asking
    for rank 1 ([rankDiff = 1]) drops nothing and the result keeps rank
    2. *)
Lemma inferCanonicalRankReducedResultType_not_exactly_rankDiff :
  ExtractSliceOp_inferCanonicalRankReducedResultType
    1 (tensorOf [8; 8]) [0; 0] [2; 3] [1; 1] = tensorOf [2; 3]
  /\ Nat.sub (length [2; 3])
             (length (getShape
                        (ExtractSliceOp_inferCanonicalRankReducedResultType
                           1 (tensorOf [8; 8]) [0; 0] [2; 3] [1; 1])))
     <> 1%nat.
Proof. split; [reflexivity | simpl; lia]. Qed.

(** *** Element extraction from [tensor.from_elements] *)

(** On a rank-2 [from_elements] the flattening loop weighs the outer index
    by the extent of the outer dimension, [i0 * d0 + i1], where row-major
    order weighs it by the inner one, [i0 * d1 + i1]. *)
Lemma flattenIndices_rank2 (d0 d1 i0 i1 : Z) :
  0 <= i0 -> 0 <= i1 -> 0 <= d0 -> i0 * d0 + i1 < 2147483648 ->
  flattenIndices [d0; d1] [i0; i1] 2 2 0 1 = i0 * d0 + i1.
Proof.
  intros H0 H1 Hd Hsmall.
  assert (Hi1 : i1 < 2147483648) by nia.
  assert (Hprod : 0 <= i0 * d0) by nia.
  destruct (Z.eq_dec i0 0) as [-> | Hi0].
  - cbn [flattenIndices getDimSize nth Z.of_nat Z.ltb Z.sub Z.compare
         Z.opp Z.add Z.pos_sub Pos.pred_double Pos.compare Pos.compare_cont].
    unfold static_cast_int, static_cast_uint64, static_cast_int64.
    rewrite !Z.mul_0_l. cbn [Z.add Z.mul].
    rewrite (Z.mod_small 1) by lia.
    rewrite Z.mul_1_r, (Z.mod_small i1) by lia.
    rewrite (Z.mod_small 0) by lia. cbn [Z.add].
    rewrite (Z.mod_small i1) by lia.
    rewrite (Z.mod_small (i1 + 2147483648)) by lia.
    replace (i1 + 2147483648 - 2147483648) with i1 by lia.
    rewrite (Z.mod_small i1) by lia. rewrite Z.add_0_r.
    rewrite (Z.mod_small i1) by lia.
    rewrite (Z.mod_small (i1 + 2147483648)) by lia. lia.
  - assert (Hd0 : d0 < 2147483648) by nia.
    cbn [flattenIndices getDimSize nth Z.of_nat Z.ltb Z.sub Z.compare
         Z.opp Z.add Z.pos_sub Pos.pred_double Pos.compare Pos.compare_cont].
    unfold static_cast_int, static_cast_uint64, static_cast_int64.
    rewrite (Z.mod_small 1) by lia.
    rewrite Z.mul_1_r, Z.mul_1_l, (Z.mod_small i1) by lia.
    rewrite (Z.mod_small 0) by lia. cbn [Z.add].
    rewrite (Z.mod_small i1) by lia.
    rewrite (Z.mod_small (i1 + 2147483648)) by lia.
    replace (i1 + 2147483648 - 2147483648) with i1 by lia.
    rewrite (Z.mod_small i1) by lia.
    rewrite (Z.mod_small (d0 + 9223372036854775808)) by lia.
    replace (d0 + 9223372036854775808 - 9223372036854775808) with d0 by lia.
    rewrite (Z.mod_small (d0 + 2147483648)) by lia.
    replace (d0 + 2147483648 - 2147483648) with d0 by lia.
    rewrite (Z.mod_small d0) by lia.
    rewrite (Z.mod_small (i0 * d0)) by lia.
    rewrite (Z.mod_small (i1 + i0 * d0)) by lia.
    rewrite (Z.mod_small (i1 + i0 * d0 + 2147483648)) by lia. lia.
Qed.

(** A fold through [from_elements] returns one of its elements: a
    flattened index out of bounds gives no fold. *)
Lemma ExtractOp_fold_from_elements_in_bounds
      (getValueAt : Attribute -> list Z -> option Attribute)
      (ir : IR) (op : ExtractOp.t) (fromElementsOp : FromElementsOp.t)
      (indices : list (option Attribute)) (result : OpFoldResult) :
  getDefiningOp_FromElementsOp ir (ExtractOp.getTensor op)
    = Some fromElementsOp ->
  ExtractOp_fold getValueAt ir op (None :: indices) = Some result ->
  exists v, result = OfrValue v /\ v ∈ FromElementsOp.getElements fromElementsOp.
Proof.
  intros Hdef. unfold ExtractOp_fold. cbn [hd tl]. rewrite Hdef.
  destruct (collectIndices indices) as [idx|]; [| discriminate].
  destruct (_ || _); [discriminate |].
  destruct (FromElementsOp.getElements fromElementsOp !! _) as [v|] eqn:Hv;
    [| discriminate].
  intros Hres. inversion Hres. exists v. split; [reflexivity |].
  apply list_elem_of_lookup. eauto.
Qed.

(** C1 (the code at the failing input).  For [from_elements] of shape
    [2x3] with elements [a, b, c, d, e, f], extracting at [1, 2] folds to
    the element at flattened index [1 * 2 + 2 = 4], which is [e]; the
    row-major index [1 * 3 + 2 = 5] holds [f]. *)
Theorem ExtractOp_fold_from_elements_2x3
        (getValueAt : Attribute -> list Z -> option Attribute) :
  ExtractOp_fold getValueAt extractFromElements extractFromElements_op
                 [None; Some (IntegerAttr 1); Some (IntegerAttr 2)]
  = Some (OfrValue (scalarOf 4))
  /\ flattenIndices [2; 3] [1; 2] 2 2 0 1 = 4
  /\ [scalarOf 0; scalarOf 1; scalarOf 2; scalarOf 3; scalarOf 4; scalarOf 5]
       !! Z.to_nat (1 * 3 + 2) = Some (scalarOf 5)
  /\ scalarOf 4 <> scalarOf 5.
Proof. split_and!; try reflexivity. discriminate. Qed.

(** *** Shape reification of [tensor.empty] and [tensor.generate] *)

Lemma create_lookup_old (ir : IR) (op x : Operation) (h : nat) :
  ir !! h = Some x -> (create ir op).1 !! h = Some x.
Proof.
  intros Hh. unfold create. cbn [fst].
  rewrite lookup_insert_ne; [exact Hh |].
  intros Heq. pose proof (is_fresh (dom ir)) as Hfresh.
  apply Hfresh. rewrite Heq. apply elem_of_dom. eauto.
Qed.

Lemma create_constant (ir : IR) (value : Z) :
  getConstantIntValue
    (create ir (ConstantIndexOp value)).1
    (OfrValue (getResult (create ir (ConstantIndexOp value)).2 (ScalarTy Index)))
  = Some value.
Proof.
  unfold getConstantIntValue, m_Constant, getDefiningOp, create.
  cbn [fst snd getResult getImpl]. rewrite lookup_insert_eq. reflexivity.
Qed.

(** A constant stays the constant it is when operations are added. *)
Lemma getConstantIntValue_preserved (ir ir' : IR) (v : Value) (value : Z) :
  (forall h x, ir !! h = Some x -> ir' !! h = Some x) ->
  getConstantIntValue ir (OfrValue v) = Some value ->
  getConstantIntValue ir' (OfrValue v) = Some value.
Proof.
  intros Hkeep. unfold getConstantIntValue, m_Constant, getDefiningOp.
  destruct (getImpl v) as [owner | ? ?]; [| discriminate].
  destruct (ir !! owner) as [x|] eqn:Hx; [| discriminate].
  rewrite (Hkeep owner x Hx). trivial.
Qed.

(** What [GenerateOp::reifyResultShapes] returns: one value per dimension,
    a constant holding the extent for a static dimension, the next
    dynamic-extent operand for a dynamic one. *)
Lemma GenerateOp_reifyDims_spec (op : GenerateOp.t) (shape : list Z) :
  forall (ir : IR) (dim idx : nat) (ir' : IR) (values : list (option Value)),
    GenerateOp_reifyDims ir op dim shape idx = (ir', values) ->
    length values = length shape
    /\ (forall h x, ir !! h = Some x -> ir' !! h = Some x)
    /\ (forall i d, shape !! i = Some d ->
          (isDynamic d = false ->
           exists v, values !! i = Some (Some v)
                     /\ getConstantIntValue ir' (OfrValue v) = Some d)
          /\ (isDynamic d = true ->
              values !! i
              = Some (GenerateOp.getOperands op
                        !! (idx + getNumDynamicDims (take i shape))%nat))).
Proof.
  induction shape as [|dimSize rest IH]; intros ir dim idx ir' values Hrun.
  - inversion Hrun; subst. split; [reflexivity |]. split; [auto |].
    intros i d Hi. destruct i; discriminate.
  - cbn [GenerateOp_reifyDims] in Hrun.
    destruct (isDynamic dimSize) eqn:Hdyn.
    + destruct (GenerateOp_reifyDims ir op (S dim) rest (S idx))
        as [ir1 values1] eqn:Hrest.
      inversion Hrun; subst ir' values. clear Hrun.
      destruct (IH ir (S dim) (S idx) ir1 values1 Hrest) as (Hlen & Hkeep & Hdims).
      split; [simpl; lia |]. split; [exact Hkeep |].
      intros [|i] d Hi; rewrite !lookup_cons in *.
      * inversion Hi; subst d. split; [congruence |]. intros _.
        cbn [take]. unfold getNumDynamicDims. simpl.
        replace (idx + 0)%nat with idx by lia. reflexivity.
      * destruct (Hdims i d Hi) as [Hstatic Hdynamic].
        split; [exact Hstatic |]. intros Hd. rewrite (Hdynamic Hd).
        cbn [take]. unfold getNumDynamicDims.
        rewrite filter_cons_True by exact Hdyn. cbn [length].
        do 2 f_equal. lia.
    + destruct (create ir (ConstantIndexOp dimSize)) as [ir0 handle] eqn:Hcreate.
      destruct (GenerateOp_reifyDims ir0 op (S dim) rest idx)
        as [ir1 values1] eqn:Hrest.
      inversion Hrun; subst ir' values. clear Hrun.
      destruct (IH ir0 (S dim) idx ir1 values1 Hrest) as (Hlen & Hkeep & Hdims).
      assert (Hir0 : forall h x, ir !! h = Some x -> ir0 !! h = Some x).
      { intros h x Hx.
        pose proof (create_lookup_old ir (ConstantIndexOp dimSize) x h Hx) as H0.
        rewrite Hcreate in H0. exact H0. }
      split; [simpl; lia |]. split; [auto |].
      intros [|i] d Hi; rewrite !lookup_cons in *.
      * inversion Hi; subst d. split; [| congruence]. intros _.
        eexists. split; [reflexivity |].
        apply (getConstantIntValue_preserved ir0 ir1 _ _ Hkeep).
        pose proof (create_constant ir dimSize) as Hc.
        rewrite Hcreate in Hc. exact Hc.
      * destruct (Hdims i d Hi) as [Hstatic Hdynamic].
        split; [exact Hstatic |]. intros Hd. rewrite (Hdynamic Hd).
        cbn [take]. unfold getNumDynamicDims.
        rewrite filter_cons_False by congruence. reflexivity.
Qed.

(** What [EmptyOp::reifyResultShapes] returns: for a static dimension a
    constant holding the dimension's index, whatever its extent. *)
Lemma EmptyOp_reifyDims_spec (op : EmptyOp.t) (shape : list Z) :
  forall (ir : IR) (dim ctr : nat) (ir' : IR) (values : list (option Value)),
    EmptyOp_reifyDims ir op dim shape ctr = (ir', values) ->
    length values = length shape
    /\ (forall h x, ir !! h = Some x -> ir' !! h = Some x)
    /\ (forall i d, shape !! i = Some d ->
          (isDynamic d = false ->
           exists v, values !! i = Some (Some v)
                     /\ getConstantIntValue ir' (OfrValue v)
                        = Some (Z.of_nat (dim + i)))
          /\ (isDynamic d = true ->
              values !! i
              = Some (EmptyOp.getDynamicSizes op
                        !! (ctr + getNumDynamicDims (take i shape))%nat))).
Proof.
  induction shape as [|dimSize rest IH]; intros ir dim ctr ir' values Hrun.
  - inversion Hrun; subst. split; [reflexivity |]. split; [auto |].
    intros i d Hi. destruct i; discriminate.
  - cbn [EmptyOp_reifyDims] in Hrun.
    destruct (isDynamic dimSize) eqn:Hdyn.
    + destruct (EmptyOp_reifyDims ir op (S dim) rest (S ctr))
        as [ir1 values1] eqn:Hrest.
      inversion Hrun; subst ir' values. clear Hrun.
      destruct (IH ir (S dim) (S ctr) ir1 values1 Hrest) as (Hlen & Hkeep & Hdims).
      split; [simpl; lia |]. split; [exact Hkeep |].
      intros [|i] d Hi; rewrite !lookup_cons in *.
      * inversion Hi; subst d. split; [congruence |]. intros _.
        cbn [take]. unfold getNumDynamicDims. simpl.
        replace (ctr + 0)%nat with ctr by lia. reflexivity.
      * destruct (Hdims i d Hi) as [Hstatic Hdynamic]. split.
        -- intros Hd. destruct (Hstatic Hd) as (v & Hv & Hc).
           exists v. split; [exact Hv |].
           replace (dim + S i)%nat with (S dim + i)%nat by lia. exact Hc.
        -- intros Hd. rewrite (Hdynamic Hd).
           cbn [take]. unfold getNumDynamicDims.
           rewrite filter_cons_True by exact Hdyn. cbn [length].
           do 2 f_equal. lia.
    + destruct (create ir (ConstantIndexOp (Z.of_nat dim)))
        as [ir0 handle] eqn:Hcreate.
      destruct (EmptyOp_reifyDims ir0 op (S dim) rest ctr)
        as [ir1 values1] eqn:Hrest.
      inversion Hrun; subst ir' values. clear Hrun.
      destruct (IH ir0 (S dim) ctr ir1 values1 Hrest) as (Hlen & Hkeep & Hdims).
      assert (Hir0 : forall h x, ir !! h = Some x -> ir0 !! h = Some x).
      { intros h x Hx.
        pose proof (create_lookup_old ir (ConstantIndexOp (Z.of_nat dim)) x h Hx)
          as H0.
        rewrite Hcreate in H0. exact H0. }
      split; [simpl; lia |]. split; [auto |].
      intros [|i] d Hi; rewrite !lookup_cons in *.
      * inversion Hi; subst d. split; [| congruence]. intros _.
        eexists. split; [reflexivity |].
        apply (getConstantIntValue_preserved ir0 ir1 _ _ Hkeep).
        pose proof (create_constant ir (Z.of_nat dim)) as Hc.
        rewrite Hcreate in Hc. replace (dim + 0)%nat with dim by lia. exact Hc.
      * destruct (Hdims i d Hi) as [Hstatic Hdynamic]. split.
        -- intros Hd. destruct (Hstatic Hd) as (v & Hv & Hc).
           exists v. split; [exact Hv |].
           replace (dim + S i)%nat with (S dim + i)%nat by lia. exact Hc.
        -- intros Hd. rewrite (Hdynamic Hd).
           cbn [take]. unfold getNumDynamicDims.
           rewrite filter_cons_False by congruence. reflexivity.
Qed.

(** C2 (the code at the failing input).  For [tensor.empty() :
    tensor<5xf32>] the reified extent of dimension 0 is a constant holding
    the dimension's index, 0, not its extent 5; [tensor.generate] of the
    same type reifies the constant 5. *)
Theorem EmptyOp_reifyResultShapes_static_5 :
  (let '(ir', _, shapes) :=
     EmptyOp_reifyResultShapes ∅ (EmptyOp.mk [] (tensorOf [5])) in
   shapes = [[Some (scalarOf 0)]]
   /\ getConstantIntValue ir' (OfrValue (scalarOf 0)) = Some 0)
  /\ (let '(ir', _, shapes) :=
        GenerateOp_reifyResultShapes
          ∅ (GenerateOp.mk [] (mkBlock [] [] None) (tensorOf [5])) in
      shapes = [[Some (scalarOf 0)]]
      /\ getConstantIntValue ir' (OfrValue (scalarOf 0)) = Some 5).
Proof. split; split; reflexivity. Qed.

(** *** Orthogonal padding fusion *)

(** The loop of step 7 returns the new sizes only if every dimension
    does. *)
Lemma combineSizes_Returned_Some (ir : IR) (outerDims : list bool)
      (innerSizes outerSizes : list OpFoldResult) (innerSourceShape : list Z)
      (indices : list nat) (newSizes : list OpFoldResult) :
  combineSizes ir outerDims innerSizes outerSizes innerSourceShape indices
  = Returned (Some newSizes) ->
  forall position index,
    indices !! position = Some index ->
    exists newSize,
      combineSize ir outerDims innerSizes outerSizes innerSourceShape index
      = Returned (Some newSize).
Proof.
  revert newSizes.
  induction indices as [|first rest IH]; intros newSizes Hrun position index Hat.
  - discriminate.
  - cbn [combineSizes] in Hrun.
    destruct (combineSize ir outerDims innerSizes outerSizes innerSourceShape
                          first) as [[newSize|]|message] eqn:Hfirst;
      try discriminate.
    destruct (combineSizes ir outerDims innerSizes outerSizes innerSourceShape
                           rest) as [[sizes|]|message] eqn:Hrest;
      try discriminate.
    destruct position as [|position]; cbn in Hat.
    + inversion Hat; subst index. exists newSize. exact Hfirst.
    + exact (IH sizes eq_refl position index Hat).
Qed.

(** The loop of step 7 ends in a failed assertion at the first dimension
    that does not return a size, and that dimension's assertion fails. *)
Lemma combineSizes_AssertionFailed (ir : IR) (outerDims : list bool)
      (innerSizes outerSizes : list OpFoldResult) (innerSourceShape : list Z)
      (indices : list nat) (message : string) :
  combineSizes ir outerDims innerSizes outerSizes innerSourceShape indices
  = AssertionFailed message ->
  exists position index,
    indices !! position = Some index
    /\ combineSize ir outerDims innerSizes outerSizes innerSourceShape index
       = AssertionFailed message
    /\ forall position' index',
         (position' < position)%nat ->
         indices !! position' = Some index' ->
         exists newSize,
           combineSize ir outerDims innerSizes outerSizes innerSourceShape
                       index'
           = Returned (Some newSize).
Proof.
  induction indices as [|first rest IH]; intros Hrun.
  - discriminate.
  - cbn [combineSizes] in Hrun.
    destruct (combineSize ir outerDims innerSizes outerSizes innerSourceShape
                          first) as [[newSize|]|message'] eqn:Hfirst;
      try discriminate.
    + destruct (combineSizes ir outerDims innerSizes outerSizes
                             innerSourceShape rest)
        as [[sizes|]|message'] eqn:Hrest; try discriminate.
      inversion Hrun; subst message'.
      destruct (IH eq_refl) as (position & index & Hat & Hfails & Hbefore).
      exists (S position), index. split_and!; [exact Hat | exact Hfails |].
      intros [|position'] index' Hlt Hat'; cbn in Hat'.
      * inversion Hat'; subst index'. exists newSize. exact Hfirst.
      * apply (Hbefore position' index'); [lia | exact Hat'].
    + inversion Hrun; subst message'.
      exists 0%nat, first. split_and!; [reflexivity | exact Hfirst |].
      intros position' index' Hlt. lia.
Qed.

(** One dimension of step 7 returns a size only if the dimension is not
    padded by the outer pad, or its extent is static and the inner size is
    that extent. *)
Lemma combineSize_Returned_Some (ir : IR) (outerDims : list bool)
      (innerSizes outerSizes : list OpFoldResult) (innerSourceShape : list Z)
      (index : nat) (newSize : OpFoldResult) :
  combineSize ir outerDims innerSizes outerSizes innerSourceShape index
  = Returned (Some newSize) ->
  test outerDims index = true ->
  isDynamic (getDimSize innerSourceShape index) = false
  /\ getConstantIntValue ir (mixedAt innerSizes index)
     = Some (getDimSize innerSourceShape index).
Proof.
  unfold combineSize. intros Hrun Htest. rewrite Htest in Hrun.
  cbn [negb] in Hrun.
  destruct (isDynamic (getDimSize innerSourceShape index)); [discriminate |].
  split; [reflexivity |].
  destruct (decide (getConstantIntValue ir (mixedAt innerSizes index)
                    = Some (getDimSize innerSourceShape index)))
    as [Heq | Hneq]; [exact Heq |].
  rewrite bool_decide_eq_false_2 in Hrun by exact Hneq. discriminate.
Qed.

(** The assertion of one dimension fails only on a dimension that the outer
    pad pads and whose extent is dynamic. *)
Lemma combineSize_AssertionFailed (ir : IR) (outerDims : list bool)
      (innerSizes outerSizes : list OpFoldResult) (innerSourceShape : list Z)
      (index : nat) (message : string) :
  combineSize ir outerDims innerSizes outerSizes innerSourceShape index
  = AssertionFailed message ->
  test outerDims index = true
  /\ isDynamic (getDimSize innerSourceShape index) = true.
Proof.
  unfold combineSize. intros Hrun.
  destruct (test outerDims index); [| discriminate]. cbn [negb] in Hrun.
  destruct (isDynamic (getDimSize innerSourceShape index));
    [split; reflexivity |].
  destruct (bool_decide _) in Hrun; discriminate.
Qed.

(** No partial rewrite: a failed match leaves the IR as it was. *)
Lemma FoldOrthogonalPaddings_failure_unchanged (ir ir' : IR) (this : nat) :
  FoldOrthogonalPaddings_matchAndRewrite ir this = Returned (ir', failure) ->
  ir' = ir.
Proof.
  unfold FoldOrthogonalPaddings_matchAndRewrite, create.
  repeat case_match; simpl; intros; congruence.
Qed.

(** The pattern declines, or it reaches step 7 on a chain
    pad - slice - pad - slice that meets the side conditions of steps 1 to
    6, and the loop of step 7 decides its outcome. *)
Lemma FoldOrthogonalPaddings_reaches_step_7 (ir : IR) (this : nat) :
  FoldOrthogonalPaddings_matchAndRewrite ir this = Returned (ir, failure)
  \/ exists padOp innerSliceOp outerPad outerPadOp outerSliceOp newOffsets,
       ir !! this = Some (OpPad padOp)
       /\ getDefiningOp_ExtractSliceOp ir (PadOp.getSource padOp)
          = Some innerSliceOp
       /\ getDefiningOp_PadOp_handle ir (ExtractSliceOp.getSource innerSliceOp)
          = Some (outerPad, outerPadOp)
       /\ getDefiningOp_ExtractSliceOp ir (PadOp.getSource outerPadOp)
          = Some outerSliceOp
       /\ length (Type_getShape
                    (getType (ExtractSliceOp.getSource outerSliceOp)))
          = length (Type_getShape (getType (PadOp.getSource padOp)))
       /\ hasUnitStride ir innerSliceOp = true
       /\ hasUnitStride ir outerSliceOp = true
       /\ PadOp.getNofold outerPadOp = false
       /\ (exists innerValue outerValue attr,
             PadOp_getConstantPaddingValue ir this padOp = Some innerValue
             /\ PadOp_getConstantPaddingValue ir outerPad outerPadOp
                = Some outerValue
             /\ m_Constant ir innerValue = Some attr
             /\ m_Constant ir outerValue = Some attr)
       /\ PadOp_hasZeroLowPad ir padOp = true
       /\ PadOp_hasZeroLowPad ir outerPadOp = true
       /\ anyCommon (PadOp_getPaddedDims ir padOp)
                    (PadOp_getPaddedDims ir outerPadOp) = false
       /\ mapM (combineOffset ir (PadOp_getPaddedDims ir padOp)
                              (PadOp_getPaddedDims ir outerPadOp)
                              (getMixedOffsets innerSliceOp)
                              (getMixedOffsets outerSliceOp))
               (seq 0 (length (Type_getShape (getType (PadOp.getSource padOp)))))
          = Some newOffsets
       /\ FoldOrthogonalPaddings_matchAndRewrite ir this
          = match combineSizes
                    ir (PadOp_getPaddedDims ir outerPadOp)
                    (getMixedSizes innerSliceOp) (getMixedSizes outerSliceOp)
                    (Type_getShape
                       (getType (ExtractSliceOp.getSource innerSliceOp)))
                    (seq 0 (length (getMixedSizes innerSliceOp))) with
            | AssertionFailed message => AssertionFailed message
            | Returned None => Returned (ir, failure)
            | Returned (Some newSizes) =>
                let newSliceOp :=
                  ExtractSliceOp_build
                    (ExtractSliceOp.getSource outerSliceOp)
                    newOffsets newSizes (getMixedStrides innerSliceOp) in
                Returned
                  (<[this := OpPad
                       (PadOp_build
                          (PadOp.getType padOp)
                          (getResult (fresh (dom ir))
                                     (TensorTy
                                        (ExtractSliceOp.getType newSliceOp)))
                          (PadOp_getMixedLowPad padOp)
                          (map (combineHighPad
                                  (PadOp_getPaddedDims ir padOp)
                                  (PadOp_getPaddedDims ir outerPadOp)
                                  (PadOp_getMixedHighPad padOp)
                                  (PadOp_getMixedHighPad outerPadOp))
                               (seq 0 (length
                                         (Type_getShape
                                            (getType
                                               (PadOp.getSource padOp))))))
                          (PadOp.getNofold padOp) (PadOp.getRegion padOp))]>
                     (<[fresh (dom ir) := OpExtractSlice newSliceOp]> ir),
                   success)
            end.
Proof.
  unfold FoldOrthogonalPaddings_matchAndRewrite, create.
  destruct (ir !! this) as [op|] eqn:Hthis; [| left; reflexivity].
  destruct op as [ | | | | | | | |padOp| | ]; try (left; reflexivity).
  destruct (getDefiningOp_ExtractSliceOp ir (PadOp.getSource padOp))
    as [innerSliceOp|] eqn:Hinner; [| left; reflexivity].
  destruct (getDefiningOp_PadOp_handle
              ir (ExtractSliceOp.getSource innerSliceOp))
    as [[outerPad outerPadOp]|] eqn:Houter; [| left; reflexivity].
  destruct (PadOp.getNofold outerPadOp) eqn:Hnofold; [left; reflexivity |].
  destruct (getDefiningOp_ExtractSliceOp ir (PadOp.getSource outerPadOp))
    as [outerSliceOp|] eqn:HouterSlice; [| left; reflexivity].
  destruct (Nat.eqb_spec
              (length (Type_getShape
                         (getType (ExtractSliceOp.getSource outerSliceOp))))
              (length (Type_getShape (getType (PadOp.getSource padOp)))))
    as [Hrank | _]; [| left; reflexivity]. cbn [negb].
  destruct (hasUnitStride ir innerSliceOp) eqn:HinnerStride;
    [| left; reflexivity].
  destruct (hasUnitStride ir outerSliceOp) eqn:HouterStride;
    [| left; reflexivity].
  cbn [negb orb].
  destruct (PadOp_hasZeroLowPad ir padOp) eqn:HinnerLow; [| left; reflexivity].
  destruct (PadOp_hasZeroLowPad ir outerPadOp) eqn:HouterLow;
    [| left; reflexivity].
  cbn [negb orb].
  destruct (PadOp_getConstantPaddingValue ir this padOp)
    as [innerValue|] eqn:HinnerValue; [| left; reflexivity].
  destruct (PadOp_getConstantPaddingValue ir outerPad outerPadOp)
    as [outerValue|] eqn:HouterValue; [| left; reflexivity].
  destruct (m_Constant ir innerValue) as [innerAttr|] eqn:HinnerAttr;
    [| left; reflexivity].
  destruct (m_Constant ir outerValue) as [outerAttr|] eqn:HouterAttr;
    [| left; reflexivity].
  destruct (decide (innerAttr = outerAttr)) as [<- | Hne];
    [rewrite bool_decide_eq_true_2 by reflexivity
    | rewrite bool_decide_eq_false_2 by exact Hne; left; reflexivity].
  cbn [negb].
  destruct (anyCommon (PadOp_getPaddedDims ir padOp)
                      (PadOp_getPaddedDims ir outerPadOp)) eqn:Hcommon;
    [left; reflexivity |].
  destruct (mapM (combineOffset _ _ _ _ _) _) as [newOffsets|] eqn:Hoffsets;
    [| left; reflexivity].
  right.
  exists padOp, innerSliceOp, outerPad, outerPadOp, outerSliceOp, newOffsets.
  split_and!; try reflexivity; try assumption.
  exists innerValue, outerValue, innerAttr. auto.
Qed.

(** The shape of the operations that [ExtractSliceOp::build] and
    [PadOp::build] give. *)
Lemma FoldOrthogonalPaddings_new_ops (source newSource : Value)
      (offsets sizes strides low high : list OpFoldResult)
      (resultType : TensorType) (nofold : bool) (region : Block) :
  ExtractSliceOp.getSource (ExtractSliceOp_build source offsets sizes strides)
  = source
  /\ PadOp.getSource (PadOp_build resultType newSource low high nofold region)
     = newSource
  /\ PadOp.getType (PadOp_build resultType newSource low high nofold region)
     = resultType
  /\ PadOp.getRegion (PadOp_build resultType newSource low high nofold region)
     = region.
Proof.
  unfold ExtractSliceOp_build, PadOp_build.
  destruct (dispatchIndexOpFoldResults offsets),
           (dispatchIndexOpFoldResults sizes),
           (dispatchIndexOpFoldResults strides),
           (dispatchIndexOpFoldResults low),
           (dispatchIndexOpFoldResults high).
  split_and!; reflexivity.
Qed.

(** The side conditions of a successful match, and the rewritten IR. *)
Lemma FoldOrthogonalPaddings_success (ir ir' : IR) (this : nat) :
  FoldOrthogonalPaddings_matchAndRewrite ir this = Returned (ir', success) ->
  exists padOp innerSliceOp outerPad outerPadOp outerSliceOp,
    ir !! this = Some (OpPad padOp)
    /\ getDefiningOp_ExtractSliceOp ir (PadOp.getSource padOp)
       = Some innerSliceOp
    /\ getDefiningOp_PadOp_handle ir (ExtractSliceOp.getSource innerSliceOp)
       = Some (outerPad, outerPadOp)
    /\ getDefiningOp_ExtractSliceOp ir (PadOp.getSource outerPadOp)
       = Some outerSliceOp
    /\ length (Type_getShape (getType (ExtractSliceOp.getSource outerSliceOp)))
       = length (Type_getShape (getType (PadOp.getSource padOp)))
    /\ hasUnitStride ir innerSliceOp = true
    /\ hasUnitStride ir outerSliceOp = true
    /\ PadOp.getNofold outerPadOp = false
    /\ (exists innerValue outerValue attr,
          PadOp_getConstantPaddingValue ir this padOp = Some innerValue
          /\ PadOp_getConstantPaddingValue ir outerPad outerPadOp
             = Some outerValue
          /\ m_Constant ir innerValue = Some attr
          /\ m_Constant ir outerValue = Some attr)
    /\ PadOp_hasZeroLowPad ir padOp = true
    /\ PadOp_hasZeroLowPad ir outerPadOp = true
    /\ anyCommon (PadOp_getPaddedDims ir padOp)
                 (PadOp_getPaddedDims ir outerPadOp) = false
    /\ (forall index,
          (index < length (getMixedSizes innerSliceOp))%nat ->
          test (PadOp_getPaddedDims ir outerPadOp) index = true ->
          isDynamic (getDimSize
                       (Type_getShape
                          (getType (ExtractSliceOp.getSource innerSliceOp)))
                       index) = false
          /\ getConstantIntValue
               ir (mixedAt (getMixedSizes innerSliceOp) index)
             = Some (getDimSize
                       (Type_getShape
                          (getType (ExtractSliceOp.getSource innerSliceOp)))
                       index))
    /\ exists newSliceOp newPadOp,
         ir' = <[this := OpPad newPadOp]>
                 (<[fresh (dom ir) := OpExtractSlice newSliceOp]> ir)
         /\ ExtractSliceOp.getSource newSliceOp
            = ExtractSliceOp.getSource outerSliceOp
         /\ getImpl (PadOp.getSource newPadOp) = OpResultImpl (fresh (dom ir))
         /\ PadOp.getType newPadOp = PadOp.getType padOp
         /\ PadOp.getRegion newPadOp = PadOp.getRegion padOp.
Proof.
  intros Hout.
  destruct (FoldOrthogonalPaddings_reaches_step_7 ir this) as
    [Hdeclined
    | (padOp & innerSliceOp & outerPad & outerPadOp & outerSliceOp & newOffsets
       & Hthis & Hinner & Houter & HouterSlice & Hrank & HinnerStride
       & HouterStride & Hnofold & Hvalues & HinnerLow & HouterLow & Hcommon
       & Hoffsets & Hrun)]; [congruence |].
  rewrite Hout in Hrun.
  destruct (combineSizes _ _ _ _ _ _) as [[newSizes|]|message] eqn:Hsizes;
    try discriminate.
  cbv zeta in Hrun. inversion Hrun as [Hir']. clear Hrun.
  exists padOp, innerSliceOp, outerPad, outerPadOp, outerSliceOp.
  split_and!; try assumption.
  - intros index Hindex Htest.
    destruct (combineSizes_Returned_Some _ _ _ _ _ _ _ Hsizes index index)
      as [newSize HnewSize];
      [rewrite lookup_seq_lt by exact Hindex; reflexivity |].
    exact (combineSize_Returned_Some _ _ _ _ _ _ _ HnewSize Htest).
  - eexists _, _. split; [reflexivity |].
    match goal with
    | |- context [PadOp_build ?t ?s ?l ?h ?n ?r] =>
        destruct (FoldOrthogonalPaddings_new_ops
                    (ExtractSliceOp.getSource outerSliceOp) s newOffsets
                    newSizes (getMixedStrides innerSliceOp) l h t n r)
          as (Hsource & HnewSource & Htype & Hregion)
    end.
    rewrite Hsource, HnewSource, Htype, Hregion.
    split_and!; reflexivity.
Qed.

(** A run that ends in the failed assertion has matched the chain and
    passed steps 1 to 6; the assertion fails at a dimension that the outer
    pad pads and whose extent, in the outer pad's result, is dynamic, and
    every dimension before it has returned its size. *)
Lemma FoldOrthogonalPaddings_AssertionFailed (ir : IR) (this : nat)
      (message : string) :
  FoldOrthogonalPaddings_matchAndRewrite ir this = AssertionFailed message ->
  exists padOp innerSliceOp outerPad outerPadOp index,
    ir !! this = Some (OpPad padOp)
    /\ getDefiningOp_ExtractSliceOp ir (PadOp.getSource padOp)
       = Some innerSliceOp
    /\ getDefiningOp_PadOp_handle ir (ExtractSliceOp.getSource innerSliceOp)
       = Some (outerPad, outerPadOp)
    /\ (exists innerValue outerValue attr,
          PadOp_getConstantPaddingValue ir this padOp = Some innerValue
          /\ PadOp_getConstantPaddingValue ir outerPad outerPadOp
             = Some outerValue
          /\ m_Constant ir innerValue = Some attr
          /\ m_Constant ir outerValue = Some attr)
    /\ PadOp_hasZeroLowPad ir padOp = true
    /\ PadOp_hasZeroLowPad ir outerPadOp = true
    /\ anyCommon (PadOp_getPaddedDims ir padOp)
                 (PadOp_getPaddedDims ir outerPadOp) = false
    /\ (index < length (getMixedSizes innerSliceOp))%nat
    /\ test (PadOp_getPaddedDims ir outerPadOp) index = true
    /\ isDynamic (getDimSize
                    (Type_getShape
                       (getType (ExtractSliceOp.getSource innerSliceOp)))
                    index) = true
    /\ forall index',
         (index' < index)%nat ->
         test (PadOp_getPaddedDims ir outerPadOp) index' = true ->
         getConstantIntValue ir (mixedAt (getMixedSizes innerSliceOp) index')
         = Some (getDimSize
                   (Type_getShape
                      (getType (ExtractSliceOp.getSource innerSliceOp)))
                   index').
Proof.
  intros Hout.
  destruct (FoldOrthogonalPaddings_reaches_step_7 ir this) as
    [Hdeclined
    | (padOp & innerSliceOp & outerPad & outerPadOp & outerSliceOp & newOffsets
       & Hthis & Hinner & Houter & HouterSlice & Hrank & HinnerStride
       & HouterStride & Hnofold & Hvalues & HinnerLow & HouterLow & Hcommon
       & Hoffsets & Hrun)]; [congruence |].
  rewrite Hout in Hrun.
  destruct (combineSizes _ _ _ _ _ _) as [[newSizes|]|message'] eqn:Hsizes;
    try discriminate.
  destruct (combineSizes_AssertionFailed _ _ _ _ _ _ _ Hsizes)
    as (position & index & Hat & Hfails & Hbefore).
  apply lookup_seq in Hat. destruct Hat as [Hindex Hlt].
  cbn in Hindex. subst index.
  destruct (combineSize_AssertionFailed _ _ _ _ _ _ _ Hfails)
    as [Htest Hdynamic].
  exists padOp, innerSliceOp, outerPad, outerPadOp, position.
  split_and!; try assumption.
  intros index' Hlt' Htest'.
  destruct (Hbefore index' index' Hlt') as [newSize HnewSize];
    [rewrite lookup_seq_lt by lia; reflexivity |].
  exact (proj2 (combineSize_Returned_Some _ _ _ _ _ _ _ HnewSize Htest')).
Qed.

(** The pattern on every input, with its assertion.  The pattern
    succeeds only on a chain pad - slice - pad - slice in which the slices
    keep the rank and have unit strides, the two pads yield the same
    constant, have zero low padding and pad disjoint sets of dimensions,
    and the inner slice's size is the full, static extent of its
    (outer-padded) source wherever the outer pad pads; it then adds one
    extract-slice of the outer slice's source and replaces the pad by one
    pad of that slice.  A failed match leaves the IR as it was.  On such a
    chain the match fails when the pads share a padded dimension, a pad has
    low padding or the padding values differ; and when an inner size
    differs from the extent of a dimension that the outer pad pads,
    provided that the extents of the outer-padded dimensions up to that one
    are static.  The run ends in the failed assertion only at an
    outer-padded dimension whose extent is dynamic. *)
Theorem FoldOrthogonalPaddings_fuses_only_orthogonal (ir : IR) (this : nat) :
  let out := FoldOrthogonalPaddings_matchAndRewrite ir this in
  (forall ir',
     out = Returned (ir', success) ->
     exists padOp innerSliceOp outerPad outerPadOp outerSliceOp,
       ir !! this = Some (OpPad padOp)
       /\ getDefiningOp_ExtractSliceOp ir (PadOp.getSource padOp)
          = Some innerSliceOp
       /\ getDefiningOp_PadOp_handle ir (ExtractSliceOp.getSource innerSliceOp)
          = Some (outerPad, outerPadOp)
       /\ getDefiningOp_ExtractSliceOp ir (PadOp.getSource outerPadOp)
          = Some outerSliceOp
       /\ length (Type_getShape
                    (getType (ExtractSliceOp.getSource outerSliceOp)))
          = length (Type_getShape (getType (PadOp.getSource padOp)))
       /\ hasUnitStride ir innerSliceOp = true
       /\ hasUnitStride ir outerSliceOp = true
       /\ PadOp.getNofold outerPadOp = false
       /\ (exists innerValue outerValue attr,
             PadOp_getConstantPaddingValue ir this padOp = Some innerValue
             /\ PadOp_getConstantPaddingValue ir outerPad outerPadOp
                = Some outerValue
             /\ m_Constant ir innerValue = Some attr
             /\ m_Constant ir outerValue = Some attr)
       /\ PadOp_hasZeroLowPad ir padOp = true
       /\ PadOp_hasZeroLowPad ir outerPadOp = true
       /\ anyCommon (PadOp_getPaddedDims ir padOp)
                    (PadOp_getPaddedDims ir outerPadOp) = false
       /\ (forall index,
             (index < length (getMixedSizes innerSliceOp))%nat ->
             test (PadOp_getPaddedDims ir outerPadOp) index = true ->
             isDynamic (getDimSize
                          (Type_getShape
                             (getType (ExtractSliceOp.getSource innerSliceOp)))
                          index) = false
             /\ getConstantIntValue
                  ir (mixedAt (getMixedSizes innerSliceOp) index)
                = Some (getDimSize
                          (Type_getShape
                             (getType (ExtractSliceOp.getSource innerSliceOp)))
                          index))
       /\ exists newSliceOp newPadOp,
            ir' = <[this := OpPad newPadOp]>
                    (<[fresh (dom ir) := OpExtractSlice newSliceOp]> ir)
            /\ ExtractSliceOp.getSource newSliceOp
               = ExtractSliceOp.getSource outerSliceOp
            /\ getImpl (PadOp.getSource newPadOp)
               = OpResultImpl (fresh (dom ir))
            /\ PadOp.getType newPadOp = PadOp.getType padOp
            /\ PadOp.getRegion newPadOp = PadOp.getRegion padOp)
  /\ (forall ir', out = Returned (ir', failure) -> ir' = ir)
  /\ (forall message,
        out = AssertionFailed message ->
        exists padOp innerSliceOp outerPad outerPadOp index,
          ir !! this = Some (OpPad padOp)
          /\ getDefiningOp_ExtractSliceOp ir (PadOp.getSource padOp)
             = Some innerSliceOp
          /\ getDefiningOp_PadOp_handle
               ir (ExtractSliceOp.getSource innerSliceOp)
             = Some (outerPad, outerPadOp)
          /\ (index < length (getMixedSizes innerSliceOp))%nat
          /\ test (PadOp_getPaddedDims ir outerPadOp) index = true
          /\ isDynamic (getDimSize
                          (Type_getShape
                             (getType (ExtractSliceOp.getSource innerSliceOp)))
                          index) = true)
  /\ (forall padOp innerSliceOp outerPad outerPadOp outerSliceOp,
        ir !! this = Some (OpPad padOp) ->
        getDefiningOp_ExtractSliceOp ir (PadOp.getSource padOp)
          = Some innerSliceOp ->
        getDefiningOp_PadOp_handle ir (ExtractSliceOp.getSource innerSliceOp)
          = Some (outerPad, outerPadOp) ->
        getDefiningOp_ExtractSliceOp ir (PadOp.getSource outerPadOp)
          = Some outerSliceOp ->
        anyCommon (PadOp_getPaddedDims ir padOp)
                  (PadOp_getPaddedDims ir outerPadOp) = true
        \/ PadOp_hasZeroLowPad ir padOp = false
        \/ PadOp_hasZeroLowPad ir outerPadOp = false
        \/ (forall innerValue outerValue attr,
              ~ (PadOp_getConstantPaddingValue ir this padOp = Some innerValue
                 /\ PadOp_getConstantPaddingValue ir outerPad outerPadOp
                    = Some outerValue
                 /\ m_Constant ir innerValue = Some attr
                 /\ m_Constant ir outerValue = Some attr))
        \/ (exists index,
              (index < length (getMixedSizes innerSliceOp))%nat
              /\ test (PadOp_getPaddedDims ir outerPadOp) index = true
              /\ getConstantIntValue
                   ir (mixedAt (getMixedSizes innerSliceOp) index)
                 <> Some (getDimSize
                            (Type_getShape
                               (getType
                                  (ExtractSliceOp.getSource innerSliceOp)))
                            index)
              /\ forall index',
                   (index' <= index)%nat ->
                   test (PadOp_getPaddedDims ir outerPadOp) index' = true ->
                   isDynamic
                     (getDimSize
                        (Type_getShape
                           (getType (ExtractSliceOp.getSource innerSliceOp)))
                        index') = false) ->
        out = Returned (ir, failure)).
Proof.
  intros out. subst out.
  split; [intros ir'; apply FoldOrthogonalPaddings_success |].
  split; [intros ir'; apply FoldOrthogonalPaddings_failure_unchanged |].
  split.
  { intros message Hout.
    destruct (FoldOrthogonalPaddings_AssertionFailed ir this message Hout)
      as (padOp & innerSliceOp & outerPad & outerPadOp & index
          & Hthis & Hinner & Houter & _ & _ & _ & _ & Hlt & Htest & Hdynamic
          & _).
    exists padOp, innerSliceOp, outerPad, outerPadOp, index. auto 10. }
  intros padOp innerSliceOp outerPad outerPadOp outerSliceOp
         Hthis Hinner Houter HouterSlice Hbad.
  destruct (FoldOrthogonalPaddings_matchAndRewrite ir this)
    as [[ir' [|]]|message] eqn:Hout.
  - exfalso.
    destruct (FoldOrthogonalPaddings_success ir ir' this Hout) as
      (padOp' & innerSliceOp' & outerPad' & outerPadOp' & outerSliceOp'
       & Hthis' & Hinner' & Houter' & HouterSlice' & _ & _ & _ & _
       & (innerValue & outerValue & attr & Hpad) & HinnerLow & HouterLow
       & Hcommon & Hsize & _).
    rewrite Hthis in Hthis'. inversion Hthis'; subst padOp'.
    rewrite Hinner in Hinner'. inversion Hinner'; subst innerSliceOp'.
    rewrite Houter in Houter'. inversion Houter'; subst outerPad' outerPadOp'.
    destruct Hbad
      as [Hb | [Hb | [Hb | [Hb | (index & Hlt & Htest & Hb & _)]]]].
    + congruence.
    + congruence.
    + congruence.
    + apply (Hb innerValue outerValue attr). exact Hpad.
    + apply Hb. apply Hsize; assumption.
  - rewrite (FoldOrthogonalPaddings_failure_unchanged ir ir' this Hout).
    reflexivity.
  - exfalso.
    destruct (FoldOrthogonalPaddings_AssertionFailed ir this message Hout)
      as (padOp' & innerSliceOp' & outerPad' & outerPadOp' & failing
          & Hthis' & Hinner' & Houter'
          & (innerValue & outerValue & attr & Hpad) & HinnerLow & HouterLow
          & Hcommon & Hfailing & Htest' & Hdynamic & Hbefore).
    rewrite Hthis in Hthis'. inversion Hthis'; subst padOp'.
    rewrite Hinner in Hinner'. inversion Hinner'; subst innerSliceOp'.
    rewrite Houter in Houter'. inversion Houter'; subst outerPad' outerPadOp'.
    destruct Hbad
      as [Hb | [Hb | [Hb | [Hb | (index & Hlt & Htest & Hb & Hstatic)]]]].
    + congruence.
    + congruence.
    + congruence.
    + apply (Hb innerValue outerValue attr). exact Hpad.
    + destruct (Nat.le_gt_cases failing index) as [Hle | Hgt].
      * rewrite (Hstatic failing Hle Htest') in Hdynamic. discriminate.
      * apply Hb. apply Hbefore; assumption.
Qed.

(** The source's example: the outer pair pads dimension 0, the inner pair
    dimension 1; the pads fuse into
    [tensor.extract_slice %input[16, 4] [%sz0, %sz1] [1, 1]] and one pad
    with high padding [%pw0, %pw1]. *)
Example FoldOrthogonalPaddings_fuses_disjoint :
  FoldOrthogonalPaddings_matchAndRewrite
    (paddingChain [0; 4] [8; kDynamic] [0; kDynamic]) 9
  = Returned
      (<[9%nat := OpPad (PadOp.mk (valueOf 10 [kDynamic; kDynamic])
                                  [] [scalarOf 2; scalarOf 4]
                                  [0; 0] [kDynamic; kDynamic] true padRegion
                                  (tensorOf [8; 4]))]>
       (<[10%nat := OpExtractSlice
                      (ExtractSliceOp.mk (valueOf 0 [64; 64])
                                         [] [scalarOf 1; scalarOf 3] []
                                         [16; 4] [kDynamic; kDynamic] [1; 1]
                                         (tensorOf [kDynamic; kDynamic]))]>
          (paddingChain [0; 4] [8; kDynamic] [0; kDynamic])),
       success).
Proof. reflexivity. Qed.

(** Two pads that both pad dimension 0 do not fuse. *)
Example FoldOrthogonalPaddings_declines_common_dim :
  FoldOrthogonalPaddings_matchAndRewrite
    (paddingChain [0; 0] [kDynamic; 64] [kDynamic; 0]) 9
  = Returned (paddingChain [0; 0] [kDynamic; 64] [kDynamic; 0], failure).
Proof. reflexivity. Qed.

(** An inner slice that does not take the full padded extent (4 of 8) does
    not fuse. *)
Example FoldOrthogonalPaddings_declines_partial_size :
  FoldOrthogonalPaddings_matchAndRewrite
    (paddingChain [0; 4] [4; kDynamic] [0; kDynamic]) 9
  = Returned (paddingChain [0; 4] [4; kDynamic] [0; kDynamic], failure).
Proof. reflexivity. Qed.

(** C8 (the code at the failing input).  In the chain of the source's
    example let the outer pad have the result type [tensor<?x64xf32>]: its
    padded dimension 0 has a dynamic extent, which [PadOp::verify] accepts,
    as it accepts the inner pad; both slices have the type that
    [ExtractSliceOp::inferResultType] gives them.  The pads yield the same
    constant, have zero low padding and pad the disjoint dimensions 0 and
    1, and the offsets combine; the inner size 8 of dimension 0 is not the
    extent of the outer-padded dimension, which is not known.  The pattern
    does not report a match failure: the assertion of step 7 fails. *)
Theorem FoldOrthogonalPaddings_dynamic_padded_extent :
  let ir := paddingChainTo [kDynamic; 64] [0; 4] [8; kDynamic] [0; kDynamic] in
  (exists padOp innerSliceOp outerPadOp outerSliceOp,
     ir !! 9%nat = Some (OpPad padOp)
     /\ getDefiningOp_ExtractSliceOp ir (PadOp.getSource padOp)
        = Some innerSliceOp
     /\ getDefiningOp_PadOp_handle ir (ExtractSliceOp.getSource innerSliceOp)
        = Some (7%nat, outerPadOp)
     /\ getDefiningOp_ExtractSliceOp ir (PadOp.getSource outerPadOp)
        = Some outerSliceOp
     /\ PadOp_verify padOp = success
     /\ PadOp_verify outerPadOp = success
     /\ ExtractSliceOp.getType innerSliceOp
        = ExtractSliceOp_inferResultType
            (cast_TensorType (getType (ExtractSliceOp.getSource innerSliceOp)))
            (ExtractSliceOp.getStaticOffsets innerSliceOp)
            (ExtractSliceOp.getStaticSizes innerSliceOp)
            (ExtractSliceOp.getStaticStrides innerSliceOp)
     /\ ExtractSliceOp.getType outerSliceOp
        = ExtractSliceOp_inferResultType
            (cast_TensorType (getType (ExtractSliceOp.getSource outerSliceOp)))
            (ExtractSliceOp.getStaticOffsets outerSliceOp)
            (ExtractSliceOp.getStaticSizes outerSliceOp)
            (ExtractSliceOp.getStaticStrides outerSliceOp)
     /\ hasUnitStride ir innerSliceOp = true
     /\ hasUnitStride ir outerSliceOp = true
     /\ PadOp_hasZeroLowPad ir padOp = true
     /\ PadOp_hasZeroLowPad ir outerPadOp = true
     /\ (exists innerValue outerValue attr,
           PadOp_getConstantPaddingValue ir 9 padOp = Some innerValue
           /\ PadOp_getConstantPaddingValue ir 7 outerPadOp = Some outerValue
           /\ m_Constant ir innerValue = Some attr
           /\ m_Constant ir outerValue = Some attr)
     /\ PadOp_getPaddedDims ir padOp = [false; true]
     /\ PadOp_getPaddedDims ir outerPadOp = [true; false]
     /\ getDimSize
          (Type_getShape (getType (ExtractSliceOp.getSource innerSliceOp)))
          0 = kDynamic
     /\ getConstantIntValue ir (mixedAt (getMixedSizes innerSliceOp) 0)
        = Some 8)
  /\ FoldOrthogonalPaddings_matchAndRewrite ir 9
     = AssertionFailed "expected padded dimension to have a static size"
  /\ FoldOrthogonalPaddings_matchAndRewrite ir 9 <> Returned (ir, failure).
Proof.
  cbv zeta. split; [| split; [reflexivity | discriminate]].
  eexists _, _, _, _. split_and!; try reflexivity.
  eexists _, _, _. split_and!; reflexivity.
Qed.

(* ===================================================================== *)
(** ** Further properties of the code *)
(* ===================================================================== *)

(** *** The algebra of [joinShapes] *)

Lemma joinDims_cons (a : Z) (one : list Z) (b : Z) (two : list Z) :
  joinDims (a :: one) (b :: two)
  = match joinDim a b with
    | Some d => cons d <$> joinDims one two
    | None => None
    end.
Proof.
  unfold joinDim. cbn [joinDims].
  destruct (isDynamic a), (isDynamic b), (a =? b); reflexivity.
Qed.

Lemma joinDim_assoc (a b c : Z) :
  joinDim a b ≫= (fun d => joinDim d c)
  = joinDim b c ≫= (fun d => joinDim a d).
Proof.
  unfold joinDim.
  destruct (isDynamic a) eqn:Da, (isDynamic b) eqn:Db, (isDynamic c) eqn:Dc;
    destruct (Z.eqb_spec a b) as [Hab | Hab];
    destruct (Z.eqb_spec b c) as [Hbc | Hbc];
    destruct (Z.eqb_spec a c) as [Hac | Hac];
    cbn [negb mbind option_bind];
    rewrite ?Da, ?Db, ?Dc; cbn [negb];
    repeat match goal with
           | |- context [?x =? ?y] =>
               destruct (Z.eqb_spec x y); cbn [negb]
           end;
    congruence.
Qed.

Lemma joinDims_assoc (one : list Z) :
  forall two three : list Z,
    length one = length two -> length two = length three ->
    joinDims one two ≫= (fun j => joinDims j three)
    = joinDims two three ≫= (fun j => joinDims one j).
Proof.
  induction one as [|a one IH]; intros [|b two] [|c three] H12 H23;
    try discriminate; [reflexivity |].
  assert (Hl12 : length one = length two) by (simpl in *; lia).
  assert (Hl23 : length two = length three) by (simpl in *; lia).
  specialize (IH two three Hl12 Hl23).
  pose proof (joinDim_assoc a b c) as Hhead.
  rewrite !joinDims_cons.
  destruct (joinDim a b) as [d1|], (joinDim b c) as [d2|],
           (joinDims one two) as [j1|], (joinDims two three) as [j2|];
    cbn [mbind option_bind fmap option_fmap option_map] in *;
    rewrite ?joinDims_cons;
    repeat match goal with
           | |- context [joinDim ?x ?y] => destruct (joinDim x y)
           | |- context [joinDims ?x ?y] => destruct (joinDims x y)
           end;
    cbn [mbind option_bind fmap option_fmap option_map] in *; congruence.
Qed.

Lemma joinDims_length (one two join : list Z) :
  length one = length two -> joinDims one two = Some join ->
  length join = length one.
Proof. intros Hlen Hj. apply (joinDims_Some one two join Hlen Hj). Qed.

(** Decide the rank comparisons of a goal from the lengths at hand. *)
Ltac decide_ranks :=
  repeat match goal with
         | |- context [(?x =? ?y)%nat] =>
             first
               [ replace (x =? y)%nat with true
                   by (symmetry; apply Nat.eqb_eq; simpl in *; lia)
               | replace (x =? y)%nat with false
                   by (symmetry; apply Nat.eqb_neq; simpl in *; lia) ]
         end.

(** X1.  [joinShapes] is associative on all tensor types, ranked or not:
    joining [a] and [b] and then [c] gives what joining [a] with the join
    of [b] and [c] gives, and the one does not exist exactly when the other
    does not. *)
Theorem joinShapes_assoc (a b c : TensorType) :
  joinShapes a b ≫= (fun j => joinShapes j c)
  = joinShapes b c ≫= (fun j => joinShapes a j).
Proof.
  destruct a as [s1 e1 enc1 | e1], b as [s2 e2 enc2 | e2],
           c as [s3 e3 enc3 | e3]; cbn [joinShapes mbind option_bind];
    try reflexivity.
  - (* all ranked *)
    destruct (decide (length s1 = length s2)) as [H12 | H12];
      destruct (decide (length s2 = length s3)) as [H23 | H23].
    + pose proof (joinDims_assoc s1 s2 s3 H12 H23) as Hassoc.
      decide_ranks. cbn [negb].
      destruct (joinDims s1 s2) as [j1|] eqn:Hj1,
               (joinDims s2 s3) as [j2|] eqn:Hj2;
        cbn [mbind option_bind joinShapes] in *;
        try pose proof (joinDims_length s1 s2 j1 H12 Hj1);
        try pose proof (joinDims_length s2 s3 j2 H23 Hj2);
        decide_ranks; cbn [negb]; rewrite <- ?Hassoc; try rewrite Hassoc;
        reflexivity.
    + decide_ranks. cbn [negb].
      destruct (joinDims s1 s2) as [j1|] eqn:Hj1;
        cbn [mbind option_bind joinShapes]; [| reflexivity].
      pose proof (joinDims_length s1 s2 j1 H12 Hj1).
      decide_ranks. reflexivity.
    + decide_ranks. cbn [negb].
      destruct (joinDims s2 s3) as [j2|] eqn:Hj2;
        cbn [mbind option_bind joinShapes]; [| reflexivity].
      pose proof (joinDims_length s2 s3 j2 H23 Hj2).
      decide_ranks. reflexivity.
    + decide_ranks. reflexivity.
  - (* a, b ranked, c unranked *)
    destruct (negb (length s1 =? length s2)%nat); [reflexivity |].
    destruct (joinDims s1 s2); reflexivity.
  - (* a unranked, b, c ranked *)
    destruct (negb (length s2 =? length s3)%nat); [reflexivity |].
    destruct (joinDims s2 s3); reflexivity.
Qed.

Lemma joinShapes_ranked_Some (s1 s2 : list Z) (e1 e2 : ElementType)
      (enc1 enc2 : option Z) (join : TensorType) :
  joinShapes (RankedTensorType s1 e1 enc1) (RankedTensorType s2 e2 enc2)
  = Some join ->
  length s1 = length s2 /\
  exists sj, joinDims s1 s2 = Some sj /\ join = RankedTensorType sj e1 None.
Proof.
  cbn [joinShapes].
  destruct (Nat.eqb_spec (length s1) (length s2)) as [Hlen | Hlen];
    cbn [negb]; [| discriminate].
  destruct (joinDims s1 s2) as [sj|]; [| discriminate].
  intros Hj. inversion Hj. eauto.
Qed.

(** X2.  The join of two ranked tensor types of one element type keeps the
    static information of both: [preservesStaticInformation] holds from
    either input to the join. *)
Theorem joinShapes_preserves_static_information
        (s1 s2 : list Z) (e : ElementType) (enc1 enc2 : option Z)
        (join : TensorType) :
  joinShapes (RankedTensorType s1 e enc1) (RankedTensorType s2 e enc2)
  = Some join ->
  preservesStaticInformation (TensorTy (RankedTensorType s1 e enc1))
                             (TensorTy join) = true
  /\ preservesStaticInformation (TensorTy (RankedTensorType s2 e enc2))
                                (TensorTy join) = true.
Proof.
  intros Hjoin.
  destruct (joinShapes_ranked_Some _ _ _ _ _ _ _ Hjoin)
    as (Hlen & sj & Hsj & ->).
  destruct (joinDims_Some s1 s2 sj Hlen Hsj) as [Hlsj Hdims].
  rewrite (preservesStaticInformation_ranked s1 sj e enc1 None)
    by (symmetry; exact Hlsj).
  rewrite (preservesStaticInformation_ranked s2 sj e enc2 None)
    by congruence.
  split; apply noStaticToDynamic_spec; intros i x d Hx Hd Hstatic.
  - destruct (lookup_lt_is_Some_2 s2 i) as [b Hb];
      [rewrite <- Hlen; eapply lookup_lt_Some; eauto |].
    destruct (Hdims i x b Hx Hb) as [Hsj_i _].
    rewrite Hstatic in Hsj_i. congruence.
  - destruct (lookup_lt_is_Some_2 s1 i) as [a Ha];
      [rewrite Hlen; eapply lookup_lt_Some; eauto |].
    destruct (Hdims i a x Ha Hx) as [Hsj_i Hsame].
    destruct (isDynamic a) eqn:Da; [congruence |].
    specialize (Hsame eq_refl Hstatic). subst a. congruence.
Qed.

(** Witness for X2: the join of [8x?] and [?x16]. *)
Lemma joinShapes_preserves_static_information_witness :
  preservesStaticInformation (TensorTy (tensorOf [8; kDynamic]))
                             (TensorTy (tensorOf [8; 16])) = true
  /\ preservesStaticInformation (TensorTy (tensorOf [kDynamic; 16]))
                                (TensorTy (tensorOf [8; 16])) = true.
Proof.
  apply (joinShapes_preserves_static_information
           [8; kDynamic] [kDynamic; 16] F32 None None (tensorOf [8; 16])).
  reflexivity.
Defined.

Lemma joinDims_keeps_static (one two join : list Z) :
  length one = length two ->
  joinDims one two = Some join ->
  forall k x,
    (one !! k = Some x \/ two !! k = Some x) ->
    isDynamic x = false ->
    join !! k = Some x.
Proof.
  intros Hlen Hjoin k x Hx Hstatic.
  destruct (joinDims_Some one two join Hlen Hjoin) as [Hlj Hd].
  destruct Hx as [Hx | Hx].
  - destruct (lookup_lt_is_Some_2 two k) as [b Hb];
      [rewrite <- Hlen; eapply lookup_lt_Some; eauto |].
    destruct (Hd k x b Hx Hb) as [Hk _]. rewrite Hstatic in Hk. exact Hk.
  - destruct (lookup_lt_is_Some_2 one k) as [a Ha];
      [rewrite Hlen; eapply lookup_lt_Some; eauto |].
    destruct (Hd k a x Ha Hx) as [Hk Hsame].
    destruct (isDynamic a) eqn:Da; [exact Hk |].
    rewrite (Hsame eq_refl Hstatic) in Hk. exact Hk.
Qed.

(** The remark in [ChainedTensorCast] on ranked shapes: when the three-way
    join exists, so does the join of the end points, and each of its
    static extents is an extent of the three-way join. *)
Lemma joinDims_of_end_points (source intermediate result s1 s3 : list Z) :
  length source = length intermediate ->
  joinDims source intermediate = Some s1 ->
  length s1 = length result ->
  joinDims s1 result = Some s3 ->
  exists s2,
    joinDims source result = Some s2
    /\ length s3 = length s2
    /\ forall k x, s2 !! k = Some x -> isDynamic x = false ->
                   s3 !! k = Some x.
Proof.
  intros Hlen1 Hs1 Hlen3 Hs3.
  destruct (joinDims_Some source intermediate s1 Hlen1 Hs1) as [Hls1 Hd1].
  destruct (joinDims_Some s1 result s3 Hlen3 Hs3) as [Hls3 Hd3].
  assert (Hlen2 : length source = length result) by congruence.
  destruct (joinDims source result) as [s2|] eqn:Hs2.
  - exists s2. destruct (joinDims_Some source result s2 Hlen2 Hs2) as [Hls2 Hd2].
    split_and!; [reflexivity | congruence |].
    intros k x Hx Hstatic.
    destruct (lookup_lt_is_Some_2 source k) as [a Ha];
      [rewrite <- Hls2; eapply lookup_lt_Some; eauto |].
    destruct (lookup_lt_is_Some_2 result k) as [c Hc];
      [rewrite <- Hlen2; eapply lookup_lt_Some; eauto |].
    destruct (Hd2 k a c Ha Hc) as [Hs2k _].
    rewrite Hx in Hs2k. inversion Hs2k as [Hxk]. clear Hs2k.
    destruct (isDynamic a) eqn:Da.
    + subst x.
      apply (joinDims_keeps_static s1 result s3 Hlen3 Hs3 k c);
        [right; exact Hc | exact Hstatic].
    + subst x.
      apply (joinDims_keeps_static s1 result s3 Hlen3 Hs3 k a);
        [left | exact Da].
      apply (joinDims_keeps_static source intermediate s1 Hlen1 Hs1 k a);
        [left; exact Ha | exact Da].
  - exfalso. apply (joinDims_None source result Hlen2) in Hs2.
    destruct Hs2 as (k & a & c & Ha & Hc & Da & Dc & Hne).
    destruct (lookup_lt_is_Some_2 intermediate k) as [b Hb];
      [rewrite <- Hlen1; eapply lookup_lt_Some; eauto |].
    destruct (Hd1 k a b Ha Hb) as [Hs1k _]. rewrite Da in Hs1k.
    assert (Hnone : joinDims s1 result = None).
    { apply (joinDims_None s1 result Hlen3). exists k, a, c. auto. }
    congruence.
Qed.

(** The remark on all tensor types, ranked or not. *)
Lemma joinShapes_of_end_points
      (sourceType intermediateType resultType firstJoin : TensorType) :
  joinShapes sourceType intermediateType
    ≫= (fun j => joinShapes j resultType) = Some firstJoin ->
  exists newJoin,
    joinShapes sourceType resultType = Some newJoin
    /\ forall shape e enc,
         newJoin = RankedTensorType shape e enc ->
         exists shape' e' enc',
           firstJoin = RankedTensorType shape' e' enc'
           /\ length shape' = length shape
           /\ forall k x, shape !! k = Some x -> isDynamic x = false ->
                          shape' !! k = Some x.
Proof.
  intros Hthree.
  destruct (joinShapes sourceType intermediateType) as [j1|] eqn:H1;
    [| discriminate].
  cbn [mbind option_bind] in Hthree.
  destruct sourceType as [source e1 enc1 | e1].
  - destruct resultType as [result e3 enc3 | e3].
    + destruct intermediateType as [intermediate e2 enc2 | e2].
      * destruct (joinShapes_ranked_Some _ _ _ _ _ _ _ H1)
          as (Hlen1 & s1 & Hs1 & ->).
        destruct (joinShapes_ranked_Some _ _ _ _ _ _ _ Hthree)
          as (Hlen3 & s3 & Hs3 & ->).
        destruct (joinDims_Some source intermediate s1 Hlen1 Hs1)
          as [Hls1 _].
        destruct (joinDims_of_end_points source intermediate result s1 s3
                                         Hlen1 Hs1 Hlen3 Hs3)
          as (s2 & Hs2 & Hls & Hkeep).
        exists (RankedTensorType s2 e1 None). split.
        -- cbn [joinShapes]. decide_ranks. cbn [negb]. rewrite Hs2.
           reflexivity.
        -- intros shape e enc [= <- <- <-]. eauto 10.
      * cbn [joinShapes] in H1. inversion H1; subst j1.
        exists firstJoin. split; [exact Hthree |].
        intros shape e enc ->. eauto 10.
    + cbn [joinShapes]. eexists. split; [reflexivity |].
      intros shape e enc [= <- <- <-].
      destruct intermediateType as [intermediate e2 enc2 | e2].
      * destruct (joinShapes_ranked_Some _ _ _ _ _ _ _ H1)
          as (Hlen1 & s1 & Hs1 & ->).
        cbn [joinShapes] in Hthree. inversion Hthree; subst firstJoin.
        destruct (joinDims_Some source intermediate s1 Hlen1 Hs1)
          as [Hls1 _].
        exists s1, e1, None. split_and!; [reflexivity | exact Hls1 |].
        intros k x Hx Hstatic.
        apply (joinDims_keeps_static source intermediate s1 Hlen1 Hs1 k x);
          [left; exact Hx | exact Hstatic].
      * cbn [joinShapes] in H1. inversion H1; subst j1.
        cbn [joinShapes] in Hthree. inversion Hthree; subst firstJoin.
        eauto 10.
  - cbn [joinShapes] in H1. inversion H1; subst j1.
    cbn [joinShapes]. eexists. split; [reflexivity |].
    intros shape e enc ->.
    destruct intermediateType as [intermediate e2 enc2 | e2].
    + destruct (joinShapes_ranked_Some _ _ _ _ _ _ _ Hthree)
        as (Hlen3 & s3 & Hs3 & ->).
      destruct (joinDims_Some intermediate shape s3 Hlen3 Hs3) as [Hls3 _].
      exists s3, e2, None. split_and!; [reflexivity | congruence |].
      intros k x Hx Hstatic.
      apply (joinDims_keeps_static intermediate shape s3 Hlen3 Hs3 k x);
        [right; exact Hx | exact Hstatic].
    + cbn [joinShapes] in Hthree. inversion Hthree; subst firstJoin.
      eauto 10.
Qed.

(** X3.  Every rewrite of [ChainedTensorCast] is a rewrite of a cast of a
    cast with a tensor-typed source, and the join of the source and result
    types of the one cast it leaves exists: it is the three-way join of the
    source, intermediate and result types.  And the remark in the pattern
    holds for ranked and unranked types alike: whenever the pattern finds
    the three-way join [firstJoin], the join [newJoin] of the source and
    result types exists too, and it only contains less information: if it
    is ranked, so is [firstJoin], with the same rank and with every static
    extent of [newJoin].  The pattern then rewrites exactly when the two
    joins are equal, and otherwise fails and leaves the IR as it was. *)
Theorem ChainedTensorCast_newJoin_exists (ir : IR) (tensorCast : nat) :
  (forall ir',
     ChainedTensorCast_matchAndRewrite ir tensorCast = (ir', success) ->
     exists this tensorCastOperand sourceType newJoin,
       ir !! tensorCast = Some (OpCast this)
       /\ getDefiningOp_CastOp ir (CastOp.getSource this)
          = Some tensorCastOperand
       /\ getType (CastOp.getSource tensorCastOperand) = TensorTy sourceType
       /\ joinShapes sourceType (CastOp.getType tensorCastOperand)
            ≫= (fun j => joinShapes j (CastOp.getType this)) = Some newJoin
       /\ joinShapes sourceType (CastOp.getType this) = Some newJoin
       /\ ir' = <[tensorCast :=
                    OpCast (CastOp.mk (CastOp.getSource tensorCastOperand)
                                      (CastOp.getType this))]> ir)
  /\ (forall this tensorCastOperand sourceType firstJoin,
        ir !! tensorCast = Some (OpCast this) ->
        getDefiningOp_CastOp ir (CastOp.getSource this)
          = Some tensorCastOperand ->
        getType (CastOp.getSource tensorCastOperand) = TensorTy sourceType ->
        joinShapes sourceType (CastOp.getType tensorCastOperand)
          ≫= (fun j => joinShapes j (CastOp.getType this)) = Some firstJoin ->
        exists newJoin,
          joinShapes sourceType (CastOp.getType this) = Some newJoin
          /\ (forall shape e enc,
                newJoin = RankedTensorType shape e enc ->
                exists shape' e' enc',
                  firstJoin = RankedTensorType shape' e' enc'
                  /\ length shape' = length shape
                  /\ forall k x, shape !! k = Some x -> isDynamic x = false ->
                                 shape' !! k = Some x)
          /\ ChainedTensorCast_matchAndRewrite ir tensorCast
             = if bool_decide (firstJoin = newJoin)
               then (<[tensorCast :=
                         OpCast (CastOp.mk
                                   (CastOp.getSource tensorCastOperand)
                                   (CastOp.getType this))]> ir,
                     success)
               else (ir, failure)).
Proof.
  split.
  - intros ir'. unfold ChainedTensorCast_matchAndRewrite, replaceOpWithNewOp.
    destruct (ir !! tensorCast) as [op|] eqn:Hthis; [| discriminate].
    destruct op as [ |this| | | | | | | | | ]; try discriminate.
    destruct (getDefiningOp_CastOp ir (CastOp.getSource this))
      as [tensorCastOperand|] eqn:Hdef; [| discriminate].
    destruct (getType (CastOp.getSource tensorCastOperand))
      as [sourceType | ] eqn:Hty; cbn [dyn_cast_TensorType]; [| discriminate].
    destruct (joinShapes sourceType (CastOp.getType tensorCastOperand))
      as [j1|] eqn:H1; [| discriminate].
    destruct (joinShapes j1 (CastOp.getType this)) as [firstJoin|] eqn:H3;
      [| discriminate].
    destruct (decide (Some firstJoin
                      = joinShapes sourceType (CastOp.getType this)))
      as [Heq | Hne].
    + rewrite (bool_decide_eq_true_2 _ Heq). cbn [negb]. intros [= <-].
      exists this, tensorCastOperand, sourceType, firstJoin.
      split_and!; try reflexivity; try assumption.
      * rewrite H1. exact H3.
      * symmetry. exact Heq.
    + rewrite (bool_decide_eq_false_2 _ Hne). discriminate.
  - intros this tensorCastOperand sourceType firstJoin Hthis Hdef Hty Hthree.
    destruct (joinShapes_of_end_points _ _ _ _ Hthree)
      as (newJoin & HnewJoin & Hless).
    exists newJoin. split_and!; [exact HnewJoin | exact Hless |].
    unfold ChainedTensorCast_matchAndRewrite, replaceOpWithNewOp.
    rewrite Hthis, Hdef, Hty. cbn [dyn_cast_TensorType].
    change (match joinShapes sourceType (CastOp.getType tensorCastOperand) with
            | Some j => joinShapes j (CastOp.getType this)
            | None => None
            end)
      with (joinShapes sourceType (CastOp.getType tensorCastOperand)
              ≫= (fun j => joinShapes j (CastOp.getType this))).
    rewrite Hthree, HnewJoin.
    destruct (decide (firstJoin = newJoin)) as [Heq | Hne].
    + rewrite (bool_decide_eq_true_2 _ Heq).
      rewrite bool_decide_eq_true_2 by congruence. reflexivity.
    + rewrite (bool_decide_eq_false_2 _ Hne).
      rewrite bool_decide_eq_false_2 by congruence. reflexivity.
Qed.

(** Witness for X3: the pattern fires through an unranked type,
    [tensor<4xf32> -> tensor<*xf32> -> tensor<4xf32>]. *)
Lemma ChainedTensorCast_newJoin_exists_witness :
  exists newJoin,
    joinShapes (tensorOf [4]) (tensorOf [4]) = Some newJoin
    /\ ChainedTensorCast_matchAndRewrite castThroughUnranked 2
       = if bool_decide (tensorOf [4] = newJoin)
         then (<[2%nat := OpCast (CastOp.mk (valueOf 0 [4]) (tensorOf [4]))]>
                 castThroughUnranked,
               success)
         else (castThroughUnranked, failure).
Proof.
  destruct (proj2 (ChainedTensorCast_newJoin_exists castThroughUnranked 2)
              (CastOp.mk (getResult 1 (TensorTy (UnrankedTensorType F32)))
                         (tensorOf [4]))
              (CastOp.mk (valueOf 0 [4]) (UnrankedTensorType F32))
              (tensorOf [4]) (tensorOf [4])
              eq_refl eq_refl eq_refl eq_refl)
    as (newJoin & HnewJoin & _ & Hrun).
  exists newJoin. split; [exact HnewJoin | exact Hrun].
Defined.

(** The chain [tensor<4xf32> -> tensor<*xf32> -> tensor<4xf32>] collapses
    to one cast of the producer. *)
Example ChainedTensorCast_through_unranked :
  ChainedTensorCast_matchAndRewrite castThroughUnranked 2
  = (<[2%nat := OpCast (CastOp.mk (valueOf 0 [4]) (tensorOf [4]))]>
       castThroughUnranked,
     success).
Proof. reflexivity. Qed.

(** *** Folding casts into consumers *)

(** X4.  [foldTensorCast] keeps the number of operands; it reports success
    exactly when some operand is produced by a cast that can fold into its
    consumer, and on failure the operands are unchanged.  A replaced
    operand is the source of the cast that produced it, whose type keeps
    all the static information of the cast's result type. *)
Theorem foldTensorCast_folds_foldable_casts (ir : IR) (operands : list Value) :
  let out := foldTensorCast ir operands in
  length out.1 = length operands
  /\ (out.2 = success <->
      exists operand, operand ∈ operands /\
        canFoldIntoConsumerOp (getDefiningOp_CastOp ir operand) = true)
  /\ (out.2 = failure -> out.1 = operands)
  /\ (forall i old new,
        operands !! i = Some old -> out.1 !! i = Some new -> new <> old ->
        exists castOp,
          getDefiningOp_CastOp ir old = Some castOp
          /\ new = CastOp.getSource castOp
          /\ preservesStaticInformation (TensorTy (CastOp.getType castOp))
                                        (getType new) = true).
Proof.
  induction operands as [|operand rest IH]; cbn [foldTensorCast].
  - cbn [fst snd]. split; [reflexivity |]. split.
    + split; [discriminate | intros (v & Hv & _); inversion Hv].
    + split; [reflexivity |]. intros i old new Hold. destruct i; discriminate.
  - destruct (foldTensorCast ir rest) as [rest' folded] eqn:Hrest.
    cbn [fst snd] in IH. destruct IH as (Hlen & Hiff & Hfail & Hrepl).
    assert (Hcases :
      (exists cast, getDefiningOp_CastOp ir operand = Some cast
                    /\ canFoldIntoConsumerOp (Some cast) = true)
      \/ canFoldIntoConsumerOp (getDefiningOp_CastOp ir operand) = false).
    { destruct (getDefiningOp_CastOp ir operand) as [cast|]; [| right; reflexivity].
      destruct (canFoldIntoConsumerOp (Some cast)) eqn:Hc; eauto. }
    destruct Hcases as [(cast & Hdef & Hcan) | Hcannot].
    + rewrite Hdef, Hcan. cbn [fst snd]. split; [simpl; lia |]. split.
      * split; [| reflexivity]. intros _. exists operand.
        split; [left | rewrite Hdef; exact Hcan].
      * split; [discriminate |].
        intros [|i] old new Hold Hnew Hne; rewrite lookup_cons in Hold, Hnew.
        -- inversion Hold; inversion Hnew; subst. exists cast.
           split; [exact Hdef |]. split; [reflexivity | exact Hcan].
        -- eauto.
    + assert (Hsame : (match getDefiningOp_CastOp ir operand with
                       | Some cast =>
                           if canFoldIntoConsumerOp
                                (getDefiningOp_CastOp ir operand)
                           then (CastOp.getSource cast :: rest', success)
                           else (operand :: rest', folded)
                       | None => (operand :: rest', folded)
                       end) = (operand :: rest', folded)).
      { destruct (getDefiningOp_CastOp ir operand); [| reflexivity].
        rewrite Hcannot. reflexivity. }
      rewrite Hsame. cbn [fst snd]. split; [simpl; lia |]. split.
      * rewrite Hiff. split.
        -- intros (v & Hv & Hc). exists v. split; [right; exact Hv | exact Hc].
        -- intros (v & Hv & Hc). apply elem_of_cons in Hv as [-> | Hv];
             [congruence | eauto].
      * split; [intros Hf; rewrite (Hfail Hf); reflexivity |].
        intros [|i] old new Hold Hnew Hne; rewrite lookup_cons in Hold, Hnew.
        -- congruence.
        -- eauto.
Qed.

(** A cast that erases static information folds into the consumer; one that
    adds it stays. *)
Example foldTensorCast_sample :
  foldTensorCast castsOfBothKinds
                 [valueOf 2 [kDynamic; kDynamic]; valueOf 3 [4; 4]]
  = ([valueOf 0 [16; 16]; valueOf 3 [4; 4]], success).
Proof. reflexivity. Qed.

(** *** Gather and scatter verifiers *)

(** X5.  [GatherOp::verify] succeeds exactly when the gather-dims list is
    non-empty, strictly increasing and within [0, source rank), and the
    declared result type is one of the two inferred forms; such a list is
    never longer than the source rank. *)
Theorem GatherOp_verify_iff (op : GatherOp.t) :
  let dims := GatherOp.getGatherDims op in
  let sourceType := GatherOp.getSourceType op in
  (GatherOp_verify op = success <->
   validGatherDims dims (getRank sourceType)
   /\ (GatherOp.getResultType op
       = GatherOp_inferResultType sourceType (GatherOp.getIndicesType op)
                                  dims false
       \/ GatherOp.getResultType op
          = GatherOp_inferResultType sourceType (GatherOp.getIndicesType op)
                                     dims true))
  /\ (GatherOp_verify op = success ->
      Z.of_nat (length dims) <= getRank sourceType).
Proof.
  intros dims sourceType.
  assert (Hiff : GatherOp_verify op = success <->
    validGatherDims dims (getRank sourceType)
    /\ (GatherOp.getResultType op
        = GatherOp_inferResultType sourceType (GatherOp.getIndicesType op)
                                   dims false
        \/ GatherOp.getResultType op
           = GatherOp_inferResultType sourceType (GatherOp.getIndicesType op)
                                      dims true)).
  { unfold GatherOp_verify. fold dims sourceType.
    rewrite <- verifyGatherOrScatterDims_spec.
    destruct (verifyGatherOrScatterDims dims (getRank sourceType));
      cbn [failed succeeded negb].
    - destruct (decide (GatherOp.getResultType op
                        = GatherOp_inferResultType
                            sourceType (GatherOp.getIndicesType op) dims false))
        as [Hf | Hf].
      + rewrite (bool_decide_eq_true_2 _ Hf). cbn [negb andb]. tauto.
      + rewrite (bool_decide_eq_false_2 _ Hf). cbn [negb andb].
        destruct (decide (GatherOp.getResultType op
                          = GatherOp_inferResultType
                              sourceType (GatherOp.getIndicesType op) dims true))
          as [Hr | Hr].
        * rewrite (bool_decide_eq_true_2 _ Hr). cbn [negb]. tauto.
        * rewrite (bool_decide_eq_false_2 _ Hr). cbn [negb].
          split; [discriminate | tauto].
    - split; [discriminate | intros [? _]; discriminate]. }
  split; [exact Hiff |].
  intros Hok. apply Hiff in Hok as [Hvalid _].
  apply validGatherDims_length. exact Hvalid.
Qed.

(** Unsorted, repeated, out-of-range or missing gather dims are rejected
    whatever the declared result type. *)
Example GatherOp_verify_rejects_bad_dims :
  GatherOp_verify (GatherOp.mk (tensorOf [10; 20; 30])
                               (RankedTensorType [7; 2] Index None)
                               [2; 0] (tensorOf [7; 20])) = failure
  /\ GatherOp_verify (GatherOp.mk (tensorOf [10; 20; 30])
                                  (RankedTensorType [7; 2] Index None)
                                  [0; 0] (tensorOf [7; 20; 30])) = failure
  /\ GatherOp_verify (GatherOp.mk (tensorOf [10; 20; 30])
                                  (RankedTensorType [7; 1] Index None)
                                  [3] (tensorOf [7; 10; 20; 30])) = failure
  /\ GatherOp_verify (GatherOp.mk (tensorOf [10; 20; 30])
                                  (RankedTensorType [7; 0] Index None)
                                  [] (tensorOf [7; 10; 20; 30])) = failure.
Proof. repeat split. Qed.

(** X6.  [ScatterOp::verify] succeeds exactly when the [unique] attribute
    is set and the gather that reads back what the scatter writes (from
    the scatter's destination, with the same indices and dims, into the
    scatter's source type) verifies; without [unique] it always fails. *)
Theorem ScatterOp_verify_dual_of_gather (op : ScatterOp.t) :
  (ScatterOp_verify op = success <->
   ScatterOp.getUnique op = true
   /\ GatherOp_verify
        (GatherOp.mk (ScatterOp.getDestType op) (ScatterOp.getIndicesType op)
                     (ScatterOp.getScatterDims op)
                     (ScatterOp.getSourceType op)) = success)
  /\ (if ScatterOp.getUnique op then True else ScatterOp_verify op = failure).
Proof.
  unfold ScatterOp_verify, GatherOp_verify.
  cbn [GatherOp.getSourceType GatherOp.getIndicesType GatherOp.getGatherDims
       GatherOp.getResultType].
  destruct (failed (verifyGatherOrScatterDims
                      (ScatterOp.getScatterDims op)
                      (getRank (ScatterOp.getDestType op)))) eqn:Hdims;
    destruct (ScatterOp.getUnique op); cbn [negb];
    try destruct (_ && _);
    (split; [split; [try discriminate; intros _; split; reflexivity
                    | try (intros [? ?]; discriminate); reflexivity]
            | try exact I; reflexivity]).
Qed.

(** *** Folding [tensor.extract] *)

Lemma collectIndices_Some (operands : list (option Attribute)) (indices : list Z) :
  collectIndices operands = Some indices ->
  Forall2 (fun operand index =>
             exists value, operand = Some (IntegerAttr value)
                           /\ index = static_cast_uint64 value)
          operands indices.
Proof.
  revert indices. induction operands as [| indice rest IH]; intros indices.
  - cbn [collectIndices]. intros [= <-]. constructor.
  - cbn [collectIndices].
    destruct indice as [[value | | |] |]; try discriminate.
    destruct (collectIndices rest) as [tail |]; [| discriminate].
    cbn [fmap option_fmap option_map]. intros [= <-].
    constructor; [eauto | apply IH; reflexivity].
Qed.

Lemma collectIndices_None (operands : list (option Attribute)) :
  Exists (fun operand => forall value, operand <> Some (IntegerAttr value))
         operands ->
  collectIndices operands = None.
Proof.
  induction 1 as [indice rest Hbad | indice rest _ IH].
  - cbn [collectIndices].
    destruct indice as [[value | | |] |]; try reflexivity.
    exfalso. exact (Hbad value eq_refl).
  - cbn [collectIndices]. rewrite IH.
    destruct indice as [[value | | |] |]; reflexivity.
Qed.

(** X7.  On a tensor that is not a splat constant, [ExtractOp::fold] does
    not fold unless every index is a constant integer.  When the tensor is
    produced by [tensor.from_elements], a fold reads the element list only
    at the flattened index that the loop has computed, and only when that
    index lies within the list, [0 <= flatIndex < size]: the result is the
    operand at that position, so an index that the [int] arithmetic has
    made negative, or one past the end, never reads an element.  For a
    list of fewer than [2^31] elements the converse holds: constant
    indices with a flattened index within the list always fold. *)
Theorem ExtractOp_fold_safe
        (getValueAt : Attribute -> list Z -> option Attribute)
        (ir : IR) (op : ExtractOp.t) (tensor : option Attribute)
        (indices : list (option Attribute)) :
  (forall splatValue, tensor <> Some (SplatElementsAttr splatValue)) ->
  (Exists (fun indice => forall value, indice <> Some (IntegerAttr value))
          indices ->
   ExtractOp_fold getValueAt ir op (tensor :: indices) = None)
  /\ (forall fromElementsOp,
        getDefiningOp_FromElementsOp ir (ExtractOp.getTensor op)
          = Some fromElementsOp ->
        let shape := getShape (FromElementsOp.getType fromElementsOp) in
        let elements := FromElementsOp.getElements fromElementsOp in
        (forall result,
           ExtractOp_fold getValueAt ir op (tensor :: indices) = Some result ->
           exists constants value,
             collectIndices indices = Some constants
             /\ Forall2 (fun indice constant =>
                           exists c, indice = Some (IntegerAttr c)
                                     /\ constant = static_cast_uint64 c)
                        indices constants
             /\ 0 <= flattenIndices shape constants (Z.of_nat (length shape))
                                    (length shape) 0 1
                  < Z.of_nat (length elements)
             /\ elements !! Z.to_nat
                               (flattenIndices shape constants
                                               (Z.of_nat (length shape))
                                               (length shape) 0 1)
                = Some value
             /\ result = OfrValue value)
        /\ (forall constants,
              collectIndices indices = Some constants ->
              Z.of_nat (length elements) < 2147483648 ->
              0 <= flattenIndices shape constants (Z.of_nat (length shape))
                                  (length shape) 0 1
                < Z.of_nat (length elements) ->
              exists value,
                elements !! Z.to_nat
                              (flattenIndices shape constants
                                              (Z.of_nat (length shape))
                                              (length shape) 0 1)
                = Some value
                /\ ExtractOp_fold getValueAt ir op (tensor :: indices)
                   = Some (OfrValue value))).
Proof.
  intros Hnot.
  split.
  - intros Hbad. unfold ExtractOp_fold. cbn [hd tl].
    rewrite (collectIndices_None _ Hbad).
    destruct tensor as [[| | splatValue |] |]; try reflexivity.
    exfalso. exact (Hnot splatValue eq_refl).
  - intros fromElementsOp Hdef shape elements.
    assert (Hfold :
              ExtractOp_fold getValueAt ir op (tensor :: indices)
              = match collectIndices indices with
                | None => None
                | Some constants =>
                    let flatIndex :=
                      flattenIndices shape constants (Z.of_nat (length shape))
                                     (length shape) 0 1 in
                    if (static_cast_int (Z.of_nat (length elements))
                        <=? flatIndex)
                       || (flatIndex <? 0)
                    then None
                    else OfrValue <$> elements !! Z.to_nat flatIndex
                end).
    { unfold ExtractOp_fold. cbn [hd tl]. rewrite Hdef.
      destruct tensor as [[| | splatValue |] |]; try reflexivity.
      exfalso. exact (Hnot splatValue eq_refl). }
    rewrite Hfold. clear Hfold. split.
    + intros result.
      destruct (collectIndices indices) as [constants |] eqn:Hconstants;
        [| discriminate].
      cbv zeta.
      destruct (Z.leb_spec (static_cast_int (Z.of_nat (length elements)))
                           (flattenIndices shape constants
                                           (Z.of_nat (length shape))
                                           (length shape) 0 1))
        as [Hpast | Hbelow]; cbn [orb]; [discriminate |].
      destruct (Z.ltb_spec (flattenIndices shape constants
                                           (Z.of_nat (length shape))
                                           (length shape) 0 1) 0)
        as [Hnegative | Hnonnegative]; [discriminate |].
      destruct (elements !! _) as [value |] eqn:Hvalue; [| discriminate].
      cbn [fmap option_fmap option_map]. intros [= <-].
      exists constants, value.
      split_and!; try reflexivity.
      * apply collectIndices_Some. exact Hconstants.
      * exact Hnonnegative.
      * apply lookup_lt_Some in Hvalue. lia.
      * exact Hvalue.
    + intros constants Hconstants Hsize [Hnonnegative Hbelow].
      rewrite Hconstants. cbv zeta.
      assert (Hint : static_cast_int (Z.of_nat (length elements))
                     = Z.of_nat (length elements)).
      { unfold static_cast_int.
        rewrite (Z.mod_small (_ + 2147483648)) by lia. lia. }
      rewrite Hint.
      destruct (Z.leb_spec (Z.of_nat (length elements))
                           (flattenIndices shape constants
                                           (Z.of_nat (length shape))
                                           (length shape) 0 1))
        as [Hpast | _]; [lia |].
      destruct (Z.ltb_spec (flattenIndices shape constants
                                           (Z.of_nat (length shape))
                                           (length shape) 0 1) 0)
        as [Hnegative | _]; [lia |].
      cbn [orb].
      destruct (lookup_lt_is_Some_2
                  elements
                  (Z.to_nat (flattenIndices shape constants
                                            (Z.of_nat (length shape))
                                            (length shape) 0 1)))
        as [value Hvalue]; [lia |].
      exists value. rewrite Hvalue. split; reflexivity.
Qed.

(** Witness for X7: in [tensor<2x3xindex>] of six elements the constant
    indices [1, 2] fold to the element at the flattened index that the
    loop computes, which is within the list. *)
Lemma ExtractOp_fold_safe_witness :
  exists value,
    FromElementsOp.getElements
      (FromElementsOp.mk [scalarOf 0; scalarOf 1; scalarOf 2;
                          scalarOf 3; scalarOf 4; scalarOf 5]
                         (RankedTensorType [2; 3] Index None))
    !! Z.to_nat (flattenIndices [2; 3] [1; 2] 2 2 0 1) = Some value
    /\ ExtractOp_fold (fun _ _ => None) extractFromElements
                      extractFromElements_op
                      [None; Some (IntegerAttr 1); Some (IntegerAttr 2)]
       = Some (OfrValue value).
Proof.
  refine (proj2 (proj2 (ExtractOp_fold_safe
                          (fun _ _ => None) extractFromElements
                          extractFromElements_op None
                          [Some (IntegerAttr 1); Some (IntegerAttr 2)] _)
                       (FromElementsOp.mk
                          [scalarOf 0; scalarOf 1; scalarOf 2;
                           scalarOf 3; scalarOf 4; scalarOf 5]
                          (RankedTensorType [2; 3] Index None))
                       eq_refl)
                [1; 2] eq_refl _ _).
  - intros splatValue. discriminate.
  - reflexivity.
  - split; [discriminate | reflexivity].
Defined.

(** X8.  On a one-dimensional [tensor.from_elements] that is not a
    constant, [ExtractOp::fold] with a constant index [i] below [2^31]
    returns operand [i] of the [from_elements] when [i] is within the
    element list and does not fold when it is past its end. *)
Theorem ExtractOp_fold_from_elements_rank1
        (getValueAt : Attribute -> list Z -> option Attribute)
        (ir : IR) (op : ExtractOp.t) (fromElementsOp : FromElementsOp.t)
        (extent i : Z) :
  getDefiningOp_FromElementsOp ir (ExtractOp.getTensor op)
    = Some fromElementsOp ->
  getShape (FromElementsOp.getType fromElementsOp) = [extent] ->
  Z.of_nat (length (FromElementsOp.getElements fromElementsOp)) < 2147483648 ->
  0 <= i < 2147483648 ->
  ExtractOp_fold getValueAt ir op [None; Some (IntegerAttr i)]
  = OfrValue <$> FromElementsOp.getElements fromElementsOp !! Z.to_nat i.
Proof.
  intros Hdef Hshape Hlen Hi. unfold ExtractOp_fold.
  cbn [hd tl collectIndices fmap option_fmap option_map]. rewrite Hdef, Hshape.
  assert (Hu : static_cast_uint64 i = i).
  { unfold static_cast_uint64. apply Z.mod_small. lia. }
  assert (Hflat : flattenIndices [extent] [static_cast_uint64 i] 1 1 0 1 = i).
  { cbn [flattenIndices nth Z.of_nat Z.sub Z.ltb Z.compare Z.pos_sub].
    cbn [Z.ltb Z.compare]. rewrite Hu.
    unfold static_cast_int, static_cast_uint64.
    rewrite (Z.mod_small 1) by lia. rewrite Z.mul_1_r.
    rewrite (Z.mod_small 0) by lia. rewrite Z.add_0_l.
    rewrite (Z.mod_small i) by lia.
    rewrite (Z.mod_small i) by lia.
    rewrite (Z.mod_small (i + 2147483648)) by lia. lia. }
  cbv zeta. change (length [extent]) with 1%nat. change (Z.of_nat 1) with 1.
  rewrite Hflat.
  assert (Hn : static_cast_int
                 (Z.of_nat (length (FromElementsOp.getElements fromElementsOp)))
               = Z.of_nat (length (FromElementsOp.getElements fromElementsOp))).
  { unfold static_cast_int.
    rewrite (Z.mod_small (_ + 2147483648)) by lia. lia. }
  rewrite Hn.
  destruct (Z.leb_spec
              (Z.of_nat (length (FromElementsOp.getElements fromElementsOp))) i)
    as [Hout | Hin]; cbn [orb].
  - rewrite lookup_ge_None_2 by lia. reflexivity.
  - destruct (Z.ltb_spec i 0); [lia | reflexivity].
Qed.

Lemma ExtractOp_fold_from_elements_rank1_witness :
  ExtractOp_fold (fun _ _ => None) fromElements1D extract1D_op
                 [None; Some (IntegerAttr 2)]
  = Some (OfrValue (scalarOf 9)).
Proof.
  exact (ExtractOp_fold_from_elements_rank1
           (fun _ _ => None) fromElements1D extract1D_op fromElements1D_op
           3 2 eq_refl eq_refl ltac:(cbn; lia) ltac:(lia)).
Defined.

(** *** Sizes of [tensor.empty] and [tensor.generate] *)

Lemma countDynamicDims_spec (shape : list Z) :
  forall idx ctr,
    countDynamicDims shape idx ctr
    = (ctr + getNumDynamicDims (take idx shape))%nat.
Proof.
  unfold getNumDynamicDims.
  induction shape as [| dimSize rest IH]; intros [| idx] ctr;
    cbn [countDynamicDims take];
    try (rewrite filter_nil; cbn [length]; lia).
  rewrite IH. destruct (isDynamic dimSize) eqn:Hdyn.
  - rewrite filter_cons_True by exact Hdyn. cbn [length]. lia.
  - rewrite filter_cons_False by congruence. lia.
Qed.

Lemma getNumDynamicDims_take_lt (shape : list Z) (i : nat) (d : Z) :
  shape !! i = Some d -> isDynamic d = true ->
  (getNumDynamicDims (take i shape) < getNumDynamicDims shape)%nat.
Proof.
  unfold getNumDynamicDims. revert i.
  induction shape as [| dimSize rest IH]; intros [| i] Hi Hd;
    try discriminate; rewrite lookup_cons in Hi.
  - inversion Hi; subst dimSize. cbn [take].
    rewrite filter_cons_True by exact Hd. rewrite filter_nil. cbn [length]. lia.
  - cbn [take]. specialize (IH i Hi Hd).
    destruct (isDynamic dimSize) eqn:Hdyn.
    + rewrite !filter_cons_True by exact Hdyn. cbn [length]. lia.
    + rewrite !filter_cons_False by congruence. exact IH.
Qed.

Lemma EmptyOp_mixedSizesFrom_spec (op : EmptyOp.t) (shape : list Z) :
  forall ctr,
    length (EmptyOp_mixedSizesFrom op shape ctr) = length shape
    /\ (forall i d, shape !! i = Some d ->
          EmptyOp_mixedSizesFrom op shape ctr !! i
          = Some (if isDynamic d
                  then OfrValue <$> EmptyOp.getDynamicSizes op
                         !! (ctr + getNumDynamicDims (take i shape))%nat
                  else Some (OfrAttribute (IntegerAttr d)))).
Proof.
  induction shape as [| dimSize rest IH]; intros ctr.
  - split; [reflexivity |]. intros i d Hi. destruct i; discriminate.
  - cbn [EmptyOp_mixedSizesFrom].
    destruct (isDynamic dimSize) eqn:Hdyn.
    + destruct (IH (S ctr)) as [Hlen Hdims]. split; [cbn [length]; lia |].
      intros [| i] d Hi; rewrite !lookup_cons in *.
      * inversion Hi; subst d. rewrite Hdyn. cbn [take].
        unfold getNumDynamicDims. rewrite filter_nil. cbn [length].
        replace (ctr + 0)%nat with ctr by lia. reflexivity.
      * rewrite (Hdims i d Hi). cbn [take]. unfold getNumDynamicDims.
        rewrite filter_cons_True by exact Hdyn. cbn [length].
        replace (S ctr + length (filter (fun d0 => isDynamic d0 = true)
                                        (take i rest)))%nat
          with (ctr + S (length (filter (fun d0 => isDynamic d0 = true)
                                        (take i rest))))%nat by lia.
        reflexivity.
    + destruct (IH ctr) as [Hlen Hdims]. split; [cbn [length]; lia |].
      intros [| i] d Hi; rewrite !lookup_cons in *.
      * inversion Hi; subst d. rewrite Hdyn. reflexivity.
      * rewrite (Hdims i d Hi). cbn [take]. unfold getNumDynamicDims.
        rewrite filter_cons_False by congruence. reflexivity.
Qed.

(** X9.  On a [tensor.empty] that passes [EmptyOp::verify],
    [getMixedSizes] has one entry per dimension: the extent as an
    attribute for a static dimension, and for a dynamic dimension the
    operand that [getDynamicSize] returns, which exists and is also the
    value [reifyResultShapes] gives for that dimension. *)
Theorem EmptyOp_sizes_consistent (op : EmptyOp.t) :
  EmptyOp_verify op = success ->
  length (EmptyOp_getMixedSizes op) = length (getShape (EmptyOp.getType op))
  /\ forall i d,
       getShape (EmptyOp.getType op) !! i = Some d ->
       (isDynamic d = false ->
        EmptyOp_getMixedSizes op !! i = Some (Some (OfrAttribute (IntegerAttr d))))
       /\ (isDynamic d = true ->
           exists v,
             EmptyOp_getDynamicSize op i = Some v
             /\ EmptyOp_getMixedSizes op !! i = Some (Some (OfrValue v))
             /\ forall ir, exists values,
                  (EmptyOp_reifyResultShapes ir op).2 = [values]
                  /\ values !! i = Some (Some v)).
Proof.
  unfold EmptyOp_verify. intros Hverify.
  destruct (Nat.eqb_spec
              (getNumDynamicDims (getShape (EmptyOp.getType op)))
              (length (EmptyOp.getDynamicSizes op))) as [Hnum |];
    [clear Hverify | discriminate].
  unfold EmptyOp_getMixedSizes.
  destruct (EmptyOp_mixedSizesFrom_spec op (getShape (EmptyOp.getType op)) 0)
    as [Hlen Hdims].
  split; [exact Hlen |]. intros i d Hi. rewrite (Hdims i d Hi). split.
  - intros ->. reflexivity.
  - intros Hd. rewrite Hd. cbn [Nat.add].
    pose proof (getNumDynamicDims_take_lt _ i d Hi Hd) as Hlt.
    rewrite Hnum in Hlt.
    destruct (lookup_lt_is_Some_2 (EmptyOp.getDynamicSizes op) _ Hlt)
      as [v Hv].
    exists v. split_and!.
    + unfold EmptyOp_getDynamicSize. rewrite countDynamicDims_spec. exact Hv.
    + rewrite Hv. reflexivity.
    + intros ir. unfold EmptyOp_reifyResultShapes.
      destruct (EmptyOp_reifyDims ir op 0 (getShape (EmptyOp.getType op)) 0)
        as [ir' values] eqn:Hrun.
      exists values. split; [reflexivity |].
      destruct (EmptyOp_reifyDims_spec op _ ir 0 0 ir' values Hrun)
        as (_ & _ & Hreify).
      destruct (Hreify i d Hi) as [_ Hdynamic].
      rewrite (Hdynamic Hd). cbn [Nat.add]. rewrite Hv. reflexivity.
Qed.

Lemma EmptyOp_sizes_consistent_witness :
  EmptyOp_getMixedSizes emptyMixed_op !! 1%nat
    = Some (Some (OfrAttribute (IntegerAttr 4)))
  /\ exists v,
       EmptyOp_getDynamicSize emptyMixed_op 2 = Some v
       /\ EmptyOp_getMixedSizes emptyMixed_op !! 2%nat = Some (Some (OfrValue v)).
Proof.
  pose proof (EmptyOp_sizes_consistent emptyMixed_op eq_refl) as [_ Hdims].
  split.
  - exact (proj1 (Hdims 1%nat 4 eq_refl) eq_refl).
  - destruct (proj2 (Hdims 2%nat kDynamic eq_refl) eq_refl) as (v & Hsize & Hmixed & _).
    exists v. split; assumption.
Defined.

(** An operation with too few dynamic sizes is rejected by the verifier;
    without the verifier [getMixedSizes] would read past the operands. *)
Example EmptyOp_verify_rejects_missing_size :
  EmptyOp_verify (EmptyOp.mk [scalarOf 10] (tensorOf [kDynamic; 4; kDynamic]))
  = failure
  /\ EmptyOp_getMixedSizes
       (EmptyOp.mk [scalarOf 10] (tensorOf [kDynamic; 4; kDynamic]))
     = [Some (OfrValue (scalarOf 10)); Some (OfrAttribute (IntegerAttr 4)); None].
Proof. split; reflexivity. Qed.

Lemma GenerateOp_reifyDims_creates (op : GenerateOp.t) (shape : list Z) :
  forall (ir : IR) (dim idx : nat) (ir' : IR) (values : list (option Value)),
    GenerateOp_reifyDims ir op dim shape idx = (ir', values) ->
    length values = length shape
    /\ (forall h x, ir !! h = Some x -> ir' !! h = Some x)
    /\ (forall i d, shape !! i = Some d ->
          if isDynamic d
          then values !! i
               = Some (GenerateOp.getOperands op
                         !! (idx + getNumDynamicDims (take i shape))%nat)
          else exists handle,
                 values !! i = Some (Some (getResult handle (ScalarTy Index)))
                 /\ ir !! handle = None
                 /\ ir' !! handle = Some (ConstantIndexOp d)).
Proof.
  induction shape as [| dimSize rest IH]; intros ir dim idx ir' values Hrun.
  - inversion Hrun; subst. split; [reflexivity |]. split; [auto |].
    intros i d Hi. destruct i; discriminate.
  - cbn [GenerateOp_reifyDims] in Hrun.
    destruct (isDynamic dimSize) eqn:Hdyn.
    + destruct (GenerateOp_reifyDims ir op (S dim) rest (S idx))
        as [ir1 values1] eqn:Hrest.
      inversion Hrun; subst ir' values. clear Hrun.
      destruct (IH ir (S dim) (S idx) ir1 values1 Hrest) as (Hlen & Hkeep & Hdims).
      split; [cbn [length]; lia |]. split; [exact Hkeep |].
      intros [| i] d Hi; rewrite !lookup_cons in *.
      * inversion Hi; subst d. rewrite Hdyn. cbn [take].
        unfold getNumDynamicDims. rewrite filter_nil. cbn [length].
        replace (idx + 0)%nat with idx by lia. reflexivity.
      * specialize (Hdims i d Hi). destruct (isDynamic d); [| exact Hdims].
        rewrite Hdims. cbn [take]. unfold getNumDynamicDims.
        rewrite filter_cons_True by exact Hdyn. cbn [length].
        do 2 f_equal. lia.
    + destruct (create ir (ConstantIndexOp dimSize)) as [ir0 handle] eqn:Hcreate.
      destruct (GenerateOp_reifyDims ir0 op (S dim) rest idx)
        as [ir1 values1] eqn:Hrest.
      inversion Hrun; subst ir' values. clear Hrun.
      destruct (IH ir0 (S dim) idx ir1 values1 Hrest) as (Hlen & Hkeep & Hdims).
      assert (Hir0 : forall h x, ir !! h = Some x -> ir0 !! h = Some x).
      { intros h x Hx.
        pose proof (create_lookup_old ir (ConstantIndexOp dimSize) x h Hx) as H0.
        rewrite Hcreate in H0. exact H0. }
      assert (Hfresh : ir !! handle = None).
      { unfold create in Hcreate. inversion Hcreate; subst handle.
        apply not_elem_of_dom. apply is_fresh. }
      assert (Hnew : ir0 !! handle = Some (ConstantIndexOp dimSize)).
      { unfold create in Hcreate. inversion Hcreate; subst.
        apply lookup_insert_eq. }
      split; [cbn [length]; lia |]. split; [auto |].
      intros [| i] d Hi; rewrite !lookup_cons in *.
      * inversion Hi; subst d. rewrite Hdyn. exists handle.
        split_and!; [reflexivity | exact Hfresh | apply Hkeep; exact Hnew].
      * specialize (Hdims i d Hi). cbn [take]. unfold getNumDynamicDims.
        rewrite filter_cons_False by congruence.
        destruct (isDynamic d); [exact Hdims |].
        destruct Hdims as (h & Hv & Hold & Hnew').
        exists h. split_and!; [exact Hv | | exact Hnew'].
        destruct (ir !! h) as [x |] eqn:Hx; [| reflexivity].
        rewrite (Hir0 h x Hx) in Hold. discriminate.
Qed.

(** X10.  On a [tensor.generate] that passes [GenerateOp::verify],
    [reifyResultShapes] succeeds with one non-null value per dimension and
    keeps every operation of the IR: for a static dimension the value is
    the result of a newly created index constant holding the extent, for
    a dynamic dimension it is the extent operand of that dimension, the
    operands being taken in order. *)
Theorem GenerateOp_reifyResultShapes_verified (ir : IR) (op : GenerateOp.t) :
  GenerateOp_verify op = success ->
  exists values,
    GenerateOp_reifyResultShapes ir op
    = ((GenerateOp_reifyResultShapes ir op).1.1, success, [values])
    /\ length values = length (getShape (GenerateOp.getType op))
    /\ (forall h x, ir !! h = Some x ->
                    (GenerateOp_reifyResultShapes ir op).1.1 !! h = Some x)
    /\ forall i d,
         getShape (GenerateOp.getType op) !! i = Some d ->
         exists v,
           values !! i = Some (Some v)
           /\ (isDynamic d = true ->
               GenerateOp.getOperands op
                 !! getNumDynamicDims (take i (getShape (GenerateOp.getType op)))
               = Some v)
           /\ (isDynamic d = false ->
               exists handle,
                 v = getResult handle (ScalarTy Index)
                 /\ ir !! handle = None
                 /\ (GenerateOp_reifyResultShapes ir op).1.1 !! handle
                    = Some (ConstantIndexOp d)).
Proof.
  unfold GenerateOp_verify. intros Hverify.
  destruct (Nat.eqb_spec
              (length (GenerateOp.getOperands op))
              (getNumDynamicDims (getShape (GenerateOp.getType op))))
    as [Hnum |]; [clear Hverify | discriminate].
  unfold GenerateOp_reifyResultShapes.
  destruct (GenerateOp_reifyDims ir op 0 (getShape (GenerateOp.getType op)) 0)
    as [ir' values] eqn:Hrun.
  cbn [fst snd]. exists values.
  destruct (GenerateOp_reifyDims_creates op _ ir 0 0 ir' values Hrun)
    as (Hlen & Hkeep & Hdims).
  split_and!; [reflexivity | exact Hlen | exact Hkeep |].
  intros i d Hi. specialize (Hdims i d Hi).
  destruct (isDynamic d) eqn:Hd.
  - cbn [Nat.add] in Hdims.
    pose proof (getNumDynamicDims_take_lt _ i d Hi Hd) as Hlt.
    rewrite <- Hnum in Hlt.
    destruct (lookup_lt_is_Some_2 (GenerateOp.getOperands op) _ Hlt) as [v Hv].
    exists v. rewrite Hdims, Hv.
    split_and!; [reflexivity | reflexivity | discriminate].
  - destruct Hdims as (handle & Hv & Hold & Hnew).
    exists (getResult handle (ScalarTy Index)).
    split_and!; [exact Hv | discriminate |].
    intros _. exists handle. split_and!; [reflexivity | exact Hold | exact Hnew].
Qed.

Lemma GenerateOp_reifyResultShapes_verified_witness :
  exists values,
    (GenerateOp_reifyResultShapes ∅ generateMixed_op).2 = [values]
    /\ length values = 3%nat.
Proof.
  destruct (GenerateOp_reifyResultShapes_verified ∅ generateMixed_op eq_refl)
    as (values & Hrun & Hlen & _).
  exists values. split; [rewrite Hrun; reflexivity | exact Hlen].
Defined.

(** *** Promoting constant sizes of [tensor.empty] *)

Lemma promoteConstantSizes_spec (ir : IR) (op : EmptyOp.t) (shape : list Z) :
  forall ctr staticShape dynamicSizes changedType,
    (ctr + getNumDynamicDims shape <= length (EmptyOp.getDynamicSizes op))%nat ->
    promoteConstantSizes ir op shape ctr
    = (staticShape, dynamicSizes, changedType) ->
    let sizes := take (getNumDynamicDims shape)
                      (drop ctr (EmptyOp.getDynamicSizes op)) in
    length staticShape = length shape
    /\ (forall i d, shape !! i = Some d -> isDynamic d = false ->
                    staticShape !! i = Some d)
    /\ dynamicSizes
       = filter (fun v => getConstantIntValue ir (OfrValue v) = None) sizes
    /\ (changedType = false <->
        Forall (fun v => getConstantIntValue ir (OfrValue v) = None) sizes)
    /\ (Forall (fun v => getConstantIntValue ir (OfrValue v) <> Some kDynamic)
               sizes ->
        getNumDynamicDims staticShape = length dynamicSizes).
Proof.
  induction shape as [| dimSize rest IH];
    intros ctr staticShape dynamicSizes changedType Hctr Hrun sizes.
  - cbn [promoteConstantSizes] in Hrun. inversion Hrun; subst.
    subst sizes. unfold getNumDynamicDims. rewrite filter_nil.
    cbn [length]. rewrite take_0, filter_nil.
    split_and!; try reflexivity.
    + intros i d Hi. destruct i; discriminate.
    + split; [constructor | reflexivity].
  - cbn [promoteConstantSizes] in Hrun.
    destruct (isDynamic dimSize) eqn:Hdyn.
    + assert (Hnum : getNumDynamicDims (dimSize :: rest)
                     = S (getNumDynamicDims rest)).
      { unfold getNumDynamicDims. rewrite filter_cons_True by exact Hdyn.
        reflexivity. }
      rewrite Hnum in Hctr.
      destruct (promoteConstantSizes ir op rest (S ctr))
        as [[staticShape1 dynamicSizes1] changedType1] eqn:Hrest.
      destruct (IH (S ctr) staticShape1 dynamicSizes1 changedType1
                   ltac:(lia) Hrest)
        as (Hlen & Hstatic & Hsizes & Hchanged & Hverify).
      assert (Hlt : (ctr < length (EmptyOp.getDynamicSizes op))%nat) by lia.
      destruct (lookup_lt_is_Some_2 _ _ Hlt) as [dynamicSize Hsize].
      rewrite Hsize in Hrun.
      assert (Hcons : sizes
                = dynamicSize
                    :: take (getNumDynamicDims rest)
                            (drop (S ctr) (EmptyOp.getDynamicSizes op))).
      { subst sizes. rewrite Hnum, (drop_S _ _ _ Hsize). reflexivity. }
      rewrite Hcons.
      destruct (getConstantIntValue ir (OfrValue dynamicSize)) as [cst |] eqn:Hcst;
        inversion Hrun; subst staticShape dynamicSizes changedType; clear Hrun.
      * split_and!.
        -- cbn [length]. lia.
        -- intros [| i] d Hi Hd; rewrite !lookup_cons in *.
           ++ congruence.
           ++ eauto.
        -- rewrite filter_cons_False by congruence. exact Hsizes.
        -- split; [discriminate |]. intros Hall.
           apply Forall_cons in Hall as [Hhead _]. congruence.
        -- intros Hall. apply Forall_cons in Hall as [Hhead Htail].
           unfold getNumDynamicDims.
           rewrite filter_cons_False.
           ++ apply Hverify. exact Htail.
           ++ rewrite isDynamic_true. congruence.
      * split_and!.
        -- cbn [length]. lia.
        -- intros [| i] d Hi Hd; rewrite !lookup_cons in *.
           ++ congruence.
           ++ eauto.
        -- rewrite filter_cons_True by exact Hcst. f_equal. exact Hsizes.
        -- rewrite Hchanged. split.
           ++ intros Hall. constructor; assumption.
           ++ intros Hall. apply Forall_cons in Hall as [_ Htail]. exact Htail.
        -- intros Hall. apply Forall_cons in Hall as [_ Htail].
           unfold getNumDynamicDims.
           rewrite filter_cons_True by exact Hdyn. cbn [length].
           f_equal. apply Hverify. exact Htail.
    + assert (Hnum : getNumDynamicDims (dimSize :: rest)
                     = getNumDynamicDims rest).
      { unfold getNumDynamicDims. rewrite filter_cons_False by congruence.
        reflexivity. }
      rewrite Hnum in Hctr. subst sizes. rewrite Hnum.
      destruct (promoteConstantSizes ir op rest ctr)
        as [[staticShape1 dynamicSizes1] changedType1] eqn:Hrest.
      destruct (IH ctr staticShape1 dynamicSizes1 changedType1 Hctr Hrest)
        as (Hlen & Hstatic & Hsizes & Hchanged & Hverify).
      inversion Hrun; subst staticShape dynamicSizes changedType; clear Hrun.
      split_and!.
      * cbn [length]. lia.
      * intros [| i] d Hi Hd; rewrite !lookup_cons in *; eauto.
      * exact Hsizes.
      * exact Hchanged.
      * intros Hall. unfold getNumDynamicDims.
        rewrite filter_cons_False by congruence. apply Hverify. exact Hall.
Qed.



Lemma verified_sizes_all (op : EmptyOp.t) :
  EmptyOp_verify op = success ->
  take (getNumDynamicDims (getShape (EmptyOp.getType op)))
       (drop 0 (EmptyOp.getDynamicSizes op))
  = EmptyOp.getDynamicSizes op
  /\ (0 + getNumDynamicDims (getShape (EmptyOp.getType op))
      <= length (EmptyOp.getDynamicSizes op))%nat.
Proof.
  unfold EmptyOp_verify.
  destruct (Nat.eqb_spec
              (getNumDynamicDims (getShape (EmptyOp.getType op)))
              (length (EmptyOp.getDynamicSizes op))) as [Hnum |];
    [intros _ | discriminate].
  rewrite drop_0, Hnum. split; [apply firstn_all | lia].
Qed.

(** X11.  On a verified [tensor.empty], the pattern
    [ReplaceEmptyTensorStaticShapeDims] fails exactly when none of the
    dynamic sizes is a constant, and a failed match leaves the IR as it
    was. *)
Theorem ReplaceEmptyTensorStaticShapeDims_fails_iff
        (ir : IR) (this : nat) (op : EmptyOp.t) :
  EmptyOp_verify op = success ->
  ((ReplaceEmptyTensorStaticShapeDims_matchAndRewrite ir this op).2 = failure
   <-> Forall (fun v => getConstantIntValue ir (OfrValue v) = None)
              (EmptyOp.getDynamicSizes op))
  /\ ((ReplaceEmptyTensorStaticShapeDims_matchAndRewrite ir this op).2 = failure
      -> (ReplaceEmptyTensorStaticShapeDims_matchAndRewrite ir this op).1 = ir).
Proof.
  intros Hverify.
  destruct (verified_sizes_all op Hverify) as [Hall Hctr].
  unfold ReplaceEmptyTensorStaticShapeDims_matchAndRewrite.
  destruct (promoteConstantSizes ir op (getShape (EmptyOp.getType op)) 0)
    as [[staticShape dynamicSizes] changedType] eqn:Hrun.
  destruct (promoteConstantSizes_spec ir op _ 0 _ _ _ Hctr Hrun)
    as (_ & _ & _ & Hchanged & _).
  rewrite Hall in Hchanged.
  destruct changedType; cbn [negb].
  - destruct (create ir _) as [ir1 newOp]. cbn [fst snd].
    split; [| discriminate].
    split; [discriminate |]. intros Hnone.
    apply Hchanged in Hnone. discriminate.
  - cbn [fst snd]. split; [| reflexivity].
    split; [intros _; apply Hchanged; reflexivity | reflexivity].
Qed.

Lemma ReplaceEmptyTensorStaticShapeDims_fails_iff_witness :
  (ReplaceEmptyTensorStaticShapeDims_matchAndRewrite
     ∅ 0 emptyMixed_op).1 = ∅.
Proof.
  apply (ReplaceEmptyTensorStaticShapeDims_fails_iff ∅ 0 emptyMixed_op eq_refl).
  reflexivity.
Defined.

(** X12.  When [ReplaceEmptyTensorStaticShapeDims] rewrites a verified
    [tensor.empty] of the IR, the operation is replaced by a cast, back to
    the old type, of a new [tensor.empty] that keeps exactly the
    non-constant dynamic sizes; the new type has the old rank, element type
    and encoding, keeps every static extent and only turns dynamic ones
    static, so the cast can fold into its consumers; every other operation
    is untouched; and the new operation verifies provided no promoted
    constant is the dynamic-size sentinel itself. *)
Theorem ReplaceEmptyTensorStaticShapeDims_rewrite
        (ir ir' : IR) (this : nat) (op : EmptyOp.t) :
  ir !! this = Some (OpEmpty op) ->
  EmptyOp_verify op = success ->
  ReplaceEmptyTensorStaticShapeDims_matchAndRewrite ir this op = (ir', success) ->
  exists (newHandle : nat) (staticShape : list Z),
    let tensorType :=
      RankedTensorType staticShape (getElementType (EmptyOp.getType op))
                       (getEncoding (EmptyOp.getType op)) in
    let newOp :=
      EmptyOp.mk (filter (fun v => getConstantIntValue ir (OfrValue v) = None)
                         (EmptyOp.getDynamicSizes op))
                 tensorType in
    let castOp :=
      CastOp.mk (getResult newHandle (TensorTy tensorType)) (EmptyOp.getType op) in
    ir !! newHandle = None
    /\ ir' !! newHandle = Some (OpEmpty newOp)
    /\ ir' !! this = Some (OpCast castOp)
    /\ (forall h, h <> this -> h <> newHandle -> ir' !! h = ir !! h)
    /\ length staticShape = length (getShape (EmptyOp.getType op))
    /\ (forall i d, getShape (EmptyOp.getType op) !! i = Some d ->
                    isDynamic d = false -> staticShape !! i = Some d)
    /\ canFoldIntoConsumerOp (Some castOp) = true
    /\ (Forall (fun v => getConstantIntValue ir (OfrValue v) <> Some kDynamic)
               (EmptyOp.getDynamicSizes op) ->
        EmptyOp_verify newOp = success).
Proof.
  intros Hthis Hverify.
  destruct (verified_sizes_all op Hverify) as [Hall Hctr].
  unfold ReplaceEmptyTensorStaticShapeDims_matchAndRewrite.
  destruct (promoteConstantSizes ir op (getShape (EmptyOp.getType op)) 0)
    as [[staticShape dynamicSizes] changedType] eqn:Hrun.
  destruct (promoteConstantSizes_spec ir op _ 0 _ _ _ Hctr Hrun)
    as (Hlen & Hstatic & Hsizes & Hchanged & Hnew).
  rewrite Hall in Hsizes, Hnew.
  destruct changedType; cbn [negb]; [| discriminate].
  unfold create, replaceOpWithNewOp. intros [= <-].
  set (newHandle := fresh (dom ir)).
  assert (Hfresh : ir !! newHandle = None).
  { apply not_elem_of_dom. apply is_fresh. }
  assert (Hne : this <> newHandle) by congruence.
  exists newHandle, staticShape. cbv zeta. rewrite <- Hsizes.
  split_and!.
  - exact Hfresh.
  - rewrite lookup_insert_ne by exact Hne. apply lookup_insert_eq.
  - apply lookup_insert_eq.
  - intros h Hh Hh'. rewrite !lookup_insert_ne by congruence. reflexivity.
  - exact Hlen.
  - exact Hstatic.
  - unfold canFoldIntoConsumerOp. cbn [CastOp.getType CastOp.getSource
                                        getResult getType].
    destruct (EmptyOp.getType op) as [shape e enc | e] eqn:Htype.
    + cbn [getShape getElementType getEncoding] in *.
      rewrite preservesStaticInformation_ranked by congruence.
      apply noStaticToDynamic_spec. intros i a b Ha Hb Hda.
      rewrite (Hstatic i a Ha Hda) in Hb. congruence.
    + cbn [getShape] in Hrun. cbn [promoteConstantSizes] in Hrun. discriminate.
  - intros Hno. unfold EmptyOp_verify.
    cbn [EmptyOp.getType EmptyOp.getDynamicSizes getShape].
    rewrite (Hnew Hno), Nat.eqb_refl. reflexivity.
Qed.

Lemma ReplaceEmptyTensorStaticShapeDims_rewrite_witness :
  exists (newHandle : nat) (staticShape : list Z),
    (ReplaceEmptyTensorStaticShapeDims_matchAndRewrite
       emptyWithConstantSize 1 emptyWithConstantSize_op).1 !! newHandle
    = Some (OpEmpty
              (EmptyOp.mk
                 (filter (fun v => getConstantIntValue emptyWithConstantSize
                                                       (OfrValue v) = None)
                         (EmptyOp.getDynamicSizes emptyWithConstantSize_op))
                 (RankedTensorType staticShape F32 None)))
    /\ length staticShape = 2%nat.
Proof.
  destruct (ReplaceEmptyTensorStaticShapeDims_rewrite
              emptyWithConstantSize _ 1 emptyWithConstantSize_op
              eq_refl eq_refl eq_refl)
    as (newHandle & staticShape & _ & Hnew & _ & _ & Hlen & _).
  exists newHandle, staticShape. split; [exact Hnew | exact Hlen].
Defined.




(** *** Folding [tensor.dim] *)

(** X14.  For a [tensor.dim] with a constant index within the rank, on
    the result of a verified [tensor.generate], [DimOp::fold] always folds
    and leaves the operation as it is: a static dimension folds to its
    extent, and a dynamic dimension folds to the very value that
    [GenerateOp::reifyResultShapes] gives for that dimension. *)
Theorem DimOp_fold_of_generate
        (isDynamicSize : ExtractSliceOp.t -> Z -> bool)
        (getDynamicSize : ExtractSliceOp.t -> Z -> Value)
        (ir : IR) (this : nat) (op : DimOp.t) (fromElements : GenerateOp.t)
        (tensor : option Attribute) (index d : Z) :
  getDefiningOp ir (DimOp.getSource op) = Some (OpGenerate fromElements) ->
  getType (DimOp.getSource op) = TensorTy (GenerateOp.getType fromElements) ->
  GenerateOp_verify fromElements = success ->
  hasRank (GenerateOp.getType fromElements) = true ->
  0 <= index ->
  getShape (GenerateOp.getType fromElements) !! Z.to_nat index = Some d ->
  (isDynamic d = false ->
   DimOp_fold isDynamicSize getDynamicSize ir this op
              [tensor; Some (IntegerAttr index)]
   = (op, Some (OfrAttribute (IntegerAttr d))))
  /\ (isDynamic d = true ->
      exists v values,
        DimOp_fold isDynamicSize getDynamicSize ir this op
                   [tensor; Some (IntegerAttr index)]
        = (op, Some (OfrValue v))
        /\ (GenerateOp_reifyResultShapes ir fromElements).2 = [values]
        /\ values !! Z.to_nat index = Some (Some v)).
Proof.
  intros Hdef Htype Hverify Hrank Hindex Hd.
  unfold DimOp_fold. cbn [nth]. rewrite Htype, Hdef.
  destruct (GenerateOp.getType fromElements) as [shape e enc | e] eqn:Hty;
    [| discriminate].
  cbn [dyn_cast_RankedTensorType getShape] in *.
  assert (Hnth : getDimSize shape (Z.to_nat index) = d).
  { unfold getDimSize. apply nth_lookup_Some with (d := 0) in Hd. exact Hd. }
  rewrite Hnth. split.
  - intros ->. reflexivity.
  - intros Hdyn. rewrite Hdyn. cbn [negb].
    rewrite countDynamicDims_spec. cbn [Nat.add].
    unfold GenerateOp_verify in Hverify. rewrite Hty in Hverify.
    cbn [getShape] in Hverify.
    destruct (Nat.eqb_spec (length (GenerateOp.getOperands fromElements))
                           (getNumDynamicDims shape)) as [Hnum |];
      [clear Hverify | discriminate].
    pose proof (getNumDynamicDims_take_lt _ _ d Hd Hdyn) as Hlt.
    rewrite <- Hnum in Hlt.
    destruct (lookup_lt_is_Some_2 (GenerateOp.getOperands fromElements) _ Hlt)
      as [v Hv].
    unfold GenerateOp_reifyResultShapes. rewrite Hty. cbn [getShape].
    destruct (GenerateOp_reifyDims ir fromElements 0 shape 0)
      as [ir' values] eqn:Hrun.
    exists v, values. rewrite Hv. split_and!; [reflexivity | reflexivity |].
    destruct (GenerateOp_reifyDims_creates fromElements _ ir 0 0 ir' values Hrun)
      as (_ & _ & Hdims).
    specialize (Hdims _ d Hd). rewrite Hdyn in Hdims.
    rewrite Hdims. cbn [Nat.add]. rewrite Hv. reflexivity.
Qed.

Lemma DimOp_fold_of_generate_witness :
  DimOp_fold (fun _ _ => false) (fun _ _ => scalarOf 0) generateMixed 1
             dimOfGenerate_op [None; Some (IntegerAttr 2)]
  = (dimOfGenerate_op, Some (OfrValue (scalarOf 11)))
  /\ DimOp_fold (fun _ _ => false) (fun _ _ => scalarOf 0) generateMixed 1
                dimOfGenerate_op [None; Some (IntegerAttr 1)]
     = (dimOfGenerate_op, Some (OfrAttribute (IntegerAttr 4))).
Proof.
  split.
  - destruct (proj2 (DimOp_fold_of_generate
                       (fun _ _ => false) (fun _ _ => scalarOf 0)
                       generateMixed 1 dimOfGenerate_op generateMixed_op
                       None 2 kDynamic eq_refl eq_refl eq_refl eq_refl
                       ltac:(lia) eq_refl) eq_refl)
      as (v & values & Hfold & _).
    reflexivity.
  - exact (proj1 (DimOp_fold_of_generate
                    (fun _ _ => false) (fun _ _ => scalarOf 0)
                    generateMixed 1 dimOfGenerate_op generateMixed_op
                    None 1 4 eq_refl eq_refl eq_refl eq_refl
                    ltac:(lia) eq_refl) eq_refl).
Defined.

(** [DimOp::verify] only bounds a constant index from above: a negative
    constant index passes, and the fold then reads the shape out of
    range. *)
Example DimOp_verify_accepts_negative_index :
  DimOp_verify (<[5%nat := ConstantIndexOp (-1)]> generateMixed)
               dimOfGenerate_op = success
  /\ DimOp_verify (<[5%nat := ConstantIndexOp 3]> generateMixed)
                  dimOfGenerate_op = failure
  /\ DimOp_verify (<[5%nat := ConstantIndexOp 2]> generateMixed)
                  dimOfGenerate_op = success.
Proof. repeat split. Qed.

(** *** Collapsing a shape *)

Lemma static_cast_int64_mul_l (a b : Z) :
  static_cast_int64 (static_cast_int64 a * b) = static_cast_int64 (a * b).
Proof.
  unfold static_cast_int64. f_equal.
  rewrite <- (Z.add_mod_idemp_l (_ * b)) by lia.
  rewrite <- (Z.add_mod_idemp_l (a * b)) by lia.
  f_equal. f_equal.
  rewrite <- (Z.mul_mod_idemp_l _ b) by lia.
  rewrite <- (Z.mul_mod_idemp_l a b) by lia.
  f_equal. f_equal.
  rewrite Zminus_mod_idemp_l.
  replace (a + 9223372036854775808 - 9223372036854775808) with a by lia.
  reflexivity.
Qed.

Lemma static_cast_int64_mul_r (a b : Z) :
  static_cast_int64 (a * static_cast_int64 b) = static_cast_int64 (a * b).
Proof.
  rewrite (Z.mul_comm a), static_cast_int64_mul_l, (Z.mul_comm b). reflexivity.
Qed.

Lemma static_cast_int64_idemp (a : Z) :
  static_cast_int64 (static_cast_int64 a) = static_cast_int64 a.
Proof.
  pose proof (static_cast_int64_mul_l a 1) as Hmul.
  rewrite !Z.mul_1_r in Hmul. exact Hmul.
Qed.

(** The running product started from any value. *)
Lemma fold_product_from (dims : list Z) (start : Z) :
  fold_left (fun n dim => static_cast_int64 (n * dim)) dims
            (static_cast_int64 start)
  = static_cast_int64
      (start * fold_left (fun n dim => static_cast_int64 (n * dim)) dims 1).
Proof.
  revert start. induction dims as [| dim rest IH]; intros start.
  - cbn [fold_left]. rewrite Z.mul_1_r. reflexivity.
  - cbn [fold_left]. rewrite static_cast_int64_mul_l, IH.
    rewrite Z.mul_1_l, (IH dim), static_cast_int64_mul_r.
    f_equal. lia.
Qed.

Lemma getNumElements_app (one two : list Z) :
  getNumElements (one ++ two)
  = static_cast_int64 (getNumElements one * getNumElements two).
Proof.
  unfold getNumElements. rewrite fold_left_app.
  destruct one as [| dim rest] using rev_ind.
  - cbn [fold_left]. rewrite Z.mul_1_l.
    change 1 with (static_cast_int64 1) at 1.
    rewrite fold_product_from, Z.mul_1_l. reflexivity.
  - rewrite fold_left_app. cbn [fold_left].
    rewrite fold_product_from, static_cast_int64_mul_l. reflexivity.
Qed.

(** The product loop over a band reads the band. *)
Lemma band_product (shape : list Z) (currentDim dim : nat) :
  (currentDim + dim <= length shape)%nat ->
  fold_left (fun size d => static_cast_int64 (size * nth (currentDim + d) shape 0))
            (seq 0 dim) 1
  = getNumElements (take dim (drop currentDim shape)).
Proof.
  unfold getNumElements. intros Hlen.
  assert (Hgen : forall start,
    fold_left (fun size d => static_cast_int64 (size * nth (currentDim + d) shape 0))
              (seq 0 dim) start
    = fold_left (fun n d => static_cast_int64 (n * d))
                (take dim (drop currentDim shape)) start);
    [| apply Hgen].
  induction dim as [| dim IH]; intros start.
  - reflexivity.
  - rewrite seq_S, fold_left_app. cbn [fold_left Nat.add].
    rewrite IH by lia.
    assert (Hlt : (dim < length (drop currentDim shape))%nat).
    { rewrite length_drop. lia. }
    destruct (lookup_lt_is_Some_2 _ _ Hlt) as [x Hx].
    rewrite (take_S_r _ _ _ Hx), fold_left_app. cbn [fold_left].
    rewrite lookup_drop in Hx.
    rewrite (nth_lookup_Some _ _ 0 _ Hx). reflexivity.
Qed.

Lemma collapsedShape_numElements (shape : list Z) (reassociation : list nat) :
  forall currentDim,
    (currentDim + list_sum reassociation = length shape)%nat ->
    Forall (fun d => isDynamic d = false) shape ->
    getNumElements (collapsedShape shape reassociation currentDim)
    = getNumElements (drop currentDim shape).
Proof.
  intros currentDim Hsum Hstatic. revert currentDim Hsum.
  induction reassociation as [| dim rest IH]; intros currentDim Hsum.
  - change (list_sum []) with 0%nat in Hsum. cbn [collapsedShape].
    rewrite drop_ge by lia. reflexivity.
  - change (list_sum (dim :: rest)) with (dim + list_sum rest)%nat in Hsum.
    cbn [collapsedShape].
    rewrite bool_decide_eq_false_2.
    + rewrite band_product by lia.
      change (?x :: ?l) with ([x] ++ l). rewrite getNumElements_app.
      rewrite IH by lia.
      assert (Hsplit : getNumElements (drop currentDim shape)
                = static_cast_int64
                    (getNumElements (take dim (drop currentDim shape))
                     * getNumElements (drop (currentDim + dim) shape))).
      { rewrite <- (take_drop dim (drop currentDim shape)) at 1.
        rewrite getNumElements_app, drop_drop. reflexivity. }
      rewrite Hsplit.
      unfold getNumElements at 1. cbn [fold_left]. rewrite Z.mul_1_l.
      rewrite static_cast_int64_mul_l. reflexivity.
    + intros Hin. apply elem_of_take in Hin as (i & Hi & _).
      rewrite lookup_drop in Hi. rewrite Forall_lookup in Hstatic.
      specialize (Hstatic _ _ Hi). discriminate.
Qed.

(** X15.  [computeTensorReshapeCollapsedType] yields one dimension per
    reassociation group, keeps the element type, and, for a static shape
    whose dimensions the groups cover exactly, keeps the number of elements
    as [getNumElements] computes it. *)
Theorem computeTensorReshapeCollapsedType_numElements
        (type : TensorType) (reassociation : list nat) :
  list_sum reassociation = length (getShape type) ->
  hasStaticShape type = true ->
  let collapsed := computeTensorReshapeCollapsedType type reassociation in
  length (getShape collapsed) = length reassociation
  /\ getElementType collapsed = getElementType type
  /\ getNumElements (getShape collapsed) = getNumElements (getShape type).
Proof.
  intros Hsum Hstatic. cbv zeta.
  unfold computeTensorReshapeCollapsedType. cbn [getShape getElementType].
  split_and!.
  - clear Hsum Hstatic. generalize 0%nat.
    induction reassociation as [| dim rest IH]; intros n.
    + reflexivity.
    + cbn [collapsedShape length]. f_equal. apply IH.
  - reflexivity.
  - rewrite collapsedShape_numElements.
    + rewrite drop_0. reflexivity.
    + exact Hsum.
    + unfold hasStaticShape in Hstatic.
      apply andb_true_iff in Hstatic as [_ Hall].
      rewrite forallb_forall in Hall. apply Forall_forall.
      intros d Hd. apply negb_true_iff. apply Hall.
      apply list_elem_of_In. exact Hd.
Qed.

Lemma computeTensorReshapeCollapsedType_numElements_witness :
  getShape (computeTensorReshapeCollapsedType (tensorOf [2; 3; 4]) [2; 1]%nat)
  = [6; 4]
  /\ getNumElements
       (getShape (computeTensorReshapeCollapsedType (tensorOf [2; 3; 4])
                                                    [2; 1]%nat))
     = getNumElements [2; 3; 4].
Proof.
  split; [reflexivity |].
  exact (proj2 (proj2 (computeTensorReshapeCollapsedType_numElements
                         (tensorOf [2; 3; 4]) [2; 1]%nat eq_refl eq_refl))).
Defined.

(** A group that holds a dynamic dimension collapses to a dynamic
    dimension. *)
Example computeTensorReshapeCollapsedType_dynamic_band :
  getShape (computeTensorReshapeCollapsedType (tensorOf [2; kDynamic; 4; 5])
                                              [2; 2]%nat)
  = [kDynamic; 20].
Proof. reflexivity. Qed.

(** X16.  [isSameTypesWithoutEncoding] is an equivalence on types that
    holds between two ranked tensor types exactly when their shapes and
    element types agree, whatever their encodings, and between other types
    only when they are equal. *)
Theorem isSameTypesWithoutEncoding_equivalence :
  (forall tp, isSameTypesWithoutEncoding tp tp = true)
  /\ (forall tp1 tp2,
        isSameTypesWithoutEncoding tp1 tp2 = isSameTypesWithoutEncoding tp2 tp1)
  /\ (forall tp1 tp2 tp3,
        isSameTypesWithoutEncoding tp1 tp2 = true ->
        isSameTypesWithoutEncoding tp2 tp3 = true ->
        isSameTypesWithoutEncoding tp1 tp3 = true)
  /\ (forall shape1 shape2 e1 e2 enc1 enc2,
        isSameTypesWithoutEncoding (TensorTy (RankedTensorType shape1 e1 enc1))
                                   (TensorTy (RankedTensorType shape2 e2 enc2))
        = true <-> shape1 = shape2 /\ e1 = e2)
  /\ (forall tp1 tp2,
        dyn_cast_RankedTensorType tp1 = None ->
        (isSameTypesWithoutEncoding tp1 tp2 = true <-> tp1 = tp2)).
Proof.
  assert (Hranked : forall shape1 shape2 e1 e2 enc1 enc2,
    isSameTypesWithoutEncoding (TensorTy (RankedTensorType shape1 e1 enc1))
                               (TensorTy (RankedTensorType shape2 e2 enc2))
    = true <-> shape1 = shape2 /\ e1 = e2).
  { intros. unfold isSameTypesWithoutEncoding.
    cbn [dyn_cast_RankedTensorType].
    rewrite andb_true_iff, !bool_decide_eq_true. reflexivity. }
  assert (Hother : forall tp1 tp2,
    dyn_cast_RankedTensorType tp1 = None ->
    (isSameTypesWithoutEncoding tp1 tp2 = true <-> tp1 = tp2)).
  { intros tp1 tp2 Hno. unfold isSameTypesWithoutEncoding. rewrite Hno.
    apply bool_decide_eq_true. }
  split_and!; [| | | exact Hranked | exact Hother].
  - intros tp. destruct (dyn_cast_RankedTensorType tp) as [[[s e] enc] |] eqn:Hc.
    + destruct tp as [[s' e' enc' | e'] | e']; try discriminate.
      apply Hranked. split; reflexivity.
    + apply Hother; [exact Hc | reflexivity].
  - intros tp1 tp2. unfold isSameTypesWithoutEncoding.
    destruct tp1 as [[s1 e1 enc1 | e1] | e1], tp2 as [[s2 e2 enc2 | e2] | e2];
      cbn [dyn_cast_RankedTensorType];
      try (apply bool_decide_ext; split; congruence);
      try (symmetry; apply bool_decide_eq_false; congruence);
      try (apply bool_decide_eq_false; congruence).
    f_equal; apply bool_decide_ext; split; congruence.
  - intros tp1 tp2 tp3.
    destruct tp1 as [[s1 e1 enc1 | e1] | e1], tp2 as [[s2 e2 enc2 | e2] | e2],
             tp3 as [[s3 e3 enc3 | e3] | e3];
      rewrite ?Hranked;
      try (rewrite !Hother by reflexivity; congruence);
      try (intros _; rewrite Hother by reflexivity; congruence);
      try (rewrite Hother by reflexivity; congruence);
      try (unfold isSameTypesWithoutEncoding;
           cbn [dyn_cast_RankedTensorType]; congruence).
    intros [-> ->] [-> ->]. split; reflexivity.
Qed.

(** *** Typing and folding [tensor.pad] *)

Lemma inferredDim_without_hint (sourceShape staticLow staticHigh resultShape : list Z)
      (i : nat) :
  let expected := PadOp_inferredDim sourceShape staticLow staticHigh [] i in
  PadOp_inferredDim sourceShape staticLow staticHigh resultShape i = expected
  \/ isDynamic expected = true.
Proof.
  unfold PadOp_inferredDim.
  destruct (isDynamic (getDimSize sourceShape i)
            || (nth i staticLow 0 =? kDynamic)
            || (nth i staticHigh 0 =? kDynamic)).
  - right. reflexivity.
  - left. reflexivity.
Qed.

Lemma getDimSize_map_seq (f : nat -> Z) (rank i : nat) :
  (i < rank)%nat -> getDimSize (map f (seq 0 rank)) i = f i.
Proof.
  intros Hi. unfold getDimSize.
  rewrite (nth_indep _ 0 (f 0%nat)) by (rewrite length_map, length_seq; lia).
  rewrite map_nth, seq_nth by lia. reflexivity.
Qed.

(** X17.  A [tensor.pad] whose result type is what [PadOp::inferResultType]
    gives for its source type and static paddings, with any result-shape
    hint, passes [PadOp::verify]: the hint only decides the dimensions the
    verifier does not constrain. *)
Theorem PadOp_verify_inferred (op : PadOp.t) (resultShape : list Z) :
  PadOp.getType op
  = PadOp_inferResultType (cast_TensorType (getType (PadOp.getSource op)))
                          (PadOp.getStaticLow op) (PadOp.getStaticHigh op)
                          resultShape ->
  PadOp_verify op = success.
Proof.
  intros Htype. unfold PadOp_verify. rewrite Htype.
  set (sourceType := cast_TensorType (getType (PadOp.getSource op))).
  unfold PadOp_inferResultType. cbn [getShape].
  rewrite (proj2 (forallb_forall _ _)); [reflexivity |].
  intros i Hi. apply in_seq in Hi. cbn [Nat.add] in Hi.
  rewrite !getDimSize_map_seq by lia.
  destruct (inferredDim_without_hint (getShape sourceType)
              (PadOp.getStaticLow op) (PadOp.getStaticHigh op) resultShape i)
    as [-> | ->].
  - rewrite Z.eqb_refl. reflexivity.
  - apply orb_true_r.
Qed.

Lemma PadOp_verify_inferred_witness :
  PadOp_verify (staticPad_op [1; 0] [2; 3] [7; 9]) = success.
Proof.
  apply (PadOp_verify_inferred (staticPad_op [1; 0] [2; 3] [7; 9]) []).
  reflexivity.
Defined.

(** A declared extent that differs from the inferred one is rejected,
    unless the inferred one is dynamic. *)
Example PadOp_verify_rejects_wrong_extent :
  PadOp_verify (staticPad_op [1; 0] [2; 3] [7; 8]) = failure
  /\ PadOp_verify (staticPad_op [1; kDynamic] [2; 3] [7; 8]) = success.
Proof. split; reflexivity. Qed.

Lemma static_cast_int64_small (z : Z) :
  0 <= z < 9223372036854775808 -> static_cast_int64 z = z.
Proof.
  intros Hz. unfold static_cast_int64. rewrite Z.mod_small by lia. lia.
Qed.

(** X18.  [PadOp::fold] only ever returns the source of the pad, and only
    without [nofold] and with a result type equal to the source type; on a
    pad that passes [PadOp::verify] it then folds only where nothing is
    padded: in every dimension whose two static paddings are non-negative
    and keep the padded extent below [2^63], both paddings are zero. *)
Theorem PadOp_fold_sound (op : PadOp.t) (result : OpFoldResult) :
  PadOp_verify op = success ->
  PadOp_fold op = Some result ->
  result = OfrValue (PadOp.getSource op)
  /\ PadOp.getNofold op = false
  /\ cast_TensorType (getType (PadOp.getSource op)) = PadOp.getType op
  /\ forall i d low high,
       getShape (PadOp.getType op) !! i = Some d ->
       PadOp.getStaticLow op !! i = Some low ->
       PadOp.getStaticHigh op !! i = Some high ->
       0 <= d -> 0 <= low -> 0 <= high ->
       d + low + high < 9223372036854775808 ->
       low = 0 /\ high = 0.
Proof.
  unfold PadOp_fold, PadOp_verify. intros Hverify Hfold.
  destruct (hasStaticShape (PadOp.getType op)) eqn:Hstatic;
    cbn [andb] in Hfold; [| discriminate].
  destruct (decide (PadOp.getType op
                    = cast_TensorType (getType (PadOp.getSource op))))
    as [Htype | Htype].
  2: { rewrite (bool_decide_eq_false_2 _ Htype) in Hfold. discriminate. }
  rewrite (bool_decide_eq_true_2 _ Htype) in Hfold. cbn [andb] in Hfold.
  destruct (PadOp.getNofold op); cbn [negb] in Hfold; [discriminate |].
  inversion Hfold; subst result. clear Hfold.
  split_and!; [reflexivity | reflexivity | congruence |].
  intros i d low high Hd Hlow Hhigh Hd0 Hlow0 Hhigh0 Hsum.
  rewrite <- Htype in Hverify.
  destruct (forallb _ _) eqn:Hall in Hverify; [clear Hverify | discriminate].
  rewrite forallb_forall in Hall.
  assert (Hi : (i < length (getShape (PadOp.getType op)))%nat).
  { apply lookup_lt_is_Some_1. eauto. }
  specialize (Hall i ltac:(apply in_seq; lia)).
  unfold PadOp_inferResultType in Hall. cbn [getShape] in Hall.
  rewrite getDimSize_map_seq in Hall by exact Hi.
  unfold PadOp_inferredDim in Hall.
  unfold getDimSize in Hall.
  rewrite (nth_lookup_Some _ _ 0 _ Hd) in Hall.
  rewrite (nth_lookup_Some _ _ 0 _ Hlow) in Hall.
  rewrite (nth_lookup_Some _ _ 0 _ Hhigh) in Hall.
  assert (Hnd : forall z, 0 <= z -> (z =? kDynamic) = false).
  { intros z Hz. apply Z.eqb_neq. unfold kDynamic. lia. }
  unfold isDynamic in Hall.
  rewrite !(Hnd d Hd0), !(Hnd low Hlow0), !(Hnd high Hhigh0) in Hall.
  cbn [orb] in Hall.
  rewrite !static_cast_int64_small in Hall by lia.
  rewrite (Hnd (d + low + high)) in Hall by lia.
  rewrite orb_false_r in Hall. apply Z.eqb_eq in Hall. lia.
Qed.

Lemma PadOp_fold_sound_witness :
  PadOp_fold (staticPad_op [0; 0] [0; 0] [4; 6])
  = Some (OfrValue (valueOf 0 [4; 6]))
  /\ PadOp.getNofold (staticPad_op [0; 0] [0; 0] [4; 6]) = false.
Proof.
  split; [reflexivity |].
  exact (proj1 (proj2 (PadOp_fold_sound
                         (staticPad_op [0; 0] [0; 0] [4; 6])
                         (OfrValue (valueOf 0 [4; 6])) eq_refl eq_refl))).
Defined.

(** *** Folding [tensor.extract_slice] *)

(** X19.  Every value [ExtractSliceOp::fold] returns has exactly the
    result type of the operation, and is either the operation's own source
    or the source of the [tensor.insert_slice] that produces the
    operation's source, inserted at the coordinates the operation
    extracts. *)
Theorem ExtractSliceOp_fold_preserves_type
        (ir : IR) (op : ExtractSliceOp.t) (operands : list (option Attribute))
        (v : Value) :
  ExtractSliceOp_fold ir op operands = Some (OfrValue v) ->
  getType v = TensorTy (ExtractSliceOp.getType op)
  /\ (v = ExtractSliceOp.getSource op
      \/ exists insertOp,
           getDefiningOp_InsertSliceOp ir (ExtractSliceOp.getSource op)
             = Some insertOp
           /\ v = InsertSliceOp.getSource insertOp
           /\ isSameAs insertOp op isSame = true).
Proof.
  unfold ExtractSliceOp_fold.
  destruct (hd None operands) as [[| | splatValue |] |];
    try destruct (hasStaticShape (ExtractSliceOp.getType op));
    try discriminate;
    (destruct (decide (getType (ExtractSliceOp.getSource op)
                       = TensorTy (ExtractSliceOp.getType op))) as [Hty | Hty];
     [rewrite (bool_decide_eq_true_2 _ Hty)
     | rewrite (bool_decide_eq_false_2 _ Hty)]; cbn [andb];
     try destruct (succeeded _);
     try (intros [= <-]; split; [exact Hty | left; reflexivity]));
    unfold foldExtractAfterInsertSlice;
    (destruct (getDefiningOp_InsertSliceOp ir (ExtractSliceOp.getSource op))
       as [insertOp |]; [| discriminate];
     destruct (decide (getType (InsertSliceOp.getSource insertOp)
                       = TensorTy (ExtractSliceOp.getType op))) as [Hin | Hin];
     [rewrite (bool_decide_eq_true_2 _ Hin)
     | rewrite (bool_decide_eq_false_2 _ Hin)]; cbn [andb];
     try discriminate;
     destruct (isSameAs insertOp op isSame) eqn:Hsame; [| discriminate];
     cbn [fmap option_fmap option_map]; intros [= <-];
     split; [exact Hin | right; exists insertOp; split_and!; reflexivity || exact Hsame]).
Qed.

Lemma ExtractSliceOp_fold_preserves_type_witness :
  ExtractSliceOp_fold insertThenExtract extractAfterInsert_op [None]
  = Some (OfrValue (valueOf 1 [4; 4]))
  /\ getType (valueOf 1 [4; 4])
     = TensorTy (ExtractSliceOp.getType extractAfterInsert_op).
Proof.
  split; [reflexivity |].
  exact (proj1 (ExtractSliceOp_fold_preserves_type
                  insertThenExtract extractAfterInsert_op [None]
                  (valueOf 1 [4; 4]) eq_refl)).
Defined.

(** X20.  On an insert-slice whose destination has the result type, every
    value [InsertSliceOp::fold] returns has exactly the result type of the
    operation, whichever of its three rules produced it. *)
Theorem InsertSliceOp_fold_preserves_type
        (ir ir' : IR) (this : nat) (op : InsertSliceOp.t) (v : Value) :
  ir !! this = Some (OpInsertSlice op) ->
  getType (InsertSliceOp.getDest op) = TensorTy (InsertSliceOp.getType op) ->
  InsertSliceOp_fold ir this = (ir', Some (OfrValue v)) ->
  getType v = TensorTy (InsertSliceOp.getType op).
Proof.
  intros Hthis Hdest. unfold InsertSliceOp_fold. rewrite Hthis.
  destruct (InsertSliceOp_isIdentity ir op) eqn:Hid.
  - intros [= <- <-]. unfold InsertSliceOp_isIdentity in Hid.
    apply andb_true_iff in Hid as [Hid _].
    apply andb_true_iff in Hid as [_ Hty].
    apply bool_decide_eq_true in Hty. exact Hty.
  - pose proof (foldInsertAfterInsertSlice_failure ir this) as Hsame.
    destruct (foldInsertAfterInsertSlice ir this) as [ir1 [|]].
    + intros [= <- <-]. reflexivity.
    + cbn [fst snd] in Hsame. rewrite (Hsame eq_refl).
      unfold foldInsertAfterExtractSlice. rewrite Hthis.
      destruct (getDefiningOp_ExtractSliceOp ir (InsertSliceOp.getSource op))
        as [extractOp |]; [| discriminate].
      destruct (decide (ExtractSliceOp.getSource extractOp
                        = InsertSliceOp.getDest op)) as [Heq | Hne].
      * rewrite (bool_decide_eq_true_2 _ Heq). cbn [negb orb].
        destruct (negb _); [discriminate |].
        intros [= <- <-]. rewrite Heq. exact Hdest.
      * rewrite (bool_decide_eq_false_2 _ Hne). cbn [negb orb]. discriminate.
Qed.

Lemma InsertSliceOp_fold_preserves_type_witness :
  exists v,
    (InsertSliceOp_fold (roundTrip [0; 2] [4; 4]) 2).2 = Some (OfrValue v)
    /\ getType v = TensorTy (tensorOf [8; 8]).
Proof.
  exists (valueOf 0 [8; 8]). split; [reflexivity |].
  exact (InsertSliceOp_fold_preserves_type
           (roundTrip [0; 2] [4; 4]) (roundTrip [0; 2] [4; 4]) 2
           (InsertSliceOp.mk (valueOf 1 [4; 4]) (valueOf 0 [8; 8]) [] [] []
                             [0; 2] [4; 4] [1; 1] (tensorOf [8; 8]))
           (valueOf 0 [8; 8]) eq_refl eq_refl eq_refl).
Defined.

(** *** Dropped dimensions of a rank-reducing slice *)

(** A unit extent at the head of the result can also be read as left
    over by a dropped unit size. *)
Lemma rankReducedFrom_skip_one (ir : IR) (sizes : list OpFoldResult) :
  forall shape, rankReducedFrom ir sizes (1 :: shape) ->
                rankReducedFrom ir sizes shape.
Proof.
  induction sizes as [| size rest IH]; intros shape Hred.
  - inversion Hred.
  - inversion Hred; subst.
    + apply rankReduced_drop; [reflexivity | assumption].
    + apply rankReduced_drop; [assumption | apply IH; assumption].
Qed.

Lemma droppedDimsFrom_step (ir : IR) (resultShape : list Z)
      (size : OpFoldResult) (rest : list OpFoldResult) (shapePos : nat) :
  droppedDimsFrom ir resultShape (size :: rest) shapePos
  = if bool_decide (getConstantIntValue ir size = Some 1)
       && negb (bool_decide (resultShape !! shapePos = Some 1))
    then true :: droppedDimsFrom ir resultShape rest shapePos
    else false :: droppedDimsFrom ir resultShape rest (S shapePos).
Proof.
  cbn [droppedDimsFrom].
  destruct (decide (getConstantIntValue ir size = Some 1)) as [Hone | Hone].
  - rewrite (bool_decide_eq_true_2 _ Hone), Hone.
    rewrite bool_decide_eq_true_2 by eauto. cbn [negb orb andb].
    destruct (Nat.ltb_spec shapePos (length resultShape)) as [Hlt | Hge];
      cbn [andb].
    + destruct (lookup_lt_is_Some_2 _ _ Hlt) as [d Hd].
      rewrite (nth_lookup_Some _ _ 0 _ Hd), Hd.
      destruct (Z.eqb_spec d 1) as [-> | Hne].
      * rewrite bool_decide_eq_true_2 by reflexivity. reflexivity.
      * rewrite bool_decide_eq_false_2 by congruence. reflexivity.
    + rewrite (lookup_ge_None_2 _ _ Hge).
      rewrite bool_decide_eq_false_2 by discriminate. reflexivity.
  - rewrite (bool_decide_eq_false_2 _ Hone). cbn [negb andb].
    rewrite orb_true_r. reflexivity.
Qed.

Lemma ExtractSliceOp_reifyDims_spec (ir : IR) (resultShape : list Z)
      (allSizes : list OpFoldResult) :
  forall (mixedSizes : list OpFoldResult) (shapePos index : nat)
         (ir0 : IR) (droppedDims : list bool),
    rankReducedFrom ir mixedSizes (drop shapePos resultShape) ->
    (forall h x, ir !! h = Some x -> ir0 !! h = Some x) ->
    (forall size, size ∈ mixedSizes -> size ∈ allSizes) ->
    (forall j, test droppedDims (index + j)
               = test (droppedDimsFrom ir resultShape mixedSizes shapePos) j) ->
    (forall h x, ir0 !! h = Some x ->
                 (ExtractSliceOp_reifyDims ir0 droppedDims mixedSizes index).1
                   !! h = Some x)
    /\ Forall2
         (fun v d =>
            if isDynamic d then OfrValue v ∈ allSizes
            else getConstantIntValue
                   (ExtractSliceOp_reifyDims ir0 droppedDims mixedSizes index).1
                   (OfrValue v) = Some d)
         (ExtractSliceOp_reifyDims ir0 droppedDims mixedSizes index).2
         (drop shapePos resultShape).
Proof.
  induction mixedSizes as [| size rest IH];
    intros shapePos index ir0 droppedDims Hred Hkeep Hin Hbits.
  - inversion Hred as [Hnil | | |]. cbn [ExtractSliceOp_reifyDims fst snd].
    split; [auto | constructor].
  - assert (Htail : forall shapePos',
              (forall j, test droppedDims (S index + j)
                         = test (droppedDimsFrom ir resultShape rest shapePos') j)
              -> forall ir1,
                (forall h x, ir !! h = Some x -> ir1 !! h = Some x) ->
                rankReducedFrom ir rest (drop shapePos' resultShape) ->
                (forall h x, ir1 !! h = Some x ->
                   (ExtractSliceOp_reifyDims ir1 droppedDims rest (S index)).1
                     !! h = Some x)
                /\ Forall2
                     (fun v d =>
                        if isDynamic d then OfrValue v ∈ allSizes
                        else getConstantIntValue
                               (ExtractSliceOp_reifyDims ir1 droppedDims rest
                                                         (S index)).1
                               (OfrValue v) = Some d)
                     (ExtractSliceOp_reifyDims ir1 droppedDims rest (S index)).2
                     (drop shapePos' resultShape)).
    { intros shapePos' Hbits' ir1 Hkeep1 Hred'.
      apply IH; try assumption.
      intros s Hs. apply Hin. right. exact Hs. }
    pose proof (Hbits 0%nat) as Hhead.
    rewrite Nat.add_0_r, droppedDimsFrom_step in Hhead.
    assert (Hshift : forall bit bits,
              droppedDimsFrom ir resultShape (size :: rest) shapePos = bit :: bits ->
              forall j, test droppedDims (S index + j) = test bits j).
    { intros bit bits Heq j. specialize (Hbits (S j)).
      rewrite Heq in Hbits. replace (S index + j)%nat with (index + S j)%nat by lia.
      exact Hbits. }
    rewrite droppedDimsFrom_step in Hshift.
    cbn [ExtractSliceOp_reifyDims].
    destruct (decide (getConstantIntValue ir size = Some 1)) as [Hone | Hone].
    + rewrite (bool_decide_eq_true_2 _ Hone) in Hhead, Hshift.
      cbn [andb] in Hhead, Hshift.
      destruct (decide (resultShape !! shapePos = Some 1)) as [Hunit | Hunit].
      * (* a unit size in front of a unit extent is kept *)
        rewrite (bool_decide_eq_true_2 _ Hunit) in Hhead, Hshift.
        cbn [negb] in Hhead, Hshift. cbn [test nth] in Hhead.
        rewrite Hhead.
        rewrite (drop_S _ _ _ Hunit) in Hred |- *.
        assert (Hrest : rankReducedFrom ir rest (drop (S shapePos) resultShape)).
        { inversion Hred; subst;
            first [ assumption
                  | exfalso; congruence
                  | apply rankReducedFrom_skip_one; assumption ]. }
        destruct size as [attr | v].
        -- assert (Hattr : attr = IntegerAttr 1).
           { destruct attr; cbn in Hone; congruence. }
           subst attr.
           destruct (create ir0 (ConstantIndexOp 1)) as [ir1 handle] eqn:Hcreate.
           assert (Hir1 : forall h x, ir0 !! h = Some x -> ir1 !! h = Some x).
           { intros h x Hx.
             pose proof (create_lookup_old ir0 (ConstantIndexOp 1) x h Hx) as H0.
             rewrite Hcreate in H0. exact H0. }
           destruct (Htail (S shapePos) (Hshift _ _ eq_refl) ir1
                           ltac:(auto) Hrest) as [Hkeep' Hall].
           destruct (ExtractSliceOp_reifyDims ir1 droppedDims rest (S index))
             as [ir' values]. cbn [fst snd] in *.
           split; [auto |]. constructor; [| exact Hall].
           change (isDynamic 1) with false. cbv iota.
           apply (getConstantIntValue_preserved ir1); [exact Hkeep' |].
           pose proof (create_constant ir0 1) as Hc.
           rewrite Hcreate in Hc. exact Hc.
        -- destruct (Htail (S shapePos) (Hshift _ _ eq_refl) ir0 Hkeep Hrest)
             as [Hkeep' Hall].
           destruct (ExtractSliceOp_reifyDims ir0 droppedDims rest (S index))
             as [ir' values]. cbn [fst snd] in *.
           split; [auto |]. constructor; [| exact Hall].
           change (isDynamic 1) with false. cbv iota.
           apply (getConstantIntValue_preserved ir); [auto | exact Hone].
      * (* a unit size without a unit extent to match is dropped *)
        rewrite (bool_decide_eq_false_2 _ Hunit) in Hhead, Hshift.
        cbn [negb] in Hhead, Hshift. cbn [test nth] in Hhead.
        rewrite Hhead.
        assert (Hrest : rankReducedFrom ir rest (drop shapePos resultShape)).
        { inversion Hred as [| c sizes shape Hc Hr Hs Hshape
                             | v sizes shape Hv Hr Hs Hshape
                             | s sizes shape Hs' Hr]; subst; try assumption.
          - exfalso. cbn in Hone. inversion Hone; subst c.
            apply Hunit.
            destruct (resultShape !! shapePos) as [d |] eqn:Hd.
            + rewrite (drop_S _ _ _ Hd) in Hshape. congruence.
            + rewrite drop_ge in Hshape by (apply lookup_ge_None; exact Hd).
              discriminate.
          - exfalso. auto. }
        apply (Htail shapePos (Hshift _ _ eq_refl) ir0 Hkeep Hrest).
    + (* a size that is not the constant one is kept *)
      rewrite (bool_decide_eq_false_2 _ Hone) in Hhead, Hshift.
      cbn [andb] in Hhead, Hshift. cbn [test nth] in Hhead. rewrite Hhead.
      inversion Hred as [| c sizes shape Hc Hr Hs Hshape
                         | v sizes shape Hv Hr Hs Hshape
                         | s sizes shape Hs' Hr]; subst; [| | exfalso; auto].
      * assert (Hd : drop (S shapePos) resultShape = shape).
        { destruct (resultShape !! shapePos) as [d |] eqn:Hd.
          - rewrite (drop_S _ _ _ Hd) in Hshape. congruence.
          - rewrite drop_ge in Hshape by (apply lookup_ge_None; exact Hd).
            discriminate. }
        rewrite <- Hd in Hr.
        destruct (create ir0 (ConstantIndexOp c)) as [ir1 handle] eqn:Hcreate.
        assert (Hir1 : forall h x, ir0 !! h = Some x -> ir1 !! h = Some x).
        { intros h x Hx.
          pose proof (create_lookup_old ir0 (ConstantIndexOp c) x h Hx) as H0.
          rewrite Hcreate in H0. exact H0. }
        destruct (Htail (S shapePos) (Hshift _ _ eq_refl) ir1 ltac:(auto) Hr)
          as [Hkeep' Hall].
        destruct (ExtractSliceOp_reifyDims ir1 droppedDims rest (S index))
          as [ir' values]. cbn [fst snd] in *.
        split; [auto |]. rewrite Hd in Hall. constructor; [| exact Hall].
        rewrite Hc.
        apply (getConstantIntValue_preserved ir1); [exact Hkeep' |].
        pose proof (create_constant ir0 c) as Hcst.
        rewrite Hcreate in Hcst. exact Hcst.
      * assert (Hd : drop (S shapePos) resultShape = shape).
        { destruct (resultShape !! shapePos) as [d |] eqn:Hd.
          - rewrite (drop_S _ _ _ Hd) in Hshape. congruence.
          - rewrite drop_ge in Hshape by (apply lookup_ge_None; exact Hd).
            discriminate. }
        rewrite <- Hd in Hr.
        destruct (Htail (S shapePos) (Hshift _ _ eq_refl) ir0 Hkeep Hr)
          as [Hkeep' Hall].
        destruct (ExtractSliceOp_reifyDims ir0 droppedDims rest (S index))
          as [ir' values]. cbn [fst snd] in *.
        split; [auto |]. rewrite Hd in Hall. constructor; [| exact Hall].
        rewrite isDynamic_kDynamic. apply Hin. left.
Qed.

(** X21.  When the result shape of a [tensor.extract_slice] arises from its
    mixed sizes by dropping sizes that are the constant one, and no runtime
    size that is kept is itself the constant one,
    [ExtractSliceOp::reifyResultShapes] with the mask of
    [ExtractSliceOp::getDroppedDims] succeeds with exactly one value per
    result dimension and keeps every operation of the IR: the value of a
    static dimension is a constant holding its extent, the value of a
    dynamic dimension is one of the runtime sizes of the slice.  The
    proviso is needed: [getDroppedDims] takes a runtime size that is the
    constant one as dropped although the result keeps its dimension, so
    for the size [%c1] and the result [tensor<?xf32>], whose type is the
    inferred one, the mask is [true] and [reifyResultShapes] returns no
    value for the one result dimension. *)
Theorem ExtractSliceOp_reifyResultShapes_rank_reduced :
  (forall (ir : IR) (op : ExtractSliceOp.t),
     rankReducedFrom ir (getMixedSizes op)
                     (getShape (ExtractSliceOp.getType op)) ->
     exists (ir' : IR) (values : list Value),
       ExtractSliceOp_reifyResultShapes ir op = (ir', success, [values])
       /\ (forall h x, ir !! h = Some x -> ir' !! h = Some x)
       /\ Forall2 (fun v d =>
                     if isDynamic d then OfrValue v ∈ getMixedSizes op
                     else getConstantIntValue ir' (OfrValue v) = Some d)
                  values (getShape (ExtractSliceOp.getType op)))
  /\ (getMixedSizes constantSizeSlice_op = [OfrValue (scalarOf 10)]
      /\ getConstantIntValue constantSizeSlice (OfrValue (scalarOf 10))
         = Some 1
      /\ ExtractSliceOp.getType constantSizeSlice_op
         = ExtractSliceOp_inferResultType
             (tensorOf [8])
             (ExtractSliceOp.getStaticOffsets constantSizeSlice_op)
             (ExtractSliceOp.getStaticSizes constantSizeSlice_op)
             (ExtractSliceOp.getStaticStrides constantSizeSlice_op)
      /\ getShape (ExtractSliceOp.getType constantSizeSlice_op) = [kDynamic]
      /\ ExtractSliceOp_getDroppedDims constantSizeSlice constantSizeSlice_op
         = [true]
      /\ ExtractSliceOp_reifyResultShapes constantSizeSlice
                                          constantSizeSlice_op
         = (constantSizeSlice, success, [[]])).
Proof.
  split; [| split_and!; reflexivity].
  intros ir op Hred. unfold ExtractSliceOp_reifyResultShapes.
  destruct (ExtractSliceOp_reifyDims_spec
              ir (getShape (ExtractSliceOp.getType op)) (getMixedSizes op)
              (getMixedSizes op) 0 0 ir (ExtractSliceOp_getDroppedDims ir op))
    as [Hkeep Hall]; auto.
  destruct (ExtractSliceOp_reifyDims ir (ExtractSliceOp_getDroppedDims ir op)
                                     (getMixedSizes op) 0) as [ir' values].
  exists ir', values. cbn [fst snd] in *.
  rewrite drop_0 in Hall. split_and!; [reflexivity | exact Hkeep | exact Hall].
Qed.

(** Witness for X21: [tensor.extract_slice %0 [0, 0, 0] [1, %10, 4]
    [1, 1, 1] : tensor<8x8x8xf32> to tensor<?x4xf32>], the size [%10] not
    being a constant. *)
Lemma ExtractSliceOp_reifyResultShapes_rank_reduced_witness :
  exists (ir' : IR) (values : list Value),
    ExtractSliceOp_reifyResultShapes ∅ rankReducingSlice_op
    = (ir', success, [values])
    /\ length values = 2%nat.
Proof.
  destruct (proj1 ExtractSliceOp_reifyResultShapes_rank_reduced
                  ∅ rankReducingSlice_op)
    as (ir' & values & Hrun & _ & Hall).
  - apply rankReduced_drop; [reflexivity |].
    apply rankReduced_keep_dynamic; [discriminate |].
    apply rankReduced_keep_static; [reflexivity |].
    apply rankReduced_nil.
  - exists ir', values. split; [exact Hrun |].
    apply Forall2_length in Hall. exact Hall.
Defined.

(** *** Folding a cast into [tensor.empty] *)

Lemma EmptyOp_mixedSizesFrom_verified (op : EmptyOp.t) (shape : list Z) :
  forall ctr,
    (ctr + getNumDynamicDims shape <= length (EmptyOp.getDynamicSizes op))%nat ->
    exists currMixedSizes,
      mapM id (EmptyOp_mixedSizesFrom op shape ctr) = Some currMixedSizes
      /\ Forall2 (fun d ofr =>
                    if isDynamic d
                    then exists v, ofr = OfrValue v
                                   /\ v ∈ EmptyOp.getDynamicSizes op
                    else ofr = OfrAttribute (IntegerAttr d))
                 shape currMixedSizes.
Proof.
  induction shape as [| dimSize rest IH]; intros ctr Hctr.
  - exists []. split; [reflexivity | constructor].
  - cbn [EmptyOp_mixedSizesFrom].
    destruct (isDynamic dimSize) eqn:Hdyn.
    + assert (Hnum : getNumDynamicDims (dimSize :: rest)
                     = S (getNumDynamicDims rest)).
      { unfold getNumDynamicDims. rewrite filter_cons_True by exact Hdyn.
        reflexivity. }
      rewrite Hnum in Hctr.
      destruct (IH (S ctr) ltac:(lia)) as (curr & Hcurr & Hall).
      assert (Hlt : (ctr < length (EmptyOp.getDynamicSizes op))%nat) by lia.
      destruct (lookup_lt_is_Some_2 _ _ Hlt) as [v Hv].
      exists (OfrValue v :: curr). split.
      * rewrite Hv. cbn [fmap option_fmap option_map mapM id].
        rewrite Hcurr. reflexivity.
      * constructor; [| exact Hall]. rewrite Hdyn. exists v.
        split; [reflexivity |]. apply list_elem_of_lookup. eauto.
    + assert (Hnum : getNumDynamicDims (dimSize :: rest)
                     = getNumDynamicDims rest).
      { unfold getNumDynamicDims. rewrite filter_cons_False by congruence.
        reflexivity. }
      rewrite Hnum in Hctr.
      destruct (IH ctr Hctr) as (curr & Hcurr & Hall).
      exists (OfrAttribute (IntegerAttr dimSize) :: curr). split.
      * cbn [mapM id]. rewrite Hcurr. reflexivity.
      * constructor; [| exact Hall]. rewrite Hdyn. reflexivity.
Qed.

Lemma foldCastSizes_spec (sizes : list Value) (shape : list Z)
      (currMixedSizes : list OpFoldResult) :
  Forall2 (fun d ofr =>
             if isDynamic d
             then exists v, ofr = OfrValue v /\ v ∈ sizes
             else ofr = OfrAttribute (IntegerAttr d))
          shape currMixedSizes ->
  forall resultShape,
    length shape = length resultShape ->
    noStaticToDynamic (combine shape resultShape) = true ->
    (foldCastSizes resultShape currMixedSizes = None <->
     exists i d newDim,
       shape !! i = Some d /\ isDynamic d = false
       /\ resultShape !! i = Some newDim /\ newDim <> d)
    /\ forall newMixedSizes,
         foldCastSizes resultShape currMixedSizes = Some newMixedSizes ->
         (dispatchIndexOpFoldResults newMixedSizes).2 = resultShape
         /\ Forall (fun v => v ∈ sizes)
                   (dispatchIndexOpFoldResults newMixedSizes).1
         /\ getNumDynamicDims resultShape
            = length (dispatchIndexOpFoldResults newMixedSizes).1.
Proof.
  induction 1 as [| d currDim shape' curr' Hhead _ IH];
    intros resultShape Hlen Hpres.
  - destruct resultShape; [| discriminate]. cbn [foldCastSizes]. split.
    + split; [discriminate |].
      intros (i & d & newDim & Hi & _). destruct i; discriminate.
    + intros newMixedSizes [= <-]. cbn. split_and!; constructor.
  - destruct resultShape as [| newDim resultShape']; [discriminate |].
    cbn [length] in Hlen. cbn [combine noStaticToDynamic] in Hpres.
    destruct (isDynamic d) eqn:Hd.
    + (* the producer's dimension is dynamic *)
      destruct Hhead as (v & -> & Hv). cbn [negb andb] in Hpres.
      destruct (IH resultShape' ltac:(lia) Hpres) as [Hnone Hsome].
      cbn [foldCastSizes].
      assert (Hcons : forall ofr,
        (cons ofr <$> foldCastSizes resultShape' curr' = None <->
         exists i d0 newDim0,
           (d :: shape') !! i = Some d0 /\ isDynamic d0 = false
           /\ (newDim :: resultShape') !! i = Some newDim0 /\ newDim0 <> d0)).
      { intros ofr. rewrite fmap_None, Hnone. split.
        - intros (i & d0 & n0 & H1 & H2 & H3 & H4). exists (S i), d0, n0. auto.
        - intros ([| i] & d0 & n0 & H1 & H2 & H3 & H4);
            rewrite !lookup_cons in *; [congruence | eauto 8]. }
      destruct (isDynamic newDim) eqn:Hnew; cbn [negb].
      * split; [apply Hcons |].
        intros newMixedSizes Hrun.
        destruct (foldCastSizes resultShape' curr') as [tail |] eqn:Htail;
          [| discriminate].
        cbn in Hrun. inversion Hrun; subst newMixedSizes.
        destruct (Hsome tail eq_refl) as (Hshape & Hin & Hcount).
        cbn [dispatchIndexOpFoldResults].
        destruct (dispatchIndexOpFoldResults tail) as [dynamicVec staticVec].
        cbn [fst snd] in *. split_and!.
        -- apply isDynamic_true in Hnew. congruence.
        -- constructor; assumption.
        -- unfold getNumDynamicDims in *.
           rewrite filter_cons_True by exact Hnew. cbn [length]. congruence.
      * split; [apply Hcons |].
        intros newMixedSizes Hrun.
        destruct (foldCastSizes resultShape' curr') as [tail |] eqn:Htail;
          [| discriminate].
        cbn in Hrun. inversion Hrun; subst newMixedSizes.
        destruct (Hsome tail eq_refl) as (Hshape & Hin & Hcount).
        cbn [dispatchIndexOpFoldResults].
        destruct (dispatchIndexOpFoldResults tail) as [dynamicVec staticVec].
        cbn [fst snd] in *. split_and!.
        -- congruence.
        -- assumption.
        -- unfold getNumDynamicDims in *.
           rewrite filter_cons_False by congruence. exact Hcount.
    + (* the producer's dimension is static *)
      subst currDim. cbn [negb andb] in Hpres.
      destruct (isDynamic newDim) eqn:Hnew; [discriminate |].
      destruct (IH resultShape' ltac:(lia) Hpres) as [Hnone Hsome].
      cbn [foldCastSizes]. rewrite Hnew. cbn [orb].
      destruct (Z.eqb_spec newDim d) as [-> | Hne]; cbn [negb].
      * split.
        -- rewrite fmap_None, Hnone. split.
           ++ intros (i & d0 & n0 & H1 & H2 & H3 & H4).
              exists (S i), d0, n0. auto.
           ++ intros ([| i] & d0 & n0 & H1 & H2 & H3 & H4);
                rewrite !lookup_cons in *; [congruence | eauto 8].
        -- intros newMixedSizes Hrun.
           destruct (foldCastSizes resultShape' curr') as [tail |] eqn:Htail;
             [| discriminate].
           cbn in Hrun. inversion Hrun; subst newMixedSizes.
           destruct (Hsome tail eq_refl) as (Hshape & Hin & Hcount).
           cbn [dispatchIndexOpFoldResults].
           destruct (dispatchIndexOpFoldResults tail) as [dynamicVec staticVec].
           cbn [fst snd] in *. split_and!.
           ++ congruence.
           ++ assumption.
           ++ unfold getNumDynamicDims in *.
              rewrite filter_cons_False by congruence. exact Hcount.
      * split; [| discriminate].
        split; [| reflexivity].
        intros _. exists 0%nat, d, newDim. auto.
Qed.

(** X22.  For a cast of a verified [tensor.empty] that can fold into its
    producer, [FoldEmptyTensorWithCastOp] declines exactly when a static
    extent of the [tensor.empty] differs from the extent the cast declares,
    never because the cast would be more dynamic; when it rewrites, the
    cast is replaced by a [tensor.empty] that has the shape and element
    type of the cast's result, takes its dynamic sizes from the producer
    and verifies. *)
Theorem FoldEmptyTensorWithCastOp_rewrite
        (ir : IR) (this : nat) (castOp : CastOp.t) (producer : EmptyOp.t) :
  getDefiningOp ir (CastOp.getSource castOp) = Some (OpEmpty producer) ->
  getType (CastOp.getSource castOp) = TensorTy (EmptyOp.getType producer) ->
  EmptyOp_verify producer = success ->
  canFoldIntoProducerOp (Some castOp) = true ->
  ((FoldEmptyTensorWithCastOp_matchAndRewrite ir this castOp).2 = failure <->
   exists i d newDim,
     getShape (EmptyOp.getType producer) !! i = Some d /\ isDynamic d = false
     /\ getShape (CastOp.getType castOp) !! i = Some newDim /\ newDim <> d)
  /\ ((FoldEmptyTensorWithCastOp_matchAndRewrite ir this castOp).2 = success ->
      exists newOp,
        (FoldEmptyTensorWithCastOp_matchAndRewrite ir this castOp).1
        = <[this := OpEmpty newOp]> ir
        /\ getShape (EmptyOp.getType newOp) = getShape (CastOp.getType castOp)
        /\ getElementType (EmptyOp.getType newOp)
           = getElementType (CastOp.getType castOp)
        /\ Forall (fun v => v ∈ EmptyOp.getDynamicSizes producer)
                  (EmptyOp.getDynamicSizes newOp)
        /\ EmptyOp_verify newOp = success).
Proof.
  intros Hdef Htype Hverify Hfold.
  unfold FoldEmptyTensorWithCastOp_matchAndRewrite.
  rewrite Hfold, Hdef. cbn [negb].
  destruct (verified_sizes_all producer Hverify) as [_ Hctr].
  destruct (EmptyOp_mixedSizesFrom_verified
              producer (getShape (EmptyOp.getType producer)) 0 Hctr)
    as (curr & Hcurr & Hall).
  unfold EmptyOp_getMixedSizes. rewrite Hcurr.
  unfold canFoldIntoProducerOp in Hfold. rewrite Htype in Hfold.
  unfold preservesStaticInformation in Hfold.
  destruct (EmptyOp.getType producer) as [shape e enc | e] eqn:Hprod;
    [| discriminate].
  destruct (CastOp.getType castOp) as [resultShape e' enc' | e'] eqn:Hcast;
    [| discriminate].
  cbn [dyn_cast_RankedTensorType getShape getElementType] in *.
  destruct (bool_decide (e = e')); cbn [negb] in Hfold; [| discriminate].
  destruct (Nat.eqb_spec (length shape) (length resultShape)) as [Hlen |];
    cbn [negb] in Hfold; [| discriminate].
  destruct (foldCastSizes_spec (EmptyOp.getDynamicSizes producer) shape curr
                               Hall resultShape Hlen Hfold) as [Hnone Hsome].
  destruct (foldCastSizes resultShape curr) as [newMixedSizes |] eqn:Hrun.
  - cbn [fst snd]. split.
    + split; [discriminate |]. intros Hex. apply Hnone in Hex. discriminate.
    + intros _. destruct (Hsome newMixedSizes eq_refl) as (Hshape & Hin & Hcount).
      exists (EmptyOp_build newMixedSizes e').
      unfold replaceOpWithNewOp, EmptyOp_build, EmptyOp_verify.
      destruct (dispatchIndexOpFoldResults newMixedSizes)
        as [dynamicSizes staticShape].
      cbn [fst snd EmptyOp.getType EmptyOp.getDynamicSizes getShape
           getElementType] in *.
      subst staticShape. split_and!; try reflexivity; [exact Hin |].
      rewrite Hcount, Nat.eqb_refl. reflexivity.
  - cbn [fst snd]. split; [| discriminate].
    split; [intros _; apply Hnone; reflexivity | reflexivity].
Qed.

Lemma FoldEmptyTensorWithCastOp_rewrite_witness :
  exists newOp,
    (FoldEmptyTensorWithCastOp_matchAndRewrite castOfEmpty 1 castOfEmpty_op).1
    = <[1%nat := OpEmpty newOp]> castOfEmpty
    /\ getShape (EmptyOp.getType newOp) = [4; kDynamic].
Proof.
  destruct (proj2 (FoldEmptyTensorWithCastOp_rewrite
                     castOfEmpty 1 castOfEmpty_op
                     (EmptyOp.mk [scalarOf 10; scalarOf 11]
                                 (tensorOf [kDynamic; kDynamic]))
                     eq_refl eq_refl eq_refl eq_refl) eq_refl)
    as (newOp & Hir & Hshape & _).
  exists newOp. split; [exact Hir | exact Hshape].
Defined.

(** *** Slicing the elements of a constant *)

(** Reading a block of a concatenation of blocks of one length. *)
Lemma flat_map_lookup_block {B : Type} (f : nat -> list B) (blockLength : nat) :
  forall (n start block j : nat),
    (forall i, length (f i) = blockLength) ->
    (block < n)%nat -> (j < blockLength)%nat ->
    flat_map f (seq start n) !! (block * blockLength + j)%nat
    = f (start + block)%nat !! j.
Proof.
  induction n as [| n IH]; intros start block j Hlen Hblock Hj; [lia |].
  cbn [seq flat_map]. destruct block as [| block].
  - rewrite lookup_app_l by (rewrite Hlen; lia).
    cbn [Nat.mul Nat.add]. rewrite Nat.add_0_r. reflexivity.
  - rewrite lookup_app_r by (rewrite Hlen; cbn [Nat.mul]; lia).
    rewrite Hlen.
    replace (S block * blockLength + j - blockLength)%nat
      with (block * blockLength + j)%nat by (cbn [Nat.mul]; lia).
    rewrite IH by first [exact Hlen | lia].
    replace (S start + block)%nat with (start + S block)%nat by lia.
    reflexivity.
Qed.

Lemma flat_map_length_blocks {B : Type} (f : nat -> list B) (blockLength : nat) :
  forall (n start : nat),
    (forall i, length (f i) = blockLength) ->
    length (flat_map f (seq start n)) = (n * blockLength)%nat.
Proof.
  induction n as [| n IH]; intros start Hlen; [reflexivity |].
  cbn [seq flat_map]. rewrite length_app, Hlen, IH by exact Hlen.
  cbn [Nat.mul]. lia.
Qed.

Lemma extentProduct_pos (dims : list SliceDim.t) :
  Forall (fun dim => 0 < SliceDim.extent dim) dims -> 0 < extentProduct dims.
Proof.
  induction 1 as [| dim rest Hdim _ IH]; cbn [extentProduct fold_right]; [lia |].
  fold (extentProduct rest). nia.
Qed.

Lemma sliceCounts_cons (dim : SliceDim.t) (rest : list SliceDim.t) :
  0 < SliceDim.extent dim ->
  sliceCounts (extentProduct (dim :: rest))
              (map SliceDim.extent (dim :: rest))
  = extentProduct rest
      :: sliceCounts (extentProduct rest) (map SliceDim.extent rest).
Proof.
  intros Hpos. cbn [map sliceCounts extentProduct fold_right].
  fold (extentProduct rest).
  rewrite (Z.mul_comm (SliceDim.extent dim)), Z.quot_mul by lia. reflexivity.
Qed.

(** The slice, read at any base position. *)
Lemma sliceElements_spec {A : Type} (elems : list A) (dims : list SliceDim.t) :
  dims <> [] ->
  Forall (fun dim => 0 < SliceDim.extent dim) dims ->
  forall values,
    let out :=
      sliceElements elems values
                    (sliceCounts (extentProduct dims) (map SliceDim.extent dims))
                    (map SliceDim.offset dims) (map SliceDim.size dims)
                    (map SliceDim.stride dims) in
    length out = outputCount dims
    /\ (Forall (fun dim => (SliceDim.index dim < Z.to_nat (SliceDim.size dim))%nat)
               dims ->
        out !! outputIndex dims
        = Some (derefAt elems (values + sourceIndex dims))).
Proof.
  induction dims as [| dim rest IH]; intros Hne Hpos values; [congruence |].
  apply Forall_cons in Hpos as [Hdim Hrest].
  rewrite sliceCounts_cons by exact Hdim.
  destruct rest as [| dim2 rest'].
  - (* the innermost dimension *)
    cbn [map sliceElements hd outputCount fold_right outputIndex sourceIndex
         extentProduct].
    split.
    + rewrite length_map, length_seq. lia.
    + intros Hindex. apply Forall_cons in Hindex as [Hindex _].
      rewrite Nat.mul_1_r, Nat.add_0_r.
      change (map ?f ?l) with (f <$> l).
      rewrite list_lookup_fmap, lookup_seq_lt by exact Hindex.
      cbn [fmap option_fmap option_map Nat.add]. do 2 f_equal. lia.
  - (* an outer dimension: one block per index *)
    set (rest := dim2 :: rest') in *.
    assert (Hrest_ne : rest <> []) by discriminate.
    specialize (IH Hrest_ne Hrest).
    change (sliceElements elems values
              (extentProduct rest
                 :: sliceCounts (extentProduct rest) (map SliceDim.extent rest))
              (map SliceDim.offset (dim :: rest))
              (map SliceDim.size (dim :: rest))
              (map SliceDim.stride (dim :: rest)))
      with (flat_map
              (fun i =>
                 sliceElements elems
                   (values
                    + (SliceDim.offset dim + Z.of_nat i * SliceDim.stride dim)
                      * extentProduct rest)
                   (sliceCounts (extentProduct rest) (map SliceDim.extent rest))
                   (map SliceDim.offset rest) (map SliceDim.size rest)
                   (map SliceDim.stride rest))
              (seq 0 (Z.to_nat (SliceDim.size dim)))).
    cbv zeta.
    split.
    + rewrite (flat_map_length_blocks _ (outputCount rest)).
      * reflexivity.
      * intros i. apply IH.
    + intros Hindex. apply Forall_cons in Hindex as [Hindex Hindices].
      cbn [outputIndex sourceIndex].
      assert (Hinner : (outputIndex rest < outputCount rest)%nat).
      { destruct (IH 0) as [Hlen Hat]. specialize (Hat Hindices).
        apply lookup_lt_Some in Hat. cbv zeta in Hlen. lia. }
      rewrite (flat_map_lookup_block _ (outputCount rest)).
      * cbn [Nat.add]. destruct (IH (values
                    + (SliceDim.offset dim
                       + Z.of_nat (SliceDim.index dim) * SliceDim.stride dim)
                      * extentProduct rest)) as [_ Hat].
        rewrite (Hat Hindices). do 2 f_equal. lia.
      * intros i. apply IH.
      * exact Hindex.
      * exact Hinner.
Qed.

Lemma sourceIndex_bounds (dims : list SliceDim.t) :
  Forall (fun dim =>
            0 <= SliceDim.offset dim
                 + Z.of_nat (SliceDim.index dim) * SliceDim.stride dim
            < SliceDim.extent dim) dims ->
  0 <= sourceIndex dims < extentProduct dims.
Proof.
  induction 1 as [| dim rest Hdim _ IH];
    cbn [sourceIndex extentProduct fold_right]; [lia |].
  fold (extentProduct rest). nia.
Qed.

(** X23.  With [counts] as [ConstantOpExtractSliceFolder] computes them
    from a source shape of positive extents, [sliceElements] pushes one
    element per index of the slice, in row-major order of the slice: the
    element at slice index [k] is the element of the source at the
    row-major position of the coordinate [offset + k * stride], and that
    position is within the data when every coordinate is within the source
    shape. *)
Theorem sliceElements_row_major {A : Type} (elems : list A)
        (dims : list SliceDim.t) :
  dims <> [] ->
  Forall (fun dim => 0 < SliceDim.extent dim) dims ->
  Forall (fun dim => (SliceDim.index dim < Z.to_nat (SliceDim.size dim))%nat)
         dims ->
  let out :=
    sliceElements elems 0
                  (sliceCounts (extentProduct dims) (map SliceDim.extent dims))
                  (map SliceDim.offset dims) (map SliceDim.size dims)
                  (map SliceDim.stride dims) in
  length out = outputCount dims
  /\ out !! outputIndex dims = Some (derefAt elems (sourceIndex dims))
  /\ (length elems = Z.to_nat (extentProduct dims) ->
      Forall (fun dim =>
                0 <= SliceDim.offset dim
                     + Z.of_nat (SliceDim.index dim) * SliceDim.stride dim
                < SliceDim.extent dim) dims ->
      is_Some (derefAt elems (sourceIndex dims))).
Proof.
  intros Hne Hpos Hindex.
  destruct (sliceElements_spec elems dims Hne Hpos 0) as [Hlen Hat].
  cbv zeta in *. split_and!.
  - exact Hlen.
  - rewrite (Hat Hindex). rewrite Z.add_0_l. reflexivity.
  - intros Hdata Hbounds. apply sourceIndex_bounds in Hbounds.
    unfold derefAt. destruct (Z.ltb_spec (sourceIndex dims) 0); [lia |].
    apply lookup_lt_is_Some_2. lia.
Qed.

Lemma sliceElements_row_major_witness :
  sliceElements [0; 1; 2; 3; 4; 5; 6; 7; 8; 9; 10; 11] 0
                (sliceCounts 12 [3; 4]) [1; 0] [2; 2] [1; 2]
    !! 3%nat
  = Some (Some 10).
Proof.
  exact (proj1 (proj2 (sliceElements_row_major
                         [0; 1; 2; 3; 4; 5; 6; 7; 8; 9; 10; 11] sliceOf3x4
                         ltac:(discriminate)
                         ltac:(repeat constructor)
                         ltac:(repeat constructor)))).
Defined.

(** *** Inserting a cast of the source of [tensor.insert_slice] *)

Lemma getMixedValues_dispatch (staticValues : list Z) :
  forall dynamicValues,
    getMixedValues
      (dispatchIndexOpFoldResults (getMixedValues staticValues dynamicValues)).2
      (dispatchIndexOpFoldResults (getMixedValues staticValues dynamicValues)).1
    = getMixedValues staticValues dynamicValues.
Proof.
  induction staticValues as [| s rest IH]; intros dynamicValues.
  - reflexivity.
  - cbn [getMixedValues]. destruct (isDynamic s) eqn:Hs.
    + destruct dynamicValues as [| v vs]; [reflexivity |].
      cbn [dispatchIndexOpFoldResults]. specialize (IH vs).
      destruct (dispatchIndexOpFoldResults (getMixedValues rest vs))
        as [dynamicVec staticVec].
      cbn [fst snd getMixedValues] in *. rewrite isDynamic_kDynamic, IH.
      reflexivity.
    + cbn [dispatchIndexOpFoldResults]. specialize (IH dynamicValues).
      destruct (dispatchIndexOpFoldResults (getMixedValues rest dynamicValues))
        as [dynamicVec staticVec].
      cbn [fst snd getMixedValues] in *. rewrite Hs, IH. reflexivity.
Qed.

Lemma InsertSliceOp_build_mixed (source dest : Value) (op : InsertSliceOp.t) :
  let newOp :=
    InsertSliceOp_build source dest (getMixedOffsets op) (getMixedSizes op)
                        (getMixedStrides op) in
  InsertSliceOp.getSource newOp = source
  /\ InsertSliceOp.getDest newOp = dest
  /\ InsertSliceOp.getType newOp = cast_TensorType (getType dest)
  /\ getMixedOffsets newOp = getMixedOffsets op
  /\ getMixedSizes newOp = getMixedSizes op
  /\ getMixedStrides newOp = getMixedStrides op.
Proof.
  cbv zeta. unfold InsertSliceOp_build.
  unfold getMixedOffsets, getMixedSizes, getMixedStrides.
  cbn [getStaticOffsets getStaticSizes getStaticStrides getOffsets getSizes
       getStrides InsertSliceOp_OffsetSizeAndStride].
  pose proof (getMixedValues_dispatch (InsertSliceOp.getStaticOffsets op)
                                      (InsertSliceOp.getOffsets op)) as Ho.
  pose proof (getMixedValues_dispatch (InsertSliceOp.getStaticSizes op)
                                      (InsertSliceOp.getSizes op)) as Hz.
  pose proof (getMixedValues_dispatch (InsertSliceOp.getStaticStrides op)
                                      (InsertSliceOp.getStrides op)) as Hs.
  destruct (dispatchIndexOpFoldResults
              (getMixedValues (InsertSliceOp.getStaticOffsets op)
                              (InsertSliceOp.getOffsets op))) as [d1 s1].
  destruct (dispatchIndexOpFoldResults
              (getMixedValues (InsertSliceOp.getStaticSizes op)
                              (InsertSliceOp.getSizes op))) as [d2 s2].
  destruct (dispatchIndexOpFoldResults
              (getMixedValues (InsertSliceOp.getStaticStrides op)
                              (InsertSliceOp.getStrides op))) as [d3 s3].
  cbn [fst snd InsertSliceOp.getSource InsertSliceOp.getDest InsertSliceOp.getType
       InsertSliceOp.getStaticOffsets InsertSliceOp.getStaticSizes
       InsertSliceOp.getStaticStrides InsertSliceOp.getOffsets
       InsertSliceOp.getSizes InsertSliceOp.getStrides] in *.
  split_and!; try reflexivity; assumption.
Qed.

Lemma newSourceShape_lookup (ir : IR) (op : InsertSliceOp.t) (srcShape : list Z)
      (i : nat) (d : Z) :
  srcShape !! i = Some d ->
  newSourceShape ir op srcShape !! i
  = Some (match getConstantIntValue ir (mixedAt (getMixedSizes op) i) with
          | Some constInt => constInt
          | None => d
          end).
Proof.
  intros Hd. unfold newSourceShape. rewrite list_lookup_imap, Hd. reflexivity.
Qed.

Lemma verifyCompatibleShape_lookup (s1 s2 : list Z) (e1 e2 : ElementType)
      (enc1 enc2 : option Z) :
  verifyCompatibleShape (RankedTensorType s1 e1 enc1) (RankedTensorType s2 e2 enc2)
  = success ->
  forall i a b, s1 !! i = Some a -> s2 !! i = Some b ->
                isDynamic a = false -> isDynamic b = false -> a = b.
Proof.
  cbn [verifyCompatibleShape].
  destruct ((length s1 =? length s2)%nat); cbn [andb]; [| discriminate].
  destruct (forallb _ _) eqn:Hall; [intros _ | discriminate].
  rewrite forallb_forall in Hall.
  intros i a b Ha Hb Hda Hdb.
  assert (Hin : In (a, b) (combine s1 s2)).
  { apply list_elem_of_In. apply list_elem_of_lookup. exists i.
    apply lookup_zip_with_Some. exists a, b. auto. }
  specialize (Hall _ Hin). cbn in Hall. rewrite Hda, Hdb in Hall.
  cbn [orb] in Hall. apply Z.eqb_eq. exact Hall.
Qed.

Lemma InsertSliceOpSourceCastInserter_success
      (ir ir' : IR) (this : nat) (op : InsertSliceOp.t) :
  InsertSliceOpSourceCastInserter_matchAndRewrite ir this op = (ir', success) ->
  let srcType := cast_TensorType (getType (InsertSliceOp.getSource op)) in
  let newSrcType :=
    RankedTensorType (newSourceShape ir op (getShape srcType))
                     (getElementType srcType) None in
  srcType <> newSrcType
  /\ preservesStaticInformation (TensorTy srcType) (TensorTy newSrcType) = true
  /\ CastOp_areCastCompatible [TensorTy srcType] [TensorTy newSrcType] = true
  /\ ir' = <[this := OpInsertSlice
                       (InsertSliceOp_build
                          (getResult (fresh (dom ir)) (TensorTy newSrcType))
                          (InsertSliceOp.getDest op) (getMixedOffsets op)
                          (getMixedSizes op) (getMixedStrides op))]>
             (<[fresh (dom ir) := OpCast (CastOp.mk (InsertSliceOp.getSource op)
                                                    newSrcType)]> ir).
Proof.
  unfold InsertSliceOpSourceCastInserter_matchAndRewrite. cbv zeta.
  destruct (negb (_ =? _)); [discriminate |].
  destruct (decide (cast_TensorType (getType (InsertSliceOp.getSource op))
                    = RankedTensorType
                        (newSourceShape ir op
                           (getShape (cast_TensorType
                                        (getType (InsertSliceOp.getSource op)))))
                        (getElementType
                           (cast_TensorType
                              (getType (InsertSliceOp.getSource op)))) None))
    as [Heq | Hne].
  { rewrite (bool_decide_eq_true_2 _ Heq). cbn [orb]. discriminate. }
  rewrite (bool_decide_eq_false_2 _ Hne). cbn [orb].
  destruct (preservesStaticInformation _ _) eqn:Hpres; cbn [negb orb];
    [| discriminate].
  destruct (CastOp_areCastCompatible _ _) eqn:Hcompat; cbn [negb];
    [| discriminate].
  unfold create, replaceOpWithNewOp. intros [= <-].
  split_and!; [exact Hne | reflexivity | reflexivity | reflexivity].
Qed.

(** X24.  When [InsertSliceOpSourceCastInserter] rewrites an insert-slice
    of the IR, it creates one cast of the old source, to the source shape
    with every constant size written in, and re-points the insert-slice to
    it, keeping destination, offsets, sizes, strides and result type and
    every other operation.  The cast adds static information, so it can
    fold into its producer; and when the source type has no encoding it
    cannot fold into its consumer, so the cast-folding pattern of
    insert-slice does not undo the rewrite. *)
Theorem InsertSliceOpSourceCastInserter_rewrite
        (ir ir' : IR) (this : nat) (op : InsertSliceOp.t) :
  ir !! this = Some (OpInsertSlice op) ->
  InsertSliceOpSourceCastInserter_matchAndRewrite ir this op = (ir', success) ->
  exists (cast : nat) (castOp : CastOp.t) (newOp : InsertSliceOp.t),
    ir !! cast = None
    /\ ir' !! cast = Some (OpCast castOp)
    /\ ir' !! this = Some (OpInsertSlice newOp)
    /\ (forall h, h <> this -> h <> cast -> ir' !! h = ir !! h)
    /\ CastOp.getSource castOp = InsertSliceOp.getSource op
    /\ InsertSliceOp.getSource newOp
       = getResult cast (TensorTy (CastOp.getType castOp))
    /\ InsertSliceOp.getDest newOp = InsertSliceOp.getDest op
    /\ InsertSliceOp.getType newOp
       = cast_TensorType (getType (InsertSliceOp.getDest op))
    /\ getMixedOffsets newOp = getMixedOffsets op
    /\ getMixedSizes newOp = getMixedSizes op
    /\ getMixedStrides newOp = getMixedStrides op
    /\ (forall i d constInt,
          Type_getShape (getType (InsertSliceOp.getSource op)) !! i = Some d ->
          getConstantIntValue ir (mixedAt (getMixedSizes op) i) = Some constInt ->
          getShape (CastOp.getType castOp) !! i = Some constInt)
    /\ canFoldIntoProducerOp (Some castOp) = true
    /\ (getEncoding (cast_TensorType (getType (InsertSliceOp.getSource op)))
        = None ->
        canFoldIntoConsumerOp (Some castOp) = false).
Proof.
  intros Hthis Hrun.
  destruct (InsertSliceOpSourceCastInserter_success _ _ _ _ Hrun)
    as (Hne & Hpres & Hcompat & ->).
  set (srcType := cast_TensorType (getType (InsertSliceOp.getSource op))) in *.
  set (newSrcShape := newSourceShape ir op (getShape srcType)) in *.
  set (newSrcType := RankedTensorType newSrcShape (getElementType srcType) None)
    in *.
  set (cast := fresh (dom ir)).
  assert (Hfresh : ir !! cast = None).
  { apply not_elem_of_dom. apply is_fresh. }
  assert (Hdiff : this <> cast) by congruence.
  destruct (InsertSliceOp_build_mixed
              (getResult cast (TensorTy newSrcType)) (InsertSliceOp.getDest op) op)
    as (Hsrc & Hdest & Hty & Hoff & Hsz & Hstr).
  (* the source is a ranked tensor, the cast's operand type *)
  assert (Hsource : getType (InsertSliceOp.getSource op) = TensorTy srcType).
  { subst srcType.
    destruct (getType (InsertSliceOp.getSource op)) as [t | e]; [reflexivity |].
    cbn in Hpres. discriminate. }
  exists cast, (CastOp.mk (InsertSliceOp.getSource op) newSrcType),
         (InsertSliceOp_build (getResult cast (TensorTy newSrcType))
                              (InsertSliceOp.getDest op) (getMixedOffsets op)
                              (getMixedSizes op) (getMixedStrides op)).
  cbn [CastOp.getSource CastOp.getType].
  split_and!; try assumption; try reflexivity.
  - rewrite lookup_insert_ne by exact Hdiff. apply lookup_insert_eq.
  - apply lookup_insert_eq.
  - intros h Hh Hh'. rewrite !lookup_insert_ne by congruence. reflexivity.
  - intros i d constInt Hd Hc. rewrite Hsource in Hd. cbn [Type_getShape] in Hd.
    subst newSrcType newSrcShape. cbn [getShape].
    rewrite (newSourceShape_lookup _ _ _ _ _ Hd), Hc. reflexivity.
  - unfold canFoldIntoProducerOp. cbn [CastOp.getSource CastOp.getType].
    rewrite Hsource. exact Hpres.
  - intros Henc. unfold canFoldIntoConsumerOp.
    cbn [CastOp.getSource CastOp.getType]. rewrite Hsource.
    destruct srcType as [srcShape e enc | e] eqn:Hsrcty;
      [| cbn in Hpres; discriminate].
    cbn [getEncoding] in Henc. subst enc.
    cbn [getShape getElementType] in *.
    destruct (preservesStaticInformation
                (TensorTy newSrcType)
                (TensorTy (RankedTensorType srcShape e None))) eqn:Hback;
      [exfalso | reflexivity].
    assert (Hlen : length newSrcShape = length srcShape).
    { subst newSrcShape. unfold newSourceShape. apply length_imap. }
    subst newSrcType.
    rewrite preservesStaticInformation_ranked in Hpres by congruence.
    rewrite preservesStaticInformation_ranked in Hback by exact Hlen.
    rewrite noStaticToDynamic_spec in Hpres, Hback.
    unfold CastOp_areCastCompatible in Hcompat.
    cbn [dyn_cast_TensorType getElementType] in Hcompat.
    rewrite bool_decide_eq_true_2 in Hcompat by reflexivity.
    cbn [negb] in Hcompat.
    destruct (verifyCompatibleShape _ _) eqn:Hshape in Hcompat;
      [| discriminate].
    pose proof (verifyCompatibleShape_lookup _ _ _ _ _ _ Hshape) as Hsame.
    apply Hne. f_equal.
    apply (list_eq_same_length _ _ (length srcShape)); [exact Hlen | reflexivity |].
    intros i x y _ Hx Hy.
    destruct (isDynamic x) eqn:Dx, (isDynamic y) eqn:Dy.
    + apply isDynamic_true in Dx, Dy. congruence.
    + specialize (Hback i y x Hy Hx Dy). congruence.
    + specialize (Hpres i x y Hx Hy Dx). congruence.
    + exact (Hsame i x y Hx Hy Dx Dy).
Qed.

Lemma InsertSliceOpSourceCastInserter_rewrite_witness :
  exists (cast : nat) (castOp : CastOp.t),
    (InsertSliceOpSourceCastInserter_matchAndRewrite
       insertOfDynamicSource 2 insertOfDynamicSource_op).1 !! cast
    = Some (OpCast castOp)
    /\ canFoldIntoProducerOp (Some castOp) = true
    /\ canFoldIntoConsumerOp (Some castOp) = false.
Proof.
  destruct (InsertSliceOpSourceCastInserter_rewrite
              insertOfDynamicSource
              (InsertSliceOpSourceCastInserter_matchAndRewrite
                 insertOfDynamicSource 2 insertOfDynamicSource_op).1
              2 insertOfDynamicSource_op eq_refl eq_refl)
    as (cast & castOp & newOp & _ & Hcast & _ & _ & _ & _ & _ & _ & _ & _ & _
        & _ & Hproducer & Hconsumer).
  exists cast, castOp. split_and!; [exact Hcast | exact Hproducer |].
  apply Hconsumer. reflexivity.
Defined.

(** A source type with an encoding: the new source type drops the
    encoding, so the pattern inserts a cast although no size adds static
    information, and that cast can fold into its consumer. *)
Example InsertSliceOpSourceCastInserter_encoded_source :
  let source := getResult 0%nat (TensorTy (RankedTensorType [64; 64] F32 (Some 7))) in
  let op := InsertSliceOp.mk source (valueOf 1 [128; 128]) [] [] []
                             [0; 0] [64; 64] [1; 1] (tensorOf [128; 128]) in
  (InsertSliceOpSourceCastInserter_matchAndRewrite
     (<[2%nat := OpInsertSlice op]> ∅) 2 op).2 = success
  /\ canFoldIntoConsumerOp (Some (CastOp.mk source (tensorOf [64; 64]))) = true.
Proof. split; reflexivity. Qed.

(** X25.  [InsertSliceOpSourceCastInserter] does not fire twice: after a
    successful rewrite of an insert-slice of the IR, the pattern fails on
    the insert-slice it has left in its place and changes nothing. *)
Theorem InsertSliceOpSourceCastInserter_idempotent
        (ir ir' : IR) (this : nat) (op : InsertSliceOp.t) :
  ir !! this = Some (OpInsertSlice op) ->
  InsertSliceOpSourceCastInserter_matchAndRewrite ir this op = (ir', success) ->
  exists newOp,
    ir' !! this = Some (OpInsertSlice newOp)
    /\ InsertSliceOpSourceCastInserter_matchAndRewrite ir' this newOp
       = (ir', failure).
Proof.
  intros Hthis Hrun.
  destruct (InsertSliceOpSourceCastInserter_success _ _ _ _ Hrun)
    as (_ & _ & _ & ->).
  set (srcType := cast_TensorType (getType (InsertSliceOp.getSource op))).
  set (newSrcShape := newSourceShape ir op (getShape srcType)).
  set (newSrcType := RankedTensorType newSrcShape (getElementType srcType) None).
  set (cast := fresh (dom ir)).
  set (castOp := CastOp.mk (InsertSliceOp.getSource op) newSrcType).
  destruct (InsertSliceOp_build_mixed
              (getResult cast (TensorTy newSrcType)) (InsertSliceOp.getDest op) op)
    as (Hsrc & Hdest & Hty & Hoff & Hsz & Hstr).
  set (newOp := InsertSliceOp_build (getResult cast (TensorTy newSrcType))
                                    (InsertSliceOp.getDest op)
                                    (getMixedOffsets op) (getMixedSizes op)
                                    (getMixedStrides op)) in *.
  set (ir2 := <[this := OpInsertSlice newOp]> (<[cast := OpCast castOp]> ir)).
  exists newOp. split; [apply lookup_insert_eq |].
  assert (Hconst : forall ofr,
            getConstantIntValue ir2 ofr = getConstantIntValue ir ofr).
  { intros [attr | v]; [reflexivity |].
    unfold getConstantIntValue, m_Constant, getDefiningOp.
    destruct (getImpl v) as [owner | ? ?]; [| reflexivity].
    subst ir2. destruct (decide (owner = this)) as [-> | Hn1].
    - rewrite lookup_insert_eq, Hthis. reflexivity.
    - rewrite lookup_insert_ne by congruence.
      destruct (decide (owner = cast)) as [-> | Hn2].
      + rewrite lookup_insert_eq.
        assert (Hfresh : ir !! cast = None).
        { apply not_elem_of_dom. apply is_fresh. }
        rewrite Hfresh. reflexivity.
      + rewrite lookup_insert_ne by congruence. reflexivity. }
  assert (Hshape : newSourceShape ir2 newOp newSrcShape = newSrcShape).
  { apply (list_eq_same_length _ _ (length newSrcShape));
      [reflexivity | unfold newSourceShape; apply length_imap |].
    intros i x y Hi Hx Hy.
    rewrite (newSourceShape_lookup _ _ _ _ _ Hy) in Hx.
    rewrite Hsz, Hconst in Hx.
    subst newSrcShape. unfold newSourceShape in Hy.
    rewrite list_lookup_imap in Hy.
    destruct (getShape srcType !! i) as [d |]; [| discriminate].
    cbn [fmap option_fmap option_map] in Hy.
    destruct (getConstantIntValue ir (mixedAt (getMixedSizes op) i));
      congruence. }
  assert (Hsame : newSrcType
                  = RankedTensorType
                      (newSourceShape ir2 newOp (getShape newSrcType))
                      (getElementType newSrcType) None).
  { unfold newSrcType at 2 3. cbn [getShape getElementType].
    rewrite Hshape. reflexivity. }
  unfold InsertSliceOpSourceCastInserter_matchAndRewrite.
  rewrite Hsrc. cbn [getResult getType cast_TensorType].
  destruct (negb (_ =? _)); [reflexivity |].
  rewrite (bool_decide_eq_true_2 _ Hsame). reflexivity.
Qed.

Lemma InsertSliceOpSourceCastInserter_idempotent_witness :
  exists newOp,
    (InsertSliceOpSourceCastInserter_matchAndRewrite
       insertOfDynamicSource 2 insertOfDynamicSource_op).1 !! 2%nat
    = Some (OpInsertSlice newOp)
    /\ (InsertSliceOpSourceCastInserter_matchAndRewrite
          (InsertSliceOpSourceCastInserter_matchAndRewrite
             insertOfDynamicSource 2 insertOfDynamicSource_op).1
          2 newOp).2 = failure.
Proof.
  destruct (InsertSliceOpSourceCastInserter_idempotent
              insertOfDynamicSource
              (InsertSliceOpSourceCastInserter_matchAndRewrite
                 insertOfDynamicSource 2 insertOfDynamicSource_op).1
              2 insertOfDynamicSource_op eq_refl eq_refl)
    as (newOp & Hnew & Hagain).
  exists newOp. split; [exact Hnew |]. rewrite Hagain. reflexivity.
Defined.

(** *** Collapsing the source of a cast *)

Lemma verifyCompatibleShape_intro (s1 s2 : list Z) (e1 e2 : ElementType)
      (enc1 enc2 : option Z) :
  length s1 = length s2 ->
  (forall i a b, s1 !! i = Some a -> s2 !! i = Some b ->
                 isDynamic a = false -> isDynamic b = false -> a = b) ->
  verifyCompatibleShape (RankedTensorType s1 e1 enc1) (RankedTensorType s2 e2 enc2)
  = success.
Proof.
  intros Hlen Hsame. cbn [verifyCompatibleShape].
  rewrite Hlen, Nat.eqb_refl. cbn [andb].
  rewrite (proj2 (forallb_forall _ _)); [reflexivity |].
  intros [a b] Hin. apply list_elem_of_In, list_elem_of_lookup in Hin as [i Hi].
  apply lookup_zip_with_Some in Hi as (x & y & Heq & Hx & Hy).
  inversion Heq; subst x y.
  destruct (isDynamic a) eqn:Da; [reflexivity |].
  destruct (isDynamic b) eqn:Db; [reflexivity |].
  cbn [orb]. apply Z.eqb_eq. eauto.
Qed.

Lemma collapsedShape_keeps_static (resultShape sourceShape : list Z) :
  length resultShape = length sourceShape ->
  (forall i a b, resultShape !! i = Some a -> sourceShape !! i = Some b ->
                 isDynamic a = false -> b = a) ->
  forall (reassociation : list nat) (currentDim : nat),
    (currentDim + list_sum reassociation <= length sourceShape)%nat ->
    Forall2 (fun a b => isDynamic a = false -> b = a)
            (collapsedShape resultShape reassociation currentDim)
            (collapsedShape sourceShape reassociation currentDim).
Proof.
  intros Hlen Hsame reassociation.
  induction reassociation as [| dim rest IH]; intros currentDim Hsum.
  - constructor.
  - change (list_sum (dim :: rest)) with (dim + list_sum rest)%nat in Hsum.
    cbn [collapsedShape]. constructor; [| apply IH; lia].
    destruct (decide (kDynamic ∈ take dim (drop currentDim resultShape)))
      as [Hin | Hnotin].
    + rewrite (bool_decide_eq_true_2 _ Hin). discriminate.
    + rewrite (bool_decide_eq_false_2 _ Hnotin). intros _.
      assert (Hband : take dim (drop currentDim sourceShape)
                      = take dim (drop currentDim resultShape)).
      { apply (list_eq_same_length _ _ dim).
        - rewrite length_take, length_drop. lia.
        - rewrite length_take, length_drop. lia.
        - intros i b a Hi Hb Ha.
          rewrite lookup_take_lt in Ha, Hb by exact Hi.
          rewrite lookup_drop in Ha, Hb.
          apply (Hsame _ a b Ha Hb). apply isDynamic_false.
          intros ->. apply Hnotin. apply list_elem_of_lookup.
          exists i. rewrite lookup_take_lt by exact Hi.
          rewrite lookup_drop. exact Ha. }
      rewrite Hband, (bool_decide_eq_false_2 _ Hnotin).
      rewrite !band_product by lia. rewrite Hband. reflexivity.
Qed.

(** X26.  [computeTensorReshapeCollapsedType] keeps static information in
    step with a cast: for a valid cast that can fold into its consumer,
    and a reassociation that covers the dimensions, the collapsed type of
    the cast's source is cast-compatible with the collapsed type of the
    cast's result and preserves its static information, which is what
    [FoldCollapseOfCastOp] relies on when it collapses the source of the
    cast and casts back. *)
Theorem computeTensorReshapeCollapsedType_of_cast_source
        (castOp : CastOp.t) (sourceType : TensorType) (reassociation : list nat) :
  getType (CastOp.getSource castOp) = TensorTy sourceType ->
  canFoldIntoConsumerOp (Some castOp) = true ->
  CastOp_areCastCompatible [TensorTy sourceType] [TensorTy (CastOp.getType castOp)]
  = true ->
  list_sum reassociation = length (getShape sourceType) ->
  let newResultType :=
    computeTensorReshapeCollapsedType sourceType reassociation in
  let resultType :=
    computeTensorReshapeCollapsedType (CastOp.getType castOp) reassociation in
  preservesStaticInformation (TensorTy resultType) (TensorTy newResultType) = true
  /\ CastOp_areCastCompatible [TensorTy newResultType] [TensorTy resultType]
     = true.
Proof.
  intros Hsource Hfold Hcompat Hsum. cbv zeta.
  unfold canFoldIntoConsumerOp in Hfold. rewrite Hsource in Hfold.
  unfold preservesStaticInformation in Hfold.
  destruct (CastOp.getType castOp) as [resultShape e enc | e];
    [| discriminate].
  destruct sourceType as [sourceShape e' enc' | e']; [| discriminate].
  cbn [dyn_cast_RankedTensorType getShape] in *.
  destruct (decide (e = e')) as [<- | Hne];
    [rewrite bool_decide_eq_true_2 in Hfold by reflexivity
    | rewrite (bool_decide_eq_false_2 _ Hne) in Hfold; discriminate].
  cbn [negb] in Hfold.
  destruct (Nat.eqb_spec (length resultShape) (length sourceShape))
    as [Hlen |]; cbn [negb] in Hfold; [| discriminate].
  rewrite noStaticToDynamic_spec in Hfold.
  unfold CastOp_areCastCompatible in Hcompat.
  cbn [dyn_cast_TensorType getElementType] in Hcompat.
  rewrite bool_decide_eq_true_2 in Hcompat by reflexivity.
  cbn [negb] in Hcompat.
  destruct (verifyCompatibleShape _ _) eqn:Hshape in Hcompat; [| discriminate].
  pose proof (verifyCompatibleShape_lookup _ _ _ _ _ _ Hshape) as Hsame.
  assert (Hkeep : forall i a b,
            resultShape !! i = Some a -> sourceShape !! i = Some b ->
            isDynamic a = false -> b = a).
  { intros i a b Ha Hb Da. apply (Hsame i b a Hb Ha); [| exact Da].
    exact (Hfold i a b Ha Hb Da). }
  pose proof (collapsedShape_keeps_static resultShape sourceShape Hlen Hkeep
                                          reassociation 0 ltac:(lia)) as Hall.
  pose proof (Forall2_length _ _ _ Hall) as Hlens.
  unfold computeTensorReshapeCollapsedType. cbn [getShape getElementType].
  split.
  - rewrite preservesStaticInformation_ranked by exact Hlens.
    apply noStaticToDynamic_spec. intros i a b Ha Hb Da.
    rewrite (Forall2_lookup_lr _ _ _ _ _ _ Hall Ha Hb Da). exact Da.
  - unfold CastOp_areCastCompatible.
    cbn [dyn_cast_TensorType getElementType].
    rewrite bool_decide_eq_true_2 by reflexivity. cbn [negb].
    rewrite verifyCompatibleShape_intro; [reflexivity | congruence |].
    intros i b a Hb Ha _ Da.
    exact (Forall2_lookup_lr _ _ _ _ _ _ Hall Ha Hb Da).
Qed.

Lemma computeTensorReshapeCollapsedType_of_cast_source_witness :
  preservesStaticInformation
    (TensorTy (computeTensorReshapeCollapsedType
                 (tensorOf [kDynamic; kDynamic; 4]) [2; 1]%nat))
    (TensorTy (computeTensorReshapeCollapsedType
                 (tensorOf [2; 3; 4]) [2; 1]%nat))
  = true.
Proof.
  exact (proj1 (computeTensorReshapeCollapsedType_of_cast_source
                  (CastOp.mk (valueOf 0 [2; 3; 4])
                             (tensorOf [kDynamic; kDynamic; 4]))
                  (tensorOf [2; 3; 4]) [2; 1]%nat
                  eq_refl eq_refl eq_refl eq_refl)).
Defined.

(** *** The flattened index of [ExtractOp::fold] in general *)

Lemma foldStride_cons (dimSize next : Z) (rest : list Z) :
  foldStride (dimSize :: next :: rest) = dimSize * foldStride (next :: rest).
Proof. reflexivity. Qed.

Lemma foldStride_pos (extents : list Z) :
  Forall (fun d => 0 < d) extents -> 0 < foldStride extents.
Proof.
  unfold foldStride. induction 1 as [| d rest Hd Hrest IH]; [cbn; lia |].
  destruct rest as [| next rest']; [cbn; lia |].
  change (removelast (d :: next :: rest')) with (d :: removelast (next :: rest')).
  cbn [extentsProduct fold_right]. fold (extentsProduct (removelast (next :: rest'))).
  nia.
Qed.

Lemma foldStride_nonneg_pos (shape : list Z) :
  Forall (fun d => 0 < d) shape ->
  forall n, 0 < foldStride (drop n shape).
Proof.
  intros Hpos n. apply foldStride_pos.
  apply Forall_forall. intros d Hd.
  rewrite Forall_forall in Hpos. apply Hpos.
  apply list_elem_of_lookup in Hd as [i Hi]. rewrite lookup_drop in Hi.
  apply list_elem_of_lookup. eauto.
Qed.

(** The strides grow towards the front when the extents are positive. *)
Lemma foldStride_drop_le (shape : list Z) :
  Forall (fun d => 0 < d) shape ->
  forall n, foldStride (drop n shape) <= foldStride shape.
Proof.
  intros Hpos. induction n as [| n IH]; [rewrite drop_0; lia |].
  destruct (shape !! n) as [d |] eqn:Hd.
  - rewrite (drop_S _ _ _ Hd) in IH.
    destruct (drop (S n) shape) as [| next rest] eqn:Hrest.
    + pose proof (foldStride_pos shape Hpos). cbn. unfold foldStride in *. cbn. lia.
    + rewrite foldStride_cons in IH.
      assert (0 < d).
      { rewrite Forall_forall in Hpos. apply Hpos.
        apply list_elem_of_lookup. eauto. }
      assert (0 < foldStride (next :: rest)).
      { rewrite <- Hrest. apply foldStride_nonneg_pos. exact Hpos. }
      nia.
  - rewrite drop_ge by (apply lookup_ge_None in Hd; lia).
    pose proof (foldStride_pos shape Hpos). cbn. lia.
Qed.

Lemma flatPosition_drop_le (shape indices : list Z) :
  Forall (fun d => 0 < d) shape ->
  Forall (fun i => 0 <= i) indices ->
  forall n, 0 <= flatPosition foldStride (drop n shape) (drop n indices)
            <= flatPosition foldStride shape indices.
Proof.
  intros Hpos Hidx.
  assert (Hnn : forall extents : list Z, Forall (fun d => 0 < d) extents ->
                  forall idx, Forall (fun i => 0 <= i) idx ->
                  0 <= flatPosition foldStride extents idx).
  { induction extents as [| d rest IH]; intros Hs idx Hi; [cbn; lia |].
    destruct Hi as [| i idx' Hi Hrest]; [cbn; lia |].
    cbn [flatPosition]. apply Forall_cons in Hs as [Hd Hs'].
    specialize (IH Hs' idx' Hrest).
    pose proof (foldStride_pos (d :: rest) ltac:(constructor; assumption)).
    nia. }
  revert indices Hidx.
  induction Hpos as [| d rest Hd Hrest IH]; intros indices Hidx n.
  - rewrite drop_nil. cbn. lia.
  - destruct n as [| n]; [rewrite !drop_0; split; [| lia] |].
    + apply Hnn; [constructor; assumption | exact Hidx].
    + destruct Hidx as [| i idx' Hi Hidx']; [cbn; rewrite ?drop_nil |].
      * destruct (drop n rest); cbn; lia.
      * cbn [drop flatPosition]. specialize (IH idx' Hidx' n).
        pose proof (foldStride_pos (d :: rest) ltac:(constructor; assumption)).
        nia.
Qed.

Lemma flatten_step_casts (flatIndex index stride : Z) :
  0 <= flatIndex -> 0 <= index -> 0 <= stride < 2147483648 ->
  flatIndex + index * stride < 2147483648 ->
  static_cast_int
    (static_cast_uint64
       (static_cast_uint64 flatIndex
        + static_cast_uint64 (index * static_cast_uint64 stride)))
  = flatIndex + index * stride.
Proof.
  intros Hflat Hindex Hstride Hsum.
  assert (0 <= index * stride) by nia.
  unfold static_cast_int, static_cast_uint64.
  rewrite (Z.mod_small stride) by lia.
  rewrite (Z.mod_small flatIndex) by lia.
  rewrite (Z.mod_small (index * stride)) by lia.
  rewrite (Z.mod_small (flatIndex + index * stride)) by lia.
  rewrite Z.mod_small by lia. lia.
Qed.

Lemma stride_step_casts (z : Z) :
  0 <= z < 2147483648 -> static_cast_int (static_cast_int64 z) = z.
Proof.
  intros Hz. unfold static_cast_int, static_cast_int64.
  rewrite (Z.mod_small (z + 9223372036854775808)) by lia.
  replace (z + 9223372036854775808 - 9223372036854775808) with z by lia.
  rewrite Z.mod_small by lia. lia.
Qed.

(** The loop, from any point on. *)
Lemma flattenIndices_spec (shape indices : list Z) :
  length indices = length shape ->
  Forall (fun d => 0 < d) shape ->
  Forall (fun i => 0 <= i) indices ->
  foldStride shape < 2147483648 ->
  flatPosition foldStride shape indices < 2147483648 ->
  forall n, (n <= length shape)%nat ->
    flattenIndices shape indices (Z.of_nat (length shape)) n
                   (flatPosition foldStride (drop n shape) (drop n indices))
                   (foldStride (drop n shape))
    = flatPosition foldStride shape indices.
Proof.
  intros Hlen Hpos Hidx Hstride Htotal.
  induction n as [| n IH]; intros Hn.
  - rewrite !drop_0. reflexivity.
  - cbn [flattenIndices]. rewrite <- (IH ltac:(lia)). clear IH.
    assert (Hlt : (n < length shape)%nat) by lia.
    destruct (lookup_lt_is_Some_2 shape n Hlt) as [d Hd].
    destruct (lookup_lt_is_Some_2 indices n ltac:(lia)) as [i Hi].
    rewrite (drop_S shape d n Hd), (drop_S indices i n Hi).
    cbn [flatPosition].
    unfold getDimSize. rewrite (nth_lookup_Some _ _ 0 _ Hd).
    rewrite (nth_lookup_Some _ _ 0 _ Hi).
    pose proof (foldStride_drop_le shape Hpos n) as Hle.
    pose proof (foldStride_nonneg_pos shape Hpos n) as Hposn.
    pose proof (flatPosition_drop_le shape indices Hpos Hidx n) as Hfn.
    pose proof (flatPosition_drop_le shape indices Hpos Hidx (S n)) as Hfsn.
    rewrite (drop_S shape d n Hd) in Hle, Hposn.
    rewrite (drop_S shape d n Hd), (drop_S indices i n Hi) in Hfn.
    cbn [flatPosition] in Hfn.
    assert (Hi0 : 0 <= i).
    { rewrite Forall_forall in Hidx. apply Hidx.
      apply list_elem_of_lookup. eauto. }
    assert (Hstep : (if Z.of_nat n <? Z.of_nat (length shape) - 1
                     then static_cast_int
                            (static_cast_int64
                               (foldStride (drop (S n) shape) * d))
                     else foldStride (drop (S n) shape))
                    = foldStride (d :: drop (S n) shape)).
    { destruct (drop (S n) shape) as [| next rest] eqn:Hrest.
      - assert (length (drop (S n) shape) = 0%nat) by (rewrite Hrest; reflexivity).
        rewrite length_drop in H.
        destruct (Z.ltb_spec (Z.of_nat n) (Z.of_nat (length shape) - 1)); [lia |].
        reflexivity.
      - assert (length (drop (S n) shape) = S (length rest))
          by (rewrite Hrest; reflexivity).
        rewrite length_drop in H.
        destruct (Z.ltb_spec (Z.of_nat n) (Z.of_nat (length shape) - 1)); [| lia].
        rewrite foldStride_cons in *.
        rewrite stride_step_casts by lia. lia. }
    rewrite Hstep.
    rewrite flatten_step_casts by lia.
    f_equal. lia.
Qed.

(** X27.  For a shape of positive extents and non-negative indices that do
    not overflow [int], the flattening loop of [ExtractOp::fold] computes
    the position in which the stride of a dimension is the product of the
    extents from that dimension on without the last one; this is the
    row-major position when the shape has at most one dimension or all
    its extents are equal. *)
Theorem flattenIndices_fold_stride (shape indices : list Z) :
  length indices = length shape ->
  Forall (fun d => 0 < d) shape ->
  Forall (fun i => 0 <= i) indices ->
  foldStride shape < 2147483648 ->
  flatPosition foldStride shape indices < 2147483648 ->
  flattenIndices shape indices (Z.of_nat (length shape)) (length shape) 0 1
  = flatPosition foldStride shape indices
  /\ (forall d, Forall (fun dimSize => dimSize = d) shape ->
        flattenIndices shape indices (Z.of_nat (length shape)) (length shape) 0 1
        = flatPosition rowMajorStride shape indices).
Proof.
  intros Hlen Hpos Hidx Hstride Htotal.
  pose proof (flattenIndices_spec shape indices Hlen Hpos Hidx Hstride Htotal
                                  (length shape) ltac:(lia)) as Hrun.
  rewrite !drop_ge in Hrun by lia. cbn [flatPosition] in Hrun.
  change (foldStride []) with 1 in Hrun.
  split; [exact Hrun |].
  intros d Hall. rewrite Hrun. clear -Hall. revert indices.
  induction Hall as [| dimSize rest -> Hrest IH]; intros indices; [reflexivity |].
  destruct indices as [| i indices']; [reflexivity |].
  cbn [flatPosition]. rewrite IH. f_equal. f_equal.
  unfold foldStride, rowMajorStride. cbn [tl].
  clear -Hrest. induction Hrest as [| next rest' -> Hrest' IH]; [reflexivity |].
  change (removelast (d :: d :: rest')) with (d :: removelast (d :: rest')).
  cbn [extentsProduct fold_right] in *.
  fold (extentsProduct (removelast (d :: rest'))).
  fold (extentsProduct rest'). rewrite IH. reflexivity.
Qed.

Lemma flattenIndices_fold_stride_witness :
  flattenIndices [2; 3; 4] [1; 2; 3] 3 3 0 1 = 1 * (2 * 3) + 2 * 3 + 3
  /\ flatPosition rowMajorStride [2; 3; 4] [1; 2; 3] = 1 * (3 * 4) + 2 * 4 + 3.
Proof.
  split; [| reflexivity].
  exact (proj1 (flattenIndices_fold_stride
                  [2; 3; 4] [1; 2; 3] eq_refl
                  ltac:(repeat constructor) ltac:(repeat constructor; lia)
                  ltac:(cbn; lia) ltac:(cbn; lia))).
Defined.

(** *** Promoting constant extents of [tensor.generate] *)

Lemma staticGenerateDims_spec (m_ConstantInt : IR -> Value -> option Z)
      (ir : IR) (shape : list Z) :
  forall operandsIt newShape newOperands,
    length operandsIt = getNumDynamicDims shape ->
    staticGenerateDims m_ConstantInt ir shape operandsIt
    = (newShape, newOperands) ->
    length newShape = length shape
    /\ (forall i d, shape !! i = Some d -> isDynamic d = false ->
                    newShape !! i = Some d)
    /\ newOperands = filter (fun v => m_ConstantInt ir v = None) operandsIt
    /\ (Forall (fun v => m_ConstantInt ir v <> Some kDynamic) operandsIt ->
        getNumDynamicDims newShape = length newOperands).
Proof.
  induction shape as [| dim rest IH];
    intros operandsIt newShape newOperands Hnum Hrun.
  - cbn [staticGenerateDims] in Hrun. inversion Hrun; subst.
    unfold getNumDynamicDims in Hnum. rewrite filter_nil in Hnum.
    destruct operandsIt; [| discriminate].
    split_and!; try reflexivity.
    intros i d Hi. destruct i; discriminate.
  - cbn [staticGenerateDims] in Hrun.
    destruct (isDynamic dim) eqn:Hdyn; cbn [negb] in Hrun.
    + assert (Hcount : getNumDynamicDims (dim :: rest)
                       = S (getNumDynamicDims rest)).
      { unfold getNumDynamicDims. rewrite filter_cons_True by exact Hdyn.
        reflexivity. }
      rewrite Hcount in Hnum.
      destruct operandsIt as [| operand operandsIt']; [discriminate |].
      cbn [length] in Hnum.
      destruct (staticGenerateDims m_ConstantInt ir rest operandsIt')
        as [newShape1 newOperands1] eqn:Hrest.
      destruct (IH operandsIt' newShape1 newOperands1 ltac:(lia) Hrest)
        as (Hlen & Hstatic & Hops & Hverify).
      destruct (m_ConstantInt ir operand) as [index |] eqn:Hcst;
        inversion Hrun; subst newShape newOperands; clear Hrun.
      * split_and!.
        -- cbn [length]. lia.
        -- intros [| i] d Hi Hd; rewrite !lookup_cons in *; [congruence | eauto].
        -- rewrite filter_cons_False by congruence. exact Hops.
        -- intros Hall. apply Forall_cons in Hall as [Hhead Htail].
           unfold getNumDynamicDims. rewrite filter_cons_False.
           ++ apply Hverify. exact Htail.
           ++ rewrite isDynamic_true. congruence.
      * split_and!.
        -- cbn [length]. lia.
        -- intros [| i] d Hi Hd; rewrite !lookup_cons in *; [congruence | eauto].
        -- rewrite filter_cons_True by exact Hcst. f_equal. exact Hops.
        -- intros Hall. apply Forall_cons in Hall as [_ Htail].
           unfold getNumDynamicDims.
           rewrite filter_cons_True by exact isDynamic_kDynamic.
           cbn [length]. f_equal. apply Hverify. exact Htail.
    + assert (Hcount : getNumDynamicDims (dim :: rest)
                       = getNumDynamicDims rest).
      { unfold getNumDynamicDims. rewrite filter_cons_False by congruence.
        reflexivity. }
      rewrite Hcount in Hnum.
      destruct (staticGenerateDims m_ConstantInt ir rest operandsIt)
        as [newShape1 newOperands1] eqn:Hrest.
      destruct (IH operandsIt newShape1 newOperands1 Hnum Hrest)
        as (Hlen & Hstatic & Hops & Hverify).
      inversion Hrun; subst newShape newOperands; clear Hrun.
      split_and!.
      * cbn [length]. lia.
      * intros [| i] d Hi Hd; rewrite !lookup_cons in *; [congruence | eauto].
      * exact Hops.
      * intros Hall. unfold getNumDynamicDims.
        rewrite filter_cons_False by congruence. apply Hverify. exact Hall.
Qed.

(** X28.  When [StaticTensorGenerate] rewrites a [tensor.generate] of the
    IR that passes [verify] and [verifyRegions], the operation becomes a
    cast, back to the old type, of a new [tensor.generate] that keeps the
    body and exactly the extents that are not constants; the new
    operation passes [verifyRegions], the cast can fold into its
    consumers, every other operation is untouched, and the new operation
    passes [verify] provided no promoted constant is the dynamic-size
    sentinel itself. *)
Theorem StaticTensorGenerate_rewrite
        (m_ConstantInt : IR -> Value -> option Z)
        (ir ir' : IR) (this : nat) (op : GenerateOp.t) :
  ir !! this = Some (OpGenerate op) ->
  GenerateOp_verify op = success ->
  GenerateOp_verifyRegions op = success ->
  StaticTensorGenerate_matchAndRewrite m_ConstantInt ir this op = (ir', success) ->
  exists (newHandle : nat) (newOp : GenerateOp.t),
    let castOp :=
      CastOp.mk (getResult newHandle (TensorTy (GenerateOp.getType newOp)))
                (GenerateOp.getType op) in
    ir !! newHandle = None
    /\ ir' !! newHandle = Some (OpGenerate newOp)
    /\ ir' !! this = Some (OpCast castOp)
    /\ (forall h, h <> this -> h <> newHandle -> ir' !! h = ir !! h)
    /\ GenerateOp.getOperands newOp
       = filter (fun v => m_ConstantInt ir v = None) (GenerateOp.getOperands op)
    /\ GenerateOp.getBody newOp = GenerateOp.getBody op
    /\ GenerateOp_verifyRegions newOp = success
    /\ canFoldIntoConsumerOp (Some castOp) = true
    /\ (Forall (fun v => m_ConstantInt ir v <> Some kDynamic)
               (GenerateOp.getOperands op) ->
        GenerateOp_verify newOp = success).
Proof.
  intros Hthis Hverify Hregions.
  unfold StaticTensorGenerate_matchAndRewrite.
  destruct (hasStaticShape (GenerateOp.getType op)); [discriminate |].
  destruct (staticGenerateDims m_ConstantInt ir
              (getShape (GenerateOp.getType op)) (GenerateOp.getOperands op))
    as [newShape newOperands] eqn:Hrun.
  unfold GenerateOp_verify in Hverify.
  destruct (Nat.eqb_spec (length (GenerateOp.getOperands op))
                         (getNumDynamicDims (getShape (GenerateOp.getType op))))
    as [Hnum |]; [clear Hverify | discriminate].
  destruct (staticGenerateDims_spec m_ConstantInt ir _ _ _ _ Hnum Hrun)
    as (Hlen & Hstatic & Hops & Hnew).
  destruct (Nat.eqb_spec (length newOperands)
                         (length (GenerateOp.getOperands op))) as [| Hfewer];
    [discriminate |].
  unfold create, replaceOpWithNewOp. intros [= <-].
  set (newHandle := fresh (dom ir)).
  assert (Hfresh : ir !! newHandle = None).
  { apply not_elem_of_dom. apply is_fresh. }
  assert (Hne : this <> newHandle) by congruence.
  (* the old type is ranked: an unranked one has no extent to promote *)
  destruct (GenerateOp.getType op) as [shape e enc | e] eqn:Hty.
  2: { cbn [getShape] in *. unfold getNumDynamicDims in Hnum.
       rewrite filter_nil in Hnum. cbn [length] in Hnum.
       cbn [staticGenerateDims] in Hrun. inversion Hrun; subst.
       exfalso. destruct (GenerateOp.getOperands op); [| discriminate].
       rewrite filter_nil in Hfewer. exact (Hfewer eq_refl). }
  cbn [getShape getElementType] in *.
  exists newHandle,
         (GenerateOp.mk newOperands (GenerateOp.getBody op)
                        (RankedTensorType newShape e None)).
  cbv zeta. cbn [GenerateOp.getType GenerateOp.getOperands GenerateOp.getBody].
  split_and!.
  - exact Hfresh.
  - rewrite lookup_insert_ne by exact Hne. apply lookup_insert_eq.
  - apply lookup_insert_eq.
  - intros h Hh Hh'. rewrite !lookup_insert_ne by congruence. reflexivity.
  - exact Hops.
  - reflexivity.
  - unfold GenerateOp_verifyRegions in *.
    cbn [GenerateOp.getType GenerateOp.getBody getElementType] in *.
    rewrite Hty in Hregions. cbn [getElementType] in Hregions.
    unfold getRank in *. cbn [getShape] in *. rewrite Hlen. exact Hregions.
  - unfold canFoldIntoConsumerOp. cbn [CastOp.getType CastOp.getSource
                                        getResult getType].
    rewrite preservesStaticInformation_ranked by congruence.
    apply noStaticToDynamic_spec. intros i a b Ha Hb Hda.
    rewrite (Hstatic i a Ha Hda) in Hb. congruence.
  - intros Hno. unfold GenerateOp_verify.
    cbn [GenerateOp.getType GenerateOp.getOperands getShape].
    rewrite (Hnew Hno), Nat.eqb_refl. reflexivity.
Qed.

Lemma StaticTensorGenerate_rewrite_witness :
  exists (newHandle : nat) (newOp : GenerateOp.t),
    (StaticTensorGenerate_matchAndRewrite
       (fun ir v => getConstantIntValue ir (OfrValue v))
       generateWithConstantExtent 1 generateWithConstantExtent_op).1 !! newHandle
    = Some (OpGenerate newOp)
    /\ GenerateOp_verifyRegions newOp = success.
Proof.
  destruct (StaticTensorGenerate_rewrite
              (fun ir v => getConstantIntValue ir (OfrValue v))
              generateWithConstantExtent
              (StaticTensorGenerate_matchAndRewrite
                 (fun ir v => getConstantIntValue ir (OfrValue v))
                 generateWithConstantExtent 1 generateWithConstantExtent_op).1
              1 generateWithConstantExtent_op eq_refl eq_refl eq_refl eq_refl)
    as (newHandle & newOp & _ & Hnew & _ & _ & _ & _ & Hregions & _).
  exists newHandle, newOp. split; [exact Hnew | exact Hregions].
Defined.

(** *** Folding constants of element-level operations *)

(** X29.  The constant folders of the element-level operations compose:
    [SplatOp::fold] turns an integer or float constant into its splat,
    [InsertOp::fold] folds the insertion of that constant into the splat to
    the splat itself, and [ExtractOp::fold] reads the constant back from
    the splat at any indices; and whenever [InsertOp::fold] folds, the
    destination is a splat of the inserted scalar and is the result. *)
Theorem splat_insert_extract_folds
        (getValueAt : Attribute -> list Z -> option Attribute)
        (ir : IR) (op : ExtractOp.t) (indices : list (option Attribute)) :
  (forall scalar splat,
     SplatOp_fold [Some scalar] = Some (OfrAttribute splat) ->
     splat = SplatElementsAttr scalar
     /\ InsertOp_fold (Some scalar :: Some splat :: indices)
        = Some (OfrAttribute splat)
     /\ ExtractOp_fold getValueAt ir op (Some splat :: indices)
        = Some (OfrAttribute scalar))
  /\ (forall scalar dest result,
        InsertOp_fold (scalar :: dest :: indices) = Some result ->
        exists scalarAttr,
          scalar = Some scalarAttr
          /\ dest = Some (SplatElementsAttr scalarAttr)
          /\ result = OfrAttribute (SplatElementsAttr scalarAttr)).
Proof.
  split.
  - intros scalar splat. unfold SplatOp_fold. cbn [hd].
    destruct scalar as [i | f | s | shape values]; try discriminate;
      intros [= <-]; (split_and!; [reflexivity | | reflexivity]);
      unfold InsertOp_fold; cbn [nth];
      rewrite bool_decide_eq_true_2 by reflexivity; reflexivity.
  - intros scalar dest result. unfold InsertOp_fold. cbn [nth].
    destruct scalar as [scalarAttr |]; [| discriminate].
    destruct dest as [[| | splatValue |] |]; try discriminate.
    destruct (decide (scalarAttr = splatValue)) as [-> | Hne].
    + rewrite bool_decide_eq_true_2 by reflexivity. intros [= <-]. eauto.
    + rewrite (bool_decide_eq_false_2 _ Hne). discriminate.
Qed.

(** *** Extracting through a cast *)

(** X30.  For a verified [tensor.extract] whose tensor is the result of a
    valid cast, [ExtractFromTensorCast] rewrites exactly when the source of
    the cast is ranked; the new [tensor.extract] reads the source of the
    cast with the same indices, still passes [ExtractOp::verify], and
    yields the same element type. *)
Theorem ExtractFromTensorCast_keeps_verified
        (ir : IR) (this : nat) (extract : ExtractOp.t) (tensorCast : CastOp.t) :
  getDefiningOp_CastOp ir (ExtractOp.getTensor extract) = Some tensorCast ->
  getType (ExtractOp.getTensor extract) = TensorTy (CastOp.getType tensorCast) ->
  hasRank (CastOp.getType tensorCast) = true ->
  CastOp_areCastCompatible [getType (CastOp.getSource tensorCast)]
                           [TensorTy (CastOp.getType tensorCast)] = true ->
  ExtractOp_verify extract = success ->
  ((ExtractFromTensorCast_matchAndRewrite ir this extract).2 = success <->
   is_Some (dyn_cast_RankedTensorType (getType (CastOp.getSource tensorCast))))
  /\ ((ExtractFromTensorCast_matchAndRewrite ir this extract).2 = success ->
      exists newOp,
        (ExtractFromTensorCast_matchAndRewrite ir this extract).1
        = <[this := OpExtract newOp]> ir
        /\ ExtractOp.getTensor newOp = CastOp.getSource tensorCast
        /\ ExtractOp.getIndices newOp = ExtractOp.getIndices extract
        /\ ExtractOp.getType newOp
           = ScalarTy (getElementType (CastOp.getType tensorCast))
        /\ ExtractOp_verify newOp = success).
Proof.
  intros Hdef Htype Hrank Hcompat Hverify.
  unfold ExtractFromTensorCast_matchAndRewrite. rewrite Hdef.
  destruct (getType (CastOp.getSource tensorCast)) as [[shape e enc | e] | e]
    eqn:Hsource; cbn [dyn_cast_RankedTensorType fst snd].
  - split; [split; eauto |]. intros _.
    eexists. unfold replaceOpWithNewOp.
    cbn [ExtractOp.getTensor ExtractOp.getIndices ExtractOp.getType].
    split_and!; try reflexivity.
    + unfold CastOp_areCastCompatible in Hcompat.
      cbn [dyn_cast_TensorType getElementType] in Hcompat.
      destruct (decide (e = getElementType (CastOp.getType tensorCast)))
        as [-> | Hne]; [reflexivity |].
      rewrite (bool_decide_eq_false_2 _ Hne) in Hcompat. discriminate.
    + unfold ExtractOp_verify in *. cbn [ExtractOp.getTensor ExtractOp.getIndices].
      rewrite Hsource. rewrite Htype in Hverify.
      cbn [cast_TensorType] in *.
      unfold CastOp_areCastCompatible in Hcompat.
      cbn [dyn_cast_TensorType] in Hcompat.
      destruct (bool_decide _) in Hcompat; cbn [negb] in Hcompat;
        [| discriminate].
      destruct (CastOp.getType tensorCast) as [shape' e' enc' | e'];
        [| discriminate].
      cbn [verifyCompatibleShape] in Hcompat.
      destruct (Nat.eqb_spec (length shape) (length shape')) as [Hlen |];
        cbn [andb] in Hcompat; [| discriminate].
      unfold getRank in *. cbn [getShape] in *. rewrite Hlen. exact Hverify.
  - split; [| discriminate].
    split; [discriminate | intros [? ?]; discriminate].
  - split; [| discriminate].
    split; [discriminate | intros [? ?]; discriminate].
Qed.

Lemma ExtractFromTensorCast_keeps_verified_witness :
  exists newOp,
    (ExtractFromTensorCast_matchAndRewrite extractOfCast 2 extractOfCast_op).1
    = <[2%nat := OpExtract newOp]> extractOfCast
    /\ ExtractOp_verify newOp = success.
Proof.
  destruct (proj2 (ExtractFromTensorCast_keeps_verified
                     extractOfCast 2 extractOfCast_op
                     (CastOp.mk (valueOf 0 [kDynamic; 4]) (tensorOf [2; 4]))
                     eq_refl eq_refl eq_refl eq_refl eq_refl) eq_refl)
    as (newOp & Hir & _ & _ & _ & Hverify).
  exists newOp. split; [exact Hir | exact Hverify].
Defined.
